(** * Browser-automation driver: protocol dispatcher, navigation and
      interaction primitives

    A shallow embedding of the four variants of the driver
    ([kk.py], [newww.py], [ooo.py], [om.py]).  Each variant is a module of
    its own; the definitions keep the names of the Python functions they
    are translated from.

    Conventions.
    - Time is wall-clock time in milliseconds, an integer ([Z]).
    - The background reader thread only ever appends to the two queues and
      sets the load flag, so its effect is computed up front from the
      timed list of inbound frames: every queue entry carries the time at
      which the reader put it there.
    - A call that never returns (a [get()] without timeout on a queue that
      receives nothing more) has the outcome [Diverges]. *)

From Stdlib Require Import ZArith List String Ascii Bool Lia Sorted.
Import ListNotations.

Set Warnings "-register-all".

Local Open Scope string_scope.
Local Open Scope list_scope.
Local Open Scope Z_scope.

Infix "+++" := String.append (right associativity, at level 60).

(* ------------------------------------------------------------------ *)
(** ** Python values decoded from JSON frames                           *)
(* ------------------------------------------------------------------ *)

(** Numbers decoded from inbound frames are taken to be integers (the
    protocol's ids, node ids and key codes are); [JFrac n d] is the float
    [n / d] that Python's true division produces. *)
Inductive json : Type :=
| JNull
| JBool (b : bool)
| JNum (n : Z)
| JFrac (num den : Z)
| JStr (s : string)
| JArr (l : list json)
| JObj (kv : list (string * json)).

Definition dict := list (string * json).

(** [k in d] *)
Fixpoint dict_has (k : string) (d : dict) : bool :=
  match d with
  | [] => false
  | (k', _) :: d' => if String.eqb k k' then true else dict_has k d'
  end.

(** [d.get(k)] *)
Fixpoint dict_get (k : string) (d : dict) : option json :=
  match d with
  | [] => None
  | (k', v) :: d' => if String.eqb k k' then Some v else dict_get k d'
  end.

(** [d.get(k, default)] *)
Definition dict_get_default (k : string) (default : json) (d : dict) : json :=
  match dict_get k d with Some v => v | None => default end.

(** [v == n] for a Python int [n]; [True == 1] and [False == 0] hold. *)
Definition py_eq_int (v : json) (n : Z) : bool :=
  match v with
  | JNum m => m =? n
  | JBool b => (if b then 1 else 0) =? n
  | JFrac a b => a =? n * b
  | _ => false
  end.

(** [v == s] for a Python str [s]. *)
Definition py_eq_str (v : json) (s : string) : bool :=
  match v with
  | JStr t => String.eqb t s
  | _ => false
  end.

(** Python truthiness, as used by [if not result]. *)
Definition truthy (v : json) : bool :=
  match v with
  | JNull => false
  | JBool b => b
  | JNum n => negb (n =? 0)
  | JFrac a _ => negb (a =? 0)
  | JStr s => negb (String.eqb s EmptyString)
  | JArr l => match l with [] => false | _ => true end
  | JObj kv => match kv with [] => false | _ => true end
  end.

(** [needle in haystack] on Python strings. *)
Fixpoint str_contains (needle haystack : string) : bool :=
  if String.prefix needle haystack then true
  else match haystack with
       | EmptyString => false
       | String _ rest => str_contains needle rest
       end.


(** [k in v] for a decoded JSON value [v]. *)
Definition json_has (k : string) (v : json) : option bool :=
  match v with
  | JObj d => Some (dict_has k d)
  | JArr l => Some (existsb (fun x => py_eq_str x k) l)
  | JStr s => Some (str_contains k s)
  | _ => None                                   (* TypeError *)
  end.

(** The double-quote character, and a double-quoted piece of text. *)
Definition dq : string := String (ascii_of_nat 34) EmptyString.

(* ------------------------------------------------------------------ *)
(** ** Exceptions, log records, outcomes                                *)
(* ------------------------------------------------------------------ *)

(** An f-string is kept as its parts: literal text, an interpolated
    value, or an interpolated exception ([str(e)]).  [Exception parts] is
    Python's [Exception(f"...")]. *)
Inductive exn : Type :=
| Exception (msg : list fpart)
| KeyError (key : json)
| TypeError
| AttributeError
| IndexError
with fpart : Type :=
| FText (s : string)
| FVal (v : json)
| FExn (e : exn).

Definition fstring := list fpart.

Inductive level : Type := INFO | WARNING | ERROR.

(** A log record.  The loggers run at level INFO, so [logger.debug] calls
    emit nothing and are left out of the model. *)
Record logrec : Type := mkLog { log_level : level; log_msg : fstring }.

Inductive outcome (A : Type) : Type :=
| Return (a : A)
| Raise (e : exn)
| Diverges.
Arguments Return {A} a.
Arguments Raise {A} e.
Arguments Diverges {A}.

(* ------------------------------------------------------------------ *)
(** ** The controller's state                                           *)
(* ------------------------------------------------------------------ *)

(** An outbound frame [{"id": .., "method": .., "params": ..}]. *)
Record command : Type := mkCommand
  { cmd_id : Z; cmd_method : string; cmd_params : json }.

Record World : Type := mkWorld
  { now : Z;                              (* time.time(), in ms *)
    command_id : Z;                       (* self.command_id *)
    current_url : option string;          (* self.current_url; None at start *)
    outbox : list command;                (* frames given to ws.send, oldest first *)
    response_queue : list (Z * dict);     (* self.response_queue: (put time, data) *)
    event_queue : list (Z * dict);        (* self.event_queue: (put time, data) *)
    load_fired : list Z;                  (* times of page_loaded.set() not yet cleared *)
    logs : list logrec }.

Definition set_now (t : Z) (w : World) : World :=
  mkWorld t (command_id w) (current_url w) (outbox w) (response_queue w)
          (event_queue w) (load_fired w) (logs w).
Definition set_command_id (n : Z) (w : World) : World :=
  mkWorld (now w) n (current_url w) (outbox w) (response_queue w)
          (event_queue w) (load_fired w) (logs w).
Definition set_current_url (u : option string) (w : World) : World :=
  mkWorld (now w) (command_id w) u (outbox w) (response_queue w)
          (event_queue w) (load_fired w) (logs w).
Definition set_outbox (o : list command) (w : World) : World :=
  mkWorld (now w) (command_id w) (current_url w) o (response_queue w)
          (event_queue w) (load_fired w) (logs w).
Definition set_response_queue (q : list (Z * dict)) (w : World) : World :=
  mkWorld (now w) (command_id w) (current_url w) (outbox w) q
          (event_queue w) (load_fired w) (logs w).
Definition set_event_queue (q : list (Z * dict)) (w : World) : World :=
  mkWorld (now w) (command_id w) (current_url w) (outbox w) (response_queue w)
          q (load_fired w) (logs w).
Definition set_load_fired (l : list Z) (w : World) : World :=
  mkWorld (now w) (command_id w) (current_url w) (outbox w) (response_queue w)
          (event_queue w) l (logs w).
Definition set_logs (l : list logrec) (w : World) : World :=
  mkWorld (now w) (command_id w) (current_url w) (outbox w) (response_queue w)
          (event_queue w) (load_fired w) l.

(* ------------------------------------------------------------------ *)
(** ** A state-and-exception monad for the controller's methods         *)
(* ------------------------------------------------------------------ *)

(** A computation over a state [S]: it ends with an outcome and a new
    state.  [M] is the monad of the controller's methods. *)
Definition ST (S A : Type) : Type := S -> outcome A * S.
Definition M (A : Type) : Type := ST World A.

Definition ret {S A} (a : A) : ST S A := fun w => (Return a, w).
Definition raise {S A} (e : exn) : ST S A := fun w => (Raise e, w).
Definition bind {S A B} (m : ST S A) (k : A -> ST S B) : ST S B :=
  fun w => match m w with
           | (Return a, w') => k a w'
           | (Raise e, w') => (Raise e, w')
           | (Diverges, w') => (Diverges, w')
           end.

(** [try: body except Exception as e: handler e]. *)
Definition try_except {S A} (body : ST S A) (handler : exn -> ST S A) : ST S A :=
  fun w => match body w with
           | (Raise e, w') => handler e w'
           | r => r
           end.

Declare Scope ctl_scope.
Delimit Scope ctl_scope with ctl.
Notation "x <- c1 ;; c2" := (bind c1 (fun x => c2))
  (at level 100, c1 at next level, right associativity) : ctl_scope.
Notation "c1 ;; c2" := (bind c1 (fun _ => c2))
  (at level 100, right associativity) : ctl_scope.
Local Open Scope ctl_scope.

Definition get_world {S} : ST S S := fun w => (Return w, w).
Definition modify {S} (f : S -> S) : ST S unit := fun w => (Return tt, f w).

(** [logger.<level>(f"...")] *)
Definition log (l : level) (msg : fstring) : M unit :=
  modify (fun w => set_logs (logs w ++ [mkLog l msg]) w).

(** [time.sleep(ms)] *)
Definition sleep (ms : Z) : M unit :=
  modify (fun w => set_now (now w + ms) w).

(** [self.ws.send(json.dumps(command))]; the socket is taken to be open
    when a frame is written. *)
Definition ws_send (c : command) : M unit :=
  modify (fun w => set_outbox (outbox w ++ [c]) w).

(** [k in v], raising [TypeError] where Python does. *)
Definition py_in {S} (k : string) (v : json) : ST S bool :=
  match json_has k v with
  | Some b => ret b
  | None => raise TypeError
  end.

(** [v[k]] for a string key [k]. *)
Definition py_getitem {S} (v : json) (k : string) : ST S json :=
  match v with
  | JObj d => match dict_get k d with
              | Some x => ret x
              | None => raise (KeyError (JStr k))
              end
  | _ => raise TypeError
  end.

(** [len(v)] *)
Definition py_len {S} (v : json) : ST S Z :=
  match v with
  | JArr l => ret (Z.of_nat (List.length l))
  | JObj d => ret (Z.of_nat (List.length d))
  | JStr s => ret (Z.of_nat (String.length s))
  | _ => raise TypeError
  end.

(** [v[i]] for a list index [i]. *)
Definition py_index {S} (v : json) (i : nat) : ST S json :=
  match v with
  | JArr l => match nth_error l i with
              | Some x => ret x
              | None => raise IndexError
              end
  | JStr s => match String.get i s with
              | Some c => ret (JStr (String c EmptyString))
              | None => raise IndexError
              end
  | JObj _ => raise (KeyError (JNum (Z.of_nat i)))
  | _ => raise TypeError
  end.

(** [(a + b) / 2] on decoded values: a float when both are numbers, a
    [TypeError] otherwise (a sum of two strings or two lists is no
    number either). *)
Definition py_midpoint {S} (a b : json) : ST S json :=
  let num v := match v with
               | JNum n => Some (n, 1)
               | JBool c => Some (if c then 1 else 0, 1)
               | JFrac n d => Some (n, d)
               | _ => None
               end in
  match num a, num b with
  | Some (x, dx), Some (y, dy) => ret (JFrac (x * dy + y * dx) (2 * dx * dy))
  | _, _ => raise TypeError
  end.

(** [v.get(k, default)]; only a dict has [get]. *)
Definition py_get {S} (v : json) (k : string) (default : json) : ST S json :=
  match v with
  | JObj d => ret (dict_get_default k default d)
  | _ => raise AttributeError
  end.

(** The items a [for] loop over [v] visits, if [v] can be iterated. *)
Definition py_items (v : json) : option (list json) :=
  match v with
  | JArr l => Some l
  | JObj d => Some (map (fun kv => JStr (fst kv)) d)
  | JStr s => Some (map (fun c => JStr (String c EmptyString)) (list_ascii_of_string s))
  | _ => None
  end.

Definition py_iter {S} (v : json) : ST S (list json) :=
  match py_items v with
  | Some l => ret l
  | None => raise TypeError
  end.

(** A call that never returns. *)
Definition diverge {S A} : ST S A := fun w => (Diverges, w).

(** [s.lower()] on ASCII text. *)
Definition lower_char (c : ascii) : ascii :=
  let n := nat_of_ascii c in
  if ((65 <=? n) && (n <=? 90))%nat then ascii_of_nat (n + 32) else c.
Fixpoint lower (s : string) : string :=
  match s with
  | EmptyString => EmptyString
  | String c rest => String (lower_char c) (lower rest)
  end.

(** ["youtube.com" in self.current_url]; [current_url] is [None] until
    the first [navigate], and [in None] is a [TypeError]. *)
Definition on_youtube : M bool :=
  w <- get_world ;;
  match current_url w with
  | Some url => ret (str_contains "youtube.com" url)
  | None => raise TypeError
  end.

(** Python's [while cond: body], unfolded at most [fuel] times.  The test
    comes first, so a loop whose test fails ends whatever fuel is left; a
    loop still running when the fuel is gone is reported as [Diverges]. *)
Inductive loop_ctl (A : Type) : Type :=
| Continue
| Break (a : A).
Arguments Continue {A}.
Arguments Break {A} a.

Fixpoint while_loop {S A} (fuel : nat) (cond : S -> bool)
         (body : ST S (loop_ctl A)) (after : ST S A) : ST S A :=
  fun w =>
    if cond w then
      match fuel with
      | O => (Diverges, w)
      | S fuel' =>
          match body w with
          | (Return Continue, w') => while_loop fuel' cond body after w'
          | (Return (Break a), w') => (Return a, w')
          | (Raise e, w') => (Raise e, w')
          | (Diverges, w') => (Diverges, w')
          end
      end
    else after w.

(** [queue.get(timeout=t)] on a queue of timed entries: the head if it is
    there before the timeout runs out, else [queue.Empty] ([None]) once
    it has. *)
Definition queue_get_timeout (timeout : Z) (queue : list (Z * dict)) (t_now : Z)
  : option dict * list (Z * dict) * Z :=
  match queue with
  | (t, data) :: rest =>
      if t <=? t_now + timeout
      then (Some data, rest, Z.max t_now t)
      else (None, queue, t_now + timeout)
  | [] => (None, queue, t_now + timeout)
  end.

(* ------------------------------------------------------------------ *)
(** ** The reader thread                                                *)
(* ------------------------------------------------------------------ *)

(** What [ws.recv()] yields.  The protocol's frames are JSON objects; a
    text that [json.loads] rejects is [FrameGarbage]. *)
Inductive frame : Type :=
| FrameClosed                 (* recv raises: the socket is closed *)
| FrameEmpty                  (* recv returns the empty string *)
| FrameGarbage                (* json.loads raises *)
| FrameData (data : dict).

(** The reader's output: what it put on each queue and when, when it set
    the load flag, when (if ever) it left its loop, and what it logged. *)
Record handled : Type := mkHandled
  { h_responses : list (Z * dict);
    h_events : list (Z * dict);
    h_loads : list Z;
    h_stopped : option Z;
    h_logs : list logrec }.

Definition handler_stop (t : Z) (l : logrec) : handled :=
  mkHandled [] [] [] (Some t) [l].

(** The exception that a failing library call ([recv], [json.loads])
    raises; its text is the library's, not the program's. *)
Definition library_error : exn := Exception [].

(* ================================================================== *)
(** * kk.py                                                             *)
(* ================================================================== *)

Module KK.

(** [BrowserController._message_handler]. *)
Fixpoint _message_handler (inbound : list (Z * frame)) : handled :=
  match inbound with
  | [] => mkHandled [] [] [] None []
  | (t, FrameData data) :: rest =>
      let h := _message_handler rest in
      let loads :=
        if dict_has "method" data
           && py_eq_str (dict_get_default "method" JNull data) "Page.loadEventFired"
        then t :: h_loads h else h_loads h in
      if dict_has "id" data then
        mkHandled ((t, data) :: h_responses h) (h_events h) loads (h_stopped h) (h_logs h)
      else if dict_has "method" data then
        mkHandled (h_responses h) ((t, data) :: h_events h) loads (h_stopped h) (h_logs h)
      else
        mkHandled (h_responses h) (h_events h) loads (h_stopped h) (h_logs h)
  | (t, _) :: _ =>
      handler_stop t (mkLog ERROR [FText "WebSocket error: "; FExn library_error])
  end.

(** The controller at the point of [connect] where the reader thread
    starts: the state of [__init__], the reader running on the given
    inbound frames, at time [t0].  The first commands are those that
    [connect] goes on to send. *)
Definition session (t0 : Z) (inbound : list (Z * frame)) : World :=
  let h := _message_handler inbound in
  mkWorld t0 1 None [] (h_responses h) (h_events h) (h_loads h) [].

(** [self.response_queue.get(timeout=1)]. *)
Definition response_queue_get (timeout : Z) : M (option dict) :=
  fun w =>
    match queue_get_timeout timeout (response_queue w) (now w) with
    | (got, rest, t) => (Return got, set_response_queue rest (set_now t w))
    end.

(** [timeout = 10  # seconds] *)
Definition timeout : Z := 10000.

(** The polling loop of [send_command] and the [raise] after it. *)
Definition wait_response (fuel : nat) (cmd_id start_time : Z) (method : string)
  : M json :=
  while_loop fuel
    (fun w => now w - start_time <? timeout)
    (got <- response_queue_get 1000 ;;
     match got with
     | None => ret Continue                       (* except queue.Empty: continue *)
     | Some response =>
         rid <- py_getitem (JObj response) "id" ;;
         if py_eq_int rid cmd_id then
           if dict_has "error" response then
             log ERROR [FText "Command error: ";
                        FVal (dict_get_default "error" JNull response)] ;;
             raise (Exception [FText "Command error: ";
                               FVal (dict_get_default "error" JNull response)])
           else ret (Break (dict_get_default "result" (JObj []) response))
         else ret Continue
     end)
    (raise (Exception [FText ("Command timed out: " +++ method)])).

(** Unfoldings that the loop can need: one per queued response and one
    per second of the deadline. *)
Definition poll_budget (w : World) : nat :=
  (List.length (response_queue w) + 10)%nat.

(** [BrowserController.send_command]. *)
Definition send_command (method : string) (params : json) : M json :=
  w <- get_world ;;
  let cmd_id := command_id w in
  modify (set_command_id (command_id w + 1)) ;;
  ws_send (mkCommand cmd_id method params) ;;
  w1 <- get_world ;;
  wait_response (poll_budget w1) cmd_id (now w1) method.

(** [self.page_loaded.clear()]: settings of the flag up to now are
    forgotten. *)
Definition page_loaded_clear : M unit :=
  modify (fun w => set_load_fired (filter (fun t => now w <? t) (load_fired w)) w).

(** The earliest time in a list. *)
Definition earliest (l : list Z) : option Z :=
  match l with
  | [] => None
  | t :: l' => Some (fold_left Z.min l' t)
  end.

(** [self.page_loaded.wait(timeout=..)]: true as soon as the flag is set,
    false once the timeout has run out. *)
Definition page_loaded_wait (timeout : Z) : M bool :=
  fun w =>
    match earliest (load_fired w) with
    | Some t =>
        if t <=? now w + timeout
        then (Return true, set_now (Z.max (now w) t) w)
        else (Return false, set_now (now w + timeout) w)
    | None => (Return false, set_now (now w + timeout) w)
    end.

(** [BrowserController.navigate]. *)
Definition navigate (url : string) : M unit :=
  page_loaded_clear ;;
  send_command "Page.navigate" (JObj [("url", JStr url)]) ;;
  modify (set_current_url (Some url)) ;;
  loaded <- page_loaded_wait 30000 ;;
  (if loaded then ret tt
   else log WARNING [FText "Page load timeout, continuing anyway"]) ;;
  sleep 3000 ;;
  log INFO [FText ("Navigated to " +++ url)].

(** The scripts of [type_text]'s fallback and of [press_enter]. *)
(** The text of [type_text_fallback_script] before the opening quote of the spliced [text], and
    after its closing quote. *)
Definition type_text_fallback_script_before : string :=
  "
                // Try to find any input element that's visible
                const inputs = Array.from(document.querySelectorAll('input[type=" +++ dq +++ "text" +++ dq +++ "], input:not([type]), textarea'));
                const visibleInput = inputs.find(el => {
                    const rect = el.getBoundingClientRect();
                    return rect.width > 0 && rect.height > 0 && 
                           window.getComputedStyle(el).display !== 'none' &&
                           window.getComputedStyle(el).visibility !== 'hidden';
                });
                
                if (visibleInput) {
                    visibleInput.focus();
                    visibleInput.value = ".
Definition type_text_fallback_script_after : string :=
  ";
                    visibleInput.dispatchEvent(new Event('input', { bubbles: true }));
                    visibleInput.dispatchEvent(new Event('change', { bubbles: true }));
                    return true;
                }
                return false;
            ".

(** The script of [type_text]'s fallback. *)
Definition type_text_fallback_script (text : string) : string :=
  type_text_fallback_script_before +++ "'" +++ text +++ "'"
  +++ type_text_fallback_script_after.
Definition press_enter_focus_script (selector : string) : string :=
  "
                const el = document.querySelector('" +++ selector +++ "');
                if (el) {
                    el.focus();
                    return true;
                }
                return false;
            ".
Definition press_enter_active_script : string :=
  "
                    // Try to find the active element and press enter on it
                    if (document.activeElement && 
                        document.activeElement !== document.body) {
                        document.activeElement.focus();
                    }
                ".
Definition press_enter_form_script : string :=
  "
            const form = document.querySelector('form');
            if (form) {
                form.submit();
            }
        ".

End KK.

(* ================================================================== *)
(** * newww.py                                                          *)
(* ================================================================== *)

Module NW.

(** [BrowserController.message_handler]. *)
Fixpoint message_handler (inbound : list (Z * frame)) : handled :=
  match inbound with
  | [] => mkHandled [] [] [] None []
  | (t, FrameData data) :: rest =>
      let h := message_handler rest in
      if dict_has "id" data then
        mkHandled ((t, data) :: h_responses h) (h_events h) [] (h_stopped h) (h_logs h)
      else if dict_has "method" data then
        mkHandled (h_responses h) ((t, data) :: h_events h) [] (h_stopped h) (h_logs h)
      else h
  | (t, FrameEmpty) :: _ =>
      handler_stop t (mkLog INFO [FText "WebSocket connection closed"])
  | (t, _) :: _ =>
      handler_stop t (mkLog ERROR [FText "Error in message handler: "; FExn library_error])
  end.

(** The controller after [__init__] and [connect], at time [t0]. *)
Definition session (t0 : Z) (inbound : list (Z * frame)) : World :=
  let h := message_handler inbound in
  mkWorld t0 1 None [] (h_responses h) (h_events h) [] [].

(** [self.response_queue.get()]: blocks until an entry is there. *)
Definition response_queue_get : M dict :=
  fun w =>
    match response_queue w with
    | (t, data) :: rest =>
        (Return data, set_response_queue rest (set_now (Z.max (now w) t) w))
    | [] => (Diverges, w)
    end.

(** The [while True] loop of [send_command]. *)
Definition wait_response (fuel : nat) (command_id : Z) : M json :=
  while_loop fuel
    (fun _ => true)
    (response <- response_queue_get ;;
     rid <- py_getitem (JObj response) "id" ;;
     if py_eq_int rid command_id then
       if dict_has "error" response then
         match dict_get_default "error" JNull response with
         | JObj err =>
             raise (Exception [FText "Browser error: ";
                               FVal (dict_get_default "message" (JObj err) err)])
         | _ => raise AttributeError
         end
       else ret (Break (dict_get_default "result" (JObj []) response))
     else ret Continue)
    (ret JNull).

(** [BrowserController.send_command] ([with self.lock] is the identity
    for a single caller). *)
Definition send_command (method : string) (params : json) : M json :=
  w <- get_world ;;
  let command_id := command_id w in
  modify (set_command_id (command_id + 1)) ;;
  ws_send (mkCommand command_id method params) ;;
  w1 <- get_world ;;
  wait_response (S (List.length (response_queue w1))) command_id.

(** [self.event_queue.get()]. *)
Definition event_queue_get : M dict :=
  fun w =>
    match event_queue w with
    | (t, data) :: rest =>
        (Return data, set_event_queue rest (set_now (Z.max (now w) t) w))
    | [] => (Diverges, w)
    end.

(** [BrowserController.navigate]. *)
Definition navigate (url : string) : M unit :=
  send_command "Page.enable" (JObj []) ;;
  send_command "Page.navigate" (JObj [("url", JStr url)]) ;;
  modify (set_current_url (Some url)) ;;
  w <- get_world ;;
  while_loop (S (List.length (event_queue w)))
    (fun _ => true)
    (event <- event_queue_get ;;
     m <- py_getitem (JObj event) "method" ;;
     if py_eq_str m "Page.loadEventFired" then ret (Break tt) else ret Continue)
    (ret tt) ;;
  sleep 2000.

(** [BrowserController.execute_script]. *)
Definition execute_script (script : string) : M json :=
  result <- send_command "Runtime.evaluate" (JObj [("expression", JStr script)]) ;;
  has_result <- py_in "result" result ;;
  if has_result then
    inner <- py_getitem result "result" ;;
    has_value <- py_in "value" inner ;;
    if has_value then py_getitem inner "value"
    else
      has_description <- py_in "description" inner ;;
      if has_description then py_getitem inner "description"
      else ret JNull
  else ret JNull.

Definition wait_for_selector_script (selector : string) : string :=
  "
                try {
                    var elements = document.querySelectorAll(" +++ dq +++ selector +++ dq +++ ");
                    for (var i = 0; i < elements.length; i++) {
                        var style = window.getComputedStyle(elements[i]);
                        if (style.display !== " +++ dq +++ "none" +++ dq +++ " && style.visibility !== " +++ dq +++ "hidden" +++ dq +++ ") {
                            return true;
                        }
                    }
                    return false;
                } catch (e) {
                    console.error(" +++ dq +++ "Error in wait_for_selector:" +++ dq +++ ", e);
                    return false;
                }
            ".
(** The text of [type_script] before the opening quote of the spliced [text], and
    after its closing quote. *)
Definition type_script_before (selector : string) : string :=
  "
                try {
                    var elements = document.querySelectorAll(" +++ dq +++ selector +++ dq +++ ");
                    for (var i = 0; i < elements.length; i++) {
                        var style = window.getComputedStyle(elements[i]);
                        if (style.display !== " +++ dq +++ "none" +++ dq +++ " && style.visibility !== " +++ dq +++ "hidden" +++ dq +++ ") {
                            elements[i].focus();
                            elements[i].value = ".
Definition type_script_after : string :=
  ";
                            elements[i].dispatchEvent(new Event(" +++ dq +++ "input" +++ dq +++ ", { bubbles: true }));
                            elements[i].dispatchEvent(new Event(" +++ dq +++ "change" +++ dq +++ ", { bubbles: true }));
                            return true;
                        }
                    }
                    return false;
                } catch (e) {
                    console.error(" +++ dq +++ "Error in type:" +++ dq +++ ", e);
                    return false;
                }
            ".

(** The script of [type] that sets the value. *)
Definition type_script (selector : string) (text : string) : string :=
  type_script_before selector +++ dq +++ text +++ dq +++ type_script_after.
Definition type_youtube_script (alt_selector : string) (text : string) : string :=
  "
                            var el = document.querySelector(" +++ dq +++ alt_selector +++ dq +++ ");
                            el.focus();
                            el.value = " +++ dq +++ text +++ dq +++ ";
                            el.dispatchEvent(new Event(" +++ dq +++ "input" +++ dq +++ ", { bubbles: true }));
                            el.dispatchEvent(new Event(" +++ dq +++ "change" +++ dq +++ ", { bubbles: true }));
                        ".

(** [BrowserController.wait_for_selector]; [timeout] is in seconds.  Each
    turn of the loop that continues sleeps half a second, so two turns
    per second of the timeout, and one more, are enough. *)
Definition wait_for_selector (selector : string) (timeout : Z) : M json :=
  w <- get_world ;;
  let start_time := now w in
  while_loop (S (Z.to_nat (2 * timeout)))
    (fun w => now w - start_time <? timeout * 1000)
    (result <- execute_script (wait_for_selector_script selector) ;;
     if truthy result then ret (Break (JBool true))
     else sleep 500 ;; ret Continue)
    (raise (Exception [FText ("No visible element found for selector '" +++ selector
                              +++ "' within ");
                       FVal (JNum timeout); FText " seconds"])).

(** The script that reads the value back. *)
Definition type_readback_script (selector : string) : string :=
  "return document.querySelector(" +++ dq +++ selector +++ dq +++ ").value".

(** The [for alt_selector in alt_selectors] loop of [type]'s handler; when
    the list is used up the handler goes on to its bare [raise]. *)
Fixpoint type_alt_selectors (alt_selectors : list string) (text : string) (e : exn)
  : M json :=
  match alt_selectors with
  | [] => raise e
  | alt_selector :: rest =>
      try_except
        (wait_for_selector alt_selector 20 ;;
         execute_script (type_youtube_script alt_selector text) ;;
         ret (JBool true))
        (fun _ => type_alt_selectors rest text e)       (* except Exception: continue *)
  end.

(** The statements of [type]'s [try] block up to the read-back: wait for
    the element and run the script that sets its value. *)
Definition type_set_value (selector text : string) : M unit :=
  wait_for_selector selector 20 ;;
  result <- execute_script (type_script selector text) ;;
  if negb (truthy result) then
    raise (Exception [FText ("No visible element to type into for selector '"
                             +++ selector +++ "'")])
  else ret tt.

(** The rest of the [try] block: read the value back and compare. *)
Definition type_verify (selector text : string) : M json :=
  entered_text <- execute_script (type_readback_script selector) ;;
  if negb (py_eq_str entered_text text) then
    raise (Exception [FText ("Typed text '" +++ text
                             +++ "' not found in element; got '");
                      FVal entered_text; FText "'"])
  else ret (JBool true).

(** [BrowserController.type]. *)
Definition type (selector text : string) : M json :=
  try_except
    (type_set_value selector text ;;
     type_verify selector text)
    (fun e =>
       log ERROR [FText ("Error typing in element with selector '" +++ selector +++ "': ");
                  FExn e] ;;
       yt <- on_youtube ;;
       if yt then type_alt_selectors ["input#search"; "input[name='search_query']"] text e
       else raise e).

End NW.

(* ================================================================== *)
(** * ooo.py                                                            *)
(* ================================================================== *)

Module OOO.

(** [message_handler] and [send_command] are the same text as in
    newww.py. *)
Definition message_handler := NW.message_handler.
Definition session := NW.session.
Definition send_command := NW.send_command.

(** [BrowserController.execute_script]. *)
Definition execute_script (script : string) : M json :=
  result <- send_command "Runtime.evaluate"
              (JObj [("expression", JStr script);
                     ("returnByValue", JBool true);
                     ("awaitPromise", JBool true)]) ;;
  has_result <- py_in "result" result ;;
  if has_result then
    inner <- py_getitem result "result" ;;
    has_value <- py_in "value" inner ;;
    if has_value then py_getitem inner "value"
    else
      has_description <- py_in "description" inner ;;
      if has_description then py_getitem inner "description"
      else ret JNull
  else ret JNull.

Definition wait_for_selector_script (selector : string) : string :=
  "
                try {
                    var elements = document.querySelectorAll(" +++ dq +++ selector +++ dq +++ ");
                    for (var i = 0; i < elements.length; i++) {
                        var style = window.getComputedStyle(elements[i]);
                        if (style.display !== " +++ dq +++ "none" +++ dq +++ " && style.visibility !== " +++ dq +++ "hidden" +++ dq +++ ") {
                            return true;
                        }
                    }
                    return false;
                } catch (e) {
                    console.error(" +++ dq +++ "Error in wait_for_selector:" +++ dq +++ ", e);
                    return false;
                }
            ".
Definition click_scroll_script (selector : string) : string :=
  "
                try {
                    var elements = document.querySelectorAll(" +++ dq +++ selector +++ dq +++ ");
                    for (var i = 0; i < elements.length; i++) {
                        var element = elements[i];
                        var style = window.getComputedStyle(element);
                        if (style.display !== " +++ dq +++ "none" +++ dq +++ " && style.visibility !== " +++ dq +++ "hidden" +++ dq +++ ") {
                            element.scrollIntoView({behavior: " +++ dq +++ "smooth" +++ dq +++ ", block: " +++ dq +++ "center" +++ dq +++ "});
                            return true;
                        }
                    }
                    return false;
                } catch (e) {
                    console.error(" +++ dq +++ "Error scrolling to element:" +++ dq +++ ", e);
                    return false;
                }
            ".
Definition click_script (selector : string) : string :=
  "
                try {
                    var elements = document.querySelectorAll(" +++ dq +++ selector +++ dq +++ ");
                    for (var i = 0; i < elements.length; i++) {
                        var element = elements[i];
                        var style = window.getComputedStyle(element);
                        if (style.display !== " +++ dq +++ "none" +++ dq +++ " && style.visibility !== " +++ dq +++ "hidden" +++ dq +++ ") {
                            // Create and dispatch mouse events for more reliable clicking
                            var rect = element.getBoundingClientRect();
                            var x = rect.left + rect.width / 2;
                            var y = rect.top + rect.height / 2;
                            
                            ['mousedown', 'mouseup', 'click'].forEach(function(eventType) {
                                var clickEvent = new MouseEvent(eventType, {
                                    view: window,
                                    bubbles: true,
                                    cancelable: true,
                                    clientX: x,
                                    clientY: y
                                });
                                element.dispatchEvent(clickEvent);
                            });
                            
                            return true;
                        }
                    }
                    return false;
                } catch (e) {
                    console.error(" +++ dq +++ "Error clicking element:" +++ dq +++ ", e);
                    return false;
                }
            ".
Definition youtube_search_click_script (selector : string) : string :=
  "
                            var el = document.querySelector(" +++ dq +++ selector +++ dq +++ ");
                            if (el) {
                                el.focus();
                                el.click();
                            }
                        ".
Definition youtube_video_click_script (selector : string) : string :=
  "
                            var videos = document.querySelectorAll(" +++ dq +++ selector +++ dq +++ ");
                            if (videos && videos.length > 0) {
                                // Click the first video
                                var firstVideo = videos[0];
                                
                                // If this is a container, find the actual link inside
                                var link = firstVideo.querySelector(" +++ dq +++ "a" +++ dq +++ ") || firstVideo;
                                
                                // Scroll into view
                                link.scrollIntoView({behavior: " +++ dq +++ "smooth" +++ dq +++ ", block: " +++ dq +++ "center" +++ dq +++ "});
                                setTimeout(function() {
                                    // Create and dispatch click events
                                    var rect = link.getBoundingClientRect();
                                    var x = rect.left + rect.width / 2;
                                    var y = rect.top + rect.height / 2;
                                    
                                    ['mousedown', 'mouseup', 'click'].forEach(function(eventType) {
                                        var clickEvent = new MouseEvent(eventType, {
                                            view: window,
                                            bubbles: true,
                                            cancelable: true,
                                            clientX: x,
                                            clientY: y
                                        });
                                        link.dispatchEvent(clickEvent);
                                    });
                                    
                                    // As a fallback, also try navigating directly
                                    if (link.href) {
                                        window.location.href = link.href;
                                    }
                                }, 500);
                            }
                        ".
Definition youtube_player_script : string :=
  "
                                var video = document.querySelector(" +++ dq +++ "video" +++ dq +++ ");
                                if (video) {
                                    video.play();
                                }
                                
                                var player = document.querySelector(" +++ dq +++ ".html5-video-player" +++ dq +++ ");
                                if (player) {
                                    player.click();
                                }
                            ".
Definition youtube_play_button_script (selector : string) : string :=
  "
                                var button = document.querySelector(" +++ dq +++ selector +++ dq +++ ");
                                if (button) {
                                    button.click();
                                }
                            ".
Definition type_focus_script (selector : string) : string :=
  "
                try {
                    var element = document.querySelector(" +++ dq +++ selector +++ dq +++ ");
                    if (element) {
                        element.focus();
                        return true;
                    }
                    return false;
                } catch (e) {
                    console.error(" +++ dq +++ "Error focusing element:" +++ dq +++ ", e);
                    return false;
                }
            ".
Definition type_clear_script (selector : string) : string :=
  "
                try {
                    var element = document.querySelector(" +++ dq +++ selector +++ dq +++ ");
                    if (element) {
                        element.value = " +++ dq +++ dq +++ ";
                        element.dispatchEvent(new Event(" +++ dq +++ "input" +++ dq +++ ", { bubbles: true }));
                        return true;
                    }
                    return false;
                } catch (e) {
                    console.error(" +++ dq +++ "Error clearing element:" +++ dq +++ ", e);
                    return false;
                }
            ".
(** The text of [type_char_script] before the opening quote of the spliced [char], and
    after its closing quote. *)
Definition type_char_script_before (selector : string) : string :=
  "
                    try {
                        var element = document.querySelector(" +++ dq +++ selector +++ dq +++ ");
                        if (element) {
                            element.value += ".
Definition type_char_script_after : string :=
  ";
                            element.dispatchEvent(new Event(" +++ dq +++ "input" +++ dq +++ ", { bubbles: true }));
                            return true;
                        }
                        return false;
                    } catch (e) {
                        console.error(" +++ dq +++ "Error typing character:" +++ dq +++ ", e);
                        return false;
                    }
                ".

(** The script of [type] that appends one character. *)
Definition type_char_script (selector : string) (char : string) : string :=
  type_char_script_before selector +++ dq +++ char +++ dq +++ type_char_script_after.
Definition type_final_script (selector : string) : string :=
  "
                try {
                    var element = document.querySelector(" +++ dq +++ selector +++ dq +++ ");
                    if (element) {
                        element.dispatchEvent(new Event(" +++ dq +++ "input" +++ dq +++ ", { bubbles: true }));
                        element.dispatchEvent(new Event(" +++ dq +++ "change" +++ dq +++ ", { bubbles: true }));
                        return true;
                    }
                    return false;
                } catch (e) {
                    console.error(" +++ dq +++ "Error dispatching final events:" +++ dq +++ ", e);
                    return false;
                }
            ".
Definition type_youtube_script (alt_selector : string) (text : string) : string :=
  "
                            var el = document.querySelector(" +++ dq +++ alt_selector +++ dq +++ ");
                            if (el) {
                                el.focus();
                                el.value = " +++ dq +++ text +++ dq +++ ";
                                el.dispatchEvent(new Event(" +++ dq +++ "input" +++ dq +++ ", { bubbles: true }));
                                el.dispatchEvent(new Event(" +++ dq +++ "change" +++ dq +++ ", { bubbles: true }));
                            }
                        ".
Definition press_enter_focus_script (selector : string) : string :=
  "
                try {
                    var element = document.querySelector(" +++ dq +++ selector +++ dq +++ ");
                    if (element) {
                        element.focus();
                        return true;
                    }
                    return false;
                } catch (e) {
                    console.error(" +++ dq +++ "Error focusing element:" +++ dq +++ ", e);
                    return false;
                }
            ".
Definition press_enter_script (selector : string) : string :=
  "
                try {
                    var element = document.querySelector(" +++ dq +++ selector +++ dq +++ ");
                    if (element) {
                        // Method 1: KeyboardEvent
                        element.dispatchEvent(new KeyboardEvent(" +++ dq +++ "keydown" +++ dq +++ ", {
                            key: " +++ dq +++ "Enter" +++ dq +++ ",
                            code: " +++ dq +++ "Enter" +++ dq +++ ",
                            keyCode: 13,
                            which: 13,
                            bubbles: true
                        }));
                        
                        element.dispatchEvent(new KeyboardEvent(" +++ dq +++ "keypress" +++ dq +++ ", {
                            key: " +++ dq +++ "Enter" +++ dq +++ ",
                            code: " +++ dq +++ "Enter" +++ dq +++ ",
                            keyCode: 13,
                            which: 13,
                            bubbles: true
                        }));
                        
                        element.dispatchEvent(new KeyboardEvent(" +++ dq +++ "keyup" +++ dq +++ ", {
                            key: " +++ dq +++ "Enter" +++ dq +++ ",
                            code: " +++ dq +++ "Enter" +++ dq +++ ",
                            keyCode: 13,
                            which: 13,
                            bubbles: true
                        }));
                        
                        // Method 2: Form submission if element is in a form
                        if (element.form) {
                            element.form.submit();
                        }
                        
                        return true;
                    }
                    return false;
                } catch (e) {
                    console.error(" +++ dq +++ "Error pressing Enter:" +++ dq +++ ", e);
                    return false;
                }
            ".
Definition press_enter_youtube_script : string :=
  "
                        var searchButton = document.querySelector(" +++ dq +++ "#search-icon-legacy" +++ dq +++ ") || 
                                           document.querySelector(" +++ dq +++ "button[aria-label='Search']" +++ dq +++ ");
                        if (searchButton) {
                            searchButton.click();
                            return;
                        }
                        
                        // Try submitting the search form
                        var searchForm = document.querySelector(" +++ dq +++ "form#search-form" +++ dq +++ ");
                        if (searchForm) {
                            searchForm.submit();
                            return;
                        }
                        
                        // Last resort: try to press Enter on the search input again
                        var searchInput = document.querySelector(" +++ dq +++ "input#search" +++ dq +++ ") || 
                                          document.querySelector(" +++ dq +++ "input[name='search_query']" +++ dq +++ ");
                        if (searchInput) {
                            searchInput.dispatchEvent(new KeyboardEvent(" +++ dq +++ "keydown" +++ dq +++ ", {
                                key: " +++ dq +++ "Enter" +++ dq +++ ",
                                code: " +++ dq +++ "Enter" +++ dq +++ ",
                                keyCode: 13,
                                which: 13,
                                bubbles: true
                            }));
                        }
                    ".

(** [BrowserController.wait_for_selector]; [timeout] is in seconds. *)
Definition wait_for_selector (selector : string) (timeout : Z) : M json :=
  w <- get_world ;;
  let start_time := now w in
  while_loop (S (Z.to_nat (2 * timeout)))
    (fun w => now w - start_time <? timeout * 1000)
    (result <- execute_script (wait_for_selector_script selector) ;;
     if truthy result then ret (Break (JBool true))
     else sleep 500 ;; ret Continue)
    (raise (Exception [FText ("No visible element found for selector '" +++ selector
                              +++ "' within ");
                       FVal (JNum timeout); FText " seconds"])).

(** [BrowserController.wait_for_youtube_elements]: the loop goes on to
    the next selector whether the wait succeeds or raises. *)
Fixpoint wait_for_youtube_selectors (selectors : list string) : M unit :=
  match selectors with
  | [] => ret tt
  | selector :: rest =>
      try_except
        (wait_for_selector selector 10 ;;
         log INFO [FText ("Found YouTube element: " +++ selector)])
        (fun e =>
           log WARNING [FText ("Could not find YouTube element " +++ selector +++ ": ");
                        FExn e]) ;;
      wait_for_youtube_selectors rest
  end.

Definition wait_for_youtube_elements : M unit :=
  wait_for_youtube_selectors ["input#search"; "ytd-video-renderer"; "#content"].

(** [self.event_queue.get(timeout=1)]. *)
Definition event_queue_get (timeout : Z) : M (option dict) :=
  fun w =>
    match queue_get_timeout timeout (event_queue w) (now w) with
    | (got, rest, t) => (Return got, set_event_queue rest (set_now t w))
    end.

(** [BrowserController.navigate]. *)
Definition navigate (url : string) : M unit :=
  send_command "Page.enable" (JObj []) ;;
  send_command "Page.navigate" (JObj [("url", JStr url)]) ;;
  modify (set_current_url (Some url)) ;;
  w <- get_world ;;
  let start_time := now w in
  while_loop (List.length (event_queue w) + 30)%nat
    (fun w => now w - start_time <? 30000)
    (got <- event_queue_get 1000 ;;
     match got with
     | None => ret Continue                        (* except queue.Empty: continue *)
     | Some event =>
         m <- py_getitem (JObj event) "method" ;;
         if py_eq_str m "Page.loadEventFired" then ret (Break tt) else ret Continue
     end)
    (ret tt) ;;
  sleep 3000 ;;
  if str_contains "youtube.com" url then wait_for_youtube_elements else ret tt.

(** A [for selector in selectors] loop whose body is a [try] that ends
    the function when it succeeds and whose handler ends in [continue]. *)
Fixpoint first_that_works (selectors : list string)
         (attempt : string -> M unit) (on_error : string -> exn -> M unit) : M unit :=
  match selectors with
  | [] => ret tt
  | selector :: rest =>
      try_except (attempt selector)
                 (fun e => on_error selector e ;;
                           first_that_works rest attempt on_error)
  end.

(** [BrowserController.handle_youtube_specific_click]. *)
Definition handle_youtube_specific_click (original_selector : string) : M unit :=
  try_except
    (if str_contains "search" original_selector then
       first_that_works
         ["input#search"; "input[name='search_query']"; "#search-input input";
          "input[aria-label='Search']"]
         (fun selector =>
            log INFO [FText ("Trying YouTube search selector: " +++ selector)] ;;
            wait_for_selector selector 5 ;;
            execute_script (youtube_search_click_script selector) ;;
            ret tt)
         (fun _ _ => ret tt)
     else if str_contains "video" original_selector then
       first_that_works
         ["ytd-video-renderer"; "#contents ytd-video-renderer";
          "a.yt-simple-endpoint.ytd-video-renderer"; "#video-title"]
         (fun selector =>
            log INFO [FText ("Trying YouTube video selector: " +++ selector)] ;;
            wait_for_selector selector 5 ;;
            execute_script (youtube_video_click_script selector) ;;
            sleep 3000)
         (fun selector e =>
            log ERROR [FText ("Error with video selector " +++ selector +++ ": "); FExn e])
     else if str_contains "play" original_selector then
       first_that_works
         [".ytp-play-button"; "button.ytp-play-button"; ".html5-video-player"]
         (fun selector =>
            log INFO [FText ("Trying YouTube play selector: " +++ selector)] ;;
            wait_for_selector selector 5 ;;
            (if String.eqb selector ".html5-video-player"
             then execute_script youtube_player_script
             else execute_script (youtube_play_button_script selector)) ;;
            ret tt)
         (fun _ _ => ret tt)
     else ret tt)
    (fun e => log ERROR [FText "Error with YouTube-specific handling: "; FExn e]).

(** The protocol-level click of [click], taken when the script reports
    no click. *)
Definition click_cdp (selector : string) : M unit :=
  elements <- send_command "DOM.querySelectorAll"
                (JObj [("nodeId", JNum 1); ("selector", JStr selector)]) ;;
  has_ids <- py_in "nodeIds" elements ;;
  nonempty <- (if has_ids
               then ids <- py_getitem elements "nodeIds" ;;
                    n <- py_len ids ;;
                    ret (0 <? n)
               else ret false) ;;
  if nonempty then
    ids <- py_getitem elements "nodeIds" ;;
    node_id <- py_index ids 0 ;;
    box_model <- send_command "DOM.getBoxModel" (JObj [("nodeId", node_id)]) ;;
    has_model <- py_in "model" box_model ;;
    has_content <- (if has_model
                    then model <- py_getitem box_model "model" ;;
                         py_in "content" model
                    else ret false) ;;
    if has_content then
      model <- py_getitem box_model "model" ;;
      content <- py_getitem model "content" ;;
      c0 <- py_index content 0 ;;
      c2 <- py_index content 2 ;;
      x <- py_midpoint c0 c2 ;;
      c1 <- py_index content 1 ;;
      c5 <- py_index content 5 ;;
      y <- py_midpoint c1 c5 ;;
      send_command "Input.dispatchMouseEvent"
        (JObj [("type", JStr "mousePressed"); ("x", x); ("y", y);
               ("button", JStr "left"); ("clickCount", JNum 1)]) ;;
      send_command "Input.dispatchMouseEvent"
        (JObj [("type", JStr "mouseReleased"); ("x", x); ("y", y);
               ("button", JStr "left"); ("clickCount", JNum 1)]) ;;
      ret tt
    else raise (Exception [FText "Could not get element position for clicking"])
  else raise (Exception [FText ("No elements found for selector: " +++ selector)]).

(** [BrowserController.click]. *)
Definition click (selector : string) : M unit :=
  try_except
    (wait_for_selector selector 20 ;;
     execute_script (click_scroll_script selector) ;;
     sleep 1000 ;;
     result <- execute_script (click_script selector) ;;
     (if negb (truthy result) then click_cdp selector else ret tt) ;;
     sleep 2000)
    (fun e =>
       log ERROR [FText ("Error clicking element with selector '" +++ selector +++ "': ");
                  FExn e] ;;
       yt <- on_youtube ;;
       if yt then handle_youtube_specific_click selector else ret tt).

(** The [for char in text] loop of [type]. *)
Fixpoint type_chars (selector text : string) : M unit :=
  match text with
  | EmptyString => ret tt
  | String char rest =>
      execute_script (type_char_script selector (String char EmptyString)) ;;
      sleep 50 ;;
      type_chars selector rest
  end.

(** The [for alt_selector in youtube_selectors] loop of [type]'s
    handler. *)
Fixpoint type_alt_selectors (alt_selectors : list string) (text : string) : M unit :=
  match alt_selectors with
  | [] => ret tt
  | alt_selector :: rest =>
      log INFO [FText ("Trying YouTube search selector for typing: " +++ alt_selector)] ;;
      try_except
        (wait_for_selector alt_selector 5 ;;
         execute_script (type_youtube_script alt_selector text) ;;
         ret tt)                                              (* return *)
        (fun _ => type_alt_selectors rest text)                (* continue *)
  end.

(** [BrowserController.type]. *)
Definition type (selector text : string) : M unit :=
  try_except
    (wait_for_selector selector 20 ;;
     execute_script (type_focus_script selector) ;;
     sleep 500 ;;
     execute_script (type_clear_script selector) ;;
     sleep 500 ;;
     type_chars selector text ;;
     execute_script (type_final_script selector) ;;
     ret tt)
    (fun e =>
       log ERROR [FText ("Error typing in element with selector '" +++ selector +++ "': ");
                  FExn e] ;;
       yt <- on_youtube ;;
       if yt then
         type_alt_selectors
           ["input#search"; "input[name='search_query']"; "#search-input input";
            "input[aria-label='Search']"] text
       else ret tt).

(** The key-event parameters of the protocol-level Enter. *)
Definition enter_key_event (type : string) : json :=
  JObj [("type", JStr type); ("key", JStr "Enter"); ("code", JStr "Enter");
        ("windowsVirtualKeyCode", JNum 13)].

(** [BrowserController.press_enter]. *)
Definition press_enter (selector : string) : M unit :=
  try_except
    (execute_script (press_enter_focus_script selector) ;;
     sleep 500 ;;
     result <- execute_script (press_enter_script selector) ;;
     (if negb (truthy result) then
        send_command "Input.dispatchKeyEvent" (enter_key_event "keyDown") ;;
        send_command "Input.dispatchKeyEvent" (enter_key_event "keyUp") ;;
        ret tt
      else ret tt) ;;
     sleep 2000)
    (fun e =>
       log ERROR [FText ("Error pressing Enter on element with selector '" +++ selector
                         +++ "': "); FExn e] ;;
       yt <- on_youtube ;;
       if yt then
         try_except
           (execute_script press_enter_youtube_script ;;
            sleep 2000)
           (fun e2 =>
              log ERROR [FText "Error with YouTube-specific Enter handling: "; FExn e2])
       else ret tt).

End OOO.

(* ================================================================== *)
(** * String literals of the page's script language                     *)
(* ================================================================== *)

(** How the script engine reads a string literal (ECMAScript, sloppy
    mode), from the character after the opening quote: the literal's
    value as code units and the source text after the closing quote, or
    [None] where the literal is a syntax error.  Source text is read as
    ASCII; a byte above 127 counts as an ordinary character. *)
Module JsString.

Definition code (c : ascii) : N := N_of_ascii c.
Definition codes (s : string) : list N := map code (list_ascii_of_string s).

Definition LF : ascii := ascii_of_nat 10.
Definition CR : ascii := ascii_of_nat 13.
Definition backslash : ascii := ascii_of_nat 92.
Definition double_quote : ascii := ascii_of_nat 34.
Definition single_quote : ascii := ascii_of_nat 39.

Definition is_line_terminator (c : ascii) : bool :=
  Ascii.eqb c LF || Ascii.eqb c CR.

Definition hex_digit (c : ascii) : option N :=
  let n := N_of_ascii c in
  (if (48 <=? n) && (n <=? 57) then Some (n - 48)
   else if (65 <=? n) && (n <=? 70) then Some (n - 55)
   else if (97 <=? n) && (n <=? 102) then Some (n - 87)
   else None)%N.

Definition octal_digit (c : ascii) : option N :=
  let n := N_of_ascii c in
  (if (48 <=? n) && (n <=? 55) then Some (n - 48) else None)%N.

(** The value of [\c] for a character that starts no longer escape. *)
Definition single_escape (c : ascii) : N :=
  (if Ascii.eqb c "b" then 8
   else if Ascii.eqb c "t" then 9
   else if Ascii.eqb c "n" then 10
   else if Ascii.eqb c "v" then 11
   else if Ascii.eqb c "f" then 12
   else if Ascii.eqb c "r" then 13
   else code c)%N.

(** The code units of a code point. *)
Definition utf16 (cp : N) : list N :=
  (if cp <? 65536 then [cp]
   else [55296 + (cp - 65536) / 1024; 56320 + (cp - 65536) mod 1024])%N.

Definition emit (units : list N) (r : option (list N * string))
  : option (list N * string) :=
  match r with
  | Some (v, rest) => Some (units ++ v, rest)
  | None => None
  end.

(** [brace] is [Some cp] while inside a [\u{...}] escape, [cp] being the
    value of the digits read so far. *)
Fixpoint string_characters (quote : ascii) (brace : option N) (s : string)
  : option (list N * string) :=
  match brace with
  | Some cp =>
      match s with
      | EmptyString => None
      | String c rest =>
          if Ascii.eqb c "}" then
            if (cp <=? 1114111)%N
            then emit (utf16 cp) (string_characters quote None rest)
            else None
          else match hex_digit c with
               | Some h => string_characters quote (Some (16 * cp + h)%N) rest
               | None => None
               end
      end
  | None =>
      match s with
      | EmptyString => None                                 (* unterminated *)
      | String c rest =>
          if Ascii.eqb c quote then Some ([], rest)
          else if is_line_terminator c then None
          else if Ascii.eqb c backslash then
            match rest with
            | EmptyString => None
            | String e rest1 =>
                if Ascii.eqb e LF then string_characters quote None rest1
                else if Ascii.eqb e CR then
                  match rest1 with
                  | String l rest2 =>
                      if Ascii.eqb l LF then string_characters quote None rest2
                      else string_characters quote None rest1
                  | EmptyString => None
                  end
                else if Ascii.eqb e "x" then
                  match rest1 with
                  | String h1 (String h2 rest2) =>
                      match hex_digit h1, hex_digit h2 with
                      | Some a, Some b =>
                          emit [16 * a + b]%N (string_characters quote None rest2)
                      | _, _ => None
                      end
                  | _ => None
                  end
                else if Ascii.eqb e "u" then
                  match rest1 with
                  | String h1 rest2 =>
                      if Ascii.eqb h1 "{" then
                        match rest2 with
                        | String h rest3 =>
                            match hex_digit h with
                            | Some a => string_characters quote (Some a) rest3
                            | None => None
                            end
                        | EmptyString => None
                        end
                      else
                        match rest2 with
                        | String h2 (String h3 (String h4 rest5)) =>
                            match hex_digit h1, hex_digit h2, hex_digit h3, hex_digit h4 with
                            | Some a, Some b, Some c', Some d =>
                                emit [((16 * a + b) * 16 + c') * 16 + d]%N
                                     (string_characters quote None rest5)
                            | _, _, _, _ => None
                            end
                        | _ => None
                        end
                  | EmptyString => None
                  end
                else
                  match octal_digit e with
                  | Some d1 =>
                      match rest1 with
                      | String o2 rest2 =>
                          match octal_digit o2 with
                          | Some d2 =>
                              if (d1 <=? 3)%N then
                                match rest2 with
                                | String o3 rest3 =>
                                    match octal_digit o3 with
                                    | Some d3 =>
                                        emit [(8 * d1 + d2) * 8 + d3]%N
                                             (string_characters quote None rest3)
                                    | None =>
                                        emit [8 * d1 + d2]%N
                                             (string_characters quote None rest2)
                                    end
                                | EmptyString => None
                                end
                              else emit [8 * d1 + d2]%N (string_characters quote None rest2)
                          | None => emit [d1] (string_characters quote None rest1)
                          end
                      | EmptyString => None
                      end
                  | None => emit [single_escape e] (string_characters quote None rest1)
                  end
            end
          else emit [code c] (string_characters quote None rest)
      end
  end.

(** The value of the literal whose opening quote has just been read. *)
Definition string_literal (quote : ascii) (after_open : string)
  : option (list N * string) :=
  string_characters quote None after_open.

(** A character that a literal delimited by [quote] holds as itself. *)
Definition plain_char (quote c : ascii) : bool :=
  negb (Ascii.eqb c quote || Ascii.eqb c backslash || is_line_terminator c).

(** Text made of such characters only. *)
Definition verbatim_safe (quote : ascii) (text : string) : bool :=
  forallb (plain_char quote) (list_ascii_of_string text).

End JsString.

(* ================================================================== *)
(** * The primitives as the page sees them                              *)
(* ================================================================== *)

(** The scripts that [press_enter] sends, read as function bodies over a
    page, with a browser that answers every command.  The page is taken
    as it stands while the primitive runs: event listeners are not
    modelled, and host methods do not throw. *)
Module Dom.

Definition node := nat.

Inductive query_result : Type :=
| Throws                       (* the selector is not valid *)
| Null
| Found (n : node).

Record Page : Type := mkPage
  { querySelector : string -> query_result;   (* document.querySelector *)
    form : node -> option node;               (* element.form *)
    activeElement : option node;              (* document.activeElement *)
    body : node }.                            (* document.body *)

Inductive effect : Type :=
| Focus (n : node)                            (* n.focus() *)
| KeyboardEvent (type : string) (n : node)    (* n.dispatchEvent(new KeyboardEvent(type,
                                                 {key: "Enter", code: "Enter", keyCode: 13,
                                                  which: 13, bubbles: true})) *)
| Submit (f : node)                           (* f.submit() *)
| ConsoleError (msg : string)
| DispatchKeyEvent (type : string).           (* Input.dispatchKeyEvent for Enter *)

Record Browser : Type := mkBrowser { page : Page; trace : list effect }.

Definition do (e : effect) : ST Browser unit :=
  modify (fun b => mkBrowser (page b) (trace b ++ [e])).

Definition focus (n : node) : ST Browser unit :=
  modify (fun b =>
            mkBrowser (mkPage (querySelector (page b)) (form (page b)) (Some n)
                              (body (page b)))
                      (trace b ++ [Focus n])).

Definition query (selector : string) : ST Browser query_result :=
  b <- get_world ;; ret (querySelector (page b) selector).

Definition node_eqb (a b : node) : bool := Nat.eqb a b.

End Dom.

Module OOOPage.
Import Dom.

(** What [OOO.press_enter_focus_script selector] does. *)
Definition press_enter_focus_script (selector : string) : ST Browser json :=
  r <- query selector ;;
  match r with
  | Throws => do (ConsoleError "Error focusing element:") ;; ret (JBool false)
  | Null => ret (JBool false)
  | Found element => focus element ;; ret (JBool true)
  end.

(** What [OOO.press_enter_script selector] does. *)
Definition press_enter_script (selector : string) : ST Browser json :=
  r <- query selector ;;
  match r with
  | Throws => do (ConsoleError "Error pressing Enter:") ;; ret (JBool false)
  | Null => ret (JBool false)
  | Found element =>
      do (KeyboardEvent "keydown" element) ;;
      do (KeyboardEvent "keypress" element) ;;
      do (KeyboardEvent "keyup" element) ;;
      b <- get_world ;;
      (match form (page b) element with
       | Some f => do (Submit f)
       | None => ret tt
       end) ;;
      ret (JBool true)
  end.

(** [execute_script] hands back the script's value. *)
Definition execute_script (script : ST Browser json) : ST Browser json := script.

(** The [try] block of [OOO.press_enter]. *)
Definition press_enter (selector : string) : ST Browser unit :=
  execute_script (press_enter_focus_script selector) ;;
  result <- execute_script (press_enter_script selector) ;;
  if negb (truthy result) then
    do (DispatchKeyEvent "keyDown") ;;
    do (DispatchKeyEvent "keyUp")
  else ret tt.

End OOOPage.

Module KKPage.
Import Dom.

(** What [KK.press_enter_focus_script selector] does; the script has no
    [try], so an invalid selector ends it without a value. *)
Definition press_enter_focus_script (selector : string) : ST Browser json :=
  r <- query selector ;;
  match r with
  | Throws => ret JNull
  | Null => ret (JBool false)
  | Found el => focus el ;; ret (JBool true)
  end.

(** What [KK.press_enter_active_script] does. *)
Definition press_enter_active_script : ST Browser json :=
  b <- get_world ;;
  match activeElement (page b) with
  | Some a => if negb (node_eqb a (body (page b))) then focus a ;; ret JNull
              else ret JNull
  | None => ret JNull
  end.

(** What [KK.press_enter_form_script] does. *)
Definition press_enter_form_script : ST Browser json :=
  r <- query "form" ;;
  match r with
  | Found f => do (Submit f) ;; ret JNull
  | _ => ret JNull
  end.

(** [execute_js] hands back the script's value, [None] if it has none. *)
Definition execute_js (script : ST Browser json) : ST Browser json := script.

(** [KK.press_enter]; [selector] is [None] when the step has no target. *)
Definition press_enter (selector : option string) : ST Browser bool :=
  (match selector with
   | Some s =>
       if negb (String.eqb s "") then
         focused <- execute_js (press_enter_focus_script s) ;;
         if negb (truthy focused)
         then execute_js press_enter_active_script ;; ret tt
         else ret tt
       else ret tt
   | None => ret tt
   end) ;;
  do (DispatchKeyEvent "keyDown") ;;
  do (DispatchKeyEvent "keyUp") ;;
  execute_js press_enter_form_script ;;
  ret true.

End KKPage.

(* ================================================================== *)
(** * kk.py: the step loop and its HTTP entry point                     *)
(* ================================================================== *)

(** [execute_command] and [handle_command], over any controller: the
    controller's methods, the planner ([parse_command], which calls an
    external service) and Python's [int] are parameters. *)
Module KKRun.
Section Orchestrator.

Context {Env : Type}.
Variable start_browser : ST Env unit.
Variable connect : ST Env bool.
Variable get_clean_html : ST Env (option string).
Variable parse_command : string -> json -> list json -> ST Env json.
Variable navigate : json -> ST Env unit.
Variable click_element : json -> ST Env bool.
Variable type_text : json -> json -> ST Env bool.
Variable press_enter : json -> ST Env bool.
Variable py_int : json -> ST Env Z.
Variable sleep : Z -> Env -> Env.                  (* time.sleep, in ms *)
Variable log : level -> fstring -> Env -> Env.

(** The body of the inner [try] up to the test of [success]: it yields
    the value [success] then has. *)
Definition run_action (step : json) : ST Env bool :=
  action <- py_getitem step "action" ;;
  if py_eq_str action "navigate" then
    target <- py_getitem step "target" ;;
    navigate target ;;
    ret true
  else if py_eq_str action "click" then
    target <- py_getitem step "target" ;;
    click_element target
  else if py_eq_str action "type" then
    target <- py_getitem step "target" ;;
    value <- py_getitem step "value" ;;
    type_text target value
  else if py_eq_str action "press_enter" then
    target <- py_get step "target" JNull ;;
    press_enter target
  else if py_eq_str action "wait" then
    value <- py_getitem step "value" ;;
    seconds <- py_int value ;;
    modify (sleep (seconds * 1000)) ;;
    ret true
  else ret false.

(** [for attempt in range(max_attempts)], from attempt number [attempt]
    on; it yields the final value of [success]. *)
Fixpoint attempts (remaining : nat) (attempt : Z) (step : json) : ST Env bool :=
  match remaining with
  | O => ret false
  | S remaining' =>
      success <-
        try_except
          (success <- run_action step ;;
           if success then ret true                                   (* break *)
           else
             modify (log WARNING [FText "Attempt "; FVal (JNum (attempt + 1));
                                  FText "/3 failed for step: ";
                                  FVal (dict_get_default "action" JNull
                                          match step with JObj d => d | _ => [] end)]) ;;
             modify (sleep 1000) ;;
             ret false)
          (fun e =>
             modify (log ERROR [FText "Error during step execution (attempt ";
                                FVal (JNum (attempt + 1)); FText "): "; FExn e]) ;;
             modify (sleep 1000) ;;
             ret false) ;;
      if success then ret true else attempts remaining' (attempt + 1) step
  end.

(** [while not completion_status], unfolded at most [fuel] times. *)
Fixpoint step_loop (fuel : nat) (current_command : json) (previous_steps : list json)
  : ST Env unit :=
  match fuel with
  | O => diverge
  | S fuel' =>
      html <- get_clean_html ;;
      let current_html := match html with Some h => h | None => "" end in
      step <- parse_command current_html current_command previous_steps ;;
      modify (log INFO [FText "Next step: "; FVal step]) ;;
      completed <- py_getitem step "completed" ;;
      if truthy completed then
        modify (log INFO [FText "Command execution completed!"])          (* break *)
      else
        success <- attempts 3 0 step ;;
        (if negb success then
           action <- py_getitem step "action" ;;
           description <- py_getitem step "description" ;;
           modify (log WARNING [FText "Step execution failed after 3 attempts: ";
                                FVal action; FText " - "; FVal description])
         else ret tt) ;;
        remaining_command <- py_getitem step "remaining_command" ;;
        completion_status <- py_get step "completed" (JBool false) ;;
        modify (sleep 2000) ;;
        if truthy completion_status then ret tt
        else step_loop fuel' remaining_command (previous_steps ++ [step])
  end.

(** [execute_command]. *)
Definition execute_command (fuel : nat) (command : json) : ST Env bool :=
  try_except
    (start_browser ;;
     connected <- connect ;;
     if negb connected then
       modify (log ERROR [FText "Failed to connect to browser"]) ;;
       ret false
     else
       step_loop fuel command [] ;;
       modify (log INFO [FText "Command executed successfully!"]) ;;
       ret true)
    (fun e =>
       modify (log ERROR [FText "Error during execution: "; FExn e]) ;;
       ret false).

(** The JSON body and status code of an HTTP reply. *)
Record reply : Type := mkReply
  { http_code : Z;
    reply_status : option string;       (* "status" *)
    reply_message : fstring;            (* "message" *)
    reply_error : option string }.      (* "error" *)

(** [handle_command]; [data] is [request.get_json()]. *)
Definition handle_command (fuel : nat) (data : json) : ST Env reply :=
  no_command <- (if negb (truthy data) then ret true
                 else has <- py_in "command" data ;; ret (negb has)) ;;
  if no_command : bool then
    ret (mkReply 400 None [] (Some "No command provided"))
  else
    command <- py_getitem data "command" ;;
    success <- execute_command fuel command ;;
    ret (mkReply 200
           (Some (if success : bool then "success" else "error"))
           [FText ("Command " +++ (if success then "completed" else "failed") +++ ": ");
            FVal command]
           None).

End Orchestrator.
End KKRun.

(* ================================================================== *)
(** * om.py: the step runner                                            *)
(* ================================================================== *)

(** [execute_browser_automation], over any Selenium driver: starting the
    driver, performing one step's action and taking the final screenshot
    are parameters. *)
Module OM.

(** A [step_result] dict: ["action"], ["status"], the keys the action
    set before it finished or failed (["details"], ["image"],
    ["extracted_data"]) and ["error"]. *)
Record step_result : Type := mkStepResult
  { sr_action : json;
    sr_status : string;
    sr_fields : dict;
    sr_error : option exn }.

(** The dict that the function returns. *)
Record results : Type := mkResults
  { status : string;
    steps_results : option (list step_result);
    message : fstring;
    final_screenshot : option string }.

Section Automation.

Context {Driver : Type}.
(** [webdriver.Chrome(...)] and [implicitly_wait(10)]: a driver, or the
    exception raised. *)
Variable start_chrome : Driver + exn.
(** The body of the per-step [try]: the keys it set in [step_result], and
    the exception it raised, if any. *)
Variable perform : nat -> json -> json -> Driver -> (dict * option exn) * Driver.
(** [save_screenshot] and the base64 text of the file, or the exception
    raised. *)
Variable take_final_screenshot : Driver -> string + exn.

(** [for step_index, step in enumerate(...)], from index [step_index]
    on, appending to [results["steps_results"]]. *)
Fixpoint run_steps (step_index : nat) (steps : list json) (done : list step_result)
  : ST Driver (list step_result) :=
  match steps with
  | [] => ret done
  | step :: rest =>
      action <- py_get step "action" JNull ;;
      params <- py_get step "params" (JObj []) ;;
      step_result <-
        (fun d =>
           match perform step_index action params d with
           | ((fields, None), d') =>
               (Return (mkStepResult action "success" fields None), d')
           | ((fields, Some e), d') =>
               (Return (mkStepResult action "error" fields (Some e)), d')
           end) ;;
      run_steps (S step_index) rest (done ++ [step_result])
  end.

(** [any(step["status"] == "error" for step in results["steps_results"])] *)
Definition any_error (l : list step_result) : bool :=
  existsb (fun step => String.eqb (sr_status step) "error") l.

(** [execute_browser_automation]. *)
Definition execute_browser_automation (instructions : json) (browser_type : string)
  : outcome results :=
  if String.eqb (lower browser_type) "chrome" then
    match start_chrome with
    | inl driver =>
        let body : ST Driver results :=
          steps_value <- py_get instructions "steps" (JArr []) ;;
          steps <- py_iter steps_value ;;
          done <- run_steps 0 steps [] ;;
          let r :=
            if any_error done
            then mkResults "partial_success" (Some done)
                   [FText "Some steps failed, browser remains open for inspection"] None
            else mkResults "success" (Some done)
                   [FText "Browser remains open for inspection"] None in
          d <- get_world ;;
          match take_final_screenshot d with
          | inl shot =>
              ret (mkResults (status r) (steps_results r) (message r) (Some shot))
          | inr e => raise e
          end in
        match body driver with
        | (Return r, _) => Return r
        | (Raise e, _) => Return (mkResults "error" None [FExn e] None)   (* except Exception *)
        | (Diverges, _) => Diverges
        end
    | inr e => Return (mkResults "error" None [FExn e] None)
    end
  else Return (mkResults "error" None [FText "Unsupported browser type"] None).

End Automation.
End OM.

(* ================================================================== *)
(** * Notions used in the statements                                    *)
(* ================================================================== *)

(** A computation leaves the component [f] of the state as it was. *)
Definition keeps {S A B} (f : S -> B) (m : ST S A) : Prop :=
  forall w, f (snd (m w)) = f w.

(** A caller that issues the calls one after the other and goes on after
    a call that raises; nothing follows a call that never returns.  The
    calls of a session come one at a time: kk.py's [execute_command]
    builds a controller of its own and is its only caller, and the
    [send_command] of newww.py and ooo.py runs under [self.lock]. *)
Fixpoint issue (send_command : string -> json -> M json)
         (calls : list (string * json)) (w : World) : World :=
  match calls with
  | [] => w
  | (method, params) :: rest =>
      match send_command method params w with
      | (Diverges, w') => w'
      | (_, w') => issue send_command rest w'
      end
  end.

(** The request ids written to the socket so far, oldest first. *)
Definition ids_issued (w : World) : list Z := map cmd_id (outbox w).

(** [1; 2; ...; n] *)
Definition count_from_one (n : nat) : list Z := map Z.of_nat (seq 1 n).

(** The ids written so far are [1 .. n] and the counter stands at
    [n + 1]. *)
Definition ids_in_step (w : World) : Prop :=
  ids_issued w = count_from_one (List.length (outbox w))
  /\ command_id w = Z.of_nat (List.length (outbox w)) + 1.

(** A queued response that carries an id, and not the id [id]. *)
Definition foreign (id : Z) (response : dict) : bool :=
  match dict_get "id" response with
  | Some rid => negb (py_eq_int rid id)
  | None => false
  end.

(** The response queue without the responses foreign to the command
    that is sent next. *)
Definition drop_foreign (id : Z) (queue : list (Z * dict)) : list (Z * dict) :=
  filter (fun e => negb (foreign id (snd e))) queue.

Definition without_foreign (w : World) : World :=
  set_response_queue (drop_foreign (command_id w) (response_queue w)) w.

(** The exceptions of kk.py's [send_command]. *)
Definition kk_timed_out (method : string) : exn :=
  Exception [FText ("Command timed out: " +++ method)].
Definition kk_command_error (response : dict) : exn :=
  Exception [FText "Command error: "; FVal (dict_get_default "error" JNull response)].

(** What a caller of kk.py's [send_command] gets from the response that
    answers it. *)
Definition kk_deliver (response : dict) : outcome json :=
  match dict_get "id" response with
  | None => Raise (KeyError (JStr "id"))
  | Some _ =>
      if dict_has "error" response then Raise (kk_command_error response)
      else Return (dict_get_default "result" (JObj []) response)
  end.

(** The same for the [send_command] of ooo.py and newww.py. *)
Definition nw_deliver (response : dict) : outcome json :=
  match dict_get "id" response with
  | None => Raise (KeyError (JStr "id"))
  | Some _ =>
      if dict_has "error" response then
        match dict_get_default "error" JNull response with
        | JObj err =>
            Raise (Exception [FText "Browser error: ";
                              FVal (dict_get_default "message" (JObj err) err)])
        | _ => Raise AttributeError
        end
      else Return (dict_get_default "result" (JObj []) response)
  end.

(** The state in which [send_command] starts to wait: counter advanced,
    frame written. *)
Definition sent (method : string) (params : json) (w : World) : World :=
  set_outbox (outbox w ++ [mkCommand (command_id w) method params])
             (set_command_id (command_id w + 1) w).

(** Every queued response has an ["id"] key, as everything the reader
    puts on the response queue has. *)
Definition responses_have_id (w : World) : Prop :=
  Forall (fun e => dict_has "id" (snd e) = true) (response_queue w).

(** Every response in the queue is foreign to [id]. *)
Definition all_foreign (id : Z) (q : list (Z * dict)) : Prop :=
  Forall (fun e => foreign id (snd e) = true) q.


(** Empty polls that the deadline still allows at time [t]. *)
Definition polls_left (start t : Z) : nat :=
  Z.to_nat ((start + KK.timeout - t + 999) / 1000).

(** The first queued response that is not foreign to [id]. *)
Definition first_own (id : Z) (queue : list (Z * dict)) : option (Z * dict) :=
  find (fun e => negb (foreign id (snd e))) queue.

(** A frame that decodes to an object. *)
Definition is_data (f : frame) : bool :=
  match f with FrameData _ => true | _ => false end.

(** No data frame of [inbound] answers the command [id]. *)
Definition no_answer_in (id : Z) (inbound : list (Z * frame)) : Prop :=
  forall t d, In (t, FrameData d) inbound -> foreign id d = true.

(** ** Example sessions *)

(** kk.py: a response to another command arrives 9.5 s after the start,
    the response to command 1 after 10.2 s. *)
Definition kk_late_answer : World :=
  KK.session 0
    [(9500, FrameData [("id", JNum 99); ("result", JObj [])]);
     (10200, FrameData [("id", JNum 1); ("result", JObj [("frameId", JStr "F")])])].

(** kk.py: command 1 is answered after 0.2 s. *)
Definition kk_answered : World :=
  KK.session 0 [(200, FrameData [("id", JNum 1); ("result", JObj [("frameId", JStr "F")])])].

(** The socket closes half a second into the session. *)
Definition closes_while_waiting : list (Z * frame) := [(500, FrameClosed)].

(** newww.py: both commands of [navigate] are answered, and no load
    event ever arrives. *)
Definition nw_never_loads : World :=
  NW.session 0
    [(100, FrameData [("id", JNum 1); ("result", JObj [])]);
     (200, FrameData [("id", JNum 2); ("result", JObj [("frameId", JStr "F")])])].

(** The interaction primitives of ooo.py, and a caller that runs some of
    them one after the other, going on after one that raises. *)
Inductive primitive : Type :=
| Click (selector : string)
| Type_ (selector text : string)
| PressEnter (selector : string).

Definition run_primitive (p : primitive) : M unit :=
  match p with
  | Click selector => OOO.click selector
  | Type_ selector text => OOO.type selector text
  | PressEnter selector => OOO.press_enter selector
  end.

Fixpoint run_primitives (ps : list primitive) (w : World) : World :=
  match ps with
  | [] => w
  | p :: rest =>
      match run_primitive p w with
      | (Diverges, w') => w'
      | (_, w') => run_primitives rest w'
      end
  end.

(** The frame that answers command [id] at time [t] with the value
    [value] of an evaluated script. *)
Definition evaluated (t id : Z) (value : json) : Z * frame :=
  (t, FrameData [("id", JNum id);
                 ("result", JObj [("result", JObj [("type", JStr "object");
                                                   ("value", value)])])]).

(** The frame that answers command [id] at time [t] with an empty
    result. *)
Definition acknowledged (t id : Z) : Z * frame :=
  (t, FrameData [("id", JNum id); ("result", JObj [])]).

(** newww.py on YouTube: [navigate] is answered and the page loads; then,
    for [type], the element is visible (command 3), the script that sets
    the value reports success (4), the value read back is not the text
    typed (5), the alternative selector is visible (6) and its script
    runs (7). *)
Definition nw_youtube_frames : list (Z * frame) :=
  [acknowledged 100 1; acknowledged 200 2;
   (300, FrameData [("method", JStr "Page.loadEventFired"); ("params", JObj [])]);
   evaluated 2400 3 (JBool true);
   evaluated 2500 4 (JBool true);
   evaluated 2600 5 (JStr "hello");
   evaluated 2700 6 (JBool true);
   (2800, FrameData [("id", JNum 7); ("result", JObj [("result", JObj [("type", JStr "undefined")])])])].

Definition nw_on_youtube : World :=
  snd (NW.navigate "https://www.youtube.com/" (NW.session 0 nw_youtube_frames)).

(** The frames that answer [navigate] and report the load. *)
Definition page_loads : list (Z * frame) :=
  [acknowledged 100 1; acknowledged 200 2;
   (300, FrameData [("method", JStr "Page.loadEventFired"); ("params", JObj [])])].

(** ooo.py on a page without the element: after [navigate], the wait of
    [type] sees something visible (command 3), and every later script
    reports [false]. *)
Definition ooo_nothing_typed : World :=
  snd (OOO.navigate "https://example.test"
         (OOO.session 0
            (page_loads ++
             [evaluated 3400 3 (JBool true); evaluated 3500 4 (JBool false);
              evaluated 4100 5 (JBool false); evaluated 4700 6 (JBool false);
              evaluated 4800 7 (JBool false); evaluated 4900 8 (JBool false)]))).

(** newww.py on a page that is not YouTube, where everything works. *)
Definition nw_typed_hello : World :=
  snd (NW.navigate "https://example.test"
         (NW.session 0
            (page_loads ++
             [evaluated 2400 3 (JBool true); evaluated 2500 4 (JBool true);
              evaluated 2600 5 (JStr "hello world")]))).

(** A computation that raises nothing. *)
Definition never_raises {S A} (m : ST S A) : Prop :=
  forall w e, fst (m w) <> Raise e.

(** A page with a search box [#q] (node 1) that belongs to no form, and a
    form (node 2) elsewhere in the document. *)
Definition page_with_unrelated_form : Dom.Page :=
  Dom.mkPage
    (fun selector =>
       if String.eqb selector "#q" then Dom.Found 1%nat
       else if String.eqb selector "form" then Dom.Found 2%nat
       else Dom.Null)
    (fun _ => None)
    None
    0%nat.

(** A page whose search box [#q] (node 1) belongs to the form (node 2). *)
Definition page_with_search_form : Dom.Page :=
  Dom.mkPage
    (fun selector =>
       if String.eqb selector "#q" then Dom.Found 1%nat
       else if String.eqb selector "form" then Dom.Found 2%nat
       else Dom.Null)
    (fun n => if Nat.eqb n 1 then Some 2%nat else None)
    None
    0%nat.

(** The two characters that delimit string literals. *)
Definition is_quote (c : ascii) : bool :=
  Ascii.eqb c JsString.double_quote || Ascii.eqb c JsString.single_quote.

(** [c] is one of the characters of [s]. *)
Definition occurs (c : ascii) (s : string) : Prop := In c (list_ascii_of_string s).

(** [text] contains the character [c]. *)
Definition contains_char (c : ascii) (text : string) : bool :=
  existsb (Ascii.eqb c) (list_ascii_of_string text).

(** The text [say "hi"]. *)
Definition quoted_hi : string := "say " +++ dq +++ "hi" +++ dq.

(** What was consumed by an escape, and what it yielded. *)
Definition escape_step (q : ascii) (rest : string) (v : list N) (r : string) : Prop :=
  exists e y s' v',
    rest = e +++ s'
    /\ (1 <= String.length e)%nat
    /\ (List.length y <= String.length e)%nat
    /\ JsString.string_characters q None s' = Some (v', r)
    /\ v = y ++ v'
    /\ (forall c, is_quote c = true -> occurs c e -> e = String c "" /\ y = [JsString.code c]).

(** A step result is recorded with its outcome: status "success" and no
    error, or status "error" and the exception raised. *)
Definition recorded (sr : OM.step_result) : Prop :=
  (OM.sr_status sr = "success" /\ OM.sr_error sr = None)
  \/ (OM.sr_status sr = "error" /\ exists e, OM.sr_error sr = Some e).

(** ** An example run of kk.py's step loop *)

(** The planner first asks for a click, then reports completion; the
    controller never finds the element to click.  The state is the
    number of planner calls so far and the log. *)
Definition click_step : json :=
  JObj [("action", JStr "click"); ("description", JStr "Click the button");
        ("target", JStr "#go"); ("value", JNull);
        ("remaining_command", JStr ""); ("completed", JBool false)].

Definition done_step : json :=
  JObj [("action", JStr "complete"); ("description", JStr "Done");
        ("target", JNull); ("value", JNull);
        ("remaining_command", JStr ""); ("completed", JBool true)].

Definition demo_env : Type := nat * list logrec.

Definition demo_planner (html : string) (remaining : json) (previous : list json)
  : ST demo_env json :=
  fun env => (Return (match fst env with O => click_step | _ => done_step end),
              (S (fst env), snd env)).

Definition demo_log (l : level) (msg : fstring) (env : demo_env) : demo_env :=
  (fst env, snd env ++ [mkLog l msg]).

Definition demo_handle_command (data : json) : ST demo_env KKRun.reply :=
  KKRun.handle_command
    (ret tt) (ret true) (ret (Some ""))
    demo_planner
    (fun _ => ret tt) (fun _ => ret false) (fun _ _ => ret true) (fun _ => ret true)
    (fun _ => raise TypeError)
    (fun _ env => env)
    demo_log
    5 data.

Definition demo_attempts : ST demo_env bool :=
  KKRun.attempts
    (fun _ => ret tt) (fun _ => ret false) (fun _ _ => ret true) (fun _ => ret true)
    (fun _ => raise TypeError)
    (fun _ env => env)
    demo_log
    3 0 click_step.

(** ** An example run of om.py's step runner *)

(** Two steps on a driver without state; the second one raises. *)
Definition demo_instructions : json :=
  JObj [("steps",
         JArr [JObj [("action", JStr "navigate");
                     ("params", JObj [("url", JStr "https://example.test")])];
               JObj [("action", JStr "click");
                     ("params", JObj [("selector", JStr "#missing")])]])].

Definition demo_perform (step_index : nat) (action params : json) (d : unit)
  : (dict * option exn) * unit :=
  if py_eq_str action "navigate"
  then (([("details", JStr "Navigated to https://example.test")], None), d)
  else (([], Some (Exception [FText "No clickable element found"])), d).

(** Turns of a loop that polls every [period] ms which the limit still
    allows at time [t]. *)
Definition turns_left (period limit start t : Z) : nat :=
  Z.to_nat ((start + limit - t + period - 1) / period).

(** A computation never sets the clock back. *)
Definition advances {A} (m : M A) : Prop :=
  forall w, now w <= now (snd (m w)).

(** A computation that never returns is blocked in a [send_command]
    whose response never comes: the response queue is used up. *)
Definition hangs_only_waiting {A} (c : M A) : Prop :=
  forall w, fst (c w) = Diverges -> response_queue (snd (c w)) = [].

(** Every queued event has a ["method"], as the reader guarantees. *)
Definition events_have_method (w : World) : Prop :=
  Forall (fun e => dict_has "method" (snd e) = true) (event_queue w).

(** The exception of [wait_for_selector] when its time is up. *)
Definition no_visible_element (selector : string) (timeout : Z) : exn :=
  Exception [FText ("No visible element found for selector '" +++ selector
                    +++ "' within ");
             FVal (JNum timeout); FText " seconds"].

(* ================================================================== *)
(** * Python's string methods, on ASCII text                            *)
(* ================================================================== *)

(** The methods of [str] that the drivers use on commands, descriptions
    and model responses.  A string stands for the Python [str] with the
    same characters; the definitions are those of Python for ASCII text
    ([is_ascii]), where upper-case letters are [A-Z] and white space is
    what [str.isspace] accepts below 128. *)
Module PyStr.

Definition is_ascii_char (c : ascii) : bool := (nat_of_ascii c <? 128)%nat.

Fixpoint is_ascii (s : string) : bool :=
  match s with
  | EmptyString => true
  | String c rest => is_ascii_char c && is_ascii rest
  end.

(** [c.isspace()]: tab, line feed, vertical tab, form feed, carriage
    return, the four separators 28 to 31, and the space. *)
Definition isspace (c : ascii) : bool :=
  let n := nat_of_ascii c in
  (((9 <=? n) && (n <=? 13)) || ((28 <=? n) && (n <=? 32)))%nat.

Definition is_empty (s : string) : bool :=
  match s with EmptyString => true | _ => false end.

(** [s.lstrip()] *)
Fixpoint lstrip (s : string) : string :=
  match s with
  | EmptyString => EmptyString
  | String c rest => if isspace c then lstrip rest else s
  end.

(** [s.rstrip()] *)
Fixpoint rstrip (s : string) : string :=
  match s with
  | EmptyString => EmptyString
  | String c rest =>
      let rest' := rstrip rest in
      if is_empty rest' && isspace c then EmptyString else String c rest'
  end.

(** [s.strip()] *)
Definition strip (s : string) : string := rstrip (lstrip s).

(** A string that begins with no white space. *)
Definition starts_clean (s : string) : bool :=
  match s with
  | EmptyString => true
  | String c _ => negb (isspace c)
  end.

(** [s.replace(old, new)] for a non-empty [old]: the occurrences of
    [old] are found from the left and do not overlap.  [skip] counts the
    characters of an occurrence that are still to be passed over. *)
Fixpoint replace_from (skip : nat) (old new : string) (s : string) : string :=
  match s with
  | EmptyString => EmptyString
  | String c rest =>
      match skip with
      | S k => replace_from k old new rest
      | O =>
          if String.prefix old s
          then new +++ replace_from (String.length old - 1) old new rest
          else String c (replace_from 0 old new rest)
      end
  end.

(** [s.replace(old, new)]; with an empty [old], [new] goes before every
    character and at the end. *)
Fixpoint interleave (new : string) (s : string) : string :=
  match s with
  | EmptyString => new
  | String c rest => new +++ String c (interleave new rest)
  end.

Definition replace (old new : string) (s : string) : string :=
  if is_empty old then interleave new s else replace_from 0 old new s.

(** [s.split(sep)] for a non-empty [sep], as the first piece and the
    pieces after it. *)
Fixpoint split_from (skip : nat) (sep : string) (s : string) : string * list string :=
  match s with
  | EmptyString => (EmptyString, [])
  | String c rest =>
      match skip with
      | S k => split_from k sep rest
      | O =>
          if String.prefix sep s
          then (EmptyString,
                let (piece, pieces) := split_from (String.length sep - 1) sep rest in
                piece :: pieces)
          else let (piece, pieces) := split_from 0 sep rest in
               (String c piece, pieces)
      end
  end.

(** [s.split(sep)] for a non-empty [sep] (Python raises [ValueError]
    for an empty one; the separators of the drivers are literals). *)
Definition split (sep : string) (s : string) : list string :=
  let (piece, pieces) := split_from 0 sep s in piece :: pieces.

(** [s.split()]: the maximal runs of characters that are not white
    space. *)
Fixpoint words_from (s : string) : string * list string :=
  match s with
  | EmptyString => (EmptyString, [])
  | String c rest =>
      let (word, more) := words_from rest in
      if isspace c
      then (EmptyString, if is_empty word then more else word :: more)
      else (String c word, more)
  end.

Definition words (s : string) : list string :=
  let (word, more) := words_from s in
  if is_empty word then more else word :: more.

(** [sep.join(pieces)] *)
Fixpoint join (sep : string) (pieces : list string) : string :=
  match pieces with
  | [] => EmptyString
  | [piece] => piece
  | piece :: more => piece +++ sep +++ join sep more
  end.

(** [c] is one of [0-9]. *)
Definition is_digit_char (c : ascii) : bool :=
  let n := nat_of_ascii c in ((48 <=? n) && (n <=? 57))%nat.

Fixpoint all_digits (s : string) : bool :=
  match s with
  | EmptyString => true
  | String c rest => is_digit_char c && all_digits rest
  end.

(** [s.isdigit()]: not empty, and digits only. *)
Definition isdigit (s : string) : bool := negb (is_empty s) && all_digits s.

(** [int(s)] for a string of digits. *)
Fixpoint int_of_digits (acc : Z) (s : string) : Z :=
  match s with
  | EmptyString => acc
  | String c rest => int_of_digits (10 * acc + Z.of_nat (nat_of_ascii c - 48)) rest
  end.

(** [s == s.lower()] character by character: no letter of [A-Z]. *)
Definition is_upper_char (c : ascii) : bool :=
  let n := nat_of_ascii c in ((65 <=? n) && (n <=? 90))%nat.

Fixpoint no_upper (s : string) : bool :=
  match s with
  | EmptyString => true
  | String c rest => negb (is_upper_char c) && no_upper rest
  end.

End PyStr.

(* ================================================================== *)
(** * newww.py: from a command to steps                                 *)
(* ================================================================== *)

Module NWRun.
Import PyStr.

(** A step [{'action': .., 'description': .., 'target': ..}], with a
    ['value'] when there is one. *)
Definition step (action description target : string) (value : option string) : json :=
  JObj ([("action", JStr action); ("description", JStr description);
         ("target", JStr target)]
        ++ match value with Some v => [("value", JStr v)] | None => [] end).

(** [parse_natural_language_command]. *)
Definition parse_natural_language_command (command : string) : list json :=
  let command := strip (lower command) in
  if str_contains "go to" command || str_contains "navigate to" command then
    let url := strip (replace "navigate to" "" (replace "go to" "" command)) in
    [step "navigate" ("Navigate to " +++ url) url None]
  else if str_contains "search for" command then
    let query := strip (replace "search for" "" command) in
    [step "navigate" "Navigate to YouTube" "https://www.youtube.com/" None;
     step "type" ("Type '" +++ query +++ "' into search bar") "search bar" (Some query);
     step "press_enter" "Press Enter to search" "search bar" None]
  else if str_contains "click on" command then
    let target := strip (replace "click on" "" command) in
    [step "click" ("Click on " +++ target) target None]
  else [].

End NWRun.

(* ================================================================== *)
(** * From the model's response to JSON                                 *)
(* ================================================================== *)

(** [l[i]] on a Python list. *)
Definition list_index {S A} (l : list A) (i : nat) : ST S A :=
  match nth_error l i with
  | Some x => ret x
  | None => raise IndexError
  end.

(** The statements with which om.py's [generate_automation_instructions]
    and [generate_extraction_plan] and ooo.py's
    [parse_natural_language_command] take the text between code fences
    out of [response_text]. *)
Definition fenced_json_text {S} (response_text : string) : ST S string :=
  if str_contains "```json" response_text then
    after <- list_index (PyStr.split "```json" response_text) 1 ;;
    inner <- list_index (PyStr.split "```" after) 0 ;;
    ret (PyStr.strip inner)
  else if str_contains "```" response_text then
    after <- list_index (PyStr.split "```" response_text) 1 ;;
    inner <- list_index (PyStr.split "```" after) 0 ;;
    ret (PyStr.strip inner)
  else ret response_text.

(** [json.loads(text)], given the library's function. *)
Definition loads {S} (json_loads : string -> json + exn) (text : string) : ST S json :=
  match json_loads text with
  | inl v => ret v
  | inr e => raise e
  end.

(** [command.lower()]; only a [str] has [lower]. *)
Definition py_lower {S} (v : json) : ST S string :=
  match v with
  | JStr s => ret (lower s)
  | _ => raise AttributeError
  end.

(* ================================================================== *)
(** * om.py: asking the model for instructions                          *)
(* ================================================================== *)

Module OMRun.

Section Generation.
Context {S : Type}.
(** [genai.GenerativeModel(..).generate_content(prompt).text]: the text
    of the model's response, or what the library raises. *)
Variable generate_content : fstring -> ST S string.
Variable json_loads : string -> json + exn.
Variable log : level -> fstring -> S -> S.

Definition automation_prompt (command : json) : fstring :=
  [FText "
        Convert the following natural language command into specific browser automation steps:
        Command: ";
   FVal command;
   FText ("

        Return a JSON object with the following structure:
        {
            " +++ dq +++ "steps" +++ dq +++ ": [
                {
                    " +++ dq +++ "action" +++ dq +++ ": " +++ dq +++ "navigate" +++ dq +++ " | " +++ dq +++ "click" +++ dq +++ " | " +++ dq +++ "type" +++ dq +++ " | " +++ dq +++ "select" +++ dq +++ " | " +++ dq +++ "wait" +++ dq +++ " | " +++ dq +++ "screenshot" +++ dq +++ " | " +++ dq +++ "download" +++ dq +++ " | " +++ dq +++ "extract" +++ dq +++ ",
                    " +++ dq +++ "params" +++ dq +++ ": {
                        // Parameters specific to the action
                    }
                }
            ]
        }

        Important guidelines:
        1. For YouTube commands:
           - Search input: " +++ dq +++ "input#search" +++ dq +++ "
           - Search button: " +++ dq +++ "button#search-icon-legacy" +++ dq +++ "
           - Video results: " +++ dq +++ "a#video-title" +++ dq +++ "
           - Play button: " +++ dq +++ "button.ytp-play-button" +++ dq +++ "
        2. For Google searches:
           - Search input: " +++ dq +++ "input[name='q'], textarea[name='q']" +++ dq +++ "
           - Search results: " +++ dq +++ "div.g a" +++ dq +++ " (general results), " +++ dq +++ "a.sGLxge, a.bRMDJf" +++ dq +++ " (image results)
        3. For music playback:
           - Always include a wait after clicking video to allow loading
           - Add an extra wait step (5000ms) after playing video
        4. For general website interaction:
           - Use " +++ dq +++ "button" +++ dq +++ " selectors when possible for click actions
           - Prefer form input names over generic selectors

        Only return the JSON object, nothing else.
        ")].

(** [generate_automation_instructions]. *)
Definition generate_automation_instructions (command : json) : ST S json :=
  try_except
    (response_text <- generate_content (automation_prompt command) ;;
     response_text <- fenced_json_text response_text ;;
     loads json_loads response_text)
    (fun e =>
       modify (log ERROR [FText "Error generating instructions: "; FExn e]) ;;
       raise e).

Definition extraction_prompt (command : json) : fstring :=
  [FText "
        Convert the following natural language extraction command into a structured extraction plan:
        Command: ";
   FVal command;
   FText ("

        Return a JSON object with the following structure:
        {
            " +++ dq +++ "url" +++ dq +++ ": " +++ dq +++ "website URL to extract from" +++ dq +++ ",
            " +++ dq +++ "selectors" +++ dq +++ ": {
                " +++ dq +++ "data_name1" +++ dq +++ ": " +++ dq +++ "CSS selector for data type 1" +++ dq +++ ",
                " +++ dq +++ "data_name2" +++ dq +++ ": " +++ dq +++ "CSS selector for data type 2" +++ dq +++ ",
                ...
            },
            " +++ dq +++ "description" +++ dq +++ ": " +++ dq +++ "Brief description of what we're extracting" +++ dq +++ "
        }

        Important enhancements:
        1. If the command contains a URL, use it directly
        2. For general " +++ dq +++ "extract details" +++ dq +++ " commands:
           - Include headings, paragraphs, images, and links
           - Use broad selectors to capture comprehensive data
        3. For e-commerce product pages:
           - Include product name, price, description, ratings
        4. For news articles:
           - Include title, author, date, content

        Only return the JSON object, nothing else.
        ")].

(** [generate_extraction_plan]. *)
Definition generate_extraction_plan (command : json) : ST S json :=
  try_except
    (response_text <- generate_content (extraction_prompt command) ;;
     response_text <- fenced_json_text response_text ;;
     loads json_loads response_text)
    (fun e =>
       modify (log ERROR [FText "Error generating extraction plan: "; FExn e]) ;;
       raise e).

End Generation.
End OMRun.

(* ================================================================== *)
(** * ooo.py: from a command to steps                                   *)
(* ================================================================== *)

Module OOORun.

(** [generate_youtube_selectors]. *)
Definition generate_youtube_selectors (step_description : string) : option string :=
  if str_contains "search" (lower step_description) then
    Some "input#search, input[name='search_query']"
  else if str_contains "click" (lower step_description)
          && str_contains "video" (lower step_description) then
    Some "ytd-video-renderer, .ytd-video-renderer, a.yt-simple-endpoint, #video-title"
  else if str_contains "play" (lower step_description) then
    Some ".ytp-play-button, button.ytp-play-button, .html5-video-player"
  else None.

(** A step of the plan: [{"action": .., "description": .., "target": ..,
    "value": ..}]. *)
Definition step (action description : string) (target value : json) : json :=
  JObj [("action", JStr action); ("description", JStr description);
        ("target", target); ("value", value)].

(** The steps that [parse_natural_language_command] falls back on. *)
Definition fallback_steps (search_term : string) : json :=
  JArr [step "navigate" "Navigate to YouTube homepage"
             (JStr "https://www.youtube.com/") JNull;
        step "click" "Click on the search input field" (JStr "search field") JNull;
        step "type" "Type search term in the search field" (JStr "search field")
             (JStr search_term);
        step "press_enter" "Press Enter to submit the search" (JStr "search field") JNull;
        step "wait" "Wait for search results to load" JNull (JNum 3);
        step "click" "Click on the first video in search results"
             (JStr "first video thumbnail") JNull].

Section Planner.
Variable generate_content : fstring -> M string.
Variable json_loads : string -> json + exn.

Definition parse_prompt (command : json) : fstring :=
  [FText ("
        Break down this browser automation command into sequential steps:

        " +++ dq);
   FVal command;
   FText (dq +++ "

        Return a JSON array of steps, where each step has:
        1. " +++ dq +++ "action" +++ dq +++ ": The action to perform (navigate, search, click, type, wait, press_enter)
        2. " +++ dq +++ "description" +++ dq +++ ": A detailed description of what to do
        3. " +++ dq +++ "target" +++ dq +++ ": The target website or element (if applicable)
        4. " +++ dq +++ "value" +++ dq +++ ": Any value to input (if applicable)

        Example:
        For " +++ dq +++ "open YouTube and search for angry prash and play the first video" +++ dq +++ ":

        [
            {
                " +++ dq +++ "action" +++ dq +++ ": " +++ dq +++ "navigate" +++ dq +++ ",
                " +++ dq +++ "description" +++ dq +++ ": " +++ dq +++ "Navigate to YouTube homepage" +++ dq +++ ",
                " +++ dq +++ "target" +++ dq +++ ": " +++ dq +++ "https://www.youtube.com/" +++ dq +++ ",
                " +++ dq +++ "value" +++ dq +++ ": null
            },
            {
                " +++ dq +++ "action" +++ dq +++ ": " +++ dq +++ "click" +++ dq +++ ",
                " +++ dq +++ "description" +++ dq +++ ": " +++ dq +++ "Click on the search input field" +++ dq +++ ",
                " +++ dq +++ "target" +++ dq +++ ": " +++ dq +++ "search field" +++ dq +++ ",
                " +++ dq +++ "value" +++ dq +++ ": null
            },
            {
                " +++ dq +++ "action" +++ dq +++ ": " +++ dq +++ "type" +++ dq +++ ",
                " +++ dq +++ "description" +++ dq +++ ": " +++ dq +++ "Type 'angry prash' in the search field" +++ dq +++ ",
                " +++ dq +++ "target" +++ dq +++ ": " +++ dq +++ "search field" +++ dq +++ ",
                " +++ dq +++ "value" +++ dq +++ ": " +++ dq +++ "angry prash" +++ dq +++ "
            },
            {
                " +++ dq +++ "action" +++ dq +++ ": " +++ dq +++ "press_enter" +++ dq +++ ",
                " +++ dq +++ "description" +++ dq +++ ": " +++ dq +++ "Press Enter to submit the search" +++ dq +++ ",
                " +++ dq +++ "target" +++ dq +++ ": " +++ dq +++ "search field" +++ dq +++ ",
                " +++ dq +++ "value" +++ dq +++ ": null
            },
            {
                " +++ dq +++ "action" +++ dq +++ ": " +++ dq +++ "wait" +++ dq +++ ",
                " +++ dq +++ "description" +++ dq +++ ": " +++ dq +++ "Wait for search results to load" +++ dq +++ ",
                " +++ dq +++ "target" +++ dq +++ ": null,
                " +++ dq +++ "value" +++ dq +++ ": 2
            },
            {
                " +++ dq +++ "action" +++ dq +++ ": " +++ dq +++ "click" +++ dq +++ ",
                " +++ dq +++ "description" +++ dq +++ ": " +++ dq +++ "Click on the first video in search results" +++ dq +++ ",
                " +++ dq +++ "target" +++ dq +++ ": " +++ dq +++ "first video thumbnail" +++ dq +++ ",
                " +++ dq +++ "value" +++ dq +++ ": null
            }
        ]

        Return ONLY valid JSON, no additional text.
        ")].

(** The search term of the fallback:
    [command.lower().split("search for")[1].split("and")[0].strip()]. *)
Definition fallback_search_term (command : json) : M string :=
  lowered <- py_lower command ;;
  if str_contains "search for" lowered then
    lowered <- py_lower command ;;
    after <- list_index (PyStr.split "search for" lowered) 1 ;;
    term <- list_index (PyStr.split "and" after) 0 ;;
    ret (PyStr.strip term)
  else ret "example video".

(** [parse_natural_language_command]. *)
Definition parse_natural_language_command (command : json) : M json :=
  try_except
    (response_text <- generate_content (parse_prompt command) ;;
     response_text <- fenced_json_text response_text ;;
     loads json_loads response_text)
    (fun e =>
       log ERROR [FText "Error parsing command: "; FExn e] ;;
       lowered <- py_lower command ;;
       mentions <- (if str_contains "youtube" lowered
                    then lowered <- py_lower command ;;
                         ret (str_contains "search" lowered)
                    else ret false) ;;
       if mentions : bool then
         search_term <- fallback_search_term command ;;
         ret (fallback_steps search_term)
       else raise e).

End Planner.
End OOORun.

(* ================================================================== *)
(** * kk.py: asking the model for the next step                         *)
(* ================================================================== *)

Module KKPlan.

(** [re.sub(r'```json|```', '', text)]: every fence, with the word
    [json] if it follows, is taken out, from the left.  [skip] counts the
    characters of a match that are still to be passed over. *)
Fixpoint re_sub_fences_from (skip : nat) (text : string) : string :=
  match text with
  | EmptyString => EmptyString
  | String c rest =>
      match skip with
      | S k => re_sub_fences_from k rest
      | O =>
          if String.prefix "```json" text then re_sub_fences_from 6 rest
          else if String.prefix "```" text then re_sub_fences_from 2 rest
          else String c (re_sub_fences_from 0 rest)
      end
  end.

Definition re_sub_fences (text : string) : string := re_sub_fences_from 0 text.

Section Planner.
Context {S : Type}.
Variable generate_content : fstring -> ST S string.
Variable json_loads : string -> json + exn.
(** [json.dumps(v, indent=2)] *)
Variable json_dumps : json -> string.

Definition parse_prompt (current_html : string) (remaining_command : json)
           (previous_actions : list json) : fstring :=
  [FText "
    Given the current web page state and user command, determine the next action.

    Previous actions:
    ";
   (match previous_actions with
    | [] => FText "None"
    | _ => FText (json_dumps (JArr previous_actions))
    end);
   FText ("

    Remaining command: " +++ dq);
   FVal remaining_command;
   FText (dq +++ "

    Current page HTML (important elements only):
    ");
   FText (substring 0 (15 * 1000) current_html);
   FText ("

    Response format:
    {
        " +++ dq +++ "action" +++ dq +++ ": " +++ dq +++ "navigate|click|type|press_enter|wait|complete" +++ dq +++ ",
        " +++ dq +++ "description" +++ dq +++ ": " +++ dq +++ "Step description" +++ dq +++ ",
        " +++ dq +++ "target" +++ dq +++ ": " +++ dq +++ "URL or selector" +++ dq +++ ",
        " +++ dq +++ "value" +++ dq +++ ": " +++ dq +++ "Input text or seconds" +++ dq +++ ",
        " +++ dq +++ "remaining_command" +++ dq +++ ": " +++ dq +++ "Updated remaining command text" +++ dq +++ ",
        " +++ dq +++ "completed" +++ dq +++ ": boolean
    }

    Rules:
    1. If page needs navigation, use " +++ dq +++ "navigate" +++ dq +++ "
    2. For interactive elements, use precise CSS selectors
    3. For search results, select first relevant element
    4. Mark " +++ dq +++ "completed" +++ dq +++ ": true when command is fulfilled
    5. Update remaining_command by removing completed parts
    6. For Google search, use " +++ dq +++ "input[name='q']" +++ dq +++ " as the selector for the search box

    Examples:
    1. For initial command " +++ dq +++ "search google for ai tools" +++ dq +++ ":
    {
        " +++ dq +++ "action" +++ dq +++ ": " +++ dq +++ "navigate" +++ dq +++ ",
        " +++ dq +++ "description" +++ dq +++ ": " +++ dq +++ "Go to Google" +++ dq +++ ",
        " +++ dq +++ "target" +++ dq +++ ": " +++ dq +++ "https://google.com" +++ dq +++ ",
        " +++ dq +++ "value" +++ dq +++ ": null,
        " +++ dq +++ "remaining_command" +++ dq +++ ": " +++ dq +++ "search for ai tools" +++ dq +++ ",
        " +++ dq +++ "completed" +++ dq +++ ": false
    }

    2. On Google's homepage with remaining command " +++ dq +++ "search for ai tools" +++ dq +++ ":
    {
        " +++ dq +++ "action" +++ dq +++ ": " +++ dq +++ "type" +++ dq +++ ",
        " +++ dq +++ "description" +++ dq +++ ": " +++ dq +++ "Enter search term" +++ dq +++ ",
        " +++ dq +++ "target" +++ dq +++ ": " +++ dq +++ "input[name='q']" +++ dq +++ ",
        " +++ dq +++ "value" +++ dq +++ ": " +++ dq +++ "ai tools" +++ dq +++ ",
        " +++ dq +++ "remaining_command" +++ dq +++ ": " +++ dq +++ "submit search" +++ dq +++ ",
        " +++ dq +++ "completed" +++ dq +++ ": false
    }
    ")].

(** [parse_command]. *)
Definition parse_command (current_html : string) (remaining_command : json)
           (previous_actions : list json) : ST S json :=
  response_text <- generate_content
                     (parse_prompt current_html remaining_command previous_actions) ;;
  let cleaned := PyStr.strip (re_sub_fences response_text) in
  loads json_loads cleaned.

End Planner.
End KKPlan.

(** The character of code fences. *)
Definition backtick : ascii := "`"%char.

(** The model's response [pre ```json body ``` post]. *)
Definition json_fenced (pre body post : string) : string :=
  pre +++ "```json" +++ body +++ "```" +++ post.

(** The model's response [pre ``` body ``` post]. *)
Definition plain_fenced (pre body post : string) : string :=
  pre +++ "```" +++ body +++ "```" +++ post.

(* ================================================================== *)
(** * kk.py: clicking, typing and pressing Enter                        *)
(* ================================================================== *)

Module KKCtl.

(** [BrowserController.execute_js]. *)
Definition execute_js (script : string) : M json :=
  result <- KK.send_command "Runtime.evaluate"
              (JObj [("expression", JStr script);
                     ("returnByValue", JBool true);
                     ("awaitPromise", JBool true)]) ;;
  inner <- py_get result "result" (JObj []) ;;
  py_get inner "value" JNull.

Definition click_exists_script (selector : string) : string :=
  "
            !!document.querySelector('" +++ selector +++ "')
        ".
Definition click_scroll_script (selector : string) : string :=
  "
            document.querySelector('" +++ selector +++ "').scrollIntoView({
                behavior: 'smooth',
                block: 'center'
            });
        ".
Definition find_inputs_script : string :=
  "
            console.log('Available input elements:');
            document.querySelectorAll('input').forEach((el, i) => {
                console.log(`Input ${i}:`, el.outerHTML);
            });
        ".
Definition type_focus_script (selector : string) : string :=
  "
                    const el = document.querySelector('" +++ selector +++ "');
                    if (el) {
                        el.focus();
                        el.value = '';
                        return true;
                    }
                    return false;
                ".
Definition type_focus_script_else (selector : string) : string :=
  "
                const el = document.querySelector('" +++ selector +++ "');
                if (el) {
                    el.focus();
                    el.value = '';
                    return true;
                }
                return false;
            ".
Definition type_events_script (selector : string) : string :=
  "
            const el = document.querySelector('" +++ selector +++ "');
            el.dispatchEvent(new Event('input', { bubbles: true }));
            el.dispatchEvent(new Event('change', { bubbles: true }));
        ".

(** The script of [find_better_selector]'s loop. *)
Definition find_exists_script (selector : string) : string :=
  "return !!document.querySelector('" +++ selector +++ "')".

(** The [for selector in potential_selectors] loop of
    [find_better_selector]; [otherwise] is the code after it. *)
Fixpoint find_alternative (potential_selectors : list string) (failed_selector : string)
         (otherwise : M json) : M json :=
  match potential_selectors with
  | [] => otherwise
  | selector :: rest =>
      exists_ <- execute_js (find_exists_script selector) ;;
      if truthy exists_ then
        log INFO [FText ("Found alternative selector: " +++ selector +++ " instead of "
                         +++ failed_selector)] ;;
        ret (JStr selector)
      else find_alternative rest failed_selector otherwise
  end.

(** [BrowserController.find_better_selector]. *)
Definition find_better_selector (failed_selector : string) : M json :=
  let log_inputs := execute_js find_inputs_script ;; ret JNull in
  if str_contains "q" failed_selector then
    find_alternative
      ["input[name='q']"; "input[type='text']"; "input[title='Search']"; "input.gLFyf";
       "input[aria-label='Search']"; ".search-box"; "#search-form input";
       "form input[type='text']"]
      failed_selector log_inputs
  else log_inputs.

(** The parameters of [Input.dispatchMouseEvent]. *)
Definition mouse_event (type : string) (x y : json) : json :=
  JObj [("type", JStr type); ("x", x); ("y", y);
        ("button", JStr "left"); ("clickCount", JNum 1)].

(** [BrowserController.click_element]. *)
Definition click_element (selector : string) : M bool :=
  element_exists <- execute_js (click_exists_script selector) ;;
  if negb (truthy element_exists) then
    log ERROR [FText ("Element not found: " +++ selector)] ;;
    find_better_selector selector ;;
    ret false
  else
    node_id_result <- KK.send_command "DOM.querySelector"
                        (JObj [("nodeId", JNum 1); ("selector", JStr selector)]) ;;
    has_id <- py_in "nodeId" node_id_result ;;
    no_node <- (if negb has_id then ret true
                else node_id <- py_getitem node_id_result "nodeId" ;;
                     ret (py_eq_int node_id 0)) ;;
    if no_node : bool then
      log ERROR [FText ("Could not get nodeId for: " +++ selector)] ;;
      ret false
    else
      node_id <- py_getitem node_id_result "nodeId" ;;
      box_model <- KK.send_command "DOM.getBoxModel" (JObj [("nodeId", node_id)]) ;;
      has_model <- py_in "model" box_model ;;
      if negb has_model then
        log ERROR [FText ("Could not get box model for: " +++ selector)] ;;
        ret false
      else
        model <- py_getitem box_model "model" ;;
        content <- py_getitem model "content" ;;
        c0 <- py_index content 0 ;;
        c2 <- py_index content 2 ;;
        x <- py_midpoint c0 c2 ;;
        c1 <- py_index content 1 ;;
        c5 <- py_index content 5 ;;
        y <- py_midpoint c1 c5 ;;
        execute_js (click_scroll_script selector) ;;
        sleep 1000 ;;
        KK.send_command "Input.dispatchMouseEvent" (mouse_event "mousePressed" x y) ;;
        KK.send_command "Input.dispatchMouseEvent" (mouse_event "mouseReleased" x y) ;;
        sleep 2000 ;;
        log INFO [FText ("Clicked element: " +++ selector)] ;;
        ret true.

(** The [for potential_selector in potential_selectors] loop of
    [type_text]: what [element_exists] and [selector] are after it. *)
Fixpoint type_text_find (potential_selectors : list string) (selector : string)
         (element_exists : json) : M (json * string) :=
  match potential_selectors with
  | [] => ret (element_exists, selector)
  | potential_selector :: rest =>
      element_exists <- execute_js (type_focus_script potential_selector) ;;
      if truthy element_exists then
        log INFO [FText ("Found element with selector: " +++ potential_selector)] ;;
        ret (element_exists, potential_selector)
      else type_text_find rest selector element_exists
  end.

(** The [for char in text] loop of [type_text]. *)
Fixpoint type_text_chars (text : string) : M unit :=
  match text with
  | EmptyString => ret tt
  | String char rest =>
      KK.send_command "Input.insertText"
        (JObj [("text", JStr (String char EmptyString))]) ;;
      sleep 50 ;;
      type_text_chars rest
  end.

(** [BrowserController.type_text]. *)
Definition type_text (selector text : string) : M bool :=
  found <- (if String.eqb selector "textarea[name='q']" then
              type_text_find
                ["textarea[name='q']"; "input[name='q']"; "input[title='Search']";
                 "input.gLFyf"; "input[aria-label='Search']"]
                selector JNull
            else
              element_exists <- execute_js (type_focus_script_else selector) ;;
              ret (element_exists, selector)) ;;
  let (element_exists, selector) := found : json * string in
  if negb (truthy element_exists) then
    log WARNING [FText ("Element not found for typing with selector: " +++ selector)] ;;
    log INFO [FText "Trying alternative typing method..."] ;;
    success <- execute_js (KK.type_text_fallback_script text) ;;
    if truthy success then
      log INFO [FText ("Typed text using alternative method: " +++ text)] ;;
      ret true
    else
      log ERROR [FText "Failed to find any input element for typing"] ;;
      ret false
  else
    type_text_chars text ;;
    execute_js (type_events_script selector) ;;
    log INFO [FText ("Typed text: " +++ text)] ;;
    ret true.

End KKCtl.

(** The commands written to the socket between two states, as method
    and parameters. *)
Definition written (w w' : World) : list (string * json) :=
  map (fun c => (cmd_method c, cmd_params c))
      (skipn (List.length (outbox w)) (outbox w')).

(** Every command that a computation writes to the socket satisfies
    [P]. *)
Definition sends (P : string * json -> Prop) {A} (m : M A) : Prop :=
  forall w, exists l,
    outbox (snd (m w)) = outbox w ++ l
    /\ Forall P (map (fun c => (cmd_method c, cmd_params c)) l).

(** The parameters of the [Runtime.evaluate] of kk.py's [execute_js]. *)
Definition evaluate_js (script : string) : string * json :=
  ("Runtime.evaluate",
   JObj [("expression", JStr script); ("returnByValue", JBool true);
         ("awaitPromise", JBool true)]).

(** The [Input.insertText] commands that type [text]. *)
Definition insert_texts (text : string) : list (string * json) :=
  map (fun c => ("Input.insertText", JObj [("text", JStr (String c EmptyString))]))
      (list_ascii_of_string text).

(** What a computation does, from any state: it ends with an outcome,
    having written some commands and let some time pass, which [Q]
    relates. *)
Definition traces {A} (m : M A) (Q : outcome A -> list (string * json) -> Z -> Prop)
  : Prop :=
  forall w,
    (exists l, outbox (snd (m w)) = outbox w ++ l)
    /\ Q (fst (m w)) (written w (snd (m w))) (now (snd (m w)) - now w).

(** The commands of a click that [click_element] carries through. *)
Definition click_calls (selector : string) (node_id x y : json) : list (string * json) :=
  [evaluate_js (KKCtl.click_exists_script selector);
   ("DOM.querySelector", JObj [("nodeId", JNum 1); ("selector", JStr selector)]);
   ("DOM.getBoxModel", JObj [("nodeId", node_id)]);
   evaluate_js (KKCtl.click_scroll_script selector);
   ("Input.dispatchMouseEvent", KKCtl.mouse_event "mousePressed" x y);
   ("Input.dispatchMouseEvent", KKCtl.mouse_event "mouseReleased" x y)].

(** A command that is a script to evaluate. *)
Definition is_evaluate (c : string * json) : Prop := fst c = "Runtime.evaluate".

(* ================================================================== *)
(** * om.py: the steps and the extraction over a Selenium driver        *)
(* ================================================================== *)

(** [d[k] = v] on a dict: the value of a key that is there is replaced
    where it stands, a new key goes to the end. *)
Fixpoint dict_set {V} (k : string) (v : V) (d : list (string * V)) : list (string * V) :=
  match d with
  | [] => [(k, v)]
  | (k', v') :: d' =>
      if String.eqb k k' then (k, v) :: d' else (k', v') :: dict_set k v d'
  end.

(** [seen = set(); [x for x in data_items if not (x in seen or seen.add(x))]],
    from a set [seen] on. *)
Fixpoint remove_duplicates_from (seen : list string) (data_items : list string)
  : list string :=
  match data_items with
  | [] => []
  | x :: rest =>
      if existsb (String.eqb x) seen
      then remove_duplicates_from seen rest
      else x :: remove_duplicates_from (x :: seen) rest
  end.

Definition remove_duplicates (data_items : list string) : list string :=
  remove_duplicates_from [] data_items.

(** The driver, the files and the network are the state [D] of the
    world outside the program; every call of them returns or raises (the
    waits of Selenium have timeouts).  The text of a script that holds
    characters outside ASCII is its UTF-8 encoding. *)
Module OMSteps.

(** How [WebDriverWait(driver, seconds).until(..)] for an element ends. *)
Inductive waited (A : Type) : Type :=
| Located (a : A)
| TimedOut                                   (* TimeoutException *)
| Failed (e : exn).
Arguments Located {A} a.
Arguments TimedOut {A}.
Arguments Failed {A} e.

(** The two expected conditions that om.py waits for. *)
Inductive expected : Type :=
| element_to_be_clickable
| visibility_of_element_located.

(** What [execute_extraction] returns: the dict with the status
    ["success"], or the one with the status ["error"]. *)
Inductive extraction : Type :=
| Extracted (description url : json) (data : list (string * list string))
            (screenshot : string)
| ExtractionError (message : fstring).

Section Selenium.

Context {D Element Response : Type}.
Variable log : level -> fstring -> D -> D.
(** [repr(v)]; [str(v)] of a value that is no [str] is its [repr]. *)
Variable repr : json -> string.
(** The exception of a wait that ran out. *)
Variable TimeoutException : exn.
(** [webdriver.Chrome(..)], with its options and its service. *)
Variable start_chrome : D -> (unit + exn) * D.
(** [driver.execute_script(js)] *)
Variable execute_script : string -> D -> (json + exn) * D.
(** [driver.get(url)] *)
Variable driver_get : json -> D -> (unit + exn) * D.
(** [WebDriverWait(driver, 20).until(lambda d:
    d.execute_script("return document.readyState") == "complete")] *)
Variable wait_ready : D -> (unit + exn) * D.
(** [WebDriverWait(driver, seconds).until(cond((By.CSS_SELECTOR, selector)))] *)
Variable until : expected -> Z -> json -> D -> waited Element * D.
(** [driver.find_elements(By.CSS_SELECTOR, selector)] *)
Variable find_elements : json -> D -> (list Element + exn) * D.
(** [element.click()], [element.clear()], [element.send_keys(text)],
    [element.send_keys(Keys.RETURN)] *)
Variable click : Element -> D -> (unit + exn) * D.
Variable clear : Element -> D -> (unit + exn) * D.
Variable send_keys : Element -> json -> D -> (unit + exn) * D.
Variable send_return : Element -> D -> (unit + exn) * D.
(** [element.text] and [element.get_attribute(name)], a [str] or [None] *)
Variable element_text : Element -> D -> (string + exn) * D.
Variable get_attribute : Element -> string -> D -> (option string + exn) * D.
(** [time.sleep(ms / 1000)] *)
Variable time_sleep : json -> D -> (unit + exn) * D.
(** [driver.save_screenshot(filename)] *)
Variable save_screenshot : json -> D -> (unit + exn) * D.
(** [with open(filename, "rb") as image_file:
    base64.b64encode(image_file.read()).decode('utf-8')] *)
Variable read_base64 : json -> D -> (string + exn) * D.
(** [requests.get(img_src)], the response's [status_code], [with
    open(filename, 'wb') as f: f.write(response.content)] and
    [base64.b64encode(response.content).decode('utf-8')] *)
Variable requests_get : string -> D -> (Response + exn) * D.
Variable status_code : Response -> Z.
Variable write_content : json -> Response -> D -> (unit + exn) * D.
Variable content_base64 : Response -> string.

(** A call of the world outside, in the monad. *)
Definition call {A} (f : D -> (A + exn) * D) : ST D A :=
  fun d => match f d with
           | (inl a, d') => (Return a, d')
           | (inr e, d') => (Raise e, d')
           end.

(** [str(v)] *)
Definition str (v : json) : string :=
  match v with
  | JStr s => s
  | _ => repr v
  end.

(** ** [get_dynamic_selector] *)

Definition js_base : string :=
  "
    function getSelector(element) {
        if (element.id) return '#' + element.id;
        if (element === document.body) return element.tagName.toLowerCase();
        var ix = 0;
        var siblings = element.parentNode.childNodes;
        for (var i = 0; i < siblings.length; i++) {
            var sibling = siblings[i];
            if (sibling === element) {
                return getSelector(element.parentNode) + ' > ' + element.tagName.toLowerCase() + ':nth-child(' + (ix + 1) + ')';
            }
            if (sibling.nodeType === 1 && sibling.tagName === element.tagName) {
                ix++;
            }
        }
    }
    ".

Definition type_script (text word : string) : string :=
  js_base +++ "
        var elements = document.querySelectorAll('input, textarea');
        for (var el of elements) {
            if (el.type !== 'hidden' && el.offsetParent !== null) {
                if ('" +++ text +++ "' && (el.placeholder.toLowerCase().includes('" +++ word +++ "') || el.name.toLowerCase().includes('search'))) {
                    return getSelector(el);
                }
                return getSelector(el); // Fallback to first visible input
            }
        }
        return null;
        ".

Definition click_script (text word : string) : string :=
  js_base +++ "
        var elements = document.querySelectorAll('button, a, [role=" +++ dq +++ "button" +++ dq +++ "]');
        for (var el of elements) {
            if (el.offsetParent !== null) {
                if ('" +++ text +++ "' && el.innerText.toLowerCase().includes('" +++ word +++ "')) {
                    return getSelector(el);
                }
                return getSelector(el); // Fallback to first clickable
            }
        }
        return null;
        ".

Definition headline_script : string :=
  js_base +++ "
            var elements = document.querySelectorAll('h1, h2, h3');
            for (var el of elements) {
                if (el.offsetParent !== null && el.innerText.trim()) {
                    return getSelector(el);
                }
            }
            return null;
            ".

Definition price_script : string :=
  js_base +++ "
            var elements = document.querySelectorAll('span, div');
            for (var el of elements) {
                if (el.offsetParent !== null && el.innerText.match(/[0-9]+\.?[0-9]*\s*[\$€£]/)) {
                    return getSelector(el);
                }
            }
            return null;
            ".

Definition generic_script : string :=
  js_base +++ "
            var elements = document.querySelectorAll('p, span, div');
            for (var el of elements) {
                if (el.offsetParent !== null && el.innerText.trim()) {
                    return getSelector(el);
                }
            }
            return null;
            ".

(** [get_dynamic_selector(driver, action, params, data_name)]; the
    arguments left out are [None]. *)
Definition get_dynamic_selector (action params data_name : json) : ST D json :=
  js_script <-
    (if py_eq_str action "type" then
       text <- (v <- py_get params "text" (JStr "") ;; py_lower v) ;;
       word <- (if str_contains "search" text then ret "search"
                else list_index (PyStr.words text) 0) ;;
       ret (Some (type_script text word))
     else if py_eq_str action "click" then
       text <- (v <- py_get params "text" (JStr "") ;; py_lower v) ;;
       word <- (if negb (PyStr.is_empty text) then list_index (PyStr.words text) 0
                else ret "") ;;
       ret (Some (click_script text word))
     else if truthy data_name then
       data_name_lower <- py_lower data_name ;;
       if str_contains "headline" data_name_lower || str_contains "title" data_name_lower
       then ret (Some headline_script)
       else if str_contains "price" data_name_lower then ret (Some price_script)
       else ret (Some generic_script)
     else ret None) ;;
  match js_script with
  | None => ret JNull
  | Some js =>
      try_except (call (execute_script js))
        (fun e =>
           modify (log ERROR [FText "Dynamic selector error: "; FExn e]) ;;
           ret JNull)
  end.

(** ** What is read off the elements *)

(** [[e.text.strip() for e in elements if e.text.strip()]]: the text of
    an element is read for the test and, when the test holds, again for
    the value. *)
Fixpoint texts_of (elements : list Element) : ST D (list string) :=
  match elements with
  | [] => ret []
  | e :: rest =>
      text <- call (element_text e) ;;
      if negb (PyStr.is_empty (PyStr.strip text)) then
        text <- call (element_text e) ;;
        more <- texts_of rest ;;
        ret (PyStr.strip text :: more)
      else texts_of rest
  end.

(** A [str] that is not empty. *)
Definition some_text (v : option string) : bool :=
  match v with
  | Some s => negb (PyStr.is_empty s)
  | None => false
  end.

(** [e.get_attribute('src') or e.get_attribute('href') or
    e.get_attribute('alt') or e.get_attribute('title')] *)
Definition first_attribute (e : Element) : ST D (option string) :=
  src <- call (get_attribute e "src") ;;
  if some_text src then ret src else
  href <- call (get_attribute e "href") ;;
  if some_text href then ret href else
  alt <- call (get_attribute e "alt") ;;
  if some_text alt then ret alt else
  call (get_attribute e "title").

(** [selector.split(',')]; only a [str] has [split]. *)
Definition py_split_commas {S} (selector : json) : ST S (list string) :=
  match selector with
  | JStr s => ret (PyStr.split "," s)
  | _ => raise AttributeError
  end.

(** [[s.strip() for s in selector.split(',')]] *)
Definition stripped_selectors {S} (selector : json) : ST S (list string) :=
  pieces <- py_split_commas selector ;;
  ret (map PyStr.strip pieces).

(** [WebDriverWait(..).until(..)] where no [TimeoutException] is caught. *)
Definition wait_until (cond : expected) (seconds : Z) (selector : json) : ST D Element :=
  fun d => match until cond seconds selector d with
           | (Located element, d') => (Return element, d')
           | (TimedOut, d') => (Raise TimeoutException, d')
           | (Failed e, d') => (Raise e, d')
           end.

(** [for selector in selectors: try: element = WebDriverWait(..).until(..);
    break; except TimeoutException: continue] *)
Fixpoint first_located (cond : expected) (seconds : Z) (selectors : list string)
  : ST D (option Element) :=
  match selectors with
  | [] => ret None
  | selector :: rest =>
      fun d => match until cond seconds (JStr selector) d with
               | (Located element, d') => (Return (Some element), d')
               | (TimedOut, d') => first_located cond seconds rest d'
               | (Failed e, d') => (Raise e, d')
               end
  end.

(** ** The body of a step of [execute_browser_automation] *)

(** The body runs on [step_result]'s keys beside ["action"] and
    ["status"], and on the world. *)
Definition on_driver {A} (m : ST D A) : ST (dict * D) A :=
  fun s => let (o, d') := m (snd s) in (o, (fst s, d')).

(** [step_result[k] = v] *)
Definition set_field (k : string) (v : json) : ST (dict * D) unit :=
  modify (fun s => (dict_set k v (fst s), snd s)).

(** [step_result["details"] += text] *)
Definition add_to_details (text : string) : ST (dict * D) unit :=
  s <- get_world ;;
  details <- py_getitem (JObj (fst s)) "details" ;;
  match details with
  | JStr old => set_field "details" (JStr (old +++ text))
  | _ => raise TypeError
  end.

(** The element of the [click] and [type] branches: the first of the
    selectors that is located within 5 s, and else the one that
    [get_dynamic_selector] names; with the selector to report. *)
Definition locate (cond : expected) (action : string) (none_found : string)
           (params selector : json) (selectors : list string)
  : ST D (Element * json) :=
  element <- first_located cond 5 selectors ;;
  match element with
  | Some element => ret (element, selector)
  | None =>
      dynamic_selector <- get_dynamic_selector (JStr action) params JNull ;;
      if truthy dynamic_selector then
        element <- wait_until cond 5 dynamic_selector ;;
        ret (element, dynamic_selector)
      else raise (Exception [FText none_found])
  end.

(** [[e.get_attribute('src') or .. or e.get_attribute('title') or
    "Element found but no text or common attributes" for e in elements]] *)
Fixpoint attributes_or_note (elements : list Element) : ST D (list json) :=
  match elements with
  | [] => ret []
  | e :: rest =>
      value <- first_attribute e ;;
      more <- attributes_or_note rest ;;
      ret (JStr (match value with
                 | Some s =>
                     if PyStr.is_empty s
                     then "Element found but no text or common attributes"
                     else s
                 | None => "Element found but no text or common attributes"
                 end) :: more)
  end.

(** The [extract] branch's loop over the selectors. *)
Fixpoint extract_selectors (selectors : list string) (extracted_data : dict)
  : ST D dict :=
  match selectors with
  | [] => ret extracted_data
  | selector :: rest =>
      let selector := PyStr.strip selector in
      elements <- call (find_elements (JStr selector)) ;;
      extracted_data <-
        (match elements with
         | [] => ret extracted_data
         | _ =>
             texts <- texts_of elements ;;
             match texts with
             | [] =>
                 values <- attributes_or_note elements ;;
                 ret (dict_set selector (JArr values) extracted_data)
             | _ => ret (dict_set selector (JArr (map JStr texts)) extracted_data)
             end
         end) ;;
      extract_selectors rest extracted_data
  end.

(** The statements of the step's [try], up to the append to
    [results["steps_results"]]. *)
Definition step_body (step_index : nat) (action params : json) : ST (dict * D) unit :=
  let index := repr (JNum (Z.of_nat step_index)) in
  if py_eq_str action "navigate" then
    url <- py_getitem params "url" ;;
    on_driver (call (driver_get url)) ;;
    on_driver (call wait_ready) ;;
    set_field "details" (JStr ("Navigated to " +++ str url))
  else if py_eq_str action "click" then
    selector <- py_getitem params "selector" ;;
    selectors <- stripped_selectors selector ;;
    found <- on_driver (locate element_to_be_clickable "click"
                          "No clickable element found" params selector selectors) ;;
    on_driver (call (click (fst found))) ;;
    set_field "details" (JStr ("Clicked element with selector: " +++ str (snd found)))
  else if py_eq_str action "type" then
    selector <- py_getitem params "selector" ;;
    selectors <- stripped_selectors selector ;;
    text <- py_getitem params "text" ;;
    found <- on_driver (locate visibility_of_element_located "type"
                          "No input element found" params selector selectors) ;;
    on_driver (call (clear (fst found))) ;;
    on_driver (call (send_keys (fst found) text)) ;;
    set_field "details"
      (JStr ("Typed '" +++ str text +++ "' into element with selector: "
             +++ str (snd found))) ;;
    press_enter <- py_get params "press_enter" (JBool false) ;;
    if truthy press_enter then
      on_driver (call (send_return (fst found))) ;;
      on_driver (call wait_ready) ;;
      add_to_details " and pressed Enter"
    else ret tt
  else if py_eq_str action "wait" then
    has_time <- py_in "time" params ;;
    if has_time then
      time <- py_getitem params "time" ;;
      on_driver (call (time_sleep time)) ;;
      set_field "details" (JStr ("Waited for " +++ str time +++ "ms"))
    else
      has_selector <- py_in "selector" params ;;
      if has_selector then
        selector <- py_getitem params "selector" ;;
        on_driver (wait_until visibility_of_element_located 20 selector) ;;
        set_field "details" (JStr ("Waited for element with selector: " +++ str selector))
      else ret tt
  else if py_eq_str action "screenshot" then
    filename <- py_get params "filename" (JStr ("screenshot_" +++ index +++ ".png")) ;;
    on_driver (call (save_screenshot filename)) ;;
    set_field "details" (JStr ("Took screenshot and saved as " +++ str filename)) ;;
    encoded_string <- on_driver (call (read_base64 filename)) ;;
    set_field "image" (JStr encoded_string)
  else if py_eq_str action "download" then
    selector <- py_getitem params "selector" ;;
    selectors <- stripped_selectors selector ;;
    element <- on_driver (first_located visibility_of_element_located 20 selectors) ;;
    match element with
    | Some element =>
        img_src <- on_driver (call (get_attribute element "src")) ;;
        match img_src with
        | Some src =>
            if negb (PyStr.is_empty src) then
              filename <- py_get params "filename"
                            (JStr ("downloaded_image_" +++ index +++ ".jpg")) ;;
              response <- on_driver (call (requests_get src)) ;;
              if status_code response =? 200 then
                on_driver (call (write_content filename response)) ;;
                set_field "image" (JStr (content_base64 response)) ;;
                set_field "details"
                  (JStr ("Downloaded image and saved as " +++ str filename))
              else raise (Exception [FText "Failed to download image: HTTP ";
                                     FVal (JNum (status_code response))])
            else raise (Exception [FText "Image source not found"])
        | None => raise (Exception [FText "Image source not found"])
        end
    | None =>
        raise (Exception [FText "Download failed for selectors: "; FVal selector])
    end
  else if py_eq_str action "extract" then
    selector <- py_get params "selector" (JStr "") ;;
    selectors <- py_split_commas selector ;;
    data_name <- py_get params "data_name" (JStr ("extracted_data_" +++ index)) ;;
    extracted_data <- on_driver (extract_selectors selectors []) ;;
    selector <- py_getitem params "selector" ;;
    set_field "details" (JStr ("Extracted data using selectors: " +++ str selector)) ;;
    match data_name with
    | JArr _ | JObj _ => raise TypeError            (* unhashable *)
    | _ => set_field "extracted_data" (JObj [(str data_name, JObj extracted_data)])
    end
  else ret tt.

(** The body as [OM.execute_browser_automation] takes it: the keys that
    it set, and the exception that it raised, if any.  No call of the
    world diverges, and so the body returns or raises. *)
Definition perform (step_index : nat) (action params : json) (d : D)
  : (dict * option exn) * D :=
  match step_body step_index action params ([], d) with
  | (Raise e, (fields, d')) => ((fields, Some e), d')
  | (_, (fields, d')) => ((fields, None), d')
  end.

(** The screenshot at the end of [execute_browser_automation]:
    [driver.save_screenshot("final_state.png")] and the base64 text of
    the file. *)
Definition take_final_screenshot (d : D) : string + exn :=
  match save_screenshot (JStr "final_state.png") d with
  | (inl _, d') =>
      match read_base64 (JStr "final_state.png") d' with
      | (inl screenshot_base64, _) => inl screenshot_base64
      | (inr e, _) => inr e
      end
  | (inr e, _) => inr e
  end.

(** ** [execute_extraction] *)

(** The data of one name: the texts, or else the attributes, of the
    elements of each selector in turn. *)
Fixpoint attributes_of (elements : list Element) : ST D (list string) :=
  match elements with
  | [] => ret []
  | element :: rest =>
      attr_value <- first_attribute element ;;
      more <- attributes_of rest ;;
      ret (match attr_value with
           | Some s => if PyStr.is_empty s then more else s :: more
           | None => more
           end)
  end.

Fixpoint collect (selector_list : list string) (data_items : list string)
  : ST D (list string) :=
  match selector_list with
  | [] => ret data_items
  | single_selector :: rest =>
      elements <- call (find_elements (JStr single_selector)) ;;
      data_items <-
        (match elements with
         | [] => ret data_items
         | _ =>
             texts <- texts_of elements ;;
             match texts with
             | [] => found <- attributes_of elements ;; ret (data_items ++ found)
             | _ => ret (data_items ++ texts)
             end
         end) ;;
      collect rest data_items
  end.

(** The body of [for data_name, selector in selectors.items()]. *)
Definition extract_item (data_name : string) (selector : json) : ST D (list string) :=
  selector_list <- stripped_selectors selector ;;
  data_items <- collect selector_list [] ;;
  data_items <-
    (match data_items with
     | [] =>
         dynamic_selector <- get_dynamic_selector JNull JNull (JStr data_name) ;;
         if truthy dynamic_selector then
           elements <- call (find_elements dynamic_selector) ;;
           texts <- texts_of elements ;;
           match texts with
           | [] => found <- attributes_of elements ;; ret (data_items ++ found)
           | _ => ret (data_items ++ texts)
           end
         else ret data_items
     | _ => ret data_items
     end) ;;
  ret (remove_duplicates data_items).

Fixpoint extract_items (items : list (string * json))
         (extracted_data : list (string * list string))
  : ST D (list (string * list string)) :=
  match items with
  | [] => ret extracted_data
  | (data_name, selector) :: rest =>
      found <- extract_item data_name selector ;;
      extract_items rest (dict_set data_name found extracted_data)
  end.

(** [selectors.items()]; only a dict has [items]. *)
Definition py_dict_items {S} (v : json) : ST S (list (string * json)) :=
  match v with
  | JObj kv => ret kv
  | _ => raise AttributeError
  end.

(** The statements of [execute_extraction]'s [try] after the driver is
    started. *)
Definition extraction_body (extraction_plan : json) : ST D extraction :=
  url <- py_get extraction_plan "url" JNull ;;
  selectors <- py_get extraction_plan "selectors" (JObj []) ;;
  description <- py_get extraction_plan "description" (JStr "Data extraction") ;;
  modify (log INFO [FText "Executing extraction: "; FVal description;
                    FText " from "; FVal url]) ;;
  call (driver_get url) ;;
  call wait_ready ;;
  call (time_sleep (JNum 3000)) ;;
  items <- py_dict_items selectors ;;
  extracted_data <- extract_items items [] ;;
  call (save_screenshot (JStr "extraction_verification.png")) ;;
  screenshot_base64 <- call (read_base64 (JStr "extraction_verification.png")) ;;
  ret (Extracted description url extracted_data screenshot_base64).

(** [except Exception as e] of [execute_extraction]. *)
Definition extraction_failed (e : exn) : ST D extraction :=
  modify (log ERROR [FText "Extraction error: "; FExn e]) ;;
  ret (ExtractionError [FExn e]).

(** [execute_extraction(extraction_plan, browser_type)].  The [finally]
    logs only when [driver] was set. *)
Definition execute_extraction (extraction_plan browser_type : json) : ST D extraction :=
  started <-
    try_except
      (browser <- py_lower browser_type ;;
       if String.eqb browser "chrome" then
         call start_chrome ;;
         ret None
       else ret (Some (ExtractionError [FText "Unsupported browser type"])))
      (fun e => result <- extraction_failed e ;; ret (Some result)) ;;
  match started with
  | Some result => ret result
  | None =>
      result <- try_except (extraction_body extraction_plan) extraction_failed ;;
      modify (log INFO [FText "Browser remains open with extracted data"]) ;;
      ret result
  end.

End Selenium.
End OMSteps.

(** A computation that returns or raises. *)
Definition ends {S A} (m : ST S A) : Prop :=
  forall w, fst (m w) <> Diverges.

(** White space only. *)
Fixpoint blank (s : string) : bool :=
  match s with
  | EmptyString => true
  | String c rest => PyStr.isspace c && blank rest
  end.

Section SelectorScript.
Context {D : Type}.
Variable log : level -> fstring -> D -> D.
Variable execute_script : string -> D -> (json + exn) * D.

(** What [get_dynamic_selector] does once it has its script: the
    script's value, or [None] and a record in the log. *)
Definition run_selector_script (js : string) (d : D) : outcome json * D :=
  match execute_script js d with
  | (inl selector, d') => (Return selector, d')
  | (inr e, d') =>
      (Return JNull, log ERROR [FText "Dynamic selector error: "; FExn e] d')
  end.

End SelectorScript.

(** A computation that returns. *)
Definition returns {S A} (m : ST S A) : Prop :=
  forall w, exists a, fst (m w) = Return a.

(** The actions that a step of om.py's [execute_browser_automation] has
    a branch for. *)
Definition known_action (action : json) : bool :=
  existsb (py_eq_str action)
    ["navigate"; "click"; "type"; "wait"; "screenshot"; "download"; "extract"].

(** [step.get('action')] of a step that is a dict. *)
Definition action_of (step : json) : json :=
  match step with
  | JObj kv => dict_get_default "action" JNull kv
  | _ => JNull
  end.

(** ** An example world for om.py *)

(** A page with a button [#go] and two headings [h1] of the same text;
    the world is the list of the calls made of it, the latest last. *)
Module OMDemo.

Definition World : Type := list string.

Definition done {A} (name : string) (a : A) : World -> (A + exn) * World :=
  fun d => (inl a, d ++ [name]).

Definition log (l : level) (msg : fstring) (d : World) : World := d ++ ["log"].
Definition repr (v : json) : string := "..".
Definition TimeoutException : exn := Exception [FText "Message: "].
Definition start_chrome := done "Chrome" tt.
Definition execute_script (js : string) := done "execute_script" JNull.
Definition driver_get (url : json) := done "get" tt.
Definition wait_ready := done "until ready" tt.
Definition until (cond : OMSteps.expected) (seconds : Z) (selector : json) (d : World)
  : OMSteps.waited nat * World :=
  (if py_eq_str selector "#go" then OMSteps.Located 1%nat else OMSteps.TimedOut,
   d ++ ["until"]).
Definition find_elements (selector : json) :=
  done "find_elements" (if py_eq_str selector "h1" then [1; 2]%nat else []).
Definition click (e : nat) := done "click" tt.
Definition clear (e : nat) := done "clear" tt.
Definition send_keys (e : nat) (text : json) := done "send_keys" tt.
Definition send_return (e : nat) := done "send_keys" tt.
Definition element_text (e : nat) := done "text" " News ".
Definition get_attribute (e : nat) (name : string) := done "get_attribute" (@None string).
Definition time_sleep (ms : json) := done "sleep" tt.
Definition save_screenshot (filename : json) := done "save_screenshot" tt.
Definition read_base64 (filename : json) := done "open" "aGk=".
Definition requests_get (src : string) := done "requests.get" tt.
Definition status_code (response : unit) : Z := 200.
Definition write_content (filename : json) (response : unit) := done "write" tt.
Definition content_base64 (response : unit) : string := "aGk=".

Definition get_dynamic_selector := OMSteps.get_dynamic_selector log execute_script.

Definition perform :=
  OMSteps.perform log repr TimeoutException execute_script driver_get wait_ready
    until find_elements click clear send_keys send_return element_text get_attribute
    time_sleep save_screenshot read_base64 requests_get status_code write_content
    content_base64.

Definition take_final_screenshot := OMSteps.take_final_screenshot save_screenshot read_base64.

Definition execute_extraction :=
  OMSteps.execute_extraction log start_chrome execute_script driver_get wait_ready
    find_elements element_text get_attribute time_sleep save_screenshot read_base64.

End OMDemo.

(* ================================================================== *)
(** * newww.py: the rest of the controller, and the run of a command    *)
(* ================================================================== *)

(** [str(v)] of a value that is a [str] or [None], and the value as it
    goes into an f-string. *)
Definition text_of (v : option string) : string :=
  match v with Some s => s | None => "None" end.
Definition value_of (v : option string) : json :=
  match v with Some s => JStr s | None => JNull end.

Module NWCtl.

Definition click_script (selector : string) : string :=
  "
                try {
                    var elements = document.querySelectorAll(" +++ dq +++ selector +++ dq +++ ");
                    for (var i = 0; i < elements.length; i++) {
                        var style = window.getComputedStyle(elements[i]);
                        if (style.display !== " +++ dq +++ "none" +++ dq +++ " && style.visibility !== " +++ dq +++ "hidden" +++ dq +++ ") {
                            elements[i].scrollIntoView({behavior: " +++ dq +++ "smooth" +++ dq +++ ", block: " +++ dq +++ "center" +++ dq +++ "});
                            elements[i].click();
                            return true;
                        }
                    }
                    return false;
                } catch (e) {
                    console.error(" +++ dq +++ "Error in click:" +++ dq +++ ", e);
                    return false;
                }
            ".

Definition press_enter_script (selector : string) : string :=
  "
                try {
                    var element = document.querySelector(" +++ dq +++ selector +++ dq +++ ");
                    if (element) {
                        element.dispatchEvent(new KeyboardEvent(" +++ dq +++ "keydown" +++ dq +++ ", {
                            key: " +++ dq +++ "Enter" +++ dq +++ ",
                            code: " +++ dq +++ "Enter" +++ dq +++ ",
                            keyCode: 13,
                            which: 13,
                            bubbles: true
                        }));
                        return true;
                    }
                    return false;
                } catch (e) {
                    console.error(" +++ dq +++ "Error in press_enter:" +++ dq +++ ", e);
                    return false;
                }
            ".

Definition press_enter_youtube_script : string :=
  "
                    var btn = document.querySelector(" +++ dq +++ "#search-icon-legacy" +++ dq +++ ") || 
                              document.querySelector(" +++ dq +++ "button[aria-label='Search']" +++ dq +++ ");
                    if (btn) btn.click();
                ".

(** The script of [click]'s handler on YouTube. *)
Definition click_alt_script (alt_selector : string) : string :=
  "document.querySelector(" +++ dq +++ alt_selector +++ dq +++ ").click();".

(** The script of [wait_for_element_change]. *)
Definition element_exists_script (selector : string) : string :=
  "return !!document.querySelector(" +++ dq +++ selector +++ dq +++ ")".

(** The [for alt_selector in alt_selectors] loop of [click]'s handler;
    when the list is used up the handler goes on to its bare [raise]. *)
Fixpoint click_alt_selectors (alt_selectors : list string) (e : exn) : M json :=
  match alt_selectors with
  | [] => raise e
  | alt_selector :: rest =>
      try_except
        (NW.wait_for_selector alt_selector 20 ;;
         NW.execute_script (click_alt_script alt_selector) ;;
         sleep 1000 ;;
         ret (JBool true))
        (fun _ => click_alt_selectors rest e)          (* except Exception: continue *)
  end.

(** [BrowserController.click]. *)
Definition click (selector : string) : M json :=
  try_except
    (NW.wait_for_selector selector 20 ;;
     result <- NW.execute_script (click_script selector) ;;
     if negb (truthy result) then
       raise (Exception [FText ("No visible element to click for selector '"
                                +++ selector +++ "'")])
     else
       sleep 1000 ;;
       NW.execute_script "return window.location.href" ;;
       ret (JBool true))
    (fun e =>
       log ERROR [FText ("Error clicking element with selector '" +++ selector +++ "': ");
                  FExn e] ;;
       yt <- on_youtube ;;
       if yt then
         click_alt_selectors ["ytd-video-renderer a#thumbnail"; "button[aria-label='Search']"] e
       else raise e).

(** [new_url == original_url], where [original_url] is
    [self.current_url]. *)
Definition same_url (new_url : json) (original_url : option string) : bool :=
  match original_url with
  | Some url => py_eq_str new_url url
  | None => match new_url with JNull => true | _ => false end
  end.

(** [BrowserController.press_enter]. *)
Definition press_enter (selector : string) : M json :=
  try_except
    (NW.wait_for_selector selector 20 ;;
     w <- get_world ;;
     let original_url := current_url w in
     result <- NW.execute_script (press_enter_script selector) ;;
     if negb (truthy result) then
       raise (Exception [FText ("No element to press Enter on for selector '"
                                +++ selector +++ "'")])
     else
       sleep 2000 ;;
       new_url <- NW.execute_script "return window.location.href" ;;
       (if same_url new_url original_url then
          yt <- on_youtube ;;
          if yt then NW.execute_script press_enter_youtube_script ;; ret tt
          else ret tt
        else ret tt) ;;
       ret (JBool true))
    (fun e =>
       log ERROR [FText ("Error pressing Enter on selector '" +++ selector +++ "': ");
                  FExn e] ;;
       raise e).

(** [BrowserController.wait_for_element_change]; [timeout] is in
    seconds.  As in [wait_for_selector], two turns per second of the
    timeout, and one more, are enough. *)
Definition wait_for_element_change (selector : string) (timeout : Z) : M json :=
  w <- get_world ;;
  let start_time := now w in
  while_loop (S (Z.to_nat (2 * timeout)))
    (fun w => now w - start_time <? timeout * 1000)
    (result <- NW.execute_script (element_exists_script selector) ;;
     if truthy result then ret (Break (JBool true))
     else sleep 500 ;; ret Continue)
    (ret (JBool false)).

(** [controller.type(selector, value)] for the [value] of a step, a
    [str] or [None]: [None] is typed as its [str], and is never equal to
    what is read back. *)
Definition type_value (selector : string) (value : option string) : M json :=
  match value with
  | Some text => NW.type selector text
  | None =>
      try_except
        (NW.type_set_value selector "None" ;;
         entered_text <- NW.execute_script (NW.type_readback_script selector) ;;
         raise (Exception [FText "Typed text 'None' not found in element; got '";
                           FVal entered_text; FText "'"]))
        (fun e =>
           log ERROR [FText ("Error typing in element with selector '" +++ selector
                             +++ "': ");
                      FExn e] ;;
           yt <- on_youtube ;;
           if yt then
             NW.type_alt_selectors ["input#search"; "input[name='search_query']"] "None" e
           else raise e)
  end.

Section Html.

(** [str(soup)] of [BeautifulSoup(html, 'html.parser')] with the
    scripts, styles, images and comments taken out, or what the library
    raises. *)
Variable clean_html : json -> string + exn.

(** [BrowserController.get_current_html]. *)
Definition get_current_html : M (option string) :=
  result <- NW.send_command "Runtime.evaluate"
              (JObj [("expression", JStr "document.documentElement.outerHTML")]) ;;
  has_result <- py_in "result" result ;;
  if has_result then
    inner <- py_getitem result "result" ;;
    has_value <- py_in "value" inner ;;
    if has_value then
      html <- py_getitem inner "value" ;;
      match clean_html html with
      | inl text => ret (Some text)
      | inr e => raise e
      end
    else ret None
  else ret None.

End Html.
End NWCtl.

Module NWExec.

(** The dict that [execute_natural_language_command] returns. *)
Record result : Type := mkResult { status : string; message : fstring }.

(** [step.get(key)] of a step that [parse_natural_language_command]
    made: its values are strings, and a key that it has not reads as
    [None]. *)
Definition step_get (step : json) (key : string) : option string :=
  match step with
  | JObj kv => match dict_get key kv with
               | Some (JStr s) => Some s
               | _ => None
               end
  | _ => None
  end.

(** [v == s] for a [str] or [None]. *)
Definition is_text (v : option string) (s : string) : bool :=
  match v with Some t => String.eqb t s | None => false end.

(** [v.lower()]; [None] has no [lower]. *)
Definition lower_of (v : option string) : M string :=
  match v with Some s => ret (lower s) | None => raise AttributeError end.

(** [int(value) if value and str(value).isdigit() else 2] *)
Definition wait_time (value : option string) : Z :=
  match value with
  | Some v => if PyStr.isdigit v then PyStr.int_of_digits 0 v else 2
  | None => 2
  end.

Section Orchestrator.

(** [controller.start_browser()], [controller.connect()] and
    [controller.close()]: the process, the HTTP request and the socket. *)
Variable start_browser : M unit.
Variable connect : M unit.
Variable close : M unit.
(** [genai.GenerativeModel('gemini-pro').generate_content(prompt).text] *)
Variable generate_content : fstring -> M string.
Variable clean_html : json -> string + exn.

(** [generate_selectors_from_html(html, instruction)] *)
Definition generate_selectors_from_html (html : option string) (instruction : fstring)
  : M (option string) :=
  try_except
    (text <- generate_content
               ([FText "Given the following HTML:

"; FVal (value_of html); FText "

"] ++ instruction ++ [FText ", provide a CSS selector."]) ;;
     ret (Some (PyStr.strip text)))
    (fun e =>
       log ERROR [FText "Error generating selector: "; FExn e] ;;
       ret None).

(** The selector of a [type] or [press_enter] step: the model's, or on
    YouTube, for a description with [word], the fixed one. *)
Definition choose_selector (selector : option string) (description : option string)
           (word fixed : string) : M (option string) :=
  yt <- on_youtube ;;
  if yt then
    lowered <- lower_of description ;;
    if str_contains word lowered then ret (Some fixed) else ret selector
  else ret selector.

(** The body of [for i, step in enumerate(steps)]. *)
Definition run_step (i : nat) (step : json) : M unit :=
  let action := step_get step "action" in
  let description := step_get step "description" in
  let target := step_get step "target" in
  let value := step_get step "value" in
  let number := JNum (Z.of_nat i + 1) in
  if is_text action "navigate" then
    (match target with
     | Some t =>
         if negb (PyStr.is_empty t)
            && (String.prefix "http://" t || String.prefix "https://" t)
         then NW.navigate t
         else if negb (PyStr.is_empty t) && str_contains "youtube" (lower t)
         then NW.navigate "https://www.youtube.com/"
         else if negb (PyStr.is_empty t) && str_contains "google" (lower t)
         then NW.navigate "https://www.google.com/"
         else NW.navigate ("https://" +++ t)
     | None => NW.navigate "https://None"
     end) ;;
    NWCtl.get_current_html clean_html ;;
    w <- get_world ;;
    match current_url w with
    | Some url =>
        if negb (PyStr.is_empty url) then
          log INFO [FText "Step "; FVal number; FText ": "; FVal (value_of description);
                    FText " - Navigated to "; FVal (JStr url)]
        else ret tt
    | None => ret tt
    end
  else if is_text action "type" then
    html <- NWCtl.get_current_html clean_html ;;
    selector <- generate_selectors_from_html html
                  [FText "find an input field for "; FVal (value_of target)] ;;
    selector <- choose_selector selector description "search"
                  "input#search, input[name='search_query']" ;;
    NWCtl.type_value (text_of selector) value ;;
    log INFO [FText "Step "; FVal number; FText ": "; FVal (value_of description);
              FText " - Typed '"; FVal (value_of value); FText "' into selector '";
              FVal (value_of selector); FText "'"]
  else if is_text action "click" then
    html <- NWCtl.get_current_html clean_html ;;
    selector <- generate_selectors_from_html html
                  [FText "click on "; FVal (value_of target)] ;;
    selector <- choose_selector selector description "video"
                  "ytd-video-renderer a#thumbnail" ;;
    NWCtl.click (text_of selector) ;;
    log INFO [FText "Step "; FVal number; FText ": "; FVal (value_of description);
              FText " - Clicked selector '"; FVal (value_of selector); FText "'"]
  else if is_text action "press_enter" then
    html <- NWCtl.get_current_html clean_html ;;
    selector <- generate_selectors_from_html html
                  [FText "find the element to press Enter on for "; FVal (value_of target)] ;;
    selector <- choose_selector selector description "search"
                  "input#search, input[name='search_query']" ;;
    NWCtl.press_enter (text_of selector) ;;
    yt <- on_youtube ;;
    (if yt then NWCtl.wait_for_element_change "ytd-video-renderer" 10 ;; ret tt
     else ret tt) ;;
    log INFO [FText "Step "; FVal number; FText ": "; FVal (value_of description);
              FText " - Pressed Enter on selector '"; FVal (value_of selector); FText "'"]
  else if is_text action "wait" then
    sleep (wait_time value * 1000) ;;
    log INFO [FText "Step "; FVal number; FText ": "; FVal (value_of description);
              FText " - Waited for "; FVal (JNum (wait_time value)); FText " seconds"]
  else ret tt.

Fixpoint run_steps (i : nat) (steps : list json) : M unit :=
  match steps with
  | [] => ret tt
  | step :: rest => run_step i step ;; run_steps (S i) rest
  end.

(** [parse_natural_language_command(command)]; only a [str] has
    [lower]. *)
Definition parse (command : json) : M (list json) :=
  match command with
  | JStr c => ret (NWRun.parse_natural_language_command c)
  | _ => raise AttributeError
  end.

(** [BrowserController(browser_type)]: a new controller, whose
    [command_id] is 1 and whose [current_url] is [None]; the
    [ValueError] of another browser is kept by its text. *)
Definition new_controller (browser_type : json) : M unit :=
  browser <- py_lower browser_type ;;
  if String.eqb browser "chrome" || String.eqb browser "firefox" then
    modify (fun w => set_current_url None (set_command_id 1 w))
  else raise (Exception [FText "Only Chrome and Firefox are supported"]).

(** [execute_natural_language_command(command, browser_type)].  The
    [try] catches all that its body raises, and so the [finally] comes
    after a [return]. *)
Definition execute_natural_language_command (command browser_type : json) : M result :=
  new_controller browser_type ;;
  returned <-
    try_except
      (start_browser ;;
       connect ;;
       steps <- parse command ;;
       run_steps 0 steps ;;
       ret (mkResult "success" [FText "Successfully executed command: "; FVal command]))
      (fun e =>
         log ERROR [FText "Error executing command: "; FExn e] ;;
         ret (mkResult "error" [FExn e])) ;;
  close ;;
  ret returned.

(** The route [/execute]: the HTTP status and the body; [data] is
    [request.get_json()]. *)
Definition execute_command (data : json) : M (Z * result) :=
  no_command <- (if negb (truthy data) then ret true
                 else has <- py_in "command" data ;; ret (negb has)) ;;
  if no_command : bool then ret (400, mkResult "error" [FText "No command provided"])
  else
    command <- py_getitem data "command" ;;
    browser_type <- py_get data "browser_type" (JStr "chrome") ;;
    returned <- execute_natural_language_command command browser_type ;;
    ret (200, returned).

End Orchestrator.
End NWExec.

(** A call of a library leaves the controller's url and what it has
    written alone. *)
Definition leaves_controller {A} (m : M A) : Prop :=
  keeps current_url m /\ keeps outbox m.

(** The command with which [get_current_html] reads the page. *)
Definition is_html_read (c : command) : Prop :=
  cmd_method c = "Runtime.evaluate"
  /\ cmd_params c = JObj [("expression", JStr "document.documentElement.outerHTML")].

(** ** An example run of newww.py *)

(** A browser that is started and connected at once and answers the
    first command with a page; the model answers every prompt with
    [#login]. *)
Module NWDemo.

Definition page_read : World :=
  NW.session 0
    [(100, FrameData [("id", JNum 1);
                      ("result", JObj [("result", JObj [("value", JStr "<html></html>")])])])].

Definition execute_natural_language_command :=
  NWExec.execute_natural_language_command (ret tt) (ret tt) (ret tt)
    (fun _ => ret "#login") (fun _ => inl "<html></html>").

Definition execute_command :=
  NWExec.execute_command (ret tt) (ret tt) (ret tt)
    (fun _ => ret "#login") (fun _ => inl "<html></html>").

End NWDemo.

(** The [Runtime.evaluate] of newww.py's [execute_script]. *)
Definition runs (script : string) : string * json :=
  ("Runtime.evaluate", JObj [("expression", JStr script)]).

(* ================================================================== *)
(** * ooo.py: the rest of the controller, and the run of a command      *)
(* ================================================================== *)

Module OOOCtl.

Section Html.

Variable clean_html : json -> string + exn.

(** [BrowserController.get_current_html]; [clean_html] is [str(soup)]
    of the page parsed by BeautifulSoup, with the scripts, styles, images
    and comments taken out. *)
Definition get_current_html : M (option string) :=
  result <- OOO.send_command "Runtime.evaluate"
              (JObj [("expression", JStr "document.documentElement.outerHTML")]) ;;
  has_result <- py_in "result" result ;;
  if has_result then
    inner <- py_getitem result "result" ;;
    has_value <- py_in "value" inner ;;
    if has_value then
      html <- py_getitem inner "value" ;;
      match clean_html html with
      | inl text => ret (Some text)
      | inr e => raise e
      end
    else ret None
  else ret None.

End Html.

Section Close.

(** [self.ws] and [self.process] are set; [self.ws.close()],
    [self.process.terminate()], [self.process.poll() is None] and
    [self.process.kill()]. *)
Variable has_ws : M bool.
Variable has_process : M bool.
Variable ws_close : M unit.
Variable terminate : M unit.
Variable still_running : M bool.
Variable kill : M unit.

(** [BrowserController.close]. *)
Definition close : M unit :=
  ws <- has_ws ;;
  (if ws : bool then
     try_except ws_close
       (fun e => log ERROR [FText "Error closing WebSocket: "; FExn e])
   else ret tt) ;;
  process <- has_process ;;
  if process : bool then
    try_except
      (terminate ;;
       sleep 1000 ;;
       running <- still_running ;;
       if running : bool then kill else ret tt)
      (fun e => log ERROR [FText "Error closing browser process: "; FExn e])
  else ret tt.

End Close.

Section TypeValue.

(** [repr(v)], for the [str] of a value that is no [str]. *)
Variable repr : json -> string.

(** [str(v)] *)
Definition str (v : json) : string :=
  match v with
  | JStr s => s
  | _ => repr v
  end.

(** The [for char in text] loop of [type] over the items of a value
    that is no [str]. *)
Fixpoint type_items (selector : string) (items : list json) : M unit :=
  match items with
  | [] => ret tt
  | char :: rest =>
      OOO.execute_script (OOO.type_char_script selector (str char)) ;;
      sleep 50 ;;
      type_items selector rest
  end.

(** [controller.type(selector, value)] for any value of a step: the
    text of the scripts is [str(value)], and the loop goes over the
    value, or fails on one that cannot be iterated. *)
Definition type_value (selector : string) (value : json) : M unit :=
  match value with
  | JStr text => OOO.type selector text
  | _ =>
      try_except
        (OOO.wait_for_selector selector 20 ;;
         OOO.execute_script (OOO.type_focus_script selector) ;;
         sleep 500 ;;
         OOO.execute_script (OOO.type_clear_script selector) ;;
         sleep 500 ;;
         items <- py_iter value ;;
         type_items selector items ;;
         OOO.execute_script (OOO.type_final_script selector) ;;
         ret tt)
        (fun e =>
           log ERROR [FText ("Error typing in element with selector '" +++ selector
                             +++ "': ");
                      FExn e] ;;
           yt <- on_youtube ;;
           if yt then
             OOO.type_alt_selectors
               ["input#search"; "input[name='search_query']"; "#search-input input";
                "input[aria-label='Search']"] (str value)
           else ret tt)
  end.

End TypeValue.
End OOOCtl.

Module OOOExec.

(** The dict that [execute_natural_language_command] returns. *)
Record result : Type := mkResult { status : string; message : fstring }.

(** [int(value) if value and isinstance(value, (int, float, str)) and
    str(value).isdigit() else 3]: the [str] of an int is digits only
    when the int is not negative, that of a float or of a bool never. *)
Definition wait_time (value : json) : Z :=
  match value with
  | JNum n => if 0 <? n then n else 3
  | JStr s => if PyStr.isdigit s then PyStr.int_of_digits 0 s else 3
  | _ => 3
  end.

(** [generate_youtube_selectors(description)]; only a [str] has
    [lower]. *)
Definition youtube_selectors (description : json) : M (option string) :=
  match description with
  | JStr d => ret (OOORun.generate_youtube_selectors d)
  | _ => raise AttributeError
  end.

Section Orchestrator.

Variable start_browser : M unit.
Variable connect : M unit.
Variable close : M unit.
Variable generate_content : fstring -> M string.
Variable json_loads : string -> json + exn.
Variable clean_html : json -> string + exn.
Variable repr : json -> string.

(** The selector of a [click] step. *)
Definition click_selector (description : json) : M string :=
  yt <- on_youtube ;;
  if yt then
    lowered <- py_lower description ;;
    if str_contains "video" lowered then ret "ytd-video-renderer, #video-title"
    else if str_contains "search" lowered then ret "input#search, input[name='search_query']"
    else if str_contains "play" lowered then ret ".ytp-play-button, button.ytp-play-button"
    else
      selector <- youtube_selectors description ;;
      ret (match selector with
           | Some s => s
           | None => "button, a, [role='button']"
           end)
  else
    OOOCtl.get_current_html clean_html ;;
    ret "button, a, [role='button']".

(** The selector of a [type] or a [press_enter] step. *)
Definition input_selector : M string :=
  yt <- on_youtube ;;
  if yt then ret "input#search, input[name='search_query']"
  else
    OOOCtl.get_current_html clean_html ;;
    ret "input, textarea".

(** The body of [for i, step in enumerate(steps)]. *)
Definition run_step (i : nat) (step : json) : M unit :=
  action <- py_get step "action" JNull ;;
  description <- py_get step "description" JNull ;;
  target <- py_get step "target" JNull ;;
  value <- py_get step "value" JNull ;;
  log INFO [FText "Step "; FVal (JNum (Z.of_nat i + 1)); FText ": "; FVal description] ;;
  if py_eq_str action "navigate" then
    (match target with
     | JStr t =>
         if negb (PyStr.is_empty t)
            && (String.prefix "http://" t || String.prefix "https://" t)
         then OOO.navigate t
         else if negb (PyStr.is_empty t) && str_contains "youtube" (lower t)
         then OOO.navigate "https://www.youtube.com/"
         else if negb (PyStr.is_empty t) && str_contains "google" (lower t)
         then OOO.navigate "https://www.google.com/"
         else OOO.navigate ("https://" +++ t)
     | _ => OOO.navigate ("https://" +++ OOOCtl.str repr target)
     end) ;;
    w <- get_world ;;
    log INFO [FText "Navigated to "; FVal (value_of (current_url w))]
  else if py_eq_str action "search"
          || (py_eq_str action "type" && truthy target
              && str_contains "search" (lower (OOOCtl.str repr target))) then
    search_selector <-
      (yt <- on_youtube ;;
       if yt then ret "input#search, input[name='search_query']"
       else
         OOOCtl.get_current_html clean_html ;;
         selector <- youtube_selectors description ;;
         ret (match selector with
              | Some s => s
              | None => "input[type='search'], input[name*='search'], input[placeholder*='Search']"
              end)) ;;
    log INFO [FText ("Using search selector: " +++ search_selector)] ;;
    OOO.click search_selector ;;
    OOOCtl.type_value repr search_selector value ;;
    OOO.press_enter search_selector ;;
    sleep 3000
  else if py_eq_str action "click" then
    selector <- click_selector description ;;
    log INFO [FText ("Using click selector: " +++ selector)] ;;
    OOO.click selector ;;
    sleep 3000
  else if py_eq_str action "type" then
    selector <- input_selector ;;
    log INFO [FText ("Using input selector: " +++ selector)] ;;
    OOOCtl.type_value repr selector value
  else if py_eq_str action "press_enter" then
    selector <- input_selector ;;
    log INFO [FText ("Using enter selector: " +++ selector)] ;;
    OOO.press_enter selector ;;
    sleep 3000
  else if py_eq_str action "wait" then
    log INFO [FText "Waiting for "; FVal (JNum (wait_time value)); FText " seconds"] ;;
    sleep (wait_time value * 1000)
  else ret tt.

Fixpoint run_steps (i : nat) (steps : list json) : M unit :=
  match steps with
  | [] => ret tt
  | step :: rest => run_step i step ;; run_steps (S i) rest
  end.

(** [BrowserController(browser_type)]: a new controller, whose
    [command_id] is 1 and whose [current_url] is [None]; the
    [ValueError] of another browser is kept by its text. *)
Definition new_controller (browser_type : json) : M unit :=
  browser <- py_lower browser_type ;;
  if String.eqb browser "chrome" || String.eqb browser "firefox" then
    modify (fun w => set_current_url None (set_command_id 1 w))
  else raise (Exception [FText "Only Chrome and Firefox are supported"]).

(** [execute_natural_language_command(command, browser_type)].  The
    [try] catches all that its body raises, and so the [finally] comes
    after a [return]. *)
Definition execute_natural_language_command (command browser_type : json) : M result :=
  new_controller browser_type ;;
  returned <-
    try_except
      (start_browser ;;
       connect ;;
       steps <- OOORun.parse_natural_language_command generate_content json_loads command ;;
       count <- py_len steps ;;
       log INFO [FText "Parsed command into "; FVal (JNum count); FText " steps"] ;;
       items <- py_iter steps ;;
       run_steps 0 items ;;
       ret (mkResult "success" [FText "Successfully executed command: "; FVal command]))
      (fun e =>
         log ERROR [FText "Error executing command: "; FExn e] ;;
         ret (mkResult "error" [FExn e])) ;;
  close ;;
  ret returned.

(** The JSON body and status code of a reply of the route [/execute]. *)
Inductive reply : Type :=
| Refused (error : string)                 (* 400, {"error": ..} *)
| Answered (returned : result)             (* 200, the result *)
| Failed (e : exn).                        (* 500, {"status": "error", "message": str(e)} *)

(** The route [/execute]; [data] is [request.json]. *)
Definition execute (data : json) : M reply :=
  no_command <- (if negb (truthy data) then ret true
                 else has <- py_in "command" data ;; ret (negb has)) ;;
  if no_command : bool then ret (Refused "Missing command")
  else
    browser <- py_get data "browser" (JStr "chrome") ;;
    browser_type <- py_lower browser ;;
    if negb (String.eqb browser_type "chrome" || String.eqb browser_type "firefox") then
      ret (Refused "Unsupported browser type. Use 'chrome' or 'firefox'")
    else
      try_except
        (command <- py_getitem data "command" ;;
         returned <- execute_natural_language_command command (JStr browser_type) ;;
         ret (Answered returned))
        (fun e =>
           log ERROR [FText "Error in execute endpoint: "; FExn e] ;;
           ret (Failed e)).

End Orchestrator.
End OOOExec.

(** The controller has recorded a url of YouTube. *)
Definition on_youtube_page (w : World) : Prop :=
  exists url, current_url w = Some url /\ str_contains "youtube.com" url = true.

(** On a page of YouTube the computation raises nothing, and the
    controller is still there when it ends. *)
Definition safe_on_youtube {A} (m : M A) : Prop :=
  forall w, on_youtube_page w ->
    (forall e, fst (m w) <> Raise e) /\ on_youtube_page (snd (m w)).

(** A step that is a dict with a description, and that does not
    navigate. *)
Definition stays (step : json) : Prop :=
  exists kv description,
    step = JObj kv
    /\ dict_get "description" kv = Some (JStr description)
    /\ py_eq_str (dict_get_default "action" JNull kv) "navigate" = false.

(** What the selector of a [click] step of ooo.py comes to on a page of
    YouTube. *)
Definition youtube_click_selector (description : string) : string :=
  if str_contains "video" (lower description) then "ytd-video-renderer, #video-title"
  else if str_contains "search" (lower description)
  then "input#search, input[name='search_query']"
  else if str_contains "play" (lower description)
  then ".ytp-play-button, button.ytp-play-button"
  else "button, a, [role='button']".

(** ** An example of ooo.py's route *)

(** A browser that starts and connects at once, a model whose answer
    decodes to no step, and a socket that fails to close. *)
Module OOODemo.

Definition close : M unit :=
  OOOCtl.close (ret true) (ret true) (raise TypeError) (ret tt) (ret true) (ret tt).

Definition execute : json -> M OOOExec.reply :=
  OOOExec.execute (ret tt) (ret tt) close
    (fun _ => ret "[]") (fun _ => inl (JArr [])) (fun _ => inl "") (fun _ => "").

End OOODemo.

(* ================================================================== *)
(** * kk.py: connecting, and the Enter key                              *)
(* ================================================================== *)

Module KKSession.

(** The parameters of the two key events of [press_enter]. *)
Definition enter_key_event (type : string) : json :=
  JObj [("type", JStr type); ("key", JStr "Enter"); ("code", JStr "Enter");
        ("windowsVirtualKeyCode", JNum 13)].

Section PressEnter.

(** [repr(v)], for the [str] of a selector that is no [str]. *)
Variable repr : json -> string.

(** [BrowserController.press_enter]; [selector] is [None] when the
    step has no target. *)
Definition press_enter (selector : json) : M bool :=
  (if truthy selector then
     focused <- KKCtl.execute_js
                  (KK.press_enter_focus_script
                     (match selector with JStr s => s | _ => repr selector end)) ;;
     if negb (truthy focused) then KKCtl.execute_js KK.press_enter_active_script ;; ret tt
     else ret tt
   else ret tt) ;;
  KK.send_command "Input.dispatchKeyEvent" (enter_key_event "keyDown") ;;
  KK.send_command "Input.dispatchKeyEvent" (enter_key_event "keyUp") ;;
  KKCtl.execute_js KK.press_enter_form_script ;;
  sleep 2000 ;;
  log INFO [FText "Pressed Enter key"] ;;
  ret true.

End PressEnter.

Section Connect.

(** The answer to [requests.get(f'http://localhost:{self.port}/json/list')],
    its [status_code] and its [json()], which can raise. *)
Context {Response : Type}.
Variable requests_get : M Response.
Variable status_code : Response -> Z.
Variable response_json : Response -> json + exn.
(** [self.ws = websocket.WebSocket(); self.ws.connect(debugger_url)] and
    the start of the thread of [_message_handler]. *)
Variable ws_connect : json -> M unit.
Variable start_message_handler : M unit.

Definition pages_of (response : Response) : M json :=
  match response_json response with
  | inl pages => ret pages
  | inr e => raise e
  end.

(** The body of the [try] of one attempt: whether it connected. *)
Definition connect_attempt (attempt : Z) : M bool :=
  response <- requests_get ;;
  listed <- (if status_code response =? 200
             then pages <- pages_of response ;; ret (truthy pages)
             else ret false) ;;
  if listed : bool then
    pages <- pages_of response ;;
    page <- py_index pages 0 ;;
    debugger_url <- py_getitem page "webSocketDebuggerUrl" ;;
    ws_connect debugger_url ;;
    start_message_handler ;;
    KK.send_command "Page.enable" (JObj []) ;;
    KK.send_command "DOM.enable" (JObj []) ;;
    KK.send_command "Runtime.enable" (JObj []) ;;
    log INFO [FText "Connected to browser debugger"] ;;
    ret true
  else
    log WARNING [FText "Failed to get debugger URL, attempt "; FVal (JNum (attempt + 1));
                 FText "/"; FVal (JNum 5)] ;;
    ret false.

(** [for attempt in range(max_retries)], from attempt [attempt] on, and
    what follows the loop. *)
Fixpoint connect_from (remaining : nat) (attempt : Z) : M bool :=
  match remaining with
  | O =>
      log ERROR [FText "Failed to connect to browser after multiple attempts"] ;;
      ret false
  | S remaining' =>
      connected <-
        try_except (connect_attempt attempt)
          (fun e =>
             log ERROR [FText "Connection error (attempt "; FVal (JNum (attempt + 1));
                        FText "/"; FVal (JNum 5); FText "): "; FExn e] ;;
             ret false) ;;
      if connected : bool then ret true
      else sleep 2000 ;; connect_from remaining' (attempt + 1)
  end.

(** [BrowserController.connect]. *)
Definition connect : M bool := connect_from 5 0.

End Connect.
End KKSession.

(** The three commands with which kk.py's [connect] ends. *)
Definition enable_commands : list (string * json) :=
  [("Page.enable", JObj []); ("DOM.enable", JObj []); ("Runtime.enable", JObj [])].

(** A call of a library writes nothing to the socket and does not set
    the clock back. *)
Definition beside_socket {A} (m : M A) : Prop :=
  keeps outbox m /\ advances m.

(* ================================================================== *)
(** * om.py: the routes                                                 *)
(* ================================================================== *)

Module OMRoutes.

(** The replies of [/extract]: the status and what the body is made
    of. *)
Inductive extract_reply : Type :=
| ExtractRefused (error : string)                            (* 400, {"error": ..} *)
| ExtractAnswered (result : OMSteps.extraction)              (* 200, the result, and for a *)
                  (original_command generated_plan : option json)  (* command these two keys *)
| ExtractFailed (e : exn).                (* 500, {"status": "error", "message": str(e)} *)

(** The replies of [/interact]. *)
Inductive interact_reply : Type :=
| InteractRefused (error : string)
| InteractAnswered (result : OM.results) (original_command generated_instructions : json)
| InteractFailed (e : exn).

Section Routes.

Context {D Element Response : Type}.
Variable log : level -> fstring -> D -> D.
Variable repr : json -> string.
Variable TimeoutException : exn.
Variable start_chrome : D -> (unit + exn) * D.
Variable execute_script : string -> D -> (json + exn) * D.
Variable driver_get : json -> D -> (unit + exn) * D.
Variable wait_ready : D -> (unit + exn) * D.
Variable until : OMSteps.expected -> Z -> json -> D -> OMSteps.waited Element * D.
Variable find_elements : json -> D -> (list Element + exn) * D.
Variable click : Element -> D -> (unit + exn) * D.
Variable clear : Element -> D -> (unit + exn) * D.
Variable send_keys : Element -> json -> D -> (unit + exn) * D.
Variable send_return : Element -> D -> (unit + exn) * D.
Variable element_text : Element -> D -> (string + exn) * D.
Variable get_attribute : Element -> string -> D -> (option string + exn) * D.
Variable time_sleep : json -> D -> (unit + exn) * D.
Variable save_screenshot : json -> D -> (unit + exn) * D.
Variable read_base64 : json -> D -> (string + exn) * D.
Variable requests_get : string -> D -> (Response + exn) * D.
Variable status_code : Response -> Z.
Variable write_content : json -> Response -> D -> (unit + exn) * D.
Variable content_base64 : Response -> string.
(** The model, [json.loads] and [json.dumps(.., indent=2)]. *)
Variable generate_content : fstring -> ST D string.
Variable json_loads : string -> json + exn.
Variable json_dumps : json -> string.

Definition execute_extraction : json -> json -> ST D OMSteps.extraction :=
  OMSteps.execute_extraction log start_chrome execute_script driver_get wait_ready
    find_elements element_text get_attribute time_sleep save_screenshot read_base64.

(** [not data or 'command' not in data] *)
Definition no_command (data : json) : ST D bool :=
  if negb (truthy data) then ret true
  else has <- py_in "command" data ;; ret (negb has).

(** The route [/extract]; [data] is [request.json]. *)
Definition extract (data : json) : ST D extract_reply :=
  if negb (truthy data) then ret (ExtractRefused "Missing request data")
  else
    has_command <- py_in "command" data ;;
    if has_command : bool then
      try_except
        (command <- py_getitem data "command" ;;
         extraction_plan <- OMRun.generate_extraction_plan generate_content json_loads log
                              command ;;
         modify (log INFO [FText "Generated extraction plan: ";
                           FText (json_dumps extraction_plan)]) ;;
         browser <- py_get data "browser" (JStr "chrome") ;;
         result <- execute_extraction extraction_plan browser ;;
         command <- py_getitem data "command" ;;
         ret (ExtractAnswered result (Some command) (Some extraction_plan)))
        (fun e =>
           modify (log ERROR [FText "Error in extract endpoint (command mode): "; FExn e]) ;;
           ret (ExtractFailed e))
    else
      has_url <- py_in "url" data ;;
      has_selectors <- (if has_url : bool then py_in "selectors" data else ret false) ;;
      if has_selectors : bool then
        url <- py_get data "url" JNull ;;
        selectors <- py_get data "selectors" (JObj []) ;;
        let extraction_plan :=
          JObj [("url", url); ("selectors", selectors);
                ("description", JStr "Manual extraction with provided selectors")] in
        try_except
          (browser <- py_get data "browser" (JStr "chrome") ;;
           result <- execute_extraction extraction_plan browser ;;
           ret (ExtractAnswered result None None))
          (fun e =>
             modify (log ERROR [FText "Error in extract endpoint (legacy mode): "; FExn e]) ;;
             ret (ExtractFailed e))
      else ret (ExtractRefused "Missing command or url/selectors").

(** [execute_browser_automation(instructions, browser)] in the world
    [d]: the driver that is started is the world after
    [webdriver.Chrome(..)] and [implicitly_wait(10)]; a browser that is no
    [str] has no [lower], inside the function's [try]. *)
Definition execute_browser_automation (instructions browser : json) (d : D)
  : outcome OM.results :=
  match browser with
  | JStr browser_type =>
      OM.execute_browser_automation
        (match start_chrome d with
         | (inl _, d') => inl d'
         | (inr e, _) => inr e
         end)
        (OMSteps.perform log repr TimeoutException execute_script driver_get wait_ready
           until find_elements click clear send_keys send_return element_text
           get_attribute time_sleep save_screenshot read_base64 requests_get status_code
           write_content content_base64)
        (OMSteps.take_final_screenshot save_screenshot read_base64)
        instructions browser_type
  | _ => Return (OM.mkResults "error" None [FExn AttributeError] None)
  end.

(** The reply of the route [/interact]; [data] is [request.json].  The
    world after the run of the browser is not followed. *)
Definition interact (data : json) (d : D) : outcome interact_reply :=
  match no_command data d with
  | (Return true, _) => Return (InteractRefused "Missing command")
  | (Return false, d0) =>
      match (command <- py_getitem data "command" ;;
             instructions <- OMRun.generate_automation_instructions generate_content
                               json_loads log command ;;
             modify (log INFO [FText "Generated instructions: ";
                               FText (json_dumps instructions)]) ;;
             browser <- py_get data "browser" (JStr "chrome") ;;
             ret (command, instructions, browser)) d0 with
      | (Return (command, instructions, browser), d1) =>
          match execute_browser_automation instructions browser d1 with
          | Return result => Return (InteractAnswered result command instructions)
          | Raise e => Return (InteractFailed e)
          | Diverges => Diverges
          end
      | (Raise e, _) => Return (InteractFailed e)
      | (Diverges, _) => Diverges
      end
  | (Raise e, _) => Raise e
  | (Diverges, _) => Diverges
  end.

End Routes.
End OMRoutes.

(* ================================================================== *)
(** * Properties                                                        *)
(* ================================================================== *)

(** ** The monad *)

Section Keeps.
Context {S B : Type}.
Variable f : S -> B.

Lemma keeps_ret {A} (a : A) : keeps f (ret a).
Proof. intro w. reflexivity. Qed.

Lemma keeps_raise {A} (e : exn) : keeps f (@raise S A e).
Proof. intro w. reflexivity. Qed.

Lemma keeps_diverge {A} : keeps f (@diverge S A).
Proof. intro w. reflexivity. Qed.

Lemma keeps_get_world : keeps f (@get_world S).
Proof. intro w. reflexivity. Qed.

Lemma keeps_modify (g : S -> S) : (forall w, f (g w) = f w) -> keeps f (modify g).
Proof. intros H w. apply H. Qed.

Lemma keeps_bind {A C} (m : ST S A) (k : A -> ST S C) :
  keeps f m -> (forall a, keeps f (k a)) -> keeps f (bind m k).
Proof.
  intros Hm Hk w. unfold bind. specialize (Hm w).
  destruct (m w) as [[a | e |] w']; simpl in *; try assumption.
  rewrite <- Hm. apply Hk.
Qed.

Lemma keeps_try_except {A} (m : ST S A) (h : exn -> ST S A) :
  keeps f m -> (forall e, keeps f (h e)) -> keeps f (try_except m h).
Proof.
  intros Hm Hh w. unfold try_except. specialize (Hm w).
  destruct (m w) as [[a | e |] w']; simpl in *; try assumption.
  rewrite <- Hm. apply Hh.
Qed.

Lemma keeps_while_loop {A} fuel cond (body : ST S (loop_ctl A)) after :
  keeps f body -> keeps f after -> keeps f (while_loop fuel cond body after).
Proof.
  intros Hb Ha. induction fuel as [| fuel IH]; intro w; simpl.
  - destruct (cond w); [reflexivity | apply Ha].
  - destruct (cond w); [| apply Ha].
    specialize (Hb w).
    destruct (body w) as [[[| a] | e |] w']; simpl in *; try assumption.
    rewrite <- Hb. apply IH.
Qed.

Lemma keeps_py_in k v : keeps f (@py_in S k v).
Proof. unfold py_in. destruct (json_has k v); [apply keeps_ret | apply keeps_raise]. Qed.

Lemma keeps_py_getitem v k : keeps f (@py_getitem S v k).
Proof.
  unfold py_getitem. destruct v; try apply keeps_raise.
  destruct (dict_get k kv); [apply keeps_ret | apply keeps_raise].
Qed.

Lemma keeps_py_get v k d : keeps f (@py_get S v k d).
Proof. unfold py_get. destruct v; try apply keeps_raise. apply keeps_ret. Qed.

Lemma keeps_py_len v : keeps f (@py_len S v).
Proof. unfold py_len. destruct v; try apply keeps_raise; apply keeps_ret. Qed.

Lemma keeps_py_index v i : keeps f (@py_index S v i).
Proof.
  unfold py_index. destruct v; try apply keeps_raise.
  - destruct (String.get i s); [apply keeps_ret | apply keeps_raise].
  - destruct (nth_error l i); [apply keeps_ret | apply keeps_raise].
Qed.

Lemma keeps_py_midpoint a b : keeps f (@py_midpoint S a b).
Proof.
  unfold py_midpoint.
  destruct a, b; try apply keeps_raise; apply keeps_ret.
Qed.

End Keeps.

Create HintDb keeps.
#[export] Hint Resolve keeps_ret keeps_raise keeps_diverge keeps_get_world
  keeps_py_in keeps_py_getitem keeps_py_get keeps_py_len keeps_py_index
  keeps_py_midpoint : keeps.

(** One step of a proof that a computation keeps a component: peel the
    outermost construct, or close the goal with a known fact. *)
Ltac keeps_step :=
  first
    [ solve [auto with keeps nocore]
    | apply keeps_bind; [| intros ?]
    | apply keeps_try_except; [| intros ?]
    | apply keeps_while_loop
    | apply keeps_modify; intros ?; reflexivity
    | match goal with
      | |- keeps _ (if ?b then _ else _) => destruct b
      | |- keeps _ (match ?x with _ => _ end) => destruct x
      end ].
Ltac keeps_tac := repeat keeps_step.

Section KeepsWorld.
Context {B : Type}.
Variable f : World -> B.
Hypothesis f_now : forall t w, f (set_now t w) = f w.
Hypothesis f_logs : forall l w, f (set_logs l w) = f w.

Lemma keeps_log lv msg : keeps f (log lv msg).
Proof. apply keeps_modify. intro w. apply f_logs. Qed.

Lemma keeps_sleep ms : keeps f (sleep ms).
Proof. apply keeps_modify. intro w. apply f_now. Qed.

End KeepsWorld.

(** ** Counting from one *)

Lemma count_from_one_S n :
  count_from_one (S n) = count_from_one n ++ [Z.of_nat n + 1].
Proof.
  unfold count_from_one. rewrite seq_S, map_app. simpl.
  f_equal. f_equal. lia.
Qed.

Lemma count_from_one_bounds n x :
  In x (count_from_one n) -> 1 <= x <= Z.of_nat n.
Proof.
  unfold count_from_one. rewrite in_map_iff. intros [k [<- Hk]].
  apply in_seq in Hk. lia.
Qed.

Lemma count_from_one_sorted n : StronglySorted Z.lt (count_from_one n).
Proof.
  induction n as [| n IH].
  - constructor.
  - rewrite count_from_one_S.
    assert (H : forall l, StronglySorted Z.lt l ->
                          (forall x, In x l -> x < Z.of_nat n + 1) ->
                          StronglySorted Z.lt (l ++ [Z.of_nat n + 1])).
    { induction l as [| a l IHl]; intros Hs Hb; simpl.
      - repeat constructor.
      - inversion Hs; subst. constructor.
        + apply IHl; [assumption | intros x Hx; apply Hb; now right].
        + apply Forall_app. split; [assumption |].
          constructor; [apply Hb; now left | constructor]. }
    apply H; [exact IH |].
    intros x Hx. apply count_from_one_bounds in Hx. lia.
Qed.

Lemma sorted_lt_NoDup (l : list Z) : StronglySorted Z.lt l -> NoDup l.
Proof.
  induction 1 as [| a l Hs IH Hall]; constructor; [| assumption].
  intro Hin. rewrite Forall_forall in Hall. specialize (Hall a Hin). lia.
Qed.

(** ** What waiting for a response leaves alone *)

Section DispatchKeeps.
Context {B : Type}.
Variable f : World -> B.
Hypothesis f_now : forall t w, f (set_now t w) = f w.
Hypothesis f_logs : forall l w, f (set_logs l w) = f w.
Hypothesis f_responses : forall q w, f (set_response_queue q w) = f w.

Lemma keeps_KK_response_queue_get t : keeps f (KK.response_queue_get t).
Proof.
  intro w. unfold KK.response_queue_get.
  destruct (queue_get_timeout t (response_queue w) (now w)) as [[got rest] t'].
  simpl. now rewrite f_responses, f_now.
Qed.

Lemma keeps_KK_wait_response fuel id start m :
  keeps f (KK.wait_response fuel id start m).
Proof.
  unfold KK.wait_response.
  pose proof keeps_KK_response_queue_get. pose proof (keeps_log f f_logs).
  keeps_tac.
Qed.

Lemma keeps_NW_response_queue_get : keeps f NW.response_queue_get.
Proof.
  intro w. unfold NW.response_queue_get.
  destruct (response_queue w) as [| [t d] rest]; simpl; [reflexivity |].
  now rewrite f_responses, f_now.
Qed.

Lemma keeps_NW_wait_response fuel id : keeps f (NW.wait_response fuel id).
Proof.
  unfold NW.wait_response.
  pose proof keeps_NW_response_queue_get.
  keeps_tac.
Qed.

End DispatchKeeps.

(** ** Request ids (kk.py and ooo.py [send_command]) *)

Lemma KK_send_command_outbox m p w :
  outbox (snd (KK.send_command m p w)) = outbox w ++ [mkCommand (command_id w) m p].
Proof.
  unfold KK.send_command, bind, get_world, modify, ws_send. simpl.
  now rewrite (keeps_KK_wait_response outbox) by reflexivity.
Qed.

Lemma KK_send_command_command_id m p w :
  command_id (snd (KK.send_command m p w)) = command_id w + 1.
Proof.
  unfold KK.send_command, bind, get_world, modify, ws_send. simpl.
  now rewrite (keeps_KK_wait_response command_id) by reflexivity.
Qed.

Lemma NW_send_command_outbox m p w :
  outbox (snd (NW.send_command m p w)) = outbox w ++ [mkCommand (command_id w) m p].
Proof.
  unfold NW.send_command, bind, get_world, modify, ws_send. simpl.
  now rewrite (keeps_NW_wait_response outbox) by reflexivity.
Qed.

Lemma NW_send_command_command_id m p w :
  command_id (snd (NW.send_command m p w)) = command_id w + 1.
Proof.
  unfold NW.send_command, bind, get_world, modify, ws_send. simpl.
  now rewrite (keeps_NW_wait_response command_id) by reflexivity.
Qed.

Lemma ids_in_step_send (send : string -> json -> M json) :
  (forall m p w, outbox (snd (send m p w)) = outbox w ++ [mkCommand (command_id w) m p]) ->
  (forall m p w, command_id (snd (send m p w)) = command_id w + 1) ->
  forall m p w, ids_in_step w -> ids_in_step (snd (send m p w)).
Proof.
  intros Ho Hc m p w [Hids Hcid]. unfold ids_in_step, ids_issued in *.
  rewrite Ho, Hc, map_app, length_app, Hids. simpl.
  rewrite Nat.add_1_r, count_from_one_S. split.
  - now rewrite Hcid.
  - lia.
Qed.

Lemma ids_in_step_issue (send : string -> json -> M json) :
  (forall m p w, outbox (snd (send m p w)) = outbox w ++ [mkCommand (command_id w) m p]) ->
  (forall m p w, command_id (snd (send m p w)) = command_id w + 1) ->
  forall calls w, ids_in_step w -> ids_in_step (issue send calls w).
Proof.
  intros Ho Hc. induction calls as [| [m p] rest IH]; intros w Hw; simpl.
  - assumption.
  - pose proof (ids_in_step_send send Ho Hc m p w Hw) as Hstep.
    destruct (send m p w) as [[r | e |] w']; simpl in Hstep; auto.
Qed.

Lemma ids_in_step_facts w :
  ids_in_step w ->
  ids_issued w = count_from_one (List.length (ids_issued w))
  /\ Forall (fun n => 0 < n) (ids_issued w)
  /\ NoDup (ids_issued w)
  /\ StronglySorted Z.lt (ids_issued w).
Proof.
  intros [Hids _].
  assert (Hlen : List.length (ids_issued w) = List.length (outbox w))
    by (unfold ids_issued; apply length_map).
  rewrite Hlen, Hids. repeat split.
  - apply Forall_forall. intros x Hx. apply count_from_one_bounds in Hx. lia.
  - apply sorted_lt_NoDup, count_from_one_sorted.
  - apply count_from_one_sorted.
Qed.

(** C1.  In every session, whatever calls of [send_command] are made and
    however they end, the request ids written to the socket are
    [1, 2, 3, ...] in this order: positive, pairwise distinct and strictly
    increasing from 1, so that no id is used twice.  This holds for
    kk.py's [send_command] and for the one that ooo.py and newww.py
    share. *)
Theorem send_command_ids_fresh t0 inbound calls :
  let kk := issue KK.send_command calls (KK.session t0 inbound) in
  let ooo := issue OOO.send_command calls (OOO.session t0 inbound) in
  (ids_issued kk = count_from_one (List.length (ids_issued kk))
   /\ Forall (fun n => 0 < n) (ids_issued kk)
   /\ NoDup (ids_issued kk)
   /\ StronglySorted Z.lt (ids_issued kk))
  /\
  (ids_issued ooo = count_from_one (List.length (ids_issued ooo))
   /\ Forall (fun n => 0 < n) (ids_issued ooo)
   /\ NoDup (ids_issued ooo)
   /\ StronglySorted Z.lt (ids_issued ooo)).
Proof.
  split; apply ids_in_step_facts, ids_in_step_issue;
    auto using KK_send_command_outbox, KK_send_command_command_id,
               NW_send_command_outbox, NW_send_command_command_id;
    split; reflexivity.
Qed.

(** ** The dispatcher's wait (kk.py) *)

Lemma KK_send_command_sent m p w :
  KK.send_command m p w =
  KK.wait_response (KK.poll_budget (sent m p w)) (command_id w) (now w) m (sent m p w).
Proof. reflexivity. Qed.

Lemma NW_send_command_sent m p w :
  NW.send_command m p w =
  NW.wait_response (S (List.length (response_queue w))) (command_id w) (sent m p w).
Proof. reflexivity. Qed.

Lemma dict_has_get k d : dict_has k d = true <-> exists v, dict_get k d = Some v.
Proof.
  induction d as [| [k' v'] d IH]; simpl.
  - split; [discriminate | intros [v H]; discriminate].
  - destruct (String.eqb k k'); [| exact IH].
    split; [intros _; now exists v' | reflexivity].
Qed.

Lemma dict_get_has k d v : dict_get k d = Some v -> dict_has k d = true.
Proof. intro H. apply dict_has_get. now exists v. Qed.

Lemma dict_get_none k d : dict_get k d = None -> dict_has k d = false.
Proof.
  intro H. destruct (dict_has k d) eqn:E; [| reflexivity].
  apply dict_has_get in E. destruct E as [v E]. congruence.
Qed.

(** One turn of kk.py's polling loop. *)
Lemma KK_wait_response_S fuel id start m w :
  KK.wait_response (S fuel) id start m w =
  if now w - start <? KK.timeout then
    match queue_get_timeout 1000 (response_queue w) (now w) with
    | (None, q, t) =>
        KK.wait_response fuel id start m (set_response_queue q (set_now t w))
    | (Some d, q, t) =>
        let w1 := set_response_queue q (set_now t w) in
        if foreign id d then KK.wait_response fuel id start m w1
        else (kk_deliver d,
              if dict_has "id" d && dict_has "error" d
              then set_logs (logs w1 ++ [mkLog ERROR
                       [FText "Command error: ";
                        FVal (dict_get_default "error" JNull d)]]) w1
              else w1)
    end
  else (Raise (kk_timed_out m), w).
Proof.
  unfold KK.wait_response at 1. simpl.
  destruct (now w - start <? KK.timeout); [| reflexivity].
  unfold bind at 1. unfold KK.response_queue_get.
  destruct (queue_get_timeout 1000 (response_queue w) (now w)) as [[[d |] q] t]; simpl.
  - unfold foreign, kk_deliver, bind, py_getitem.
    destruct (dict_get "id" d) as [rid |] eqn:Hid; simpl.
    + rewrite (dict_get_has _ _ _ Hid). simpl.
      destruct (py_eq_int rid id); simpl; [| reflexivity].
      destruct (dict_has "error" d); reflexivity.
    + now rewrite (dict_get_none _ _ Hid).
  - reflexivity.
Qed.

Lemma polls_left_pos start t :
  t - start < KK.timeout -> (1 <= polls_left start t)%nat.
Proof.
  unfold polls_left, KK.timeout. intro H.
  assert (1 <= (start + 10000 - t + 999) / 1000) by (apply Z.div_le_lower_bound; lia).
  lia.
Qed.

Lemma polls_left_poll start t :
  t - start < KK.timeout ->
  (polls_left start (t + 1000) < polls_left start t)%nat.
Proof.
  unfold polls_left, KK.timeout. intro H.
  replace (start + 10000 - (t + 1000) + 999) with ((start + 10000 - t + 999) + (-1) * 1000) by ring.
  rewrite Z.div_add by lia.
  assert (1 <= (start + 10000 - t + 999) / 1000) by (apply Z.div_le_lower_bound; lia).
  lia.
Qed.

Lemma polls_left_mono start t t' :
  t <= t' -> (polls_left start t' <= polls_left start t)%nat.
Proof.
  unfold polls_left. intro H.
  assert ((start + KK.timeout - t' + 999) / 1000 <= (start + KK.timeout - t + 999) / 1000)
    by (apply Z.div_le_mono; lia).
  lia.
Qed.

Lemma polls_left_zero start t :
  polls_left start t = 0%nat -> KK.timeout <= t - start.
Proof.
  unfold polls_left, KK.timeout. intro H.
  destruct (Z_lt_le_dec (t - start) 10000) as [Hlt | Hle]; [| exact Hle].
  assert (1 <= (start + 10000 - t + 999) / 1000) by (apply Z.div_le_lower_bound; lia).
  lia.
Qed.

Lemma KK_wait_response_O id start m w :
  KK.wait_response 0 id start m w =
  if now w - start <? KK.timeout then (Diverges, w) else (Raise (kk_timed_out m), w).
Proof. reflexivity. Qed.

(** What kk.py's wait comes to, given fuel for every queued response and
    every poll the deadline allows: it ends, within a second of the
    deadline, either with the timeout error, having discarded only
    foreign responses, or with what the first response that is not
    foreign delivers, the foreign ones before it discarded. *)
Lemma KK_wait_response_spec id start m fuel : forall w,
  (List.length (response_queue w) + polls_left start (now w) <= fuel)%nat ->
  now w < start + KK.timeout + 1000 ->
  let r := KK.wait_response fuel id start m w in
  now w <= now (snd r) < start + KK.timeout + 1000 /\
  ((fst r = Raise (kk_timed_out m) /\ start + KK.timeout <= now (snd r) /\
    exists pre, response_queue w = pre ++ response_queue (snd r) /\ all_foreign id pre)
   \/
   (exists pre t d,
       response_queue w = pre ++ (t, d) :: response_queue (snd r) /\
       all_foreign id pre /\ foreign id d = false /\
       fst r = kk_deliver d /\ t <= now (snd r))).
Proof.
  induction fuel as [| fuel IH]; intros w Hfuel Hnow; cbv zeta.
  - rewrite KK_wait_response_O.
    assert (Hz : polls_left start (now w) = 0%nat) by lia.
    apply polls_left_zero in Hz.
    destruct (Z.ltb_spec (now w - start) KK.timeout) as [Hlt | Hge]; [lia |].
    simpl. split; [lia |]. left. repeat split; try lia.
    exists []. split; [reflexivity | constructor].
  - rewrite KK_wait_response_S.
    destruct (Z.ltb_spec (now w - start) KK.timeout) as [Hlt | Hge].
    2:{ simpl. split; [lia |]. left. repeat split; try lia.
        exists []. split; [reflexivity | constructor]. }
    pose proof (polls_left_poll start (now w) Hlt) as Hpoll.
    unfold queue_get_timeout.
    destruct (response_queue w) as [| [t d] rest] eqn:Hq.
    + (* nothing queued: an empty poll *)
      specialize (IH (set_response_queue [] (set_now (now w + 1000) w))).
      cbv zeta in IH. cbn [response_queue now set_response_queue set_now List.length] in IH.
      destruct IH as [Ht IH]; [cbn [List.length] in Hfuel; lia | unfold KK.timeout in *; lia |].
      split; [lia |]. exact IH.
    + destruct (Z.leb_spec t (now w + 1000)) as [Hin | Hout].
      * (* the head is there in time *)
        pose proof (polls_left_mono start (now w) (Z.max (now w) t) (Z.le_max_l _ _)).
        destruct (foreign id d) eqn:Hfor.
        -- specialize (IH (set_response_queue rest (set_now (Z.max (now w) t) w))).
           cbv zeta in IH. cbn [response_queue now set_response_queue set_now List.length] in IH.
           destruct IH as [Ht IH];
             [cbn [List.length] in Hfuel; revert H Hfuel;
              generalize (polls_left start (Z.max (now w) t)); lia
             | unfold KK.timeout in *; lia |].
           split; [lia |].
           destruct IH as [[Ho [Hd [pre [Hpre Hall]]]] | [pre [t' [d' [Hpre [Hall H']]]]]].
           ++ left. repeat split; try assumption.
              exists ((t, d) :: pre). split; [cbn [app]; f_equal; exact Hpre |].
              constructor; assumption.
           ++ right. exists ((t, d) :: pre), t', d'.
              split; [cbn [app]; f_equal; exact Hpre |].
              split; [constructor; assumption | exact H'].
        -- cbv zeta. simpl fst. 
           assert (Hnow' : forall b l w1, now (if b : bool then set_logs l w1 else w1) = now w1)
             by (intros []; reflexivity).
           assert (Hrq : forall b l w1, response_queue (if b : bool then set_logs l w1 else w1)
                                        = response_queue w1)
             by (intros []; reflexivity).
           simpl snd. rewrite Hnow', Hrq. simpl.
           split; [unfold KK.timeout in *; lia |].
           right. exists [], t, d. repeat split; try assumption; try lia. constructor.
      * (* the head comes too late for this poll *)
        specialize (IH (set_response_queue ((t, d) :: rest) (set_now (now w + 1000) w))).
        cbv zeta in IH. cbn [response_queue now set_response_queue set_now List.length] in IH.
        destruct IH as [Ht IH]; [cbn [List.length] in Hfuel; lia | unfold KK.timeout in *; lia |].
        split; [lia |]. exact IH.
Qed.

(** ** The dispatcher's wait (ooo.py, newww.py) *)

Lemma NW_wait_response_O id w : NW.wait_response 0 id w = (Diverges, w).
Proof. reflexivity. Qed.

Lemma NW_wait_response_S fuel id w :
  NW.wait_response (S fuel) id w =
  match response_queue w with
  | [] => (Diverges, w)
  | (t, d) :: rest =>
      let w1 := set_response_queue rest (set_now (Z.max (now w) t) w) in
      if foreign id d then NW.wait_response fuel id w1 else (nw_deliver d, w1)
  end.
Proof.
  unfold NW.wait_response at 1. simpl.
  unfold bind at 1. unfold NW.response_queue_get.
  destruct (response_queue w) as [| [t d] rest]; [reflexivity |]. simpl.
  unfold foreign, nw_deliver, bind, py_getitem.
  destruct (dict_get "id" d) as [rid |] eqn:Hid; simpl; [| reflexivity].
  destruct (py_eq_int rid id); simpl; [| reflexivity].
  destruct (dict_has "error" d); [| reflexivity].
  destruct (dict_get_default "error" JNull d); reflexivity.
Qed.

Lemma NW_wait_response_spec id fuel : forall w,
  (List.length (response_queue w) < fuel)%nat ->
  let r := NW.wait_response fuel id w in
  now w <= now (snd r) /\
  ((fst r = Diverges /\ all_foreign id (response_queue w)
    /\ response_queue (snd r) = [])
   \/
   (exists pre t d,
       response_queue w = pre ++ (t, d) :: response_queue (snd r) /\
       all_foreign id pre /\ foreign id d = false /\
       fst r = nw_deliver d /\ t <= now (snd r))).
Proof.
  induction fuel as [| fuel IH]; intros w Hfuel; cbv zeta; [lia |].
  rewrite NW_wait_response_S.
  destruct (response_queue w) as [| [t d] rest] eqn:Hq.
  - simpl. split; [lia |]. left. split; [reflexivity | split; [constructor | exact Hq]].
  - cbv zeta. destruct (foreign id d) eqn:Hfor.
    + specialize (IH (set_response_queue rest (set_now (Z.max (now w) t) w))).
      cbv zeta in IH. cbn [response_queue now set_response_queue set_now] in IH.
      destruct IH as [Ht IH]; [cbn [List.length] in Hfuel; lia |].
      split; [lia |].
      destruct IH as [[Ho [Hall Hnil]] | [pre [t' [d' [Hpre [Hall H']]]]]].
      * left. split; [assumption | split; [constructor; assumption | exact Hnil]].
      * right. exists ((t, d) :: pre), t', d'.
        split; [cbn [app]; f_equal; exact Hpre |].
        split; [constructor; assumption | exact H'].
    + simpl. split; [lia |].
      right. exists [], t, d. repeat split; try assumption; try lia. constructor.
Qed.

(** ** Responses are routed by id *)

Lemma first_own_found id pre t d post :
  all_foreign id pre -> foreign id d = false ->
  first_own id (pre ++ (t, d) :: post) = Some (t, d).
Proof.
  intros Hall Hd. unfold first_own. induction Hall as [| [t' d'] pre Hf Hall IH]; simpl.
  - now rewrite Hd.
  - simpl in Hf. rewrite Hf. exact IH.
Qed.

Lemma first_own_none id q : all_foreign id q -> first_own id q = None.
Proof.
  intros Hall. unfold first_own. induction Hall as [| [t d] q Hf Hall IH]; simpl.
  - reflexivity.
  - simpl in Hf. rewrite Hf. exact IH.
Qed.

Lemma first_own_all_foreign id q : first_own id q = None -> all_foreign id q.
Proof.
  unfold first_own. induction q as [| [t d] q IH]; simpl; intro H.
  - constructor.
  - destruct (foreign id d) eqn:Hf; simpl in H; [| discriminate].
    constructor; [exact Hf | apply IH, H].
Qed.

Lemma first_own_drop_foreign id q :
  first_own id (drop_foreign id q) = first_own id q.
Proof.
  unfold first_own, drop_foreign. induction q as [| [t d] q IH]; simpl.
  - reflexivity.
  - destruct (foreign id d) eqn:Hf; simpl; [exact IH | now rewrite Hf].
Qed.

Lemma sent_response_queue m p w : response_queue (sent m p w) = response_queue w.
Proof. reflexivity. Qed.

Lemma sent_now m p w : now (sent m p w) = now w.
Proof. reflexivity. Qed.

(** kk.py: the call ends at most a second after its deadline, with the
    timeout error or with what the first response of its own delivers. *)
Lemma KK_send_command_spec m p w :
  let r := KK.send_command m p w in
  let id := command_id w in
  now w <= now (snd r) < now w + 11000 /\
  ((fst r = Raise (kk_timed_out m) /\ now w + 10000 <= now (snd r) /\
    exists pre, response_queue w = pre ++ response_queue (snd r) /\ all_foreign id pre)
   \/
   (exists pre t d,
       response_queue w = pre ++ (t, d) :: response_queue (snd r) /\
       all_foreign id pre /\ foreign id d = false /\
       first_own id (response_queue w) = Some (t, d) /\
       fst r = kk_deliver d /\ t <= now (snd r))).
Proof.
  cbv zeta. rewrite KK_send_command_sent.
  pose proof (KK_wait_response_spec (command_id w) (now w) m
                (KK.poll_budget (sent m p w)) (sent m p w)) as H.
  cbv zeta in H. rewrite sent_response_queue, sent_now in H.
  destruct H as [Ht H].
  - unfold KK.poll_budget. rewrite sent_response_queue.
    assert (polls_left (now w) (now w) = 10%nat).
    { unfold polls_left, KK.timeout.
      replace (now w + 10000 - now w + 999) with 10999 by ring. reflexivity. }
    lia.
  - unfold KK.timeout. lia.
  - unfold KK.timeout in *. split; [lia |].
    destruct H as [H | [pre [t [d [Hpre [Hall [Hfor [Ho Hle]]]]]]]]; [left; exact H |].
    right. exists pre, t, d. repeat split; try assumption.
    rewrite Hpre. now apply first_own_found.
Qed.

(** ooo.py, newww.py: the call ends with what the first response of its
    own delivers, and never ends if there is none. *)
Lemma NW_send_command_spec m p w :
  let r := NW.send_command m p w in
  let id := command_id w in
  now w <= now (snd r) /\
  ((fst r = Diverges /\ first_own id (response_queue w) = None
    /\ response_queue (snd r) = [])
   \/
   (exists pre t d,
       response_queue w = pre ++ (t, d) :: response_queue (snd r) /\
       all_foreign id pre /\ foreign id d = false /\
       first_own id (response_queue w) = Some (t, d) /\
       fst r = nw_deliver d /\ t <= now (snd r))).
Proof.
  cbv zeta. rewrite NW_send_command_sent.
  pose proof (NW_wait_response_spec (command_id w)
                (S (List.length (response_queue w))) (sent m p w)) as H.
  cbv zeta in H. rewrite sent_response_queue, sent_now in H.
  destruct H as [Ht H]; [lia |].
  split; [exact Ht |].
  destruct H as [[Ho [Hall Hnil]] | [pre [t [d [Hpre [Hall [Hfor [Ho Hle]]]]]]]].
  - left. split; [exact Ho | split; [now apply first_own_none | exact Hnil]].
  - right. exists pre, t, d. repeat split; try assumption.
    rewrite Hpre. now apply first_own_found.
Qed.

Lemma NW_send_command_outcome m p w :
  fst (NW.send_command m p w) =
  match first_own (command_id w) (response_queue w) with
  | Some (_, d) => nw_deliver d
  | None => Diverges
  end.
Proof.
  destruct (NW_send_command_spec m p w)
    as [_ [[Ho [Hn _]] | [pre [t [d [_ [_ [_ [Hf [Ho _]]]]]]]]]].
  - now rewrite Hn.
  - now rewrite Hf.
Qed.

Lemma KK_send_command_outcome m p w :
  fst (KK.send_command m p w) = Raise (kk_timed_out m)
  \/ exists t d, first_own (command_id w) (response_queue w) = Some (t, d)
                 /\ fst (KK.send_command m p w) = kk_deliver d.
Proof.
  destruct (KK_send_command_spec m p w) as [_ [[Ho _] | [pre [t [d [_ [_ [_ [Hf [Ho _]]]]]]]]]].
  - now left.
  - right. now exists t, d.
Qed.

(** C2 (amended).  A call of [send_command] is answered only by the
    first queued response that carries its own id: it returns that
    response's result or raises its error.  Responses with another id that
    it takes off the queue on the way are dropped and never put back.  In
    newww.py and ooo.py, dropping them leaves the outcome as it is.  In
    kk.py it leaves the response that is delivered as it is, but the
    outcome only up to the timeout: with and without the foreign
    responses the two outcomes agree unless one of them is the timeout
    error. *)
Theorem responses_routed_by_id m p w :
  let id := command_id w in
  let own := first_own id (response_queue w) in
  (* newww.py, ooo.py *)
  fst (NW.send_command m p w)
    = match own with Some (_, d) => nw_deliver d | None => Diverges end
  /\ fst (NW.send_command m p (without_foreign w)) = fst (NW.send_command m p w)
  (* kk.py *)
  /\ (fst (KK.send_command m p w) = Raise (kk_timed_out m)
      \/ exists t d, own = Some (t, d) /\ fst (KK.send_command m p w) = kk_deliver d)
  /\ (fst (KK.send_command m p (without_foreign w)) = fst (KK.send_command m p w)
      \/ fst (KK.send_command m p w) = Raise (kk_timed_out m)
      \/ fst (KK.send_command m p (without_foreign w)) = Raise (kk_timed_out m))
  (* both: whatever left the queue before the response delivered was foreign *)
  /\ (exists pre,
        all_foreign id pre
        /\ (response_queue w = pre ++ response_queue (snd (KK.send_command m p w))
            \/ exists e, own = Some e
                 /\ response_queue w = pre ++ e :: response_queue (snd (KK.send_command m p w))))
  /\ (exists pre,
        all_foreign id pre
        /\ (response_queue w = pre ++ response_queue (snd (NW.send_command m p w))
            \/ exists e, own = Some e
                 /\ response_queue w = pre ++ e :: response_queue (snd (NW.send_command m p w)))).
Proof.
  cbv zeta.
  assert (Hwf : first_own (command_id (without_foreign w)) (response_queue (without_foreign w))
                = first_own (command_id w) (response_queue w))
    by apply first_own_drop_foreign.
  split; [apply NW_send_command_outcome |].
  split; [rewrite !NW_send_command_outcome, Hwf; reflexivity |].
  split; [apply KK_send_command_outcome |].
  split.
  - destruct (KK_send_command_outcome m p w) as [Ht | [t [d [Hf Ho]]]]; [now right; left |].
    destruct (KK_send_command_outcome m p (without_foreign w)) as [Ht' | [t' [d' [Hf' Ho']]]];
      [now right; right |].
    left. rewrite Hwf, Hf in Hf'. injection Hf' as <- <-. congruence.
  - split.
    + destruct (KK_send_command_spec m p w)
        as [_ [[_ [_ [pre [Hpre Hall]]]] | [pre [t [d [Hpre [Hall [_ [Hf _]]]]]]]]].
      * exists pre. split; [exact Hall | now left].
      * exists pre. split; [exact Hall |]. right. exists (t, d). now split.
    + destruct (NW_send_command_spec m p w)
        as [_ [[Ho [Hn Hnil]] | [pre [t [d [Hpre [Hall [_ [Hf _]]]]]]]]].
      * exists (response_queue w). split; [now apply first_own_all_foreign |].
        left. rewrite Hnil. now rewrite app_nil_r.
      * exists pre. split; [exact Hall |]. right. exists (t, d). now split.
Qed.

(** C2, the claim as stated fails on kk.py: with a foreign response
    dequeued 9.5 s after the start the command gets its own response,
    which arrives after 10.2 s; without the foreign response the same
    command has timed out by then. *)
Lemma kk_foreign_response_changes_outcome :
  fst (KK.send_command "Page.navigate" (JObj []) kk_late_answer)
    = Return (JObj [("frameId", JStr "F")])
  /\ fst (KK.send_command "Page.navigate" (JObj []) (without_foreign kk_late_answer))
    = Raise (kk_timed_out "Page.navigate").
Proof. split; vm_compute; reflexivity. Qed.

(** ** Outcomes and deadline of [send_command] *)

Lemma own_response_answers id d :
  dict_has "id" d = true -> foreign id d = false ->
  exists rid, dict_get "id" d = Some rid /\ py_eq_int rid id = true.
Proof.
  intros Hhas Hfor. apply dict_has_get in Hhas. destruct Hhas as [rid Hrid].
  exists rid. split; [exact Hrid |].
  unfold foreign in Hfor. rewrite Hrid in Hfor.
  now destruct (py_eq_int rid id).
Qed.

Lemma first_own_In id q e : first_own id q = Some e -> In e q /\ foreign id (snd e) = false.
Proof.
  unfold first_own. intro H. apply find_some in H. destruct H as [Hin Hf].
  split; [exact Hin |]. now destruct (foreign id (snd e)).
Qed.

(** C3 (amended).  kk.py's [send_command], on a queue as the reader fills
    it, ends in one of three ways: it returns the result of the first
    response that carries its id, or raises the command error of that
    response when it has an error field, or raises the timeout error that
    names the method, not before 10 s have passed.  It always ends, less
    than 11 s after it started (the 10-second deadline and at most one
    poll of a second), and it times out whenever no response carries its
    id.  There is no table of pending entries to clean up.  The
    [send_command] of newww.py and ooo.py has no deadline: with no
    response of its own it never ends. *)
Theorem kk_send_command_outcomes m p w :
  responses_have_id w ->
  let r := KK.send_command m p w in
  let id := command_id w in
  let own := first_own id (response_queue w) in
  now w <= now (snd r) < now w + 11000
  /\ ((exists t d rid, own = Some (t, d)
         /\ dict_get "id" d = Some rid /\ py_eq_int rid id = true
         /\ dict_has "error" d = false
         /\ fst r = Return (dict_get_default "result" (JObj []) d))
      \/ (exists t d rid, own = Some (t, d)
            /\ dict_get "id" d = Some rid /\ py_eq_int rid id = true
            /\ dict_has "error" d = true
            /\ fst r = Raise (kk_command_error d))
      \/ (fst r = Raise (kk_timed_out m) /\ now w + 10000 <= now (snd r)))
  /\ (own = None -> fst r = Raise (kk_timed_out m))
  /\ (own = None -> fst (NW.send_command m p w) = Diverges).
Proof.
  intros Hids. cbv zeta.
  destruct (KK_send_command_spec m p w) as [Ht H].
  split; [exact Ht |]. split; [| split].
  - destruct H as [[Ho [Hd _]] | [pre [t [d [_ [_ [Hfor [Hf [Ho _]]]]]]]]].
    + right; right. now split.
    + destruct (first_own_In _ _ _ Hf) as [Hin _].
      unfold responses_have_id in Hids. rewrite Forall_forall in Hids.
      specialize (Hids _ Hin). simpl in Hids.
      destruct (own_response_answers _ _ Hids Hfor) as [rid [Hrid Heq]].
      unfold kk_deliver in Ho. rewrite Hrid in Ho.
      destruct (dict_has "error" d) eqn:He.
      * right; left. exists t, d, rid. repeat split; assumption.
      * left. exists t, d, rid. repeat split; assumption.
  - intro Hn. destruct H as [[Ho _] | [pre [t [d [_ [_ [_ [Hf _]]]]]]]]; [exact Ho | congruence].
  - intro Hn. rewrite NW_send_command_outcome. now rewrite Hn.
Qed.

Lemma kk_send_command_outcomes_witness :
  responses_have_id kk_answered
  /\ fst (KK.send_command "Page.navigate" (JObj []) kk_answered)
     = Return (JObj [("frameId", JStr "F")]).
Proof.
  assert (H : responses_have_id kk_answered) by (repeat constructor).
  split; [exact H |].
  destruct (kk_send_command_outcomes "Page.navigate" (JObj []) kk_answered H)
    as [_ [[(t & d & rid & Hown & _ & _ & _ & Ho) | [(t & d & rid & Hown & _ & _ & He & _) | [Ho _]]] _]].
  - vm_compute in Hown. injection Hown as <- <-. exact Ho.
  - vm_compute in Hown. injection Hown as <- <-. vm_compute in He. discriminate He.
  - vm_compute in Ho. discriminate Ho.
Defined.

(** C3, the claim as stated fails on newww.py and ooo.py: when no
    response ever arrives the call does not fail with a timeout, it never
    returns. *)
Lemma nw_send_command_waits_forever :
  fst (NW.send_command "Page.enable" (JObj []) (NW.session 0 [])) = Diverges.
Proof. vm_compute. reflexivity. Qed.

(** ** The reader stops for good *)

Lemma KK_handler_stops pre t f post :
  is_data f = false ->
  KK._message_handler (pre ++ (t, f) :: post) = KK._message_handler (pre ++ [(t, f)]).
Proof.
  intro Hf. induction pre as [| [t' f'] pre IH]; simpl.
  - destruct f; try reflexivity; discriminate.
  - destruct f'; try reflexivity. now rewrite IH.
Qed.

Lemma NW_handler_stops pre t f post :
  is_data f = false ->
  NW.message_handler (pre ++ (t, f) :: post) = NW.message_handler (pre ++ [(t, f)]).
Proof.
  intro Hf. induction pre as [| [t' f'] pre IH]; simpl.
  - destruct f; try reflexivity; discriminate.
  - destruct f'; try reflexivity. now rewrite IH.
Qed.

Lemma KK_handler_responses inbound t d :
  In (t, d) (h_responses (KK._message_handler inbound)) ->
  In (t, FrameData d) inbound /\ dict_has "id" d = true.
Proof.
  induction inbound as [| [t' f'] inbound IH]; simpl; [contradiction |].
  destruct f'; simpl; try contradiction.
  destruct (dict_has "id" data) eqn:Hid; simpl.
  - intros [H | H].
    + injection H as <- <-. split; [now left | exact Hid].
    + destruct (IH H). split; [now right | assumption].
  - destruct (dict_has "method" data); simpl; intro H;
      destruct (IH H); (split; [now right | assumption]).
Qed.

Lemma NW_handler_responses inbound t d :
  In (t, d) (h_responses (NW.message_handler inbound)) ->
  In (t, FrameData d) inbound /\ dict_has "id" d = true.
Proof.
  induction inbound as [| [t' f'] inbound IH]; simpl; [contradiction |].
  destruct f'; simpl; try contradiction.
  destruct (dict_has "id" data) eqn:Hid; simpl.
  - intros [H | H].
    + injection H as <- <-. split; [now left | exact Hid].
    + destruct (IH H). split; [now right | assumption].
  - destruct (dict_has "method" data); simpl; intro H;
      destruct (IH H); (split; [now right | assumption]).
Qed.

(** What the reader queues has an id. *)
Lemma KK_session_responses_have_id t0 inbound : responses_have_id (KK.session t0 inbound).
Proof.
  unfold responses_have_id. apply Forall_forall. intros [t d] Hin.
  simpl in Hin. now apply KK_handler_responses in Hin.
Qed.

Lemma NW_session_responses_have_id t0 inbound : responses_have_id (NW.session t0 inbound).
Proof.
  unfold responses_have_id. apply Forall_forall. intros [t d] Hin.
  simpl in Hin. now apply NW_handler_responses in Hin.
Qed.

Lemma no_answer_first_own id inbound q :
  no_answer_in id inbound ->
  (forall t d, In (t, d) q -> In (t, FrameData d) inbound) ->
  first_own id q = None.
Proof.
  intros Hno Hq. apply first_own_none. apply Forall_forall.
  intros [t d] Hin. simpl. eapply Hno, Hq, Hin.
Qed.




(** ** Navigation (kk.py) *)

Lemma earliest_spec l t :
  KK.earliest l = Some t -> In t l /\ forall x, In x l -> t <= x.
Proof.
  destruct l as [| a l]; simpl; [discriminate |].
  intro H. injection H as <-.
  assert (G : forall l a, (fold_left Z.min l a = a \/ In (fold_left Z.min l a) l)
                          /\ fold_left Z.min l a <= a
                          /\ forall x, In x l -> fold_left Z.min l a <= x).
  { clear. induction l as [| b l IH]; intro a; simpl.
    - split; [now left |]. split; [lia | contradiction].
    - destruct (IH (Z.min a b)) as [Hin [Hle Hall]].
      split; [| split].
      + destruct Hin as [Heq | Hin]; [| right; now right].
        rewrite Heq. destruct (Z.min_spec a b) as [[_ ->] | [_ ->]]; [now left | right; now left].
      + lia.
      + intros x [<- | Hx]; [lia | now apply Hall]. }
  destruct (G l a) as [Hin [Hle Hall]]. split.
  - destruct Hin as [-> | Hin]; [now left | now right].
  - intros x [<- | Hx]; [exact Hle | now apply Hall].
Qed.

Lemma page_loaded_wait_spec timeout w :
  0 <= timeout ->
  let r := KK.page_loaded_wait timeout w in
  now w <= now (snd r) <= now w + timeout
  /\ logs (snd r) = logs w /\ current_url (snd r) = current_url w
  /\ (exists b, fst r = Return b
                /\ (b = false -> now (snd r) = now w + timeout)
                /\ ((forall t, In t (load_fired w) -> now w + timeout < t) -> b = false)).
Proof.
  intro Hpos. cbv zeta. unfold KK.page_loaded_wait.
  destruct (KK.earliest (load_fired w)) as [t |] eqn:He.
  - apply earliest_spec in He. destruct He as [Hin Hmin].
    destruct (Z.leb_spec t (now w + timeout)); simpl.
    + split; [lia |]. split; [reflexivity |]. split; [reflexivity |].
      exists true. split; [reflexivity |]. split; [discriminate |].
      intro Hall. specialize (Hall t Hin). lia.
    + split; [lia |]. split; [reflexivity |]. split; [reflexivity |].
      exists false. repeat split; reflexivity.
  - simpl. split; [lia |]. split; [reflexivity |]. split; [reflexivity |].
    exists false. repeat split; reflexivity.
Qed.

Lemma KK_send_command_load_fired m p w :
  load_fired (snd (KK.send_command m p w)) = load_fired w.
Proof.
  rewrite KK_send_command_sent.
  now rewrite (keeps_KK_wait_response load_fired) by reflexivity.
Qed.

Lemma KK_send_command_ends m p w : fst (KK.send_command m p w) <> Diverges.
Proof.
  destruct (KK_send_command_outcome m p w) as [-> | [t [d [_ ->]]]]; [discriminate |].
  unfold kk_deliver. destruct (dict_get "id" d); [| discriminate].
  destruct (dict_has "error" d); discriminate.
Qed.

(** [navigate] in terms of its command. *)
Lemma KK_navigate_unfold url w :
  KK.navigate url w =
  match KK.send_command "Page.navigate" (JObj [("url", JStr url)])
                        (snd (KK.page_loaded_clear w)) with
  | (Return _, w1) =>
      let w2 := set_current_url (Some url) w1 in
      match KK.page_loaded_wait 30000 w2 with
      | (Return loaded, w3) =>
          let w4 := if loaded : bool then w3
                    else set_logs (logs w3 ++ [mkLog WARNING
                                    [FText "Page load timeout, continuing anyway"]]) w3 in
          let w5 := set_now (now w4 + 3000) w4 in
          (Return tt, set_logs (logs w5 ++ [mkLog INFO [FText ("Navigated to " +++ url)]]) w5)
      | (Raise e, w3) => (Raise e, w3)
      | (Diverges, w3) => (Diverges, w3)
      end
  | (Raise e, w1) => (Raise e, w1)
  | (Diverges, w1) => (Diverges, w1)
  end.
Proof.
  unfold KK.navigate. unfold bind at 1. unfold KK.page_loaded_clear at 1, modify at 1.
  unfold bind at 1. cbn [snd].
  destruct (KK.send_command _ _ _) as [[v | e |] w1]; try reflexivity.
  unfold bind at 1. unfold modify at 1. unfold bind at 1.
  cbv zeta.
  destruct (KK.page_loaded_wait 30000 _) as [[[|] | e |] w3]; reflexivity.
Qed.

(** C4 (amended).  kk.py's [navigate] always ends: less than 44 s after
    the call (at most 11 s for the command, 30 s for the load wait, 3 s to
    settle).  Once the navigate command is answered it returns, between
    3 s and 33 s later, also on a page that never fires a load event; in
    that case it returns after exactly 33 s and has logged the load
    timeout as a warning.  When the command fails, [navigate] fails with
    the command's error. *)
Theorem kk_navigate_returns url w :
  let r := KK.navigate url w in
  let cmd := KK.send_command "Page.navigate" (JObj [("url", JStr url)])
                             (snd (KK.page_loaded_clear w)) in
  fst r <> Diverges
  /\ now w <= now (snd r) < now w + 44000
  /\ (forall v, fst cmd = Return v ->
        fst r = Return tt
        /\ now (snd cmd) + 3000 <= now (snd r) <= now (snd cmd) + 33000
        /\ current_url (snd r) = Some url
        /\ ((forall t, In t (load_fired w) -> t <= now w \/ now (snd cmd) + 30000 < t) ->
            now (snd r) = now (snd cmd) + 33000
            /\ In (mkLog WARNING [FText "Page load timeout, continuing anyway"])
                  (logs (snd r))))
  /\ (forall e, fst cmd = Raise e -> fst r = Raise e).
Proof.
  cbv zeta. rewrite KK_navigate_unfold.
  pose proof (KK_send_command_spec "Page.navigate" (JObj [("url", JStr url)])
                (snd (KK.page_loaded_clear w))) as Hspec.
  pose proof (KK_send_command_ends "Page.navigate" (JObj [("url", JStr url)])
                (snd (KK.page_loaded_clear w))) as Hends.
  pose proof (KK_send_command_load_fired "Page.navigate" (JObj [("url", JStr url)])
                (snd (KK.page_loaded_clear w))) as Hloads.
  cbv zeta in Hspec. destruct Hspec as [Ht _].
  change (now (snd (KK.page_loaded_clear w))) with (now w) in Ht.
  change (load_fired (snd (KK.page_loaded_clear w)))
    with (filter (fun t => now w <? t) (load_fired w)) in Hloads.
  destruct (KK.send_command _ _ _) as [[v | e |] w1]; cbn [fst snd] in *.
  - pose proof (page_loaded_wait_spec 30000 (set_current_url (Some url) w1)) as Hw.
    cbv zeta in Hw. destruct Hw as [Hwt [Hlogs [Hurl [b [Hb [Hfalse Hnone]]]]]]; [lia |].
    change (now (set_current_url (Some url) w1)) with (now w1) in *.
    change (load_fired (set_current_url (Some url) w1)) with (load_fired w1) in *.
    destruct (KK.page_loaded_wait 30000 _) as [[loaded | e |] w3];
      cbn [fst snd] in *; try discriminate.
    injection Hb as ->.
    assert (Hn4 : forall l, now (if b then w3 else set_logs l w3) = now w3)
      by (destruct b; reflexivity).
    assert (Hu4 : forall l, current_url (if b then w3 else set_logs l w3) = current_url w3)
      by (destruct b; reflexivity).
    cbv zeta. cbn [fst snd now current_url set_logs set_now logs].
    rewrite Hn4.
    split; [discriminate |]. split; [lia |]. split.
    + intros _ _. split; [reflexivity |]. split; [lia |].
      split; [destruct b; exact Hurl |].
      intro Hnever.
      assert (b = false) as ->.
      { apply Hnone. intros t Hin. rewrite Hloads in Hin.
        apply filter_In in Hin. destruct Hin as [Hin Hlt].
        apply Z.ltb_lt in Hlt. destruct (Hnever t Hin); lia. }
      split; [specialize (Hfalse eq_refl); lia |].
      cbn [logs set_logs]. apply in_or_app. left. apply in_or_app. right. now left.
    + intros e He. discriminate He.
  - split; [discriminate |]. split; [lia |]. split.
    + intros v Hv. discriminate Hv.
    + intros e' He. injection He as ->. reflexivity.
  - contradiction.
Qed.

(** C4, the claim as stated fails on newww.py: both commands are
    answered, no load event ever arrives, and [navigate] never returns. *)
Lemma nw_navigate_hangs_without_load_event :
  fst (NW.navigate "https://example.test" nw_never_loads) = Diverges.
Proof. vm_compute. reflexivity. Qed.

(** ** The recorded url *)

Lemma keeps_url_log lv msg : keeps current_url (log lv msg).
Proof. apply keeps_log. reflexivity. Qed.

Lemma keeps_url_sleep ms : keeps current_url (sleep ms).
Proof. apply keeps_sleep. reflexivity. Qed.

Lemma keeps_url_NW_send_command m p : keeps current_url (NW.send_command m p).
Proof.
  intro w. rewrite NW_send_command_sent.
  now rewrite (keeps_NW_wait_response current_url) by reflexivity.
Qed.

Lemma keeps_url_KK_send_command m p : keeps current_url (KK.send_command m p).
Proof.
  intro w. rewrite KK_send_command_sent.
  now rewrite (keeps_KK_wait_response current_url) by reflexivity.
Qed.

Lemma keeps_url_on_youtube : keeps current_url on_youtube.
Proof. unfold on_youtube. keeps_tac. Qed.

#[local] Hint Resolve keeps_url_log keeps_url_sleep keeps_url_NW_send_command
  keeps_url_KK_send_command keeps_url_on_youtube : keeps.

Lemma keeps_url_OOO_send_command m p : keeps current_url (OOO.send_command m p).
Proof. apply keeps_url_NW_send_command. Qed.
#[local] Hint Resolve keeps_url_OOO_send_command : keeps.

Lemma keeps_url_OOO_execute_script script : keeps current_url (OOO.execute_script script).
Proof. unfold OOO.execute_script. keeps_tac. Qed.
#[local] Hint Resolve keeps_url_OOO_execute_script : keeps.

Lemma keeps_url_OOO_wait_for_selector selector timeout :
  keeps current_url (OOO.wait_for_selector selector timeout).
Proof. unfold OOO.wait_for_selector. keeps_tac. Qed.
#[local] Hint Resolve keeps_url_OOO_wait_for_selector : keeps.

Lemma keeps_url_first_that_works selectors attempt on_error :
  (forall s, keeps current_url (attempt s)) ->
  (forall s e, keeps current_url (on_error s e)) ->
  keeps current_url (OOO.first_that_works selectors attempt on_error).
Proof.
  intros Ha He. induction selectors as [| s rest IH]; simpl; keeps_tac; auto.
Qed.

Lemma keeps_url_handle_youtube_specific_click selector :
  keeps current_url (OOO.handle_youtube_specific_click selector).
Proof.
  unfold OOO.handle_youtube_specific_click.
  keeps_tac; apply keeps_url_first_that_works; intros; keeps_tac.
Qed.
#[local] Hint Resolve keeps_url_handle_youtube_specific_click : keeps.

Lemma keeps_url_click_cdp selector : keeps current_url (OOO.click_cdp selector).
Proof. unfold OOO.click_cdp. keeps_tac. Qed.
#[local] Hint Resolve keeps_url_click_cdp : keeps.

Lemma keeps_url_click selector : keeps current_url (OOO.click selector).
Proof. unfold OOO.click. keeps_tac. Qed.

Lemma keeps_url_type_chars selector text : keeps current_url (OOO.type_chars selector text).
Proof. induction text as [| c rest IH]; simpl; keeps_tac; auto. Qed.
#[local] Hint Resolve keeps_url_type_chars : keeps.

Lemma keeps_url_type_alt_selectors alts text :
  keeps current_url (OOO.type_alt_selectors alts text).
Proof. induction alts as [| a rest IH]; simpl; keeps_tac; auto. Qed.
#[local] Hint Resolve keeps_url_type_alt_selectors : keeps.

Lemma keeps_url_type selector text : keeps current_url (OOO.type selector text).
Proof. unfold OOO.type. keeps_tac. Qed.

Lemma keeps_url_press_enter selector : keeps current_url (OOO.press_enter selector).
Proof. unfold OOO.press_enter. keeps_tac. Qed.

Lemma keeps_url_run_primitive p : keeps current_url (run_primitive p).
Proof.
  destruct p; simpl;
    [apply keeps_url_click | apply keeps_url_type | apply keeps_url_press_enter].
Qed.

Lemma run_primitives_current_url ps : forall w,
  current_url (run_primitives ps w) = current_url w.
Proof.
  induction ps as [| p rest IH]; intro w; simpl; [reflexivity |].
  pose proof (keeps_url_run_primitive p w) as H.
  destruct (run_primitive p w) as [[[] | e |] w']; simpl in H; rewrite <- H; auto.
Qed.

Lemma keeps_url_wait_for_youtube_selectors selectors :
  keeps current_url (OOO.wait_for_youtube_selectors selectors).
Proof. induction selectors as [| s rest IH]; simpl; keeps_tac; auto. Qed.

Lemma keeps_url_event_queue_get t : keeps current_url (OOO.event_queue_get t).
Proof.
  intro w. unfold OOO.event_queue_get.
  destruct (queue_get_timeout t (event_queue w) (now w)) as [[got rest] t']. reflexivity.
Qed.

(** The part of ooo.py's [navigate] that follows the assignment to
    [current_url] keeps it. *)
Lemma OOO_navigate_current_url url w :
  let c1 := OOO.send_command "Page.enable" (JObj []) w in
  let c2 := OOO.send_command "Page.navigate" (JObj [("url", JStr url)]) (snd c1) in
  (exists v1, fst c1 = Return v1) -> (exists v2, fst c2 = Return v2) ->
  current_url (snd (OOO.navigate url w)) = Some url.
Proof.
  cbv zeta. intros [v1 H1] [v2 H2].
  unfold OOO.navigate. unfold bind at 1.
  destruct (OOO.send_command "Page.enable" (JObj []) w) as [o1 w1].
  cbn [fst snd] in *. subst o1.
  unfold bind at 1.
  destruct (OOO.send_command "Page.navigate" _ w1) as [o2 w2].
  cbn [fst snd] in *. subst o2.
  unfold bind at 1. unfold modify at 1.
  match goal with
  | |- current_url (snd (?rest ?w3)) = _ =>
      assert (Hk : keeps current_url rest); [| rewrite Hk; reflexivity]
  end.
  pose proof keeps_url_event_queue_get.
  pose proof keeps_url_wait_for_youtube_selectors.
  unfold OOO.wait_for_youtube_elements.
  keeps_tac.
Qed.

Lemma KK_navigate_current_url url w v :
  fst (KK.send_command "Page.navigate" (JObj [("url", JStr url)])
                       (snd (KK.page_loaded_clear w))) = Return v ->
  current_url (snd (KK.navigate url w)) = Some url.
Proof.
  intro Hv. rewrite KK_navigate_unfold.
  destruct (KK.send_command _ _ _) as [[v' | e |] w1]; cbn [fst] in Hv; try discriminate.
  cbv zeta.
  pose proof (page_loaded_wait_spec 30000 (set_current_url (Some url) w1)) as Hw.
  cbv zeta in Hw. destruct Hw as [_ [_ [Hurl [b [Hb _]]]]]; [lia |].
  destruct (KK.page_loaded_wait 30000 _) as [[loaded | e |] w3];
    cbn [fst snd] in *; try discriminate.
  cbv zeta. cbn [snd current_url set_logs set_now].
  destruct loaded; exact Hurl.
Qed.

(** C10.  [navigate url] assigns [url] to [current_url] as soon as the
    navigate command has been answered and before it waits for the load:
    whatever the browser sends afterwards (a load event, none at all, a
    frame that makes the wait fail) the recorded url is [url] when
    [navigate] is over, in kk.py and in ooo.py.  None of [click], [type]
    and [press_enter] writes it, so after any run of them the test that
    gates their site-specific fallbacks, ["youtube.com" in
    self.current_url], is a test on the url that was requested. *)
Theorem current_url_is_requested_url url w ps :
  (forall v,
      fst (KK.send_command "Page.navigate" (JObj [("url", JStr url)])
                           (snd (KK.page_loaded_clear w))) = Return v ->
      current_url (snd (KK.navigate url w)) = Some url)
  /\
  (let c1 := OOO.send_command "Page.enable" (JObj []) w in
   let c2 := OOO.send_command "Page.navigate" (JObj [("url", JStr url)]) (snd c1) in
   (exists v1, fst c1 = Return v1) -> (exists v2, fst c2 = Return v2) ->
   let w' := run_primitives ps (snd (OOO.navigate url w)) in
   current_url (snd (OOO.navigate url w)) = Some url
   /\ current_url w' = Some url
   /\ on_youtube w' = (Return (str_contains "youtube.com" url), w')).
Proof.
  split.
  - intros v Hv. eapply KK_navigate_current_url, Hv.
  - cbv zeta. intros H1 H2.
    pose proof (OOO_navigate_current_url url w H1 H2) as Hnav.
    split; [exact Hnav |].
    assert (Hps : current_url (run_primitives ps (snd (OOO.navigate url w))) = Some url)
      by (rewrite run_primitives_current_url; exact Hnav).
    split; [exact Hps |].
    unfold on_youtube, bind, get_world. now rewrite Hps.
Qed.

Lemma current_url_is_requested_url_witness :
  (exists v1, fst (OOO.send_command "Page.enable" (JObj []) nw_never_loads) = Return v1)
  /\ (exists v2,
        fst (OOO.send_command "Page.navigate" (JObj [("url", JStr "https://example.test")])
               (snd (OOO.send_command "Page.enable" (JObj []) nw_never_loads)))
        = Return v2)
  /\ current_url (run_primitives [Click "#go"]
                    (snd (OOO.navigate "https://example.test" nw_never_loads)))
     = Some "https://example.test".
Proof.
  assert (H1 : exists v1, fst (OOO.send_command "Page.enable" (JObj []) nw_never_loads)
                          = Return v1)
    by (eexists; vm_compute; reflexivity).
  assert (H2 : exists v2,
             fst (OOO.send_command "Page.navigate"
                    (JObj [("url", JStr "https://example.test")])
                    (snd (OOO.send_command "Page.enable" (JObj []) nw_never_loads)))
             = Return v2)
    by (eexists; vm_compute; reflexivity).
  split; [exact H1 |]. split; [exact H2 |].
  exact (proj1 (proj2 (proj2 (current_url_is_requested_url "https://example.test"
                                nw_never_loads [Click "#go"]) H1 H2))).
Defined.

(** ** Typing and its verification *)

Lemma py_eq_str_true v s : py_eq_str v s = true <-> v = JStr s.
Proof.
  destruct v; simpl; try (split; [discriminate | intro H; discriminate H]).
  rewrite String.eqb_eq. split; [now intros -> | now intros [= ->]].
Qed.

Lemma keeps_url_NW_execute_script script : keeps current_url (NW.execute_script script).
Proof. pose proof keeps_url_NW_send_command. unfold NW.execute_script. keeps_tac. Qed.

Lemma keeps_url_NW_wait_for_selector selector timeout :
  keeps current_url (NW.wait_for_selector selector timeout).
Proof.
  pose proof keeps_url_NW_execute_script. pose proof keeps_url_sleep.
  unfold NW.wait_for_selector. keeps_tac.
Qed.

Lemma keeps_url_NW_type_set_value selector text :
  keeps current_url (NW.type_set_value selector text).
Proof.
  pose proof keeps_url_NW_execute_script. pose proof keeps_url_NW_wait_for_selector.
  unfold NW.type_set_value. keeps_tac.
Qed.

Lemma keeps_url_NW_type_verify selector text :
  keeps current_url (NW.type_verify selector text).
Proof.
  pose proof keeps_url_NW_execute_script.
  unfold NW.type_verify. keeps_tac.
Qed.

(** The read-back decides: equal text, [True]; anything else, the
    verification error. *)
Lemma NW_type_verify_spec selector text w :
  match NW.execute_script (NW.type_readback_script selector) w with
  | (Return entered, w') =>
      NW.type_verify selector text w =
      (if py_eq_str entered text then Return (JBool true)
       else Raise (Exception [FText ("Typed text '" +++ text
                                     +++ "' not found in element; got '");
                              FVal entered; FText "'"]),
       w')
  | (Raise e, w') => NW.type_verify selector text w = (Raise e, w')
  | (Diverges, w') => NW.type_verify selector text w = (Diverges, w')
  end.
Proof.
  unfold NW.type_verify, bind.
  destruct (NW.execute_script _ w) as [[entered | e |] w']; try reflexivity.
  destruct (py_eq_str entered text); reflexivity.
Qed.

Lemma on_youtube_some w url :
  current_url w = Some url ->
  on_youtube w = (Return (str_contains "youtube.com" url), w).
Proof. intro H. unfold on_youtube, bind, get_world. now rewrite H. Qed.

(** Off YouTube the handler of [type] logs and raises again. *)
Lemma NW_type_off_youtube selector text w url :
  current_url w = Some url -> str_contains "youtube.com" url = false ->
  fst (NW.type selector text w) =
  match NW.type_set_value selector text w with
  | (Return _, w1) => fst (NW.type_verify selector text w1)
  | (Raise e, _) => Raise e
  | (Diverges, _) => Diverges
  end.
Proof.
  intros Hurl Hyt. unfold NW.type, try_except. unfold bind at 1.
  pose proof (keeps_url_NW_type_set_value selector text w) as Hk1.
  destruct (NW.type_set_value selector text w) as [[[] | e |] w1]; cbn [snd] in Hk1.
  - pose proof (keeps_url_NW_type_verify selector text w1) as Hk2.
    destruct (NW.type_verify selector text w1) as [[v | e |] w2]; cbn [fst snd] in *;
      try reflexivity.
    unfold bind, log, modify.
    rewrite (on_youtube_some _ url) by (cbn; congruence).
    rewrite Hyt. reflexivity.
  - unfold bind, log, modify.
    rewrite (on_youtube_some _ url) by (cbn; congruence).
    rewrite Hyt. reflexivity.
  - reflexivity.
Qed.

Lemma never_raises_type_alt_selectors alts text :
  never_raises (OOO.type_alt_selectors alts text).
Proof.
  induction alts as [| a rest IH]; intros w e; simpl; [discriminate |].
  unfold bind at 1. unfold log at 1, modify at 1. unfold try_except.
  match goal with |- fst (match ?b ?w1 with _ => _ end) <> _ =>
    destruct (b w1) as [[[] | e' |] w2] end; cbn [fst]; try discriminate.
  apply IH.
Qed.

(** ooo.py's [type] raises nothing once a url is recorded. *)
Lemma OOO_type_never_raises selector text w url :
  current_url w = Some url ->
  forall e, fst (OOO.type selector text w) <> Raise e.
Proof.
  intros Hurl e. unfold OOO.type, try_except.
  match goal with |- fst (match ?b w with _ => _ end) <> _ =>
    assert (Hk : keeps current_url b);
      [| specialize (Hk w); destruct (b w) as [[[] | e' |] w1] ] end.
  { pose proof keeps_url_OOO_execute_script. pose proof keeps_url_OOO_wait_for_selector.
    pose proof keeps_url_sleep. pose proof keeps_url_type_chars. keeps_tac. }
  - discriminate.
  - cbn [snd] in Hk. unfold bind at 1. unfold log at 1, modify at 1.
    unfold bind at 1.
    rewrite (on_youtube_some _ url) by (cbn; congruence).
    destruct (str_contains "youtube.com" url); [| discriminate].
    apply never_raises_type_alt_selectors.
  - discriminate.
Qed.

(** C6 (amended).  In newww.py, in a session whose recorded url does not
    contain "youtube.com", [type] returns (the value [True]) only if the
    value it read back from the element after setting it equals the
    text, and if the value read back is anything else it raises the
    verification error.  ooo.py's [type] reads nothing back: once a url
    is recorded it raises nothing, whatever the page reports. *)
Theorem type_verifies_off_youtube selector text w url :
  current_url w = Some url ->
  str_contains "youtube.com" url = false ->
  let r := NW.type selector text w in
  (forall v, fst r = Return v ->
     v = JBool true
     /\ exists w1 w2,
          NW.type_set_value selector text w = (Return tt, w1)
          /\ NW.execute_script (NW.type_readback_script selector) w1
             = (Return (JStr text), w2))
  /\ (forall w1 entered w2,
        NW.type_set_value selector text w = (Return tt, w1) ->
        NW.execute_script (NW.type_readback_script selector) w1 = (Return entered, w2) ->
        entered <> JStr text ->
        fst r = Raise (Exception [FText ("Typed text '" +++ text
                                         +++ "' not found in element; got '");
                                  FVal entered; FText "'"]))
  /\ (forall e, fst (OOO.type selector text w) <> Raise e).
Proof.
  intros Hurl Hyt. cbv zeta.
  rewrite (NW_type_off_youtube selector text w url Hurl Hyt).
  split; [| split].
  - intros v Hv.
    destruct (NW.type_set_value selector text w) as [[[] | e |] w1]; try discriminate.
    pose proof (NW_type_verify_spec selector text w1) as Hver.
    destruct (NW.execute_script (NW.type_readback_script selector) w1)
      as [[entered | e |] w2] eqn:Hexec; rewrite Hver in Hv; cbn [fst] in Hv;
      try discriminate.
    destruct (py_eq_str entered text) eqn:Heq; [| discriminate].
    apply py_eq_str_true in Heq. subst entered.
    split; [congruence |]. exists w1, w2. split; [reflexivity | exact Hexec].
  - intros w1 entered w2 Hset Hread Hne.
    rewrite Hset.
    pose proof (NW_type_verify_spec selector text w1) as Hver.
    rewrite Hread in Hver. rewrite Hver. cbn [fst].
    destruct (py_eq_str entered text) eqn:Heq; [| reflexivity].
    apply py_eq_str_true in Heq. contradiction.
  - apply (OOO_type_never_raises selector text w url Hurl).
Qed.

Lemma type_verifies_off_youtube_witness :
  current_url nw_typed_hello = Some "https://example.test"
  /\ str_contains "youtube.com" "https://example.test" = false
  /\ (forall v, fst (NW.type "#q" "hello world" nw_typed_hello) = Return v ->
        v = JBool true
        /\ exists w1 w2,
             NW.type_set_value "#q" "hello world" nw_typed_hello = (Return tt, w1)
             /\ NW.execute_script (NW.type_readback_script "#q") w1
                = (Return (JStr "hello world"), w2)).
Proof.
  assert (H1 : current_url nw_typed_hello = Some "https://example.test") by reflexivity.
  assert (H2 : str_contains "youtube.com" "https://example.test" = false) by reflexivity.
  split; [exact H1 |]. split; [exact H2 |].
  exact (proj1 (type_verifies_off_youtube "#q" "hello world" nw_typed_hello
                  "https://example.test" H1 H2)).
Defined.

(** C6, the claim as stated fails.  newww.py on YouTube: the value read
    back is "hello", not the text "hello world", and [type] falls back
    to another selector and returns [True].  ooo.py: every script
    reports that it found no element, and [type] returns as if it had
    typed. *)
Lemma type_succeeds_without_the_text :
  (exists w1,
      NW.type_set_value "#q" "hello world" nw_on_youtube = (Return tt, w1)
      /\ fst (NW.execute_script (NW.type_readback_script "#q") w1) = Return (JStr "hello"))
  /\ fst (NW.type "#q" "hello world" nw_on_youtube) = Return (JBool true)
  /\ fst (OOO.type "#q" "hi" ooo_nothing_typed) = Return tt.
Proof.
  split; [| split].
  - eexists. split; vm_compute; reflexivity.
  - vm_compute. reflexivity.
  - vm_compute. reflexivity.
Qed.

(** ** Pressing Enter, as the page sees it *)

Section PressEnter.
Import Dom.




End PressEnter.

(** ** Text spliced into a string literal *)

Section Splice.
Import JsString.

Lemma append_assoc (a b c : string) : (a +++ b) +++ c = a +++ (b +++ c).
Proof. induction a as [| x a IH]; simpl; [reflexivity | now rewrite IH]. Qed.

Lemma length_append (a b : string) :
  String.length (a +++ b) = (String.length a + String.length b)%nat.
Proof. induction a as [| x a IH]; simpl; [reflexivity | now rewrite IH]. Qed.

Lemma chars_append (a b : string) :
  list_ascii_of_string (a +++ b) = list_ascii_of_string a ++ list_ascii_of_string b.
Proof. induction a as [| x a IH]; simpl; [reflexivity | now rewrite IH]. Qed.

Lemma codes_append (a b : string) : codes (a +++ b) = codes a ++ codes b.
Proof. unfold codes. now rewrite chars_append, map_app. Qed.

Lemma codes_length (a : string) : List.length (codes a) = String.length a.
Proof. unfold codes. rewrite length_map. induction a; simpl; auto. Qed.

Lemma code_inj a b : code a = code b -> a = b.
Proof.
  unfold code. intro H.
  rewrite <- (ascii_N_embedding a), <- (ascii_N_embedding b). now rewrite H.
Qed.

Lemma code_occurs c s : In (code c) (codes s) -> occurs c s.
Proof.
  unfold codes, occurs. rewrite in_map_iff. intros [x [Hx Hin]].
  apply code_inj in Hx. now subst.
Qed.

(** Two ways of cutting the same text in two. *)
Lemma append_split (a x b y : string) :
  a +++ x = b +++ y ->
  (exists c, a = b +++ c /\ y = c +++ x)
  \/ (exists c, c <> "" /\ b = a +++ c /\ x = c +++ y).
Proof.
  revert b. induction a as [| h a IH]; intros b H; simpl in H.
  - destruct b as [| h' b].
    + left. exists "". simpl in *. now split.
    + right. exists (String h' b). split; [discriminate |]. now split.
  - destruct b as [| h' b]; simpl in H.
    + left. exists (String h a). now split.
    + injection H as <- H. destruct (IH b H) as [[c [-> ->]] | [c [Hc [-> ->]]]].
      * left. now exists c.
      * right. now exists c.
Qed.

Lemma emit_inv y x v r :
  emit y x = Some (v, r) -> exists v', x = Some (v', r) /\ v = y ++ v'.
Proof.
  unfold emit. destruct x as [[v' r'] |]; [| discriminate].
  intros [= <- <-]. now exists v'.
Qed.

Lemma is_quote_cases c : is_quote c = true -> c = double_quote \/ c = single_quote.
Proof.
  unfold is_quote. intro H. apply orb_true_iff in H.
  destruct H as [H | H]; apply Ascii.eqb_eq in H; auto.
Qed.

Lemma hex_digit_not_quote c h : hex_digit c = Some h -> is_quote c = false.
Proof.
  intro H. destruct (is_quote c) eqn:Hq; [| reflexivity].
  apply is_quote_cases in Hq. destruct Hq as [-> | ->]; discriminate H.
Qed.

Lemma octal_digit_not_quote c h : octal_digit c = Some h -> is_quote c = false.
Proof.
  intro H. destruct (is_quote c) eqn:Hq; [| reflexivity].
  apply is_quote_cases in Hq. destruct Hq as [-> | ->]; discriminate H.
Qed.

Lemma single_escape_quote c : is_quote c = true -> single_escape c = code c.
Proof. intro H. apply is_quote_cases in H. destruct H as [-> | ->]; reflexivity. Qed.

Lemma utf16_length cp : (List.length (utf16 cp) <= 2)%nat.
Proof. unfold utf16. destruct (cp <? 65536)%N; simpl; lia. Qed.

Lemma brace_inv q : forall s cp v r,
  string_characters q (Some cp) s = Some (v, r) ->
  exists e y s' v',
    s = e +++ s'
    /\ (1 <= String.length e)%nat
    /\ (List.length y <= 2)%nat
    /\ string_characters q None s' = Some (v', r)
    /\ v = y ++ v'
    /\ (forall c, is_quote c = true -> ~ occurs c e).
Proof.
  induction s as [| c s IH]; intros cp v r H; cbn [string_characters] in H; [discriminate |].
  destruct (Ascii.eqb c "}") eqn:Hc.
  - destruct (cp <=? 1114111)%N; [| discriminate].
    apply emit_inv in H. destruct H as [v' [H ->]].
    exists (String c ""), (utf16 cp), s, v'.
    repeat split; try assumption; try (simpl; lia); try apply utf16_length.
    intros c' Hq [<- | []]. apply Ascii.eqb_eq in Hc. subst c. discriminate Hq.
  - destruct (hex_digit c) as [h |] eqn:Hh; [| discriminate].
    destruct (IH _ _ _ H) as (e & y & s' & v' & -> & Hlen & Hy & Hs & -> & Hno).
    exists (String c e), y, s', v'.
    repeat split; try assumption; try (simpl; lia).
    intros c' Hq [<- | Hin]; [| exact (Hno c' Hq Hin)].
    apply hex_digit_not_quote in Hh. congruence.
Qed.

Lemma backslash_not_quote q : is_quote q = true -> Ascii.eqb backslash q = false.
Proof. intro H. apply is_quote_cases in H. destruct H as [-> | ->]; reflexivity. Qed.

Lemma eqb_not_quote c x : Ascii.eqb c x = true -> is_quote x = false -> is_quote c = false.
Proof. intros H Hx. apply Ascii.eqb_eq in H. now subst. Qed.

(** The quotes are none of the characters listed. *)
Ltac no_quote_in :=
  let c := fresh "c" in
  let Hq := fresh "Hq" in
  let Hin := fresh "Hin" in
  intros c Hq Hin; exfalso; cbn in Hin;
  repeat (destruct Hin as [Hin | Hin]; [subst c |]); try contradiction;
  match goal with
  | H : Ascii.eqb ?a _ = true |- _ =>
      apply Ascii.eqb_eq in H; subst a; discriminate Hq
  | H : hex_digit ?a = Some _ |- _ =>
      apply hex_digit_not_quote in H; congruence
  | H : octal_digit ?a = Some _ |- _ =>
      apply octal_digit_not_quote in H; congruence
  end.

Ltac escape_done :=
  split; [reflexivity |]; split; [simpl; lia |]; split; [simpl; lia |];
  split; [assumption |]; split; [reflexivity |].

Lemma escape_inv q rest v r :
  is_quote q = true ->
  string_characters q None (String backslash rest) = Some (v, r) ->
  escape_step q rest v r.
Proof.
  intros Hq H. cbn [string_characters] in H.
  rewrite (backslash_not_quote q Hq) in H.
  change (is_line_terminator backslash) with false in H.
  rewrite Ascii.eqb_refl in H.
  destruct rest as [| e0 rest1]; [discriminate |].
  destruct (Ascii.eqb e0 LF) eqn:E_lf.
  { (* line continuation *)
    exists (String e0 ""), [], rest1, v. repeat split; try assumption; try (simpl; lia).
    all: revert c H0 H1; no_quote_in. }
  destruct (Ascii.eqb e0 CR) eqn:E_cr.
  { destruct rest1 as [| l rest2]; [discriminate |].
    destruct (Ascii.eqb l LF) eqn:E_l.
    - exists (String e0 (String l "")), [], rest2, v.
      escape_done; no_quote_in.
    - exists (String e0 ""), [], (String l rest2), v.
      escape_done; no_quote_in. }
  destruct (Ascii.eqb e0 "x") eqn:E_x.
  { destruct rest1 as [| h1 [| h2 rest2]]; try discriminate.
    destruct (hex_digit h1) as [a |] eqn:Ha; [| discriminate].
    destruct (hex_digit h2) as [b |] eqn:Hb; [| discriminate].
    apply emit_inv in H. destruct H as [v' [H ->]].
    exists (String e0 (String h1 (String h2 ""))), [(16 * a + b)%N], rest2, v'.
    escape_done; no_quote_in. }
  destruct (Ascii.eqb e0 "u") eqn:E_u.
  { destruct rest1 as [| h1 rest2]; [discriminate |].
    destruct (Ascii.eqb h1 "{") eqn:E_b.
    - destruct rest2 as [| h rest3]; [discriminate |].
      destruct (hex_digit h) as [a |] eqn:Ha; [| discriminate].
      apply brace_inv in H.
      destruct H as (e & y & s' & v' & -> & Hlen & Hy & Hs & -> & Hno).
      exists (String e0 (String h1 (String h e))), y, s', v'.
      escape_done.
      intros c Hc Hin; exfalso; cbn in Hin;
        destruct Hin as [Hin | [Hin | [Hin | Hin]]]; try subst c;
        [ apply Ascii.eqb_eq in E_u; subst e0; discriminate Hc
        | apply Ascii.eqb_eq in E_b; subst h1; discriminate Hc
        | apply hex_digit_not_quote in Ha; congruence
        | exact (Hno c Hc Hin) ].
    - destruct rest2 as [| h2 [| h3 [| h4 rest5]]]; try discriminate.
      destruct (hex_digit h1) as [a |] eqn:Ha; [| discriminate].
      destruct (hex_digit h2) as [b |] eqn:Hb; [| discriminate].
      destruct (hex_digit h3) as [c3 |] eqn:Hc3; [| discriminate].
      destruct (hex_digit h4) as [d |] eqn:Hd; [| discriminate].
      apply emit_inv in H. destruct H as [v' [H ->]].
      exists (String e0 (String h1 (String h2 (String h3 (String h4 ""))))),
        [(((16 * a + b) * 16 + c3) * 16 + d)%N], rest5, v'.
      escape_done; no_quote_in. }
  destruct (octal_digit e0) as [d1 |] eqn:O1.
  { destruct rest1 as [| o2 rest2]; [discriminate |].
    destruct (octal_digit o2) as [d2 |] eqn:O2.
    - destruct (d1 <=? 3)%N.
      + destruct rest2 as [| o3 rest3]; [discriminate |].
        destruct (octal_digit o3) as [d3 |] eqn:O3.
        * apply emit_inv in H. destruct H as [v' [H ->]].
          exists (String e0 (String o2 (String o3 ""))), [((8 * d1 + d2) * 8 + d3)%N],
            rest3, v'.
          escape_done; no_quote_in.
        * apply emit_inv in H. destruct H as [v' [H ->]].
          exists (String e0 (String o2 "")), [(8 * d1 + d2)%N], (String o3 rest3), v'.
          escape_done; no_quote_in.
      + apply emit_inv in H. destruct H as [v' [H ->]].
        exists (String e0 (String o2 "")), [(8 * d1 + d2)%N], rest2, v'.
        escape_done; no_quote_in.
    - apply emit_inv in H. destruct H as [v' [H ->]].
      exists (String e0 ""), [d1], (String o2 rest2), v'.
      escape_done; no_quote_in. }
  (* a single character *)
  apply emit_inv in H. destruct H as [v' [H ->]].
  exists (String e0 ""), [single_escape e0], rest1, v'.
  escape_done.
  intros c Hc [<- | []]. split; [reflexivity |]. now rewrite single_escape_quote.
Qed.

Lemma app_eq_skipn {A} (y v l m : list A) :
  y ++ v = l ++ m -> (List.length y <= List.length l)%nat ->
  v = skipn (List.length y) l ++ m.
Proof.
  revert l. induction y as [| a y IH]; intros l H Hlen; simpl in *.
  - exact H.
  - destruct l as [| b l]; simpl in *; [lia |].
    injection H as _ H. apply IH; [exact H | lia].
Qed.

Lemma In_skipn {A} (x : A) n l : In x (skipn n l) -> In x l.
Proof.
  revert l. induction n as [| n IH]; intros l H; simpl in *; [exact H |].
  destruct l as [| a l]; [contradiction | right; now apply IH].
Qed.

Lemma plain_char_true q c :
  Ascii.eqb c q = false -> is_line_terminator c = false ->
  Ascii.eqb c backslash = false -> plain_char q c = true.
Proof. intros H1 H2 H3. unfold plain_char. now rewrite H1, H2, H3. Qed.

(** The heart of the matter.  Suppose the literal that starts with the
    text [t] has, as its value, the codes of [t] preceded by some codes
    [pend] among which the quote is not.  Then [pend] is empty, [t] has
    only plain characters, and the literal ends where [t] does. *)
Lemma literal_core q :
  is_quote q = true ->
  forall n t pend post r,
    (String.length t <= n)%nat ->
    ~ In (code q) pend ->
    string_characters q None (t +++ String q post) = Some (pend ++ codes t, r) ->
    pend = [] /\ verbatim_safe q t = true /\ r = post.
Proof.
  intros Hq. induction n as [| n IH]; intros t pend post r Hlen Hpend H.
  - destruct t; [| simpl in Hlen; lia].
    cbn [append string_characters] in H. rewrite Ascii.eqb_refl in H.
    injection H as H ->. destruct pend; [now repeat split | discriminate H].
  - destruct t as [| c t'].
    { cbn [append string_characters] in H. rewrite Ascii.eqb_refl in H.
      injection H as H ->. destruct pend; [now repeat split | discriminate H]. }
    cbn [append] in H. simpl in Hlen.
    change (codes (String c t')) with (code c :: codes t') in H.
    destruct (Ascii.eqb c q) eqn:Ecq.
    { cbn [string_characters] in H. rewrite Ecq in H. injection H as H _.
      exfalso. destruct pend; discriminate H. }
    destruct (is_line_terminator c) eqn:Elt.
    { cbn [string_characters] in H. rewrite Ecq, Elt in H. discriminate H. }
    destruct (Ascii.eqb c backslash) eqn:Ebs.
    + (* an escape *)
      exfalso. apply Ascii.eqb_eq in Ebs. subst c.
      apply (escape_inv q _ _ _ Hq) in H.
      destruct H as (e & y & s' & v' & Hcut & He & Hy & Hs & Hv & Hquote).
      assert (Hbq : code q <> code backslash).
      { intro Heq. apply code_inj in Heq. subst q. discriminate Hq. }
      apply append_split in Hcut.
      destruct Hcut as [[c0 [-> ->]] | [c0 [Hc0 [-> Hpost]]]].
      * (* the escape lies within the text *)
        rewrite codes_append in Hv.
        destruct (in_dec ascii_dec q (list_ascii_of_string e)) as [Hin | Hnin].
        -- destruct (Hquote q Hq Hin) as [-> ->].
           destruct pend as [| p pend]; simpl in Hv; injection Hv as Hv _.
           ++ now apply Hbq.
           ++ apply Hpend. now left.
        -- replace (pend ++ code backslash :: codes e ++ codes c0)
             with ((pend ++ code backslash :: codes e) ++ codes c0) in Hv
             by (rewrite <- app_assoc; reflexivity).
           symmetry in Hv. apply app_eq_skipn in Hv.
           2:{ rewrite length_app. simpl. rewrite codes_length. lia. }
           rewrite Hv in Hs.
           apply IH in Hs.
           ++ destruct Hs as [Hnil _].
              assert (Hl : List.length (skipn (List.length y)
                                          (pend ++ code backslash :: codes e)) = 0%nat)
                by now rewrite Hnil.
              rewrite length_skipn, length_app in Hl. simpl in Hl.
              rewrite codes_length in Hl. lia.
           ++ rewrite length_append in Hlen. lia.
           ++ intro Hin. apply In_skipn in Hin. apply in_app_or in Hin.
              destruct Hin as [Hin | [Hin | Hin]].
              ** now apply Hpend.
              ** now apply Hbq.
              ** apply code_occurs in Hin. now apply Hnin.
      * (* the escape runs over the end of the text *)
        destruct c0 as [| q' c0]; [now apply Hc0 |].
        simpl in Hpost. injection Hpost as <- _.
        assert (Hin : occurs q (t' +++ String q c0)).
        { unfold occurs. rewrite chars_append. apply in_or_app. right. now left. }
        destruct (Hquote q Hq Hin) as [He1 ->].
        assert (t' = "") as ->.
        { destruct t' as [| a t']; [reflexivity |].
          apply (f_equal String.length) in He1. simpl in He1.
          rewrite length_append in He1. simpl in He1. lia. }
        destruct pend as [| p pend]; simpl in Hv; injection Hv as Hv _.
        -- now apply Hbq.
        -- apply Hpend. now left.
    + (* a plain character *)
      cbn [string_characters] in H. rewrite Ecq, Elt, Ebs in H.
      apply emit_inv in H. destruct H as [v1 [H Hv]].
      destruct pend as [| p pend]; simpl in Hv.
      * injection Hv as Hv. subst v1.
        apply (IH t' [] post r) in H; [| lia | intros []].
        destruct H as [_ [Hsafe ->]].
        split; [reflexivity |]. split; [| reflexivity].
        unfold verbatim_safe in *. simpl. rewrite Hsafe.
        now rewrite (plain_char_true q c Ecq Elt Ebs).
      * exfalso. injection Hv as -> Hv. subst v1.
        replace (pend ++ code c :: codes t') with ((pend ++ [code c]) ++ codes t') in H
          by (rewrite <- app_assoc; reflexivity).
        apply IH in H; [| lia |].
        -- destruct H as [Hnil _]. destruct pend; discriminate Hnil.
        -- intro Hin. apply in_app_or in Hin. destruct Hin as [Hin | [Hin | []]].
           ++ apply Hpend. now right.
           ++ apply code_inj in Hin. subst c. rewrite Ascii.eqb_refl in Ecq. discriminate.
Qed.

(** Text with a quote of the literal's kind, a backslash or a line
    terminator in it is not the literal's value. *)
Lemma literal_not_verbatim q text post v r :
  is_quote q = true ->
  verbatim_safe q text = false ->
  string_literal q (text +++ String q post) = Some (v, r) ->
  v <> codes text.
Proof.
  intros Hq Hunsafe H Hv. subst v. unfold string_literal in H.
  apply (literal_core q Hq (String.length text) text [] post r) in H;
    [| lia | intros []].
  destruct H as [_ [Hsafe _]]. congruence.
Qed.

(** Text of plain characters is the literal's value, and the literal ends
    where the text does. *)
Lemma literal_verbatim q text post :
  verbatim_safe q text = true ->
  string_literal q (text +++ String q post) = Some (codes text, post).
Proof.
  unfold string_literal, verbatim_safe.
  induction text as [| c t IH]; intro Hsafe; cbn [append string_characters].
  - now rewrite Ascii.eqb_refl.
  - simpl in Hsafe. apply andb_true_iff in Hsafe. destruct Hsafe as [Hc Ht].
    unfold plain_char in Hc. apply negb_true_iff in Hc.
    apply orb_false_iff in Hc. destruct Hc as [Hc Hlt].
    apply orb_false_iff in Hc. destruct Hc as [Hcq Hbs].
    rewrite Hcq, Hlt, Hbs, (IH Ht). reflexivity.
Qed.

Lemma contains_char_unsafe q c text :
  contains_char c text = true ->
  plain_char q c = false ->
  verbatim_safe q text = false.
Proof.
  unfold contains_char, verbatim_safe. intros Hc Hp.
  apply existsb_exists in Hc. destruct Hc as [x [Hin Hx]].
  apply Ascii.eqb_eq in Hx. subst x.
  destruct (forallb (plain_char q) (list_ascii_of_string text)) eqn:Hall; [| reflexivity].
  rewrite forallb_forall in Hall. rewrite (Hall c Hin) in Hp. discriminate.
Qed.

Lemma special_char_not_plain q c :
  c = q \/ c = backslash \/ c = LF \/ c = CR -> plain_char q c = false.
Proof.
  unfold plain_char, is_line_terminator.
  intros [-> | [-> | [-> | ->]]]; rewrite ?Ascii.eqb_refl, ?orb_true_r; reflexivity.
Qed.



End Splice.

(** ** The status of a run *)

Section RunStatus.

Context {Driver : Type}.
Variable start_chrome : Driver + exn.
Variable perform : nat -> json -> json -> Driver -> (dict * option exn) * Driver.
Variable take_final_screenshot : Driver -> string + exn.

Context {Env : Type}.
Variable start_browser : ST Env unit.
Variable connect : ST Env bool.
Variable get_clean_html : ST Env (option string).
Variable parse_command : string -> json -> list json -> ST Env json.
Variable navigate : json -> ST Env unit.
Variable click_element : json -> ST Env bool.
Variable type_text : json -> json -> ST Env bool.
Variable press_enter : json -> ST Env bool.
Variable py_int : json -> ST Env Z.
Variable sleep : Z -> Env -> Env.
Variable log : level -> fstring -> Env -> Env.

Let execute_browser_automation :=
  OM.execute_browser_automation start_chrome perform take_final_screenshot.
Let execute_command :=
  KKRun.execute_command start_browser connect get_clean_html parse_command navigate
    click_element type_text press_enter py_int sleep log.
Let step_loop :=
  KKRun.step_loop get_clean_html parse_command navigate
    click_element type_text press_enter py_int sleep log.
Let handle_command :=
  KKRun.handle_command start_browser connect get_clean_html parse_command navigate
    click_element type_text press_enter py_int sleep log.

(** The step runner ends, with one record per step, unless a step is not
    an object. *)
Lemma run_steps_spec : forall steps i done d,
  match OM.run_steps perform i steps done d with
  | (Return l, _) =>
      exists l', l = done ++ l' /\ List.length l' = List.length steps /\ Forall recorded l'
  | (Raise e, _) => e = AttributeError
  | (Diverges, _) => False
  end.
Proof.
  induction steps as [| step rest IH]; intros i done d; cbn [OM.run_steps].
  - simpl. exists []. rewrite app_nil_r. repeat split. constructor.
  - unfold bind at 1. destruct step; try reflexivity.
    cbn [py_get ret]. unfold bind at 1. cbn [py_get ret]. unfold bind at 1.
    destruct (perform i (dict_get_default "action" JNull kv)
                      (dict_get_default "params" (JObj []) kv) d)
      as [[fields [e |]] d'].
    + specialize (IH (S i) (done ++ [OM.mkStepResult (dict_get_default "action" JNull kv)
                                       "error" fields (Some e)]) d').
      destruct (OM.run_steps perform (S i) rest _ d') as [[l | e' |] d'']; try exact IH.
      destruct IH as (l' & -> & Hlen & Hall).
      eexists (_ :: l'). rewrite <- app_assoc. split; [reflexivity |].
      split; [simpl; now rewrite Hlen |].
      constructor; [| exact Hall]. right. split; [reflexivity | now exists e].
    + specialize (IH (S i) (done ++ [OM.mkStepResult (dict_get_default "action" JNull kv)
                                       "success" fields None]) d').
      destruct (OM.run_steps perform (S i) rest _ d') as [[l | e' |] d'']; try exact IH.
      destruct IH as (l' & -> & Hlen & Hall).
      eexists (_ :: l'). rewrite <- app_assoc. split; [reflexivity |].
      split; [simpl; now rewrite Hlen |].
      constructor; [| exact Hall]. left. split; reflexivity.
Qed.

Lemma any_error_true l :
  OM.any_error l = true <-> Exists (fun sr => OM.sr_status sr = "error") l.
Proof.
  unfold OM.any_error. rewrite existsb_exists, Exists_exists.
  split; intros [sr [Hin H]]; exists sr; (split; [exact Hin |]);
    now apply String.eqb_eq.
Qed.

Lemma any_error_false l :
  Forall recorded l ->
  OM.any_error l = false -> Forall (fun sr => OM.sr_status sr = "success") l.
Proof.
  intros Hrec Hno. induction Hrec as [| sr l Hsr Hrec IH]; [constructor |].
  unfold OM.any_error in Hno. simpl in Hno. apply orb_false_iff in Hno.
  destruct Hno as [Hsr' Hno]. constructor; [| now apply IH].
  destruct Hsr as [[Hs _] | [Hs _]]; [exact Hs |].
  rewrite Hs in Hsr'. discriminate.
Qed.

Lemma success_is_not_error sr :
  OM.sr_status sr = "success" -> OM.sr_status sr <> "error".
Proof. intros -> H. discriminate H. Qed.

(** What om.py's runner returns. *)
Lemma execute_browser_automation_spec instructions browser_type :
  exists r,
    execute_browser_automation instructions browser_type = Return r
    /\ match OM.steps_results r with
       | Some l =>
           Forall recorded l
           /\ (exists kv steps,
                  instructions = JObj kv
                  /\ py_items (dict_get_default "steps" (JArr []) kv) = Some steps
                  /\ List.length l = List.length steps)
           /\ ((OM.status r = "success"
                /\ Forall (fun sr => OM.sr_status sr = "success") l)
               \/ (OM.status r = "partial_success"
                   /\ Exists (fun sr => OM.sr_status sr = "error") l))
       | None => OM.status r = "error"
       end.
Proof.
  unfold execute_browser_automation, OM.execute_browser_automation.
  destruct (String.eqb (lower browser_type) "chrome");
    [| eexists; split; reflexivity].
  destruct start_chrome as [driver | e]; [| eexists; split; reflexivity].
  unfold bind at 1. destruct instructions; try (eexists; split; reflexivity).
  cbn [py_get ret]. unfold bind at 1. unfold py_iter.
  destruct (py_items (dict_get_default "steps" (JArr []) kv)) as [steps |] eqn:Hiter;
    [| eexists; split; reflexivity].
  cbn [ret]. unfold bind at 1.
  pose proof (run_steps_spec steps 0 [] driver) as Hrun.
  destruct (OM.run_steps perform 0 steps [] driver) as [[l | e |] d1].
  - destruct Hrun as (l' & -> & Hlen & Hrec). simpl app.
    unfold bind at 1. unfold get_world at 1.
    destruct (take_final_screenshot d1) as [shot | e]; [| eexists; split; reflexivity].
    destruct (OM.any_error l') eqn:Hany; (eexists; split; [reflexivity |]);
      cbn [OM.steps_results OM.status].
    + split; [exact Hrec |]. split; [now exists kv, steps |].
      right. split; [reflexivity | now apply any_error_true].
    + split; [exact Hrec |]. split; [now exists kv, steps |].
      left. split; [reflexivity | now apply any_error_false].
  - eexists; split; reflexivity.
  - contradiction.
Qed.

(** kk.py's [execute_command] raises nothing: its outer handler turns
    every exception into [False]. *)
Lemma execute_command_no_raise fuel command env e :
  fst (execute_command fuel command env) <> Raise e.
Proof.
  unfold execute_command, KKRun.execute_command, try_except.
  match goal with |- fst (match ?b env with _ => _ end) <> _ =>
    destruct (b env) as [[v | e' |] env'] end; discriminate.
Qed.

(** It returns [True] as soon as the step loop ends. *)
Lemma execute_command_true fuel command env env1 env2 env3 :
  start_browser env = (Return tt, env1) ->
  connect env1 = (Return true, env2) ->
  step_loop fuel command [] env2 = (Return tt, env3) ->
  fst (execute_command fuel command env) = Return true.
Proof.
  intros Hs Hc Hl. unfold execute_command, KKRun.execute_command, try_except.
  unfold bind at 1. rewrite Hs. unfold bind at 1. rewrite Hc. cbn [negb].
  unfold bind at 1. fold step_loop. rewrite Hl. reflexivity.
Qed.

(** C7 (amended).  om.py's [execute_browser_automation] always returns a
    result.  When the run is not aborted the result holds one record per
    step, each with status "success" or with status "error" and the
    exception; the overall status is "success" exactly when every record
    has status "success" and "partial_success" when some record has
    status "error".  When the run is aborted the status is "error" and
    there are no step records.  kk.py's [handle_command] reports "success"
    exactly when [execute_command] returned [True] and "error" when it
    returned [False]; it has no third status and returns no history.
    [execute_command] raises nothing and returns [True] whenever its step
    loop comes to an end, whatever became of the steps. *)
Theorem run_status instructions browser_type fuel data env :
  (exists r,
      execute_browser_automation instructions browser_type = Return r
      /\ match OM.steps_results r with
         | Some l =>
             Forall recorded l
             /\ (exists kv steps,
                    instructions = JObj kv
                    /\ py_items (dict_get_default "steps" (JArr []) kv) = Some steps
                    /\ List.length l = List.length steps)
             /\ ((OM.status r = "success"
                  /\ Forall (fun sr => OM.sr_status sr = "success") l)
                 \/ (OM.status r = "partial_success"
                     /\ Exists (fun sr => OM.sr_status sr = "error") l))
         | None => OM.status r = "error"
         end)
  /\ (forall reply,
        fst (handle_command fuel data env) = Return reply ->
        KKRun.http_code reply = 200 ->
        exists kv command,
          data = JObj kv /\ dict_get "command" kv = Some command
          /\ ((KKRun.reply_status reply = Some "success"
               /\ fst (execute_command fuel command env) = Return true)
              \/ (KKRun.reply_status reply = Some "error"
                  /\ fst (execute_command fuel command env) = Return false)))
  /\ (forall command e, fst (execute_command fuel command env) <> Raise e)
  /\ (forall command env1 env2 env3,
        start_browser env = (Return tt, env1) ->
        connect env1 = (Return true, env2) ->
        step_loop fuel command [] env2 = (Return tt, env3) ->
        fst (execute_command fuel command env) = Return true).
Proof.
  split; [apply execute_browser_automation_spec |].
  split; [| split; [intros; apply execute_command_no_raise
                   | intros; eapply execute_command_true; eassumption]].
  intros reply Hreply Hcode.
  unfold handle_command, KKRun.handle_command in Hreply.
  unfold bind at 1 in Hreply.
  destruct (truthy data) eqn:Htr; cbn [negb] in Hreply.
  - unfold bind at 1 in Hreply. unfold py_in in Hreply.
    destruct (json_has "command" data) as [[|] |]; cbn [ret raise negb fst] in Hreply;
      try discriminate Hreply.
    + unfold bind at 1 in Hreply. unfold py_getitem in Hreply.
      destruct data as [| | | | | | kv]; try discriminate Hreply.
      destruct (dict_get "command" kv) as [command |] eqn:Hcommand;
        [| discriminate Hreply].
      cbn [ret] in Hreply. unfold bind at 1 in Hreply.
      fold execute_command in Hreply.
      exists kv, command. split; [reflexivity |]. split; [exact Hcommand |].
      destruct (execute_command fuel command env) as [[[|] | e |] env'];
        cbn [ret fst] in Hreply; try discriminate Hreply;
        injection Hreply as <-; [left | right]; split; reflexivity.
    + injection Hreply as <-. discriminate Hcode.
  - cbn [ret fst] in Hreply. injection Hreply as <-. discriminate Hcode.
Qed.

End RunStatus.

(** C7, the claim as stated fails on kk.py: the only step of the run
    fails in all three attempts, the planner then reports completion,
    and the status is "success", not "partial". *)
Lemma kk_failed_step_reported_as_success :
  fst (demo_attempts (1%nat, [])) = Return false
  /\ exists reply env,
       demo_handle_command (JObj [("command", JStr "click the button")]) (0%nat, [])
         = (Return reply, env)
       /\ KKRun.reply_status reply = Some "success"
       /\ In (mkLog WARNING [FText "Step execution failed after 3 attempts: ";
                             FVal (JStr "click"); FText " - ";
                             FVal (JStr "Click the button")])
             (snd env).
Proof.
  split; [vm_compute; reflexivity |].
  eexists. eexists. split; [vm_compute; reflexivity |].
  split; [reflexivity |]. simpl. tauto.
Qed.

(* ================================================================== *)
(** * More of the drivers: waiting, parsing, cleaning                   *)
(* ================================================================== *)

(** ** A rule for loops with a measure *)

Section WhileRule.
Context {S A : Type}.
Variables (cond : S -> bool) (body : ST S (loop_ctl A)) (after : ST S A).
Variable inv : S -> Prop.
Variable post : outcome A -> S -> Prop.
Variable measure : S -> nat.
Hypothesis cond_measure : forall w, inv w -> cond w = true -> (0 < measure w)%nat.
Hypothesis body_ok : forall w, inv w -> cond w = true ->
  match body w with
  | (Return Continue, w') => inv w' /\ (measure w' < measure w)%nat
  | (Return (Break a), w') => post (Return a) w'
  | (Raise e, w') => post (Raise e) w'
  | (Diverges, w') => post Diverges w'
  end.
Hypothesis after_ok : forall w, inv w -> cond w = false ->
  post (fst (after w)) (snd (after w)).

(** With fuel for every turn that the measure allows, the loop ends as
    its body or the code after it does, never for want of fuel. *)
Lemma while_loop_rule fuel : forall w,
  inv w -> (measure w <= fuel)%nat ->
  post (fst (while_loop fuel cond body after w))
       (snd (while_loop fuel cond body after w)).
Proof.
  induction fuel as [| fuel IH]; intros w Hinv Hfuel; cbn [while_loop];
    destruct (cond w) eqn:Hc; try (now apply after_ok).
  - pose proof (cond_measure w Hinv Hc). lia.
  - pose proof (body_ok w Hinv Hc) as Hb.
    destruct (body w) as [[[| a] | e |] w']; cbn [fst snd]; try exact Hb.
    destruct Hb as [Hinv' Hlt]. apply IH; [exact Hinv' | lia].
Qed.

End WhileRule.

(** ** Arithmetic of the polling loops *)

Lemma turns_left_pos period limit start t :
  0 < period -> t - start < limit -> (0 < turns_left period limit start t)%nat.
Proof.
  intros Hp Ht. unfold turns_left.
  assert (1 <= (start + limit - t + period - 1) / period).
  { apply Z.div_le_lower_bound; lia. }
  lia.
Qed.

Lemma turns_left_turn period limit start t t' :
  0 < period -> t - start < limit -> t + period <= t' ->
  (S (turns_left period limit start t') <= turns_left period limit start t)%nat.
Proof.
  intros Hp Ht Ht'. unfold turns_left.
  assert (H1 : 1 <= (start + limit - t + period - 1) / period).
  { apply Z.div_le_lower_bound; lia. }
  assert (H2 : (start + limit - t' + period - 1) / period
               <= (start + limit - t + period - 1) / period - 1).
  { replace ((start + limit - t + period - 1) / period - 1)
      with ((start + limit - t + period - 1 + (-1) * period) / period)
      by (rewrite Z.div_add by lia; lia).
    apply Z.div_le_mono; lia. }
  lia.
Qed.

Lemma turns_left_mono period limit start t t' :
  0 < period -> t <= t' ->
  (turns_left period limit start t' <= turns_left period limit start t)%nat.
Proof.
  intros Hp Ht. unfold turns_left.
  assert ((start + limit - t' + period - 1) / period
          <= (start + limit - t + period - 1) / period)
    by (apply Z.div_le_mono; lia).
  lia.
Qed.

Lemma turns_left_start timeout start :
  (turns_left 500 (timeout * 1000) start start <= Z.to_nat (2 * timeout))%nat.
Proof.
  unfold turns_left.
  replace (start + timeout * 1000 - start + 500 - 1) with (499 + (2 * timeout) * 500) by lia.
  rewrite Z.div_add by lia. change (499 / 500) with 0. lia.
Qed.

(** ** The clock only moves forward *)

Lemma advances_bind {A C} (m : M A) (k : A -> M C) :
  advances m -> (forall a, advances (k a)) -> advances (x <- m ;; k x).
Proof.
  intros Hm Hk w. unfold bind. specialize (Hm w).
  destruct (m w) as [[a | e |] w1]; cbn [snd] in *; try assumption.
  specialize (Hk a w1). lia.
Qed.

Lemma advances_keeps {A} (m : M A) : keeps now m -> advances m.
Proof. intros H w. rewrite H. lia. Qed.

Lemma advances_NW_send_command m p : advances (NW.send_command m p).
Proof. intro w. apply (NW_send_command_spec m p w). Qed.

Lemma advances_NW_execute_script script : advances (NW.execute_script script).
Proof.
  unfold NW.execute_script. apply advances_bind; [apply advances_NW_send_command |].
  intro a. apply advances_keeps. keeps_tac.
Qed.

Lemma advances_OOO_execute_script script : advances (OOO.execute_script script).
Proof.
  unfold OOO.execute_script. apply advances_bind; [apply advances_NW_send_command |].
  intro a. apply advances_keeps. keeps_tac.
Qed.

(** ** Hanging is waiting for a response *)

Lemma how_ret {A} (a : A) : hangs_only_waiting (ret a).
Proof. intros w H. discriminate. Qed.

Lemma how_raise {A} (e : exn) : hangs_only_waiting (@raise World A e).
Proof. intros w H. discriminate. Qed.

Lemma how_get_world : hangs_only_waiting get_world.
Proof. intros w H. discriminate. Qed.

Lemma how_modify g : hangs_only_waiting (modify g).
Proof. intros w H. discriminate. Qed.

Lemma how_bind {A C} (m : M A) (k : A -> M C) :
  hangs_only_waiting m -> (forall a, hangs_only_waiting (k a)) ->
  hangs_only_waiting (x <- m ;; k x).
Proof.
  intros Hm Hk w. unfold bind. specialize (Hm w).
  destruct (m w) as [[a | e |] w1]; cbn [fst snd] in *.
  - apply Hk.
  - discriminate.
  - intros _. now apply Hm.
Qed.

Lemma how_try_except {A} (m : M A) (h : exn -> M A) :
  hangs_only_waiting m -> (forall e, hangs_only_waiting (h e)) ->
  hangs_only_waiting (try_except m h).
Proof.
  intros Hm Hh w. unfold try_except. specialize (Hm w).
  destruct (m w) as [[a | e |] w1]; cbn [fst snd] in *.
  - discriminate.
  - apply Hh.
  - exact Hm.
Qed.

Lemma how_py_in k v : hangs_only_waiting (py_in k v).
Proof. unfold py_in. destruct (json_has k v); [apply how_ret | apply how_raise]. Qed.

Lemma how_py_getitem v k : hangs_only_waiting (py_getitem v k).
Proof.
  unfold py_getitem. destruct v as [| | | | | | d]; try apply how_raise.
  destruct (dict_get k d); [apply how_ret | apply how_raise].
Qed.

Lemma how_py_get v k d : hangs_only_waiting (py_get v k d).
Proof. unfold py_get. destruct v; try apply how_raise. apply how_ret. Qed.

Lemma how_py_len v : hangs_only_waiting (py_len v).
Proof. unfold py_len. destruct v; try apply how_raise; apply how_ret. Qed.

Lemma how_py_index v i : hangs_only_waiting (py_index v i).
Proof.
  unfold py_index. destruct v as [| | | | s | l |]; try apply how_raise.
  - destruct (String.get i s); [apply how_ret | apply how_raise].
  - destruct (nth_error l i); [apply how_ret | apply how_raise].
Qed.

Lemma how_py_midpoint a b : hangs_only_waiting (py_midpoint a b).
Proof. unfold py_midpoint. destruct a, b; try apply how_raise; apply how_ret. Qed.

Lemma how_send_command m p : hangs_only_waiting (NW.send_command m p).
Proof.
  intros w H.
  destruct (NW_send_command_spec m p w) as [_ [[_ [_ Hq]] | [pre [t [d [_ [_ [Hf [_ [Ho _]]]]]]]]]].
  - exact Hq.
  - rewrite Ho in H. unfold nw_deliver in H.
    destruct (dict_get "id" d); [| discriminate].
    destruct (dict_has "error" d); [| discriminate].
    destruct (dict_get_default "error" JNull d); discriminate.
Qed.

Create HintDb how.
#[local] Hint Resolve how_ret how_raise how_get_world how_modify how_py_in
  how_py_getitem how_py_get how_py_len how_py_index how_py_midpoint
  how_send_command : how.

Ltac how_step :=
  first
    [ solve [auto with how nocore]
    | apply how_bind; [| intros ?]
    | apply how_try_except; [| intros ?]
    | match goal with
      | |- hangs_only_waiting (if ?b then _ else _) => destruct b
      | |- hangs_only_waiting (match ?x with _ => _ end) => destruct x
      end ].
Ltac how_tac := repeat how_step.

Lemma how_log lv msg : hangs_only_waiting (log lv msg).
Proof. apply how_modify. Qed.

Lemma how_sleep ms : hangs_only_waiting (sleep ms).
Proof. apply how_modify. Qed.

Lemma how_on_youtube : hangs_only_waiting on_youtube.
Proof. unfold on_youtube. how_tac. Qed.

Lemma how_NW_execute_script script : hangs_only_waiting (NW.execute_script script).
Proof. unfold NW.execute_script. how_tac. Qed.

Lemma how_OOO_execute_script script : hangs_only_waiting (OOO.execute_script script).
Proof. unfold OOO.execute_script, OOO.send_command. how_tac. Qed.

#[local] Hint Resolve how_log how_sleep how_on_youtube how_NW_execute_script
  how_OOO_execute_script : how.
(** ** [wait_for_selector] *)

Section PollLoop.
Variable exec : M json.
Hypothesis exec_advances : advances exec.
Hypothesis exec_hangs : hangs_only_waiting exec.
Variables (start limit : Z) (found : json) (e_t : exn).
Hypothesis exec_raises : forall w e, fst (exec w) = Raise e -> e <> e_t.

(** A loop that runs a script every half second until it answers
    something true or the time is up. *)
Lemma poll_loop_spec fuel w :
  start <= now w ->
  (turns_left 500 limit start (now w) <= fuel)%nat ->
  let r := while_loop fuel (fun w => now w - start <? limit)
             (result <- exec ;;
              if truthy result then ret (Break found) else sleep 500 ;; ret Continue)
             (raise e_t) w in
  start <= now (snd r)
  /\ (forall v, fst r = Return v -> v = found)
  /\ (fst r = Raise e_t -> start + limit <= now (snd r))
  /\ (fst r = Diverges -> response_queue (snd r) = []).
Proof.
  intros Hstart Hfuel. cbv zeta.
  apply (while_loop_rule _ _ _
           (fun w => start <= now w)
           (fun o w' => start <= now w'
                        /\ (forall v, o = Return v -> v = found)
                        /\ (o = Raise e_t -> start + limit <= now w')
                        /\ (o = Diverges -> response_queue w' = []))
           (fun w => turns_left 500 limit start (now w)));
    [| | | exact Hstart | exact Hfuel].
  - intros w0 _ Hc. apply Z.ltb_lt in Hc. apply turns_left_pos; lia.
  - intros w0 Hinv Hc. apply Z.ltb_lt in Hc.
    unfold bind at 1.
    pose proof (exec_advances w0) as Hadv. pose proof (exec_hangs w0) as Hh.
    pose proof (exec_raises w0) as Hr.
    destruct (exec w0) as [[v | e |] w1]; cbn [fst snd] in *.
    + destruct (truthy v); cbn.
      * split; [lia |]. split; [intros v' Hv'; congruence |].
        split; intro; discriminate.
      * split; [lia |].
        pose proof (turns_left_turn 500 limit start (now w0) (now w1 + 500)
                      ltac:(lia) Hc ltac:(lia)).
        lia.
    + split; [lia |]. split; [intros; discriminate |].
      split; [| intro; discriminate].
      intro He. injection He as ->. now specialize (Hr e_t eq_refl).
    + split; [lia |]. split; [intros; discriminate |].
      split; [intro; discriminate | intros _; now apply Hh].
  - intros w0 Hinv Hc. apply Z.ltb_ge in Hc. cbn.
    split; [lia |]. split; [intros; discriminate |].
    split; [intros _; lia | intro; discriminate].
Qed.

End PollLoop.

(** What [execute_script] raises is the browser's error or a failed
    look-up in the response, never the exception of a wait. *)
Lemma nw_deliver_raises d e selector timeout :
  nw_deliver d = Raise e -> e <> no_visible_element selector timeout.
Proof.
  unfold nw_deliver, no_visible_element.
  destruct (dict_get "id" d); [| intros [= <-]; discriminate].
  destruct (dict_has "error" d); [| discriminate].
  destruct (dict_get_default "error" JNull d); intros [= <-]; discriminate.
Qed.

Lemma py_in_raises {S} k v (w : S) e : fst (py_in k v w) = Raise e -> e = TypeError.
Proof. unfold py_in. destruct (json_has k v); cbn; [discriminate | now intros [= <-]]. Qed.

Lemma py_getitem_raises {S} v k (w : S) e :
  fst (py_getitem v k w) = Raise e -> e = TypeError \/ e = KeyError (JStr k).
Proof.
  unfold py_getitem. destruct v as [| | | | | | d]; cbn; try (intros [= <-]; now left).
  destruct (dict_get k d); cbn; [discriminate | intros [= <-]; now right].
Qed.

Lemma script_value_raises (result : json) (w : World) e selector timeout :
  fst ((has_result <- py_in "result" result ;;
        if has_result then
          inner <- py_getitem result "result" ;;
          has_value <- py_in "value" inner ;;
          if has_value then py_getitem inner "value"
          else
            has_description <- py_in "description" inner ;;
            if has_description then py_getitem inner "description"
            else ret JNull
        else ret JNull) w) = Raise e ->
  e <> no_visible_element selector timeout.
Proof.
  intros H He.
  assert (Hshape : e = TypeError \/ exists k, e = KeyError (JStr k)).
  { revert H. unfold bind.
    destruct (py_in "result" result w) as [[[|] | e1 |] w1] eqn:H1; cbn [fst];
      try discriminate.
    - destruct (py_getitem result "result" w1) as [[inner | e2 |] w2] eqn:H2; cbn [fst];
        try discriminate.
      + destruct (py_in "value" inner w2) as [[[|] | e3 |] w3] eqn:H3; cbn [fst];
          try discriminate.
        * intro H. apply py_getitem_raises in H. destruct H; eauto.
        * destruct (py_in "description" inner w3) as [[[|] | e4 |] w4] eqn:H4; cbn [fst];
            try discriminate.
          -- intro H. apply py_getitem_raises in H. destruct H; eauto.
          -- intros [= <-]. left.
             apply (py_in_raises "description" inner w3). now rewrite H4.
        * intros [= <-]. left. apply (py_in_raises "value" inner w2). now rewrite H3.
      + intros [= <-].
        destruct (py_getitem_raises result "result" w1 e2) as [-> | ->]; eauto.
        now rewrite H2.
    - intros [= <-]. left. apply (py_in_raises "result" result w). now rewrite H1. }
  unfold no_visible_element in He.
  destruct Hshape as [-> | [k ->]]; discriminate.
Qed.

Lemma NW_execute_script_raises script w e selector timeout :
  fst (NW.execute_script script w) = Raise e -> e <> no_visible_element selector timeout.
Proof.
  unfold NW.execute_script. unfold bind at 1.
  pose proof (NW_send_command_outcome "Runtime.evaluate"
                (JObj [("expression", JStr script)]) w) as Ho.
  destruct (NW.send_command "Runtime.evaluate" (JObj [("expression", JStr script)]) w)
    as [[result | e1 |] w1]; cbn [fst] in *.
  - apply script_value_raises.
  - intros [= <-].
    destruct (first_own (command_id w) (response_queue w)) as [[t d] |]; [| discriminate].
    now apply (nw_deliver_raises d).
  - discriminate.
Qed.

Lemma OOO_execute_script_raises script w e selector timeout :
  fst (OOO.execute_script script w) = Raise e -> e <> no_visible_element selector timeout.
Proof.
  unfold OOO.execute_script, OOO.send_command. unfold bind at 1.
  match goal with
  | |- context [NW.send_command ?m ?p w] =>
      pose proof (NW_send_command_outcome m p w) as Ho;
      destruct (NW.send_command m p w) as [[result | e1 |] w1]; cbn [fst] in *
  end.
  - apply script_value_raises.
  - intros [= <-].
    destruct (first_own (command_id w) (response_queue w)) as [[t d] |]; [| discriminate].
    now apply (nw_deliver_raises d).
  - discriminate.
Qed.

Lemma how_NW_wait_for_selector selector timeout :
  hangs_only_waiting (NW.wait_for_selector selector timeout).
Proof.
  intros w. unfold NW.wait_for_selector, bind at 1, get_world.
  apply (poll_loop_spec (NW.execute_script (NW.wait_for_selector_script selector))
           (advances_NW_execute_script _) (how_NW_execute_script _)
           (now w) (timeout * 1000) (JBool true) (no_visible_element selector timeout)).
  - intros w0 e. apply NW_execute_script_raises.
  - lia.
  - pose proof (turns_left_start timeout (now w)). lia.
Qed.

Lemma how_OOO_wait_for_selector selector timeout :
  hangs_only_waiting (OOO.wait_for_selector selector timeout).
Proof.
  intros w. unfold OOO.wait_for_selector, bind at 1, get_world.
  apply (poll_loop_spec (OOO.execute_script (OOO.wait_for_selector_script selector))
           (advances_OOO_execute_script _) (how_OOO_execute_script _)
           (now w) (timeout * 1000) (JBool true) (no_visible_element selector timeout)).
  - intros w0 e. apply OOO_execute_script_raises.
  - lia.
  - pose proof (turns_left_start timeout (now w)). lia.
Qed.

(** X1.  [wait_for_selector] (newww.py, ooo.py): it returns only [True]; its
    own exception comes only when the timeout has passed; and it never
    returns only when a script's response never comes. *)
Theorem wait_for_selector_spec selector timeout w :
  let nw := NW.wait_for_selector selector timeout w in
  let ooo := OOO.wait_for_selector selector timeout w in
  (now w <= now (snd nw)
   /\ (forall v, fst nw = Return v -> v = JBool true)
   /\ (fst nw = Raise (no_visible_element selector timeout) ->
       now w + timeout * 1000 <= now (snd nw))
   /\ (fst nw = Diverges -> response_queue (snd nw) = []))
  /\
  (now w <= now (snd ooo)
   /\ (forall v, fst ooo = Return v -> v = JBool true)
   /\ (fst ooo = Raise (no_visible_element selector timeout) ->
       now w + timeout * 1000 <= now (snd ooo))
   /\ (fst ooo = Diverges -> response_queue (snd ooo) = [])).
Proof.
  cbv zeta. split.
  - unfold NW.wait_for_selector, bind at 1, get_world.
    apply (poll_loop_spec (NW.execute_script (NW.wait_for_selector_script selector))
             (advances_NW_execute_script _) (how_NW_execute_script _)
             (now w) (timeout * 1000) (JBool true) (no_visible_element selector timeout)).
    + intros w0 e. apply NW_execute_script_raises.
    + lia.
    + pose proof (turns_left_start timeout (now w)). lia.
  - unfold OOO.wait_for_selector, bind at 1, get_world.
    apply (poll_loop_spec (OOO.execute_script (OOO.wait_for_selector_script selector))
             (advances_OOO_execute_script _) (how_OOO_execute_script _)
             (now w) (timeout * 1000) (JBool true) (no_visible_element selector timeout)).
    + intros w0 e. apply OOO_execute_script_raises.
    + lia.
    + pose proof (turns_left_start timeout (now w)). lia.
Qed.

#[local] Hint Resolve how_NW_wait_for_selector how_OOO_wait_for_selector : how.

Lemma how_wait_for_youtube_selectors selectors :
  hangs_only_waiting (OOO.wait_for_youtube_selectors selectors).
Proof. induction selectors as [| s rest IH]; cbn [OOO.wait_for_youtube_selectors]; how_tac. Qed.

(** ** ooo.py: [navigate] *)

Lemma keeps_events_NW_send_command m p : keeps event_queue (NW.send_command m p).
Proof.
  intro w. rewrite NW_send_command_sent.
  now rewrite (keeps_NW_wait_response event_queue) by reflexivity.
Qed.

Lemma NW_handler_events inbound t d :
  In (t, d) (h_events (NW.message_handler inbound)) -> dict_has "method" d = true.
Proof.
  induction inbound as [| [t' f] rest IH]; cbn [NW.message_handler]; [intros [] |].
  destruct f as [| | | data]; try (intros []).
  destruct (dict_has "id" data); cbn [h_events]; [exact IH |].
  destruct (dict_has "method" data) eqn:Hm; cbn [h_events]; [| exact IH].
  intros [[= <- <-] | Hin]; [exact Hm | now apply IH].
Qed.

Lemma OOO_session_events_have_method t0 inbound :
  events_have_method (OOO.session t0 inbound).
Proof.
  unfold events_have_method. apply Forall_forall. intros [t d] Hin.
  now apply NW_handler_events in Hin.
Qed.

(** The loop of [navigate] that waits for the load event: it ends
    within its fuel, with nothing raised, less than 31 s after it
    started. *)
Lemma OOO_navigate_loop_spec start fuel w :
  events_have_method w ->
  start <= now w -> now w < start + 31000 ->
  (List.length (event_queue w) + turns_left 1000 30000 start (now w) <= fuel)%nat ->
  let r := while_loop fuel (fun w => now w - start <? 30000)
             (got <- OOO.event_queue_get 1000 ;;
              match got with
              | None => ret Continue
              | Some event =>
                  m <- py_getitem (JObj event) "method" ;;
                  if py_eq_str m "Page.loadEventFired" then ret (Break tt) else ret Continue
              end)
             (ret tt) w in
  fst r = Return tt
  /\ now w <= now (snd r) < start + 31000
  /\ (forall B (f : World -> B), (forall q w, f (set_event_queue q w) = f w) ->
                (forall t w, f (set_now t w) = f w) -> f (snd r) = f w).
Proof.
  intros Hev Hs Hlt Hfuel. cbv zeta.
  apply (while_loop_rule _ _ _
           (fun w' => events_have_method w' /\ now w <= now w' < start + 31000
                      /\ (forall B (f : World -> B), (forall q w, f (set_event_queue q w) = f w) ->
                                    (forall t w, f (set_now t w) = f w) -> f w' = f w))
           (fun o w' => o = Return tt /\ now w <= now w' < start + 31000
                        /\ (forall B (f : World -> B), (forall q w, f (set_event_queue q w) = f w) ->
                                      (forall t w, f (set_now t w) = f w) -> f w' = f w))
           (fun w' => (List.length (event_queue w')
                       + turns_left 1000 30000 start (now w'))%nat));
    [| | | | exact Hfuel].
  - intros w0 _ Hc. apply Z.ltb_lt in Hc.
    pose proof (turns_left_pos 1000 30000 start (now w0) ltac:(lia) Hc). lia.
  - intros w0 [Hev0 [Hnow0 Hf0]] Hc. apply Z.ltb_lt in Hc.
    unfold bind at 1, OOO.event_queue_get, queue_get_timeout.
    unfold events_have_method in Hev0.
    destruct (event_queue w0) as [| [t d] rest] eqn:Hq.
    + cbn. split; [| cbn [List.length]].
      * split; [unfold events_have_method; cbn; constructor |].
        split; [lia |]. intros B f Hfq Hfn. now rewrite Hfq, Hfn, Hf0.
      * pose proof (turns_left_turn 1000 30000 start (now w0) (now w0 + 1000)
                      ltac:(lia) Hc ltac:(lia)).
        lia.
    + inversion Hev0 as [| ? ? Hd Hrest]; subst. cbn [snd] in Hd.
      destruct (t <=? now w0 + 1000) eqn:Ht.
      * apply Z.leb_le in Ht. unfold bind, py_getitem.
        apply dict_has_get in Hd. destruct Hd as [m Hm]. rewrite Hm. cbn [ret].
        destruct (py_eq_str m "Page.loadEventFired"); cbn.
        -- split; [reflexivity |]. split; [lia |].
           intros B f Hfq Hfn. now rewrite Hfq, Hfn, Hf0.
        -- split.
           ++ split; [exact Hrest |]. split; [lia |].
              intros B f Hfq Hfn. now rewrite Hfq, Hfn, Hf0.
           ++ pose proof (turns_left_mono 1000 30000 start (now w0) (Z.max (now w0) t)
                            ltac:(lia) ltac:(lia)).
              lia.
      * cbn. split.
        -- split; [unfold events_have_method; cbn; now constructor |].
           split; [lia |]. intros B f Hfq Hfn. now rewrite Hfq, Hfn, Hf0.
        -- pose proof (turns_left_turn 1000 30000 start (now w0) (now w0 + 1000)
                         ltac:(lia) Hc ltac:(lia)).
           cbn [List.length]. lia.
  - intros w0 [Hev0 [Hnow0 Hf0]] Hc. cbn. repeat split; try lia. exact Hf0.
  - split; [exact Hev |]. split; [lia |]. reflexivity.
Qed.
(** The same loop on any queue of events: it cannot hang. *)
Lemma OOO_navigate_loop_ends start fuel w :
  (List.length (event_queue w) + turns_left 1000 30000 start (now w) <= fuel)%nat ->
  fst (while_loop fuel (fun w => now w - start <? 30000)
         (got <- OOO.event_queue_get 1000 ;;
          match got with
          | None => ret Continue
          | Some event =>
              m <- py_getitem (JObj event) "method" ;;
              if py_eq_str m "Page.loadEventFired" then ret (Break tt) else ret Continue
          end)
         (ret tt) w) <> Diverges.
Proof.
  intros Hfuel.
  apply (while_loop_rule _ _ _ (fun _ => True) (fun o _ => o <> Diverges)
           (fun w' => (List.length (event_queue w')
                       + turns_left 1000 30000 start (now w'))%nat));
    [| | | exact I | exact Hfuel].
  - intros w0 _ Hc. apply Z.ltb_lt in Hc.
    pose proof (turns_left_pos 1000 30000 start (now w0) ltac:(lia) Hc). lia.
  - intros w0 _ Hc. apply Z.ltb_lt in Hc.
    unfold bind at 1, OOO.event_queue_get, queue_get_timeout.
    destruct (event_queue w0) as [| [t d] rest] eqn:Hq.
    + cbn. split; [exact I |].
      pose proof (turns_left_turn 1000 30000 start (now w0) (now w0 + 1000)
                    ltac:(lia) Hc ltac:(lia)).
      lia.
    + destruct (t <=? now w0 + 1000) eqn:Ht.
      * unfold bind, py_getitem.
        destruct (dict_get "method" d) as [m |]; cbn [ret raise]; [| discriminate].
        destruct (py_eq_str m "Page.loadEventFired"); cbn; [discriminate |].
        split; [exact I |].
        pose proof (turns_left_mono 1000 30000 start (now w0) (Z.max (now w0) t)
                      ltac:(lia) ltac:(lia)).
        lia.
      * cbn. split; [exact I |].
        pose proof (turns_left_turn 1000 30000 start (now w0) (now w0 + 1000)
                      ltac:(lia) Hc ltac:(lia)).
        lia.
  - intros w0 _ _. discriminate.
Qed.

Lemma turns_left_30 t : turns_left 1000 30000 t t = 30%nat.
Proof.
  unfold turns_left.
  replace (t + 30000 - t + 1000 - 1) with (999 + 30 * 1000) by lia.
  rewrite Z.div_add by lia. reflexivity.
Qed.

Lemma bind_eq {S A C} (m : ST S A) (k : A -> ST S C) w :
  (x <- m ;; k x) w =
  match m w with
  | (Return a, w') => k a w'
  | (Raise e, w') => (Raise e, w')
  | (Diverges, w') => (Diverges, w')
  end.
Proof. reflexivity. Qed.

Lemma bind_get_world {S A} (k : S -> ST S A) w : (w0 <- get_world ;; k w0) w = k w w.
Proof. reflexivity. Qed.

Lemma how_OOO_navigate url : hangs_only_waiting (OOO.navigate url).
Proof.
  unfold OOO.navigate, OOO.send_command.
  apply how_bind; [auto with how nocore | intros _].
  apply how_bind; [auto with how nocore | intros _].
  apply how_bind; [auto with how nocore | intros _].
  intros w. rewrite bind_get_world, bind_eq.
  match goal with
  | |- context [while_loop ?f ?c ?b ?a w] =>
      pose proof (OOO_navigate_loop_ends (now w) f w) as Hloop;
      destruct (while_loop f c b a w) as [[[] | e |] w1]
  end.
  - assert (H : hangs_only_waiting
                  (sleep 3000 ;;
                   if str_contains "youtube.com" url
                   then OOO.wait_for_youtube_elements else ret tt)).
    { apply how_bind; [auto with how nocore | intros _].
      destruct (str_contains "youtube.com" url);
        [apply how_wait_for_youtube_selectors | apply how_ret]. }
    exact (H w1).
  - discriminate.
  - exfalso. apply Hloop; [| reflexivity]. rewrite turns_left_30. lia.
Qed.

Lemma never_raises_wait_for_youtube_selectors selectors :
  never_raises (OOO.wait_for_youtube_selectors selectors).
Proof.
  induction selectors as [| s rest IH]; intros w e; cbn [OOO.wait_for_youtube_selectors].
  - discriminate.
  - unfold bind at 1, try_except.
    destruct ((OOO.wait_for_selector s 10 ;;
               log INFO [FText ("Found YouTube element: " +++ s)]) w)
      as [[[] | e1 |] w1]; cbn; try discriminate; apply IH.
Qed.

Lemma OOO_navigate_after_commands url w v1 w1 v2 w2 :
  OOO.send_command "Page.enable" (JObj []) w = (Return v1, w1) ->
  OOO.send_command "Page.navigate" (JObj [("url", JStr url)]) w1 = (Return v2, w2) ->
  OOO.navigate url w =
  let w3 := set_current_url (Some url) w2 in
  match while_loop (List.length (event_queue w3) + 30)%nat
          (fun w => now w - now w3 <? 30000)
          (got <- OOO.event_queue_get 1000 ;;
           match got with
           | None => ret Continue
           | Some event =>
               m <- py_getitem (JObj event) "method" ;;
               if py_eq_str m "Page.loadEventFired" then ret (Break tt) else ret Continue
           end)
          (ret tt) w3 with
  | (Return _, w4) =>
      (if str_contains "youtube.com" url then OOO.wait_for_youtube_elements else ret tt)
        (set_now (now w4 + 3000) w4)
  | (Raise e, w4) => (Raise e, w4)
  | (Diverges, w4) => (Diverges, w4)
  end.
Proof.
  intros H1 H2. unfold OOO.navigate.
  unfold bind at 1. rewrite H1. unfold bind at 1. rewrite H2.
  reflexivity.
Qed.

(** X2.  ooo.py: once its two commands are answered, [navigate] raises
    nothing.  To a url without "youtube.com" it returns, between 3 s
    and 34 s after the second answer, load event or not; to one with it,
    it goes on to wait for the page's elements, and can then be kept
    only by a script whose response never comes. *)
Theorem ooo_navigate_returns url w :
  events_have_method w ->
  let c1 := OOO.send_command "Page.enable" (JObj []) w in
  let c2 := OOO.send_command "Page.navigate" (JObj [("url", JStr url)]) (snd c1) in
  (exists v1, fst c1 = Return v1) ->
  (exists v2, fst c2 = Return v2) ->
  let r := OOO.navigate url w in
  (forall e, fst r <> Raise e)
  /\ (str_contains "youtube.com" url = false ->
      fst r = Return tt /\ now (snd c2) + 3000 <= now (snd r) < now (snd c2) + 34000)
  /\ (fst r = Diverges -> response_queue (snd r) = []).
Proof.
  intros Hev c1 c2 [v1 H1] [v2 H2] r.
  assert (Hhang : fst r = Diverges -> response_queue (snd r) = [])
    by apply how_OOO_navigate.
  subst r c1 c2.
  destruct (OOO.send_command "Page.enable" (JObj []) w) as [o1 w1] eqn:Hc1.
  cbn [fst snd] in *. subst o1.
  destruct (OOO.send_command "Page.navigate" (JObj [("url", JStr url)]) w1) as [o2 w2]
    eqn:Hc2.
  cbn [fst snd] in *. subst o2.
  rewrite (OOO_navigate_after_commands url w v1 w1 v2 w2 Hc1 Hc2) in *.
  cbv zeta in *.
  assert (Hev3 : events_have_method (set_current_url (Some url) w2)).
  { unfold events_have_method in *. cbn [event_queue set_current_url].
    pose proof (keeps_events_NW_send_command "Page.navigate"
                  (JObj [("url", JStr url)]) w1) as K2.
    pose proof (keeps_events_NW_send_command "Page.enable" (JObj []) w) as K1.
    unfold OOO.send_command in Hc1, Hc2. rewrite Hc2 in K2. rewrite Hc1 in K1.
    cbn [snd] in K1, K2. now rewrite K2, K1. }
  pose proof (OOO_navigate_loop_spec (now (set_current_url (Some url) w2))
                (List.length (event_queue (set_current_url (Some url) w2)) + 30)%nat
                (set_current_url (Some url) w2) Hev3 ltac:(lia) ltac:(lia)) as Hloop.
  rewrite turns_left_30 in Hloop. specialize (Hloop ltac:(lia)). cbv zeta in Hloop.
  destruct Hloop as [Ho [Ht _]].
  match type of Ho with
  | fst ?l = _ => destruct l as [o4 w4]
  end.
  cbn [fst snd] in Ho, Ht. subst o4. cbn [now set_current_url] in Ht.
  split; [| split; [| exact Hhang]].
  - intros e. destruct (str_contains "youtube.com" url).
    + apply never_raises_wait_for_youtube_selectors.
    + discriminate.
  - intros Hyt. rewrite Hyt. cbn. split; [reflexivity | lia].
Qed.
Lemma ooo_navigate_returns_witness :
  let w := OOO.session 0 page_loads in
  events_have_method w
  /\ (exists v1, fst (OOO.send_command "Page.enable" (JObj []) w) = Return v1)
  /\ fst (OOO.navigate "https://example.test" w) = Return tt.
Proof.
  cbv zeta.
  assert (H0 : events_have_method (OOO.session 0 page_loads))
    by (repeat constructor).
  assert (H1 : exists v1, fst (OOO.send_command "Page.enable" (JObj [])
                                 (OOO.session 0 page_loads)) = Return v1)
    by (eexists; vm_compute; reflexivity).
  assert (H2 : exists v2,
             fst (OOO.send_command "Page.navigate"
                    (JObj [("url", JStr "https://example.test")])
                    (snd (OOO.send_command "Page.enable" (JObj [])
                            (OOO.session 0 page_loads)))) = Return v2)
    by (eexists; vm_compute; reflexivity).
  split; [exact H0 |]. split; [exact H1 |].
  exact (proj1 (proj1 (proj2 (ooo_navigate_returns "https://example.test"
                                (OOO.session 0 page_loads) H0 H1 H2))
                 eq_refl)).
Defined.

(** ** No operation of ooo.py hangs in a loop of its own *)

Lemma how_first_that_works selectors attempt on_error :
  (forall s, hangs_only_waiting (attempt s)) ->
  (forall s e, hangs_only_waiting (on_error s e)) ->
  hangs_only_waiting (OOO.first_that_works selectors attempt on_error).
Proof.
  intros Ha He. induction selectors as [| s rest IH]; simpl; how_tac; auto.
Qed.

Lemma how_handle_youtube_specific_click selector :
  hangs_only_waiting (OOO.handle_youtube_specific_click selector).
Proof.
  unfold OOO.handle_youtube_specific_click.
  how_tac; apply how_first_that_works; intros; how_tac.
Qed.

Lemma how_click_cdp selector : hangs_only_waiting (OOO.click_cdp selector).
Proof. unfold OOO.click_cdp, OOO.send_command. how_tac. Qed.

#[local] Hint Resolve how_handle_youtube_specific_click how_click_cdp : how.

Lemma how_click selector : hangs_only_waiting (OOO.click selector).
Proof. unfold OOO.click. how_tac. Qed.

Lemma how_type_chars selector text : hangs_only_waiting (OOO.type_chars selector text).
Proof. induction text as [| c rest IH]; simpl; how_tac; auto. Qed.

Lemma how_OOO_type_alt_selectors alts text :
  hangs_only_waiting (OOO.type_alt_selectors alts text).
Proof. induction alts as [| a rest IH]; simpl; how_tac; auto. Qed.

#[local] Hint Resolve how_type_chars how_OOO_type_alt_selectors : how.

Lemma how_OOO_type selector text : hangs_only_waiting (OOO.type selector text).
Proof. unfold OOO.type. how_tac. Qed.

Lemma how_press_enter selector : hangs_only_waiting (OOO.press_enter selector).
Proof. unfold OOO.press_enter, OOO.send_command. how_tac. Qed.

Lemma how_NW_type_alt_selectors alts text e :
  hangs_only_waiting (NW.type_alt_selectors alts text e).
Proof. induction alts as [| a rest IH]; simpl; how_tac; auto. Qed.

#[local] Hint Resolve how_NW_type_alt_selectors : how.

Lemma how_NW_type selector text : hangs_only_waiting (NW.type selector text).
Proof. unfold NW.type, NW.type_set_value, NW.type_verify. how_tac. Qed.

(** X3.  ooo.py: [click], [type] and [press_enter], like [navigate], have no
    loop of their own that can go on for ever: when one of them does not
    return it is waiting in [send_command] for a response, and the
    response queue is empty.  The same holds of newww.py's [type]. *)
Theorem operations_hang_only_waiting p selector text w :
  (fst (run_primitive p w) = Diverges -> response_queue (snd (run_primitive p w)) = [])
  /\ (fst (NW.type selector text w) = Diverges ->
      response_queue (snd (NW.type selector text w)) = []).
Proof.
  split; [| apply how_NW_type].
  destruct p; simpl; [apply how_click | apply how_OOO_type | apply how_press_enter].
Qed.

(** ** Python's string methods *)

Section PyStrFacts.
Import PyStr.

Lemma prefix_app (a b : string) : String.prefix a (a +++ b) = true.
Proof.
  induction a as [| c a IH]; [now destruct b |].
  cbn. rewrite IH. destruct (ascii_dec c c); [reflexivity | contradiction].
Qed.

Lemma prefix_split (a s : string) :
  String.prefix a s = true -> exists b, s = a +++ b.
Proof.
  revert s. induction a as [| c a IH]; intros s H; [now exists s |].
  destruct s as [| c' s]; cbn in H; [discriminate |].
  revert H. destruct (ascii_dec c c') as [-> |]; [| discriminate].
  intro H. destruct (IH s H) as [b ->]. now exists b.
Qed.

Lemma prefix_length (a s : string) :
  String.prefix a s = true -> (String.length a <= String.length s)%nat.
Proof.
  intro H. destruct (prefix_split a s H) as [b ->].
  rewrite length_append. lia.
Qed.

(** [needle in haystack] says that the haystack splits around the
    needle. *)
Lemma str_contains_split (n h : string) :
  str_contains n h = true <-> exists a b, h = a +++ n +++ b.
Proof.
  split.
  - induction h as [| c h IH].
    + cbn [str_contains]. destruct (String.prefix n "") eqn:Hp; [| discriminate].
      intros _. destruct (prefix_split _ _ Hp) as [b Hb]. now exists "", b.
    + cbn [str_contains]. destruct (String.prefix n (String c h)) eqn:Hp.
      * intros _. destruct (prefix_split _ _ Hp) as [b Hb]. now exists "", b.
      * intro H. destruct (IH H) as [a [b ->]]. now exists (String c a), b.
  - intros [a [b ->]]. induction a as [| c a IH].
    + cbn [String.append].
      destruct (n +++ b) eqn:E; cbn [str_contains]; rewrite <- E, prefix_app; reflexivity.
    + cbn [String.append str_contains]. rewrite IH.
      now destruct (String.prefix n (String c (a +++ n +++ b))).
Qed.

Lemma str_contains_app_l (n a b : string) :
  str_contains n a = true -> str_contains n (a +++ b) = true.
Proof.
  intro H. apply str_contains_split in H. destruct H as [x [y ->]].
  apply str_contains_split. exists x, (y +++ b). now rewrite !append_assoc.
Qed.

Lemma str_contains_app_r (n a b : string) :
  str_contains n b = true -> str_contains n (a +++ b) = true.
Proof.
  intro H. apply str_contains_split in H. destruct H as [x [y ->]].
  apply str_contains_split. exists (a +++ x), y. now rewrite !append_assoc.
Qed.

Lemma not_contains_app_l (n a b : string) :
  str_contains n (a +++ b) = false -> str_contains n a = false.
Proof.
  intro H. destruct (str_contains n a) eqn:E; [| reflexivity].
  now rewrite (str_contains_app_l n a b E) in H.
Qed.

Lemma not_contains_app_r (n a b : string) :
  str_contains n (a +++ b) = false -> str_contains n b = false.
Proof.
  intro H. destruct (str_contains n b) eqn:E; [| reflexivity].
  now rewrite (str_contains_app_r n a b E) in H.
Qed.

(** What [strip] removes *)

Lemma lstrip_suffix s : exists a, s = a +++ lstrip s.
Proof.
  induction s as [| c s [a IH]]; [now exists "" |].
  cbn [lstrip]. destruct (isspace c); [| now exists ""].
  exists (String c a). cbn. now rewrite <- IH.
Qed.

Lemma rstrip_prefix s : exists b, s = rstrip s +++ b.
Proof.
  induction s as [| c s [b IH]]; [now exists "" |].
  cbn [rstrip]. destruct (is_empty (rstrip s) && isspace c).
  - now exists (String c s).
  - exists b. cbn. now rewrite <- IH.
Qed.

Lemma strip_inside s : exists a b, s = a +++ strip s +++ b.
Proof.
  destruct (lstrip_suffix s) as [a Ha]. destruct (rstrip_prefix (lstrip s)) as [b Hb].
  exists a, b. unfold strip. now rewrite <- Hb.
Qed.

Lemma not_contains_strip n s : str_contains n s = false -> str_contains n (strip s) = false.
Proof.
  intro H. destruct (strip_inside s) as [a [b E]]. rewrite E in H.
  apply not_contains_app_r in H. now apply not_contains_app_l in H.
Qed.

Lemma lstrip_clean s : starts_clean (lstrip s) = true.
Proof.
  induction s as [| c s IH]; [reflexivity |].
  cbn [lstrip]. destruct (isspace c) eqn:E; [exact IH |].
  cbn [starts_clean]. now rewrite E.
Qed.

Lemma lstrip_of_clean s : starts_clean s = true -> lstrip s = s.
Proof.
  destruct s as [| c s]; [reflexivity |]. cbn [starts_clean lstrip].
  destruct (isspace c); [discriminate | reflexivity].
Qed.

Lemma rstrip_clean s : starts_clean s = true -> starts_clean (rstrip s) = true.
Proof.
  destruct s as [| c s]; [reflexivity |]. cbn [starts_clean rstrip].
  destruct (isspace c) eqn:E; [discriminate |]. intros _.
  rewrite andb_false_r. cbn [starts_clean]. now rewrite E.
Qed.

Lemma rstrip_idem s : rstrip (rstrip s) = rstrip s.
Proof.
  induction s as [| c s IH]; [reflexivity |].
  cbn [rstrip]. destruct (is_empty (rstrip s) && isspace c) eqn:E; [reflexivity |].
  cbn [rstrip]. now rewrite IH, E.
Qed.

(** [strip] leaves nothing for a second [strip]. *)
Lemma strip_idem s : strip (strip s) = strip s.
Proof.
  unfold strip.
  rewrite (lstrip_of_clean (rstrip (lstrip s))) by (apply rstrip_clean, lstrip_clean).
  apply rstrip_idem.
Qed.

(** Lower case *)

Lemma no_upper_app a b : no_upper (a +++ b) = no_upper a && no_upper b.
Proof.
  induction a as [| c a IH]; [reflexivity |].
  cbn. now rewrite IH, andb_assoc.
Qed.

Lemma lower_char_not_upper c : is_upper_char (lower_char c) = false.
Proof.
  unfold lower_char, is_upper_char.
  destruct ((65 <=? nat_of_ascii c)%nat && (nat_of_ascii c <=? 90)%nat) eqn:E.
  - apply andb_true_iff in E. destruct E as [E1 E2].
    apply Nat.leb_le in E1. apply Nat.leb_le in E2.
    rewrite nat_ascii_embedding by lia.
    apply andb_false_iff. right. apply Nat.leb_gt. lia.
  - exact E.
Qed.

Lemma no_upper_lower s : no_upper (lower s) = true.
Proof.
  induction s as [| c s IH]; [reflexivity |].
  cbn. now rewrite lower_char_not_upper, IH.
Qed.

Lemma no_upper_strip s : no_upper s = true -> no_upper (strip s) = true.
Proof.
  intro H. destruct (strip_inside s) as [a [b E]]. rewrite E in H.
  rewrite !no_upper_app in H.
  apply andb_true_iff in H. destruct H as [_ H].
  apply andb_true_iff in H. now destruct H.
Qed.

Lemma no_upper_tail c s : no_upper (String c s) = true -> no_upper s = true.
Proof. cbn. intro H. apply andb_true_iff in H. now destruct H. Qed.

Lemma no_upper_replace_from old new : forall s skip,
  no_upper new = true -> no_upper s = true ->
  no_upper (replace_from skip old new s) = true.
Proof.
  intros s skip Hnew. revert skip.
  induction s as [| c s IH]; intros skip Hs; [reflexivity |].
  pose proof (no_upper_tail c s Hs) as Hs'.
  cbn [replace_from]. destruct skip as [| k]; [| now apply IH].
  destruct (String.prefix old (String c s)).
  - rewrite no_upper_app, Hnew. now apply IH.
  - cbn in *. apply andb_true_iff in Hs. destruct Hs as [Hc _].
    rewrite Hc. now apply IH.
Qed.

Lemma no_upper_remove old s :
  is_empty old = false -> no_upper s = true -> no_upper (replace old "" s) = true.
Proof.
  intros Ho Hs. unfold replace. rewrite Ho. now apply no_upper_replace_from.
Qed.

End PyStrFacts.

(** ** newww.py: [parse_natural_language_command] *)

Section NWParse.
Import PyStr.

Lemma clean_text_facts old s :
  is_empty old = false -> no_upper s = true ->
  let t := strip (replace old "" s) in
  no_upper t = true /\ strip t = t.
Proof.
  intros Ho Hs. cbv zeta. split; [| apply strip_idem].
  apply no_upper_strip. now apply no_upper_remove.
Qed.

(** X4.  newww.py: the steps that [parse_natural_language_command] makes of
    an ASCII command.  There are none exactly when the lower-cased
    command has none of the four phrases.  Every step has one of four
    actions, and its target and its value are in lower case with no
    white space at either end: they are cut out of the lower-cased
    command, so the capitals of a url or of a search term are lost. *)
Theorem parse_natural_language_command_steps command :
  is_ascii command = true ->
  let c := strip (lower command) in
  let steps := NWRun.parse_natural_language_command command in
  (steps = [] <->
     str_contains "go to" c = false /\ str_contains "navigate to" c = false
     /\ str_contains "search for" c = false /\ str_contains "click on" c = false)
  /\ (str_contains "go to" c = true ->
      steps = [NWRun.step "navigate"
                 ("Navigate to " +++ strip (replace "navigate to" "" (replace "go to" "" c)))
                 (strip (replace "navigate to" "" (replace "go to" "" c))) None])
  /\ (forall s, In s steps ->
        exists action description target value,
          s = NWRun.step action description target value
          /\ In action ["navigate"; "type"; "press_enter"; "click"]
          /\ no_upper target = true /\ strip target = target
          /\ (forall v, value = Some v -> no_upper v = true /\ strip v = v)).
Proof.
  intros _ c steps. subst steps. unfold NWRun.parse_natural_language_command.
  fold c.
  assert (Hc : no_upper c = true) by (apply no_upper_strip, no_upper_lower).
  split; [| split].
  - destruct (str_contains "go to" c), (str_contains "navigate to" c),
      (str_contains "search for" c), (str_contains "click on" c); cbn;
      split; intro H; try discriminate; try tauto;
      destruct H as [H1 [H2 [H3 H4]]]; discriminate.
  - intros ->. reflexivity.
  - intros s Hin.
    destruct (str_contains "go to" c || str_contains "navigate to" c).
    + destruct Hin as [<- | []].
      pose proof (no_upper_remove "go to" c eq_refl Hc) as H1.
      destruct (clean_text_facts "navigate to" (replace "go to" "" c) eq_refl H1)
        as [Hu Hs].
      do 4 eexists. split; [reflexivity |].
      split; [cbn; tauto |]. split; [exact Hu |]. split; [exact Hs |].
      intros v [=].
    + destruct (str_contains "search for" c).
      * destruct (clean_text_facts "search for" c eq_refl Hc) as [Hu Hs].
        destruct Hin as [<- | [<- | [<- | []]]]; do 4 eexists;
          (split; [reflexivity |]); (split; [cbn; tauto |]);
          (split; [reflexivity |]); (split; [reflexivity |]).
        -- intros v [=].
        -- intros v [= <-]. now split.
        -- intros v [=].
      * destruct (str_contains "click on" c); [| destruct Hin].
        destruct Hin as [<- | []].
        destruct (clean_text_facts "click on" c eq_refl Hc) as [Hu Hs].
        do 4 eexists. split; [reflexivity |].
        split; [cbn; tauto |]. split; [exact Hu |]. split; [exact Hs |].
        intros v [=].
Qed.

Lemma parse_natural_language_command_steps_witness :
  is_ascii "Go to Example.COM/Path" = true
  /\ NWRun.parse_natural_language_command "Go to Example.COM/Path"
     = [NWRun.step "navigate" "Navigate to example.com/path" "example.com/path" None].
Proof.
  assert (H : is_ascii "Go to Example.COM/Path" = true) by reflexivity.
  split; [exact H |].
  exact (proj1 (proj2 (parse_natural_language_command_steps
                         "Go to Example.COM/Path" H)) eq_refl).
Defined.

End NWParse.

(** ** Splitting *)

Section SplitFacts.
Import PyStr.

Lemma append_nil_r (s : string) : s +++ "" = s.
Proof. induction s as [| c s IH]; [reflexivity | cbn; now rewrite IH]. Qed.

Lemma contains_char_cons c x s :
  contains_char c (String x s) = Ascii.eqb c x || contains_char c s.
Proof. reflexivity. Qed.

Lemma contains_char_app c a b :
  contains_char c (a +++ b) = contains_char c a || contains_char c b.
Proof. unfold contains_char. now rewrite chars_append, existsb_app. Qed.

Lemma prefix_head_differs c0 sep' c s :
  Ascii.eqb c0 c = false -> String.prefix (String c0 sep') (String c s) = false.
Proof.
  intro H. cbn. destruct (ascii_dec c0 c) as [-> |]; [| reflexivity].
  now rewrite Ascii.eqb_refl in H.
Qed.

(** The characters of a separator that was found are passed over. *)
Lemma split_from_skip sep : forall a rest,
  split_from (String.length a) sep (a +++ rest) = split_from 0 sep rest.
Proof. induction a as [| c a IH]; intro rest; [reflexivity | apply IH]. Qed.

(** Text without the separator's first character stays in the first
    piece. *)
Lemma split_from_free c0 sep' : forall body r,
  contains_char c0 body = false ->
  split_from 0 (String c0 sep') (body +++ r)
  = let (p, ps) := split_from 0 (String c0 sep') r in (body +++ p, ps).
Proof.
  induction body as [| c body IH]; intros r H.
  - cbn [String.append]. now destruct (split_from 0 (String c0 sep') r).
  - rewrite contains_char_cons in H. apply orb_false_iff in H. destruct H as [Hc Hb].
    cbn [String.append split_from]. rewrite (prefix_head_differs _ _ _ _ Hc).
    rewrite (IH r Hb). now destruct (split_from 0 (String c0 sep') r).
Qed.

Lemma split_from_none c0 sep' s :
  contains_char c0 s = false -> split_from 0 (String c0 sep') s = (s, []).
Proof.
  intro H. rewrite <- (append_nil_r s) at 1.
  rewrite (split_from_free c0 sep' s "" H). cbn. now rewrite append_nil_r.
Qed.

(** Where the separator occurs there is a second piece. *)
Lemma split_from_second c0 sep' : forall s,
  str_contains (String c0 sep') s = true ->
  snd (split_from 0 (String c0 sep') s) <> [].
Proof.
  induction s as [| c s IH]; intro H; [discriminate |].
  cbn [str_contains] in H. cbn [split_from].
  destruct (String.prefix (String c0 sep') (String c s)).
  - cbn [snd].
    destruct (split_from (String.length (String c0 sep') - 1) (String c0 sep') s).
    discriminate.
  - specialize (IH H). destruct (split_from 0 (String c0 sep') s). exact IH.
Qed.

Lemma split_second_index {S} c0 sep' s (w : S) :
  str_contains (String c0 sep') s = true ->
  exists after, list_index (split (String c0 sep') s) 1 w = (Return after, w).
Proof.
  intro H. apply split_from_second in H. unfold split, list_index.
  destruct (split_from 0 (String c0 sep') s) as [p [| q ps]]; [now contradiction H |].
  now exists q.
Qed.

Lemma split_first_index {S} sep s (w : S) :
  list_index (split sep s) 0 w = (Return (fst (split_from 0 sep s)), w).
Proof. unfold split, list_index. now destruct (split_from 0 sep s). Qed.

End SplitFacts.

(** ** The text between the fences (om.py, ooo.py) *)

Section Fences.
Import PyStr.
Context {S : Type}.

Lemma prefix_cons_same c a s :
  String.prefix (String c a) (String c s) = String.prefix a s.
Proof. cbn. destruct (ascii_dec c c); [reflexivity | contradiction]. Qed.

Lemma split_from_at_sep c0 sep' r :
  split_from 0 (String c0 sep') (String c0 sep' +++ r)
  = (EmptyString, let (p, ps) := split_from 0 (String c0 sep') r in p :: ps).
Proof.
  cbn [String.append split_from].
  change (String c0 (sep' +++ r)) with (String c0 sep' +++ r).
  rewrite prefix_app. cbn [String.length]. rewrite Nat.sub_1_r. cbn [Nat.pred].
  now rewrite split_from_skip.
Qed.

Lemma json_fence_is_fence text :
  str_contains "```json" text = true -> str_contains "```" text = true.
Proof.
  intro H. apply str_contains_split in H. destruct H as [a [b ->]].
  apply str_contains_split. now exists a, ("json" +++ b).
Qed.

Lemma fenced_total text (w : S) :
  exists cleaned, fenced_json_text text w = (Return cleaned, w).
Proof.
  unfold fenced_json_text.
  destruct (str_contains "```json" text) eqn:H1.
  - destruct (split_second_index "`"%char "``json" text w H1) as [after Ha].
    unfold bind. rewrite Ha, split_first_index. eexists. reflexivity.
  - destruct (str_contains "```" text) eqn:H2; [| eexists; reflexivity].
    destruct (split_second_index "`"%char "``" text w H2) as [after Ha].
    unfold bind. rewrite Ha, split_first_index. eexists. reflexivity.
Qed.

Lemma split_from_cons sep c rest :
  split_from 0 sep (String c rest)
  = if String.prefix sep (String c rest)
    then (EmptyString,
          let (p, ps) := split_from (String.length sep - 1) sep rest in p :: ps)
    else let (p, ps) := split_from 0 sep rest in (String c p, ps).
Proof. reflexivity. Qed.

(** What is left of [```post] before the next [```json]. *)
Lemma after_body post :
  contains_char backtick post = false ->
  let p := fst (split_from 0 "```json" ("```" +++ post)) in
  p = "" \/ p = "```" +++ post.
Proof.
  intro Hpost. cbv zeta. cbn [String.append].
  assert (H2 : String.prefix "```json" (String "`" (String "`" post)) = false).
  { rewrite !prefix_cons_same. destruct post as [| b post']; [reflexivity |].
    rewrite contains_char_cons in Hpost. apply orb_false_iff in Hpost.
    now apply prefix_head_differs. }
  assert (H1 : String.prefix "```json" (String "`" post) = false).
  { rewrite !prefix_cons_same. destruct post as [| b post']; [reflexivity |].
    rewrite contains_char_cons in Hpost. apply orb_false_iff in Hpost.
    now apply prefix_head_differs. }
  rewrite split_from_cons.
  destruct (String.prefix "```json" (String "`" (String "`" (String "`" post))));
    [now left |].
  right.
  rewrite split_from_cons, H2, split_from_cons, H1.
  now rewrite (split_from_none "`"%char "``json" post Hpost).
Qed.

(** X5.  om.py and ooo.py: what is given to [json.loads].  The splitting
    never fails and changes nothing but the text.  A response without a
    fence is passed on as it is, white space included.  Of a response
    [pre ```json body ``` post] with no other backtick, and of a response
    [pre ``` body ``` post] that holds no [```json], the body is passed on,
    stripped: what the model wrote around the fences is dropped. *)
Theorem fenced_json_text_spec (text : string) (w : S) :
  (exists cleaned, fenced_json_text text w = (Return cleaned, w))
  /\ (str_contains "```" text = false -> fenced_json_text text w = (Return text, w))
  /\ (forall pre body post,
        contains_char backtick pre = false ->
        contains_char backtick body = false ->
        text = json_fenced pre body post ->
        contains_char backtick post = false ->
        fenced_json_text text w = (Return (strip body), w))
  /\ (forall pre body post,
        contains_char backtick pre = false ->
        contains_char backtick body = false ->
        text = plain_fenced pre body post ->
        str_contains "```json" text = false ->
        fenced_json_text text w = (Return (strip body), w)).
Proof.
  split; [apply fenced_total |]. split; [| split].
  - intro H. unfold fenced_json_text. rewrite H.
    destruct (str_contains "```json" text) eqn:H1; [| reflexivity].
    apply json_fence_is_fence in H1. congruence.
  - intros pre body post Hpre Hbody -> Hpost. unfold json_fenced, fenced_json_text.
    assert (H1 : str_contains "```json" (pre +++ "```json" +++ body +++ "```" +++ post) = true)
      by (apply str_contains_split; eauto).
    rewrite H1. unfold bind, split, list_index at 1.
    rewrite (split_from_free "`"%char "``json" pre _ Hpre).
    rewrite (split_from_at_sep "`"%char "``json").
    rewrite (split_from_free "`"%char "``json" body _ Hbody).
    pose proof (after_body post Hpost) as Hp. cbv zeta in Hp.
    destruct (split_from 0 "```json" ("```" +++ post)) as [p3 ps3]. cbn [fst] in Hp.
    cbn [nth_error ret].
    unfold list_index.
    rewrite (split_from_free "`"%char "``" body _ Hbody).
    destruct Hp as [-> | ->].
    + cbn. now rewrite append_nil_r.
    + rewrite (split_from_at_sep "`"%char "``").
      destruct (split_from 0 "```" post). cbn. now rewrite append_nil_r.
  - intros pre body post Hpre Hbody -> H1. unfold plain_fenced in *.
    unfold fenced_json_text. rewrite H1.
    assert (H2 : str_contains "```" (pre +++ "```" +++ body +++ "```" +++ post) = true)
      by (apply str_contains_split; eauto).
    rewrite H2. unfold bind, split, list_index at 1.
    rewrite (split_from_free "`"%char "``" pre _ Hpre).
    rewrite (split_from_at_sep "`"%char "``").
    rewrite (split_from_free "`"%char "``" body _ Hbody).
    rewrite (split_from_at_sep "`"%char "``").
    destruct (split_from 0 "```" post) as [p3 ps3].
    cbn [nth_error ret]. unfold list_index.
    rewrite append_nil_r.
    rewrite (split_from_none "`"%char "``" body Hbody). reflexivity.
Qed.

End Fences.

(** ** ooo.py: the planner and its fallback *)

Section OOOPlanner.
Import PyStr.

Lemma first_piece_prefix sep : forall s,
  exists tail, s = fst (split_from 0 sep s) +++ tail.
Proof.
  induction s as [| c s [tail IH]]; [now exists "" |].
  rewrite split_from_cons. destruct (String.prefix sep (String c s)).
  - now exists (String c s).
  - destruct (split_from 0 sep s) as [p ps]. cbn [fst] in *.
    exists tail. cbn. now rewrite <- IH.
Qed.

(** The first piece of a split holds no separator. *)
Lemma first_piece_no_sep c0 sep' : forall s,
  str_contains (String c0 sep') (fst (split_from 0 (String c0 sep') s)) = false.
Proof.
  induction s as [| c s IH]; [reflexivity |].
  rewrite split_from_cons.
  destruct (String.prefix (String c0 sep') (String c s)) eqn:Hp; [reflexivity |].
  destruct (first_piece_prefix (String c0 sep') s) as [tail Ht].
  destruct (split_from 0 (String c0 sep') s) as [p ps]. cbn [fst] in *.
  cbn [str_contains]. rewrite IH.
  destruct (String.prefix (String c0 sep') (String c p)) eqn:Hq; [| reflexivity].
  apply prefix_split in Hq. destruct Hq as [b Hb].
  assert (Hfull : String c s = String c0 sep' +++ b +++ tail).
  { rewrite Ht. change (String c (p +++ tail)) with (String c p +++ tail).
    now rewrite Hb, append_assoc. }
  rewrite Hfull, prefix_app in Hp. discriminate.
Qed.

(** Every piece of a split is a part of the text. *)
Lemma split_from_parts sep : forall s k p ps,
  split_from k sep s = (p, ps) ->
  (exists a b, s = a +++ p +++ b /\ (String.length a <= k)%nat)
  /\ (forall x, In x ps -> exists a b, s = a +++ x +++ b).
Proof.
  induction s as [| c s IH]; intros k p ps H.
  - cbn in H. injection H as <- <-. split; [| intros x []].
    exists "", "". split; [reflexivity | cbn; lia].
  - destruct k as [| k].
    + rewrite split_from_cons in H. destruct (String.prefix sep (String c s)).
      * destruct (split_from (String.length sep - 1) sep s) as [p' ps'] eqn:E.
        injection H as <- <-. destruct (IH _ _ _ E) as [[a [b [Hs _]]] Hps].
        split; [exists "", (String c s); split; [reflexivity | cbn; lia] |].
        intros x [<- | Hx].
        -- exists (String c a), b. cbn. now rewrite <- Hs.
        -- destruct (Hps x Hx) as [a' [b' Hx']]. exists (String c a'), b'.
           cbn. now rewrite <- Hx'.
      * destruct (split_from 0 sep s) as [p' ps'] eqn:E.
        injection H as <- <-. destruct (IH _ _ _ E) as [[a [b [Hs Ha]]] Hps].
        assert (a = "") as -> by (destruct a; [reflexivity | cbn in Ha; lia]).
        split; [exists "", b; split; [cbn in *; now rewrite <- Hs | cbn; lia] |].
        intros x Hx. destruct (Hps x Hx) as [a' [b' Hx']]. exists (String c a'), b'.
        cbn. now rewrite <- Hx'.
    + cbn [split_from] in H. destruct (IH _ _ _ H) as [[a [b [Hs Ha]]] Hps].
      split.
      * exists (String c a), b. split; [cbn; now rewrite <- Hs | cbn; lia].
      * intros x Hx. destruct (Hps x Hx) as [a' [b' Hx']]. exists (String c a'), b'.
        cbn. now rewrite <- Hx'.
Qed.

Lemma split_part sep s x : In x (split sep s) -> exists a b, s = a +++ x +++ b.
Proof.
  unfold split. destruct (split_from 0 sep s) as [p ps] eqn:E.
  destruct (split_from_parts sep s 0 p ps E) as [[a [b [Hs _]]] Hps].
  intros [<- | Hx]; [now exists a, b | now apply Hps].
Qed.

Lemma no_upper_part s a x b : s = a +++ x +++ b -> no_upper s = true -> no_upper x = true.
Proof.
  intros -> H. rewrite !no_upper_app in H.
  apply andb_true_iff in H. destruct H as [_ H].
  apply andb_true_iff in H. now destruct H.
Qed.

Lemma list_index_In {S A} (l : list A) i (w : S) x w' :
  list_index l i w = (Return x, w') -> In x l /\ w' = w.
Proof.
  unfold list_index. destruct (nth_error l i) eqn:E; [| discriminate].
  intros [= <- <-]. split; [eapply nth_error_In, E | reflexivity].
Qed.

Variable generate_content : fstring -> M string.
Variable json_loads : string -> json + exn.

(** The search term of the fallback, for a command that is a string. *)
Lemma fallback_search_term_spec c w :
  exists term,
    OOORun.fallback_search_term (JStr c) w = (Return term, w)
    /\ no_upper term = true /\ strip term = term
    /\ (str_contains "search for" (lower c) = false -> term = "example video")
    /\ (str_contains "search for" (lower c) = true -> str_contains "and" term = false).
Proof.
  unfold OOORun.fallback_search_term, py_lower. rewrite !bind_eq. cbn [ret].
  destruct (str_contains "search for" (lower c)) eqn:Hs.
  - rewrite !bind_eq. cbn [ret].
    destruct (split_second_index "s"%char "earch for" (lower c) w Hs) as [after Ha].
    rewrite bind_eq, Ha. rewrite bind_eq, split_first_index. cbn [ret].
    eexists. split; [reflexivity |].
    apply list_index_In in Ha. destruct Ha as [Hin _].
    apply split_part in Hin. destruct Hin as [a [b Hab]].
    pose proof (no_upper_part _ _ _ _ Hab (no_upper_lower c)) as Hafter.
    destruct (first_piece_prefix "and" after) as [tail Ht].
    split; [| split; [apply strip_idem | split; [discriminate |]]].
    + apply no_upper_strip. rewrite Ht in Hafter. rewrite no_upper_app in Hafter.
      apply andb_true_iff in Hafter. now destruct Hafter.
    + intros _. apply not_contains_strip. apply (first_piece_no_sep "a"%char "nd").
  - eexists. split; [reflexivity |].
    split; [reflexivity |]. split; [reflexivity |]. split; [reflexivity | discriminate].
Qed.


End OOOPlanner.


(** ** kk.py: the response of the model, cleaned *)

Section KKPlanner.
Import PyStr.

Lemma re_sub_fences_cons c rest :
  KKPlan.re_sub_fences_from 0 (String c rest)
  = if String.prefix "```json" (String c rest) then KKPlan.re_sub_fences_from 6 rest
    else if String.prefix "```" (String c rest) then KKPlan.re_sub_fences_from 2 rest
    else String c (KKPlan.re_sub_fences_from 0 rest).
Proof. reflexivity. Qed.

Lemma re_sub_fences_skip : forall a rest,
  KKPlan.re_sub_fences_from (String.length a) (a +++ rest)
  = KKPlan.re_sub_fences_from 0 rest.
Proof. induction a as [| c a IH]; intro rest; [reflexivity | apply IH]. Qed.

Lemma re_sub_fences_free : forall pre r,
  contains_char backtick pre = false ->
  KKPlan.re_sub_fences_from 0 (pre +++ r) = pre +++ KKPlan.re_sub_fences_from 0 r.
Proof.
  induction pre as [| c pre IH]; intros r H; [reflexivity |].
  rewrite contains_char_cons in H. apply orb_false_iff in H. destruct H as [Hc Hp].
  cbn [String.append]. rewrite re_sub_fences_cons.
  rewrite !(prefix_head_differs _ _ _ _ Hc). now rewrite IH.
Qed.

Lemma re_sub_fences_none s :
  contains_char backtick s = false -> KKPlan.re_sub_fences_from 0 s = s.
Proof.
  intro H. rewrite <- (append_nil_r s) at 1.
  rewrite re_sub_fences_free by exact H. cbn. apply append_nil_r.
Qed.

Lemma prefix_nil s : String.prefix "" s = true.
Proof. now destruct s. Qed.

Lemma prefix_longer c a s :
  String.prefix (String c EmptyString) s = false -> String.prefix (String c a) s = false.
Proof.
  destruct s as [| x s]; [reflexivity |]. cbn.
  destruct (ascii_dec c x); [| reflexivity].
  intro H. destruct s; discriminate H.
Qed.

(** What does not begin with a backtick does not begin with one when
    the fences are out. *)
Lemma re_sub_fences_head s :
  String.prefix "`" s = false -> String.prefix "`" (KKPlan.re_sub_fences_from 0 s) = false.
Proof.
  destruct s as [| c r]; [reflexivity |]. intro H.
  rewrite re_sub_fences_cons.
  rewrite (prefix_longer _ "``json" _ H), (prefix_longer _ "``" _ H).
  revert H. cbn. rewrite !prefix_nil. now destruct (ascii_dec "`" c).
Qed.

Lemma str_contains_cons n c s :
  str_contains n (String c s) = String.prefix n (String c s) || str_contains n s.
Proof. cbn [str_contains]. now destruct (String.prefix n (String c s)). Qed.

Lemma re_sub_fences_clean : forall s k,
  str_contains "```" (KKPlan.re_sub_fences_from k s) = false.
Proof.
  induction s as [| c r IH]; intro k; [now destruct k |].
  destruct k as [| k]; [| apply IH].
  rewrite re_sub_fences_cons.
  destruct (String.prefix "```json" (String c r)); [apply IH |].
  destruct (String.prefix "```" (String c r)) eqn:Hf; [apply IH |].
  rewrite str_contains_cons, IH, orb_false_r.
  destruct (Ascii.eqb "`" c) eqn:Hc; [| now apply prefix_head_differs].
  apply Ascii.eqb_eq in Hc. subst c.
  rewrite prefix_cons_same in Hf. rewrite prefix_cons_same.
  destruct r as [| c1 r1]; [reflexivity |].
  destruct (Ascii.eqb "`" c1) eqn:Hc1.
  - apply Ascii.eqb_eq in Hc1. subst c1.
    rewrite prefix_cons_same in Hf.
    rewrite re_sub_fences_cons.
    rewrite !prefix_cons_same.
    rewrite (prefix_longer _ "`json" _ Hf), (prefix_longer _ "`" _ Hf).
    rewrite prefix_cons_same. now apply re_sub_fences_head.
  - rewrite re_sub_fences_cons.
    rewrite !(prefix_head_differs _ _ _ _ Hc1). reflexivity.
Qed.

Context {S : Type}.
Variable generate_content : fstring -> ST S string.
Variable json_loads : string -> json + exn.
Variable json_dumps : json -> string.

(** X7.  kk.py: what [parse_command] gives to [json.loads] is the response
    with every fence taken out, stripped.  It never holds a fence.  A
    response without a backtick is only stripped.  Of a response
    [pre ```json body ``` post] with no other backtick, the text around
    the fences is kept: [json.loads] gets [pre body post], stripped. *)
Theorem parse_command_cleaned current_html remaining_command previous_actions w text w1 :
  generate_content (KKPlan.parse_prompt json_dumps current_html remaining_command
                      previous_actions) w = (Return text, w1) ->
  let cleaned := strip (KKPlan.re_sub_fences text) in
  KKPlan.parse_command generate_content json_loads json_dumps
    current_html remaining_command previous_actions w
  = match json_loads cleaned with
    | inl v => (Return v, w1)
    | inr e => (Raise e, w1)
    end
  /\ str_contains "```" cleaned = false
  /\ (contains_char backtick text = false -> cleaned = strip text)
  /\ (forall pre body post,
        text = json_fenced pre body post ->
        contains_char backtick pre = false ->
        contains_char backtick body = false ->
        contains_char backtick post = false ->
        String.prefix "json" post = false ->
        cleaned = strip (pre +++ body +++ post)).
Proof.
  intros Hgen. cbv zeta. split; [| split; [| split]].
  - unfold KKPlan.parse_command. rewrite bind_eq, Hgen. unfold loads.
    now destruct (json_loads (strip (KKPlan.re_sub_fences text))).
  - apply not_contains_strip, re_sub_fences_clean.
  - intro H. unfold KKPlan.re_sub_fences. now rewrite re_sub_fences_none.
  - intros pre body post -> Hpre Hbody Hpost Hjson. f_equal.
    unfold KKPlan.re_sub_fences, json_fenced.
    rewrite (re_sub_fences_free pre _ Hpre).
    change ("```json" +++ body +++ "```" +++ post)
      with (String "`" ("``json" +++ body +++ "```" +++ post)).
    rewrite re_sub_fences_cons.
    change (String "`" ("``json" +++ body +++ "```" +++ post))
      with ("```json" +++ body +++ "```" +++ post).
    rewrite prefix_app.
    change 6%nat with (String.length "``json").
    rewrite re_sub_fences_skip.
    rewrite (re_sub_fences_free body _ Hbody).
    change ("```" +++ post) with (String "`" ("``" +++ post)).
    rewrite re_sub_fences_cons.
    assert (HJ : String.prefix "```json" (String "`" ("``" +++ post)) = false).
    { cbn [String.append]. now rewrite !prefix_cons_same. }
    rewrite HJ.
    change (String "`" ("``" +++ post)) with ("```" +++ post).
    rewrite prefix_app.
    change 2%nat with (String.length "``").
    rewrite re_sub_fences_skip.
    now rewrite (re_sub_fences_none post Hpost).
Qed.

End KKPlanner.

Lemma parse_command_cleaned_witness :
  let model : fstring -> ST unit string := fun _ => ret "Here it is: ```json{}``` " in
  let echo : string -> json + exn := fun text => inl (JStr text) in
  model (KKPlan.parse_prompt (fun _ => "") "" (JStr "open the page") []) tt
    = (Return "Here it is: ```json{}``` ", tt)
  /\ KKPlan.parse_command model echo (fun _ => "") "" (JStr "open the page") [] tt
     = (Return (JStr "Here it is: {}"), tt).
Proof.
  cbv zeta.
  assert (H : (fun _ : fstring => @ret unit string "Here it is: ```json{}``` ")
                (KKPlan.parse_prompt (fun _ => "") "" (JStr "open the page") []) tt
              = (Return "Here it is: ```json{}``` ", tt)) by reflexivity.
  split; [exact H |].
  exact (proj1 (parse_command_cleaned
                  (fun _ => ret "Here it is: ```json{}``` ")
                  (fun text => inl (JStr text)) (fun _ => "")
                  "" (JStr "open the page") [] tt _ tt H)).
Defined.

(** ** What is written to the socket *)

Lemma written_app w w' l :
  outbox w' = outbox w ++ l ->
  written w w' = map (fun c => (cmd_method c, cmd_params c)) l.
Proof.
  intro H. unfold written. rewrite H, skipn_app, skipn_all, Nat.sub_diag. reflexivity.
Qed.

Lemma written_refl w : written w w = [].
Proof. apply (written_app w w []). now rewrite app_nil_r. Qed.

Lemma sends_written P {A} (m : M A) w : sends P m -> Forall P (written w (snd (m w))).
Proof. intro H. destruct (H w) as [l [Hl HP]]. now rewrite (written_app _ _ _ Hl). Qed.

Section Sends.
Variable P : string * json -> Prop.

Lemma sends_ret {A} (a : A) : sends P (ret a).
Proof. intro w. exists []. split; [now rewrite app_nil_r | constructor]. Qed.

Lemma sends_raise {A} (e : exn) : sends P (@raise World A e).
Proof. intro w. exists []. split; [now rewrite app_nil_r | constructor]. Qed.

Lemma sends_get_world : sends P get_world.
Proof. intro w. exists []. split; [now rewrite app_nil_r | constructor]. Qed.

Lemma sends_keeps {A} (m : M A) : keeps outbox m -> sends P m.
Proof.
  intros H w. exists []. split; [now rewrite H, app_nil_r | constructor].
Qed.

Lemma sends_bind {A C} (m : M A) (k : A -> M C) :
  sends P m -> (forall a, sends P (k a)) -> sends P (x <- m ;; k x).
Proof.
  intros Hm Hk w. rewrite bind_eq. destruct (Hm w) as [l1 [H1 P1]].
  destruct (m w) as [[a | e |] w1]; cbn [snd] in *; try (now exists l1).
  destruct (Hk a w1) as [l2 [H2 P2]]. exists (l1 ++ l2).
  split; [now rewrite H2, H1, app_assoc |].
  rewrite map_app. now apply Forall_app.
Qed.

Lemma sends_try_except {A} (m : M A) (h : exn -> M A) :
  sends P m -> (forall e, sends P (h e)) -> sends P (try_except m h).
Proof.
  intros Hm Hh w. unfold try_except. destruct (Hm w) as [l1 [H1 P1]].
  destruct (m w) as [[a | e |] w1]; cbn [snd] in *; try (now exists l1).
  destruct (Hh e w1) as [l2 [H2 P2]]. exists (l1 ++ l2).
  split; [now rewrite H2, H1, app_assoc |].
  rewrite map_app. now apply Forall_app.
Qed.

Lemma sends_while_loop {A} fuel cond (body : M (loop_ctl A)) after :
  sends P body -> sends P after -> sends P (while_loop fuel cond body after).
Proof.
  intros Hb Ha. induction fuel as [| fuel IH]; intro w; cbn [while_loop].
  - destruct (cond w); [| apply Ha].
    exists []. split; [now rewrite app_nil_r | constructor].
  - destruct (cond w); [| apply Ha].
    destruct (Hb w) as [l1 [H1 P1]].
    destruct (body w) as [[[| a] | e |] w1]; cbn [snd] in *; try (now exists l1).
    destruct (IH w1) as [l2 [H2 P2]]. exists (l1 ++ l2).
    split; [now rewrite H2, H1, app_assoc |].
    rewrite map_app. now apply Forall_app.
Qed.

Lemma sends_log lv msg : sends P (log lv msg).
Proof. apply sends_keeps. apply keeps_modify. reflexivity. Qed.

Lemma sends_sleep ms : sends P (sleep ms).
Proof. apply sends_keeps. apply keeps_modify. reflexivity. Qed.

Lemma sends_KK_send_command m p : P (m, p) -> sends P (KK.send_command m p).
Proof.
  intros H w. exists [mkCommand (command_id w) m p].
  split; [apply KK_send_command_outbox | now repeat constructor].
Qed.

Lemma sends_NW_send_command m p : P (m, p) -> sends P (NW.send_command m p).
Proof.
  intros H w. exists [mkCommand (command_id w) m p].
  split; [apply NW_send_command_outbox | now repeat constructor].
Qed.

End Sends.

Lemma sends_on_youtube P : sends P on_youtube.
Proof. apply sends_keeps. unfold on_youtube. keeps_tac. Qed.

(** One step of a proof about what a computation sends. *)
Ltac sends_step :=
  first
    [ apply sends_ret | apply sends_raise | apply sends_get_world
    | apply sends_log | apply sends_sleep | apply sends_on_youtube
    | apply sends_keeps; solve [keeps_tac]
    | apply sends_bind; [| intros ?]
    | apply sends_try_except; [| intros ?]
    | apply sends_while_loop
    | match goal with
      | |- sends _ (if ?b then _ else _) => destruct b
      | |- sends _ (match ?x with _ => _ end) => destruct x
      end ].
Ltac sends_tac := repeat sends_step.

(** ** kk.py: [click_element] and [type_text] *)

Lemma sends_execute_js P script :
  P (evaluate_js script) -> sends P (KKCtl.execute_js script).
Proof.
  intro H. unfold KKCtl.execute_js.
  apply sends_bind; [now apply sends_KK_send_command | intros result]. sends_tac.
Qed.

Lemma sends_find_alternative P failed otherwise : forall selectors,
  (forall script, P (evaluate_js script)) -> sends P otherwise ->
  sends P (KKCtl.find_alternative selectors failed otherwise).
Proof.
  intros selectors HP Ho. induction selectors as [| s rest IH]; [exact Ho |].
  cbn [KKCtl.find_alternative].
  apply sends_bind; [apply sends_execute_js, HP | intros v].
  destruct (truthy v); [sends_tac | exact IH].
Qed.

(** [find_better_selector] only runs scripts. *)
Lemma sends_find_better_selector P failed :
  (forall script, P (evaluate_js script)) -> sends P (KKCtl.find_better_selector failed).
Proof.
  intro HP. unfold KKCtl.find_better_selector.
  assert (Hlog : sends P (KKCtl.execute_js KKCtl.find_inputs_script ;; ret JNull)).
  { apply sends_bind; [apply sends_execute_js, HP | intros _; apply sends_ret]. }
  destruct (str_contains "q" failed); [| exact Hlog].
  now apply sends_find_alternative.
Qed.

Lemma pure_state {A} (m : M A) w : keeps (fun w => w) m -> snd (m w) = w.
Proof. intro H. apply H. Qed.

Lemma execute_js_effect script w :
  let r := KKCtl.execute_js script w in
  written w (snd r) = [evaluate_js script] /\ now w <= now (snd r).
Proof.
  cbv zeta. unfold KKCtl.execute_js. rewrite bind_eq.
  match goal with
  | |- context [KK.send_command ?m ?p w] =>
      pose proof (KK_send_command_outbox m p w) as Ho;
      pose proof (proj1 (KK_send_command_spec m p w)) as Ht;
      destruct (KK.send_command m p w) as [[result | e |] w1]
  end; cbn [fst snd] in *;
    try (split; [now rewrite (written_app _ _ _ Ho) | apply Ht]).
  assert (Hs : snd ((inner <- py_get result "result" (JObj []) ;;
                     py_get inner "value" JNull) w1) = w1)
    by (apply pure_state; keeps_tac).
  rewrite Hs. split; [now rewrite (written_app _ _ _ Ho) | apply Ht].
Qed.

Lemma send_command_effect m p w :
  let r := KK.send_command m p w in
  written w (snd r) = [(m, p)] /\ now w <= now (snd r).
Proof.
  cbv zeta. split; [| apply (KK_send_command_spec m p w)].
  now rewrite (written_app _ _ _ (KK_send_command_outbox m p w)).
Qed.

Lemma written_trans w1 w2 w3 l1 l2 :
  (exists l, outbox w2 = outbox w1 ++ l) ->
  (exists l, outbox w3 = outbox w2 ++ l) ->
  written w1 w2 = l1 -> written w2 w3 = l2 -> written w1 w3 = l1 ++ l2.
Proof.
  intros [a Ha] [b Hb] H1 H2.
  rewrite (written_app _ _ _ Ha) in H1. rewrite (written_app _ _ _ Hb) in H2.
  rewrite (written_app w1 w3 (a ++ b)) by (now rewrite Hb, Ha, app_assoc).
  now rewrite map_app, H1, H2.
Qed.

(** ** Outcome, commands and time of a computation *)

Lemma traces_ret {A} (a : A) Q : Q (Return a) [] 0 -> traces (ret a) Q.
Proof.
  intros H w. split; [exists []; now rewrite app_nil_r |].
  cbn [ret fst snd]. now rewrite written_refl, Z.sub_diag.
Qed.

Lemma traces_raise {A} (e : exn) Q : Q (Raise e) [] 0 -> traces (@raise World A e) Q.
Proof.
  intros H w. split; [exists []; now rewrite app_nil_r |].
  cbn [raise fst snd]. now rewrite written_refl, Z.sub_diag.
Qed.

Lemma traces_log lv msg Q : Q (Return tt) [] 0 -> traces (log lv msg) Q.
Proof.
  intros H w. split; [exists []; cbn; now rewrite app_nil_r |].
  cbn. rewrite Z.sub_diag.
  replace (written w _) with (@nil (string * json)); [exact H |].
  symmetry. apply (written_app w _ []). cbn. now rewrite app_nil_r.
Qed.

Lemma traces_sleep ms Q : Q (Return tt) [] ms -> traces (sleep ms) Q.
Proof.
  intros H w. split; [exists []; cbn; now rewrite app_nil_r |].
  cbn. replace (now w + ms - now w) with ms by lia.
  replace (written w _) with (@nil (string * json)); [exact H |].
  symmetry. apply (written_app w _ []). cbn. now rewrite app_nil_r.
Qed.

(** A computation that leaves the state alone. *)
Lemma traces_pure {A} (m : M A) Q :
  keeps (fun w => w) m -> (forall o, Q o [] 0) -> traces m Q.
Proof.
  intros Hk H w. rewrite (pure_state m w Hk).
  split; [exists []; now rewrite app_nil_r |].
  rewrite written_refl, Z.sub_diag. apply H.
Qed.

Lemma traces_weaken {A} (m : M A) (Q Q' : outcome A -> list (string * json) -> Z -> Prop) :
  traces m Q -> (forall o l t, Q o l t -> Q' o l t) -> traces m Q'.
Proof. intros H HQ w. destruct (H w) as [Hl Hq]. split; [exact Hl | now apply HQ]. Qed.

(** Sequencing: what follows a step that returned goes on from the
    commands and the time of that step. *)
Lemma traces_bind {A C} (m : M A) (k : A -> M C) Q1 (Q : outcome C -> _ -> _ -> Prop) :
  traces m Q1 ->
  (forall a l1 t1, Q1 (Return a) l1 t1 ->
     traces (k a) (fun o l2 t2 => Q o (l1 ++ l2) (t1 + t2))) ->
  (forall e l t, Q1 (Raise e) l t -> Q (Raise e) l t) ->
  (forall l t, Q1 Diverges l t -> Q Diverges l t) ->
  traces (x <- m ;; k x) Q.
Proof.
  intros Hm Hk He Hd w. rewrite bind_eq.
  destruct (Hm w) as [Hl1 H1].
  destruct (m w) as [[a | e |] w1]; cbn [fst snd] in *.
  - destruct (Hk a _ _ H1 w1) as [Hl2 H2]. split.
    + destruct Hl1 as [l1 E1], Hl2 as [l2 E2]. exists (l1 ++ l2).
      now rewrite E2, E1, app_assoc.
    + rewrite (written_trans w w1 (snd (k a w1)) _ _ Hl1 Hl2 eq_refl eq_refl).
      replace (now (snd (k a w1)) - now w)
        with (now w1 - now w + (now (snd (k a w1)) - now w1)) by lia.
      exact H2.
  - split; [exact Hl1 | now apply He].
  - split; [exact Hl1 | now apply Hd].
Qed.

Lemma traces_KK_send_command m p :
  traces (KK.send_command m p) (fun _ l t => l = [(m, p)] /\ 0 <= t).
Proof.
  intro w. destruct (send_command_effect m p w) as [Hc Ht].
  split; [eexists; apply KK_send_command_outbox |]. split; [exact Hc | lia].
Qed.

Lemma traces_execute_js script :
  traces (KKCtl.execute_js script) (fun _ l t => l = [evaluate_js script] /\ 0 <= t).
Proof.
  intro w. destruct (execute_js_effect script w) as [Hc Ht].
  split; [| split; [exact Hc | lia]].
  destruct (sends_execute_js (fun _ => True) script I w) as [l [Hl _]]. now exists l.
Qed.

Lemma traces_sends P {A} (m : M A) :
  sends P m -> advances m -> traces m (fun _ l t => Forall P l /\ 0 <= t).
Proof.
  intros Hs Ha w. destruct (Hs w) as [l [Hl HP]].
  split; [now exists l |]. rewrite (written_app _ _ _ Hl). split; [exact HP |].
  specialize (Ha w). lia.
Qed.

Lemma traces_log_exact lv msg :
  traces (log lv msg) (fun o l t => l = [] /\ t = 0).
Proof. now apply traces_log. Qed.

Lemma traces_sleep_exact ms :
  traces (sleep ms) (fun o l t => l = [] /\ t = ms).
Proof. now apply traces_sleep. Qed.

Lemma traces_pure_exact {A} (m : M A) :
  keeps (fun w => w) m -> traces m (fun o l t => l = [] /\ t = 0).
Proof. intro H. now apply traces_pure. Qed.

Lemma bind_assoc {S A B C} (m : ST S A) (k1 : A -> ST S B) (k2 : B -> ST S C) w :
  (y <- (x <- m ;; k1 x) ;; k2 y) w = (x <- m ;; y <- k1 x ;; k2 y) w.
Proof. unfold bind. now destruct (m w) as [[a | e |] w1]. Qed.

Lemma traces_assoc {A B C} (m : M A) (k1 : A -> M B) (k2 : B -> M C) Q :
  traces (x <- m ;; y <- k1 x ;; k2 y) Q -> traces (y <- (x <- m ;; k1 x) ;; k2 y) Q.
Proof. intros H w. rewrite bind_assoc. apply H. Qed.

Lemma traces_ret_bind {A C} (a : A) (k : A -> M C) Q :
  traces (k a) Q -> traces (x <- ret a ;; k x) Q.
Proof. intros H w. apply H. Qed.

(** One step of the symbolic run of a computation. *)
Ltac traces_bind_with H :=
  eapply traces_bind;
  [ exact H
  | intros ? ? ? [-> ?]
  | intros ? ? ? [-> ?]
  | intros ? ? [-> ?] ].

Ltac traces_step :=
  match goal with
  | |- traces (ret _) _ => apply traces_ret
  | |- traces (raise _) _ => apply traces_raise
  | |- traces (bind (KKCtl.execute_js ?s) _) _ => traces_bind_with (traces_execute_js s)
  | |- traces (bind (KK.send_command ?m ?p) _) _ =>
      traces_bind_with (traces_KK_send_command m p)
  | |- traces (bind (log ?lv ?msg) _) _ => traces_bind_with (traces_log_exact lv msg)
  | |- traces (bind (sleep ?ms) _) _ => traces_bind_with (traces_sleep_exact ms)
  | |- traces (bind (py_in ?k ?v) _) _ =>
      traces_bind_with (traces_pure_exact (py_in k v) (keeps_py_in _ k v))
  | |- traces (bind (py_getitem ?v ?k) _) _ =>
      traces_bind_with (traces_pure_exact (py_getitem v k) (keeps_py_getitem _ v k))
  | |- traces (bind (py_index ?v ?i) _) _ =>
      traces_bind_with (traces_pure_exact (py_index v i) (keeps_py_index _ v i))
  | |- traces (bind (py_midpoint ?a ?b) _) _ =>
      traces_bind_with (traces_pure_exact (py_midpoint a b) (keeps_py_midpoint _ a b))
  | |- traces (bind (ret ?a) _) _ => apply traces_ret_bind
  | |- traces (bind (bind _ _) _) _ => apply traces_assoc
  | |- traces (bind (if ?b then _ else _) _) _ => destruct b
  | |- traces (if ?b then _ else _) _ => destruct b
  end.

Lemma advances_KK_send_command m p : advances (KK.send_command m p).
Proof. intro w. apply (KK_send_command_spec m p w). Qed.

Lemma advances_execute_js script : advances (KKCtl.execute_js script).
Proof.
  unfold KKCtl.execute_js. apply advances_bind; [apply advances_KK_send_command |].
  intro a. apply advances_keeps. keeps_tac.
Qed.

Lemma advances_log lv msg : advances (log lv msg).
Proof. intro w. cbn. lia. Qed.

Lemma advances_find_alternative failed otherwise : forall selectors,
  advances otherwise -> advances (KKCtl.find_alternative selectors failed otherwise).
Proof.
  intros selectors Ho. induction selectors as [| s rest IH]; [exact Ho |].
  cbn [KKCtl.find_alternative].
  apply advances_bind; [apply advances_execute_js | intros v].
  destruct (truthy v); [| exact IH].
  apply advances_bind; [apply advances_log | intros _]. apply advances_keeps. keeps_tac.
Qed.

Lemma advances_find_better_selector failed : advances (KKCtl.find_better_selector failed).
Proof.
  unfold KKCtl.find_better_selector.
  assert (H : advances (KKCtl.execute_js KKCtl.find_inputs_script ;; ret JNull)).
  { apply advances_bind; [apply advances_execute_js | intros _].
    apply advances_keeps. keeps_tac. }
  destruct (str_contains "q" failed); [| exact H].
  now apply advances_find_alternative.
Qed.


Lemma sends_type_text_find P selector : forall selectors e0,
  (forall script, P (evaluate_js script)) ->
  sends P (KKCtl.type_text_find selectors selector e0).
Proof.
  intros selectors e0 HP. revert e0.
  induction selectors as [| s rest IH]; intro e0; [apply sends_ret |].
  cbn [KKCtl.type_text_find].
  apply sends_bind; [apply sends_execute_js, HP | intros v].
  destruct (truthy v); [sends_tac | apply IH].
Qed.

Lemma advances_type_text_find selector : forall selectors e0,
  advances (KKCtl.type_text_find selectors selector e0).
Proof.
  induction selectors as [| s rest IH]; intro e0.
  - apply advances_keeps. keeps_tac.
  - cbn [KKCtl.type_text_find].
    apply advances_bind; [apply advances_execute_js | intros v].
    destruct (truthy v); [| apply IH].
    apply advances_bind; [apply advances_log | intros _]. apply advances_keeps. keeps_tac.
Qed.

(** The loop over the characters: one [Input.insertText] each, in
    order, and 50 ms of sleep after each. *)
Lemma traces_type_text_chars text :
  traces (KKCtl.type_text_chars text)
    (fun o l t =>
       (o = Return tt -> l = insert_texts text /\ 50 * Z.of_nat (String.length text) <= t)).
Proof.
  induction text as [| c rest IH]; cbn [KKCtl.type_text_chars].
  - apply traces_ret. intros _. split; [reflexivity | cbn; lia].
  - traces_step; try discriminate.
    traces_step; try discriminate.
    eapply traces_weaken; [exact IH |].
    intros o l t Ho Hr. destruct (Ho Hr) as [-> Ht].
    split; [reflexivity |]. cbn [String.length]. lia.
Qed.


(** ** om.py: the selector found by a script *)

Lemma words_from_blank s :
  blank s = true -> PyStr.words_from s = (EmptyString, []).
Proof.
  induction s as [| c rest IH]; [reflexivity |].
  cbn [blank PyStr.words_from]. intros H. apply andb_prop in H as [Hc Hr].
  rewrite (IH Hr), Hc. reflexivity.
Qed.

Lemma words_blank s : blank s = true -> PyStr.words s = [].
Proof. intros H. unfold PyStr.words. now rewrite (words_from_blank s H). Qed.

Lemma words_from_not_blank s :
  blank s = false ->
  PyStr.is_empty (fst (PyStr.words_from s)) = false \/ snd (PyStr.words_from s) <> [].
Proof.
  induction s as [| c rest IH]; [discriminate |].
  cbn [blank PyStr.words_from]. intros H.
  destruct (PyStr.words_from rest) as [word more] eqn:E. cbn [fst snd] in IH.
  destruct (PyStr.isspace c) eqn:Hc.
  - cbn [andb] in H. destruct (IH H) as [Hw | Hm].
    + right. cbn [snd]. rewrite Hw. discriminate.
    + right. cbn [snd]. destruct (PyStr.is_empty word); [exact Hm | discriminate].
  - left. reflexivity.
Qed.

Lemma words_not_blank s : blank s = false -> PyStr.words s <> [].
Proof.
  intros H. unfold PyStr.words. pose proof (words_from_not_blank s H) as Hn.
  destruct (PyStr.words_from s) as [word more]. cbn [fst snd] in Hn.
  destruct (PyStr.is_empty word) eqn:Hw; [| discriminate].
  destruct Hn as [Hn | Hn]; [discriminate | exact Hn].
Qed.

Lemma isspace_lower_char c : PyStr.isspace (lower_char c) = PyStr.isspace c.
Proof.
  destruct c as [[] [] [] [] [] [] [] []]; reflexivity.
Qed.

Lemma blank_lower s : blank (lower s) = blank s.
Proof.
  induction s as [| c rest IH]; [reflexivity |].
  cbn [lower blank]. now rewrite isspace_lower_char, IH.
Qed.

Lemma blank_no_search s : blank s = true -> str_contains "search" s = false.
Proof.
  induction s as [| c rest IH]; [reflexivity |].
  cbn [blank]. intros H. apply andb_prop in H as [Hc Hr].
  cbn [str_contains]. rewrite (IH Hr).
  destruct c as [[] [] [] [] [] [] [] []]; try discriminate Hc; reflexivity.
Qed.

Lemma is_empty_lower s : PyStr.is_empty (lower s) = PyStr.is_empty s.
Proof. destruct s; reflexivity. Qed.

Section DynamicSelector.

Context {D : Type}.
Variable log : level -> fstring -> D -> D.
Variable execute_script : string -> D -> (json + exn) * D.

Local Abbreviation get_dynamic_selector := (OMSteps.get_dynamic_selector log execute_script).
Local Abbreviation run_selector_script := (run_selector_script log execute_script).

Lemma try_script js d :
  try_except (OMSteps.call (execute_script js))
    (fun e => modify (log ERROR [FText "Dynamic selector error: "; FExn e]) ;; ret JNull) d
  = run_selector_script js d.
Proof.
  unfold try_except, OMSteps.call, run_selector_script.
  destruct (execute_script js d) as [[v | e] d']; reflexivity.
Qed.

(** X10.  om.py: [get_dynamic_selector] for a [type] or a [click], on
    params whose text is an ASCII string (or absent: the empty string).
    A text of white space only, and for [type] also the empty text, makes
    it raise [IndexError] before any script is run: the exception is not
    caught there.  Any other text gives one script, spliced with the
    lower-cased text and with "search" or the text's first word; the
    script's value is returned, and a failure of the script is logged
    and answered with [None].  A [click] without text runs the script
    whose test on the text is empty. *)
Theorem get_dynamic_selector_text action kv t d :
  action = "type" \/ action = "click" ->
  dict_get_default "text" (JStr "") kv = JStr t ->
  PyStr.is_ascii t = true ->
  let r := get_dynamic_selector (JStr action) (JObj kv) JNull d in
  (blank t = true /\ (action = "type" \/ t <> "") -> r = (Raise IndexError, d))
  /\ (blank t = false ->
      exists word,
        (word = "search" \/ nth_error (PyStr.words (lower t)) 0 = Some word)
        /\ r = run_selector_script
                 (if String.eqb action "type"
                  then OMSteps.type_script (lower t) word
                  else OMSteps.click_script (lower t) word) d)
  /\ (action = "click" -> t = "" ->
      r = run_selector_script (OMSteps.click_script "" "") d).
Proof.
  intros Ha Ht _ r. subst r.
  unfold OMSteps.get_dynamic_selector.
  destruct Ha as [-> | ->]; cbn [py_eq_str String.eqb Ascii.eqb Bool.eqb];
    unfold py_get; rewrite Ht; unfold bind; cbn [ret py_lower].
  - (* type *)
    split; [| split].
    + intros [Hb _].
      rewrite (blank_no_search (lower t)) by now rewrite blank_lower.
      rewrite (words_blank (lower t)) by now rewrite blank_lower.
      reflexivity.
    + intros Hb. unfold bind. cbn [ret].
      destruct (str_contains "search" (lower t)) eqn:Hs.
      * exists "search". split; [now left |]. cbn [ret]. apply try_script.
      * pose proof (words_not_blank (lower t)) as Hw.
        rewrite blank_lower in Hw. specialize (Hw Hb).
        destruct (PyStr.words (lower t)) as [| word more] eqn:Ew; [congruence |].
        exists word. split; [now right |]. cbn. apply try_script.
    + discriminate.
  - (* click *)
    split; [| split].
    + intros [Hb [Hc | Hne]]; [discriminate |].
      rewrite is_empty_lower.
      destruct t as [| c rest]; [congruence |]. cbn [PyStr.is_empty negb].
      rewrite (words_blank (lower (String c rest))) by now rewrite blank_lower.
      reflexivity.
    + intros Hb. unfold bind. cbn [ret].
      rewrite is_empty_lower.
      destruct t as [| c rest]; [discriminate |]. cbn [PyStr.is_empty negb].
      pose proof (words_not_blank (lower (String c rest))) as Hw.
      rewrite blank_lower in Hw. specialize (Hw Hb).
      destruct (PyStr.words (lower (String c rest))) as [| word more] eqn:Ew; [congruence |].
      exists word. split; [now right |]. cbn. apply try_script.
    + intros _ ->. cbn. apply try_script.
Qed.

End DynamicSelector.

Lemma get_dynamic_selector_text_witness :
  OMDemo.get_dynamic_selector (JStr "type")
    (JObj [("selector", JStr "#q"); ("text", JStr " ")]) JNull []
  = (Raise IndexError, []).
Proof.
  apply (get_dynamic_selector_text OMDemo.log OMDemo.execute_script "type"
           [("selector", JStr "#q"); ("text", JStr " ")] " " []
           (or_introl eq_refl) eq_refl eq_refl).
  split; [reflexivity | now left].
Defined.
(** ** Computations that end *)

Lemma ends_ret {S A} (a : A) : ends (ret a : ST S A).
Proof. intros w. discriminate. Qed.

Lemma ends_raise {S A} (e : exn) : ends (raise e : ST S A).
Proof. intros w. discriminate. Qed.

Lemma ends_modify {S} (f : S -> S) : ends (modify f).
Proof. intros w. discriminate. Qed.

Lemma ends_get_world {S} : ends (@get_world S).
Proof. intros w. discriminate. Qed.

Lemma ends_bind {S A B} (m : ST S A) (k : A -> ST S B) :
  ends m -> (forall a, ends (k a)) -> ends (x <- m ;; k x).
Proof.
  intros Hm Hk w. unfold bind. specialize (Hm w).
  destruct (m w) as [[a | e |] w1]; cbn [fst] in *;
    [apply Hk | discriminate | congruence].
Qed.

Lemma ends_try_except {S A} (m : ST S A) (h : exn -> ST S A) :
  ends m -> (forall e, ends (h e)) -> ends (try_except m h).
Proof.
  intros Hm Hh w. unfold try_except. specialize (Hm w).
  destruct (m w) as [[a | e |] w1]; cbn [fst] in *;
    [discriminate | apply Hh | congruence].
Qed.

Lemma ends_py_get {S} v k default : ends (py_get v k default : ST S json).
Proof. destruct v; intros w; discriminate. Qed.

Lemma ends_py_getitem {S} v k : ends (py_getitem v k : ST S json).
Proof.
  destruct v as [| | | | | | d]; try (intros w; discriminate).
  intros w. cbn [py_getitem]. destruct (dict_get k d); discriminate.
Qed.

Lemma ends_py_in {S} k v : ends (py_in k v : ST S bool).
Proof. intros w. unfold py_in. destruct (json_has k v); discriminate. Qed.

Lemma ends_py_lower {S} v : ends (py_lower v : ST S string).
Proof. destruct v; intros w; discriminate. Qed.

Lemma ends_list_index {S A} (l : list A) i : ends (list_index l i : ST S A).
Proof. intros w. unfold list_index. destruct (nth_error l i); discriminate. Qed.

Create HintDb ends discriminated.
#[local] Hint Resolve ends_ret ends_raise ends_modify ends_get_world ends_py_get
  ends_py_getitem ends_py_in ends_py_lower ends_list_index : ends.

(** The goals that a computation built of binds and tests leaves. *)
Ltac ends_tac :=
  repeat first
    [ progress auto with ends nocore
    | apply ends_bind; [| intros ?]
    | apply ends_try_except; [| intros ?]
    | match goal with
      | |- ends (if ?b then _ else _) => destruct b
      | |- ends (match ?x with _ => _ end) => destruct x
      | |- ends (let (_, _) := ?x in _) => destruct x
      end ].

Lemma returns_ret {S A} (a : A) : returns (ret a : ST S A).
Proof. intros w. now exists a. Qed.

Lemma returns_bind {S A B} (m : ST S A) (k : A -> ST S B) :
  returns m -> (forall a, returns (k a)) -> returns (x <- m ;; k x).
Proof.
  intros Hm Hk w. unfold bind. destruct (Hm w) as [a Ha].
  destruct (m w) as [o w1]. cbn [fst] in Ha. subst o. apply Hk.
Qed.

Lemma returns_try_except {S A} (m : ST S A) (h : exn -> ST S A) :
  ends m -> (forall e, returns (h e)) -> returns (try_except m h).
Proof.
  intros Hm Hh w. unfold try_except. specialize (Hm w).
  destruct (m w) as [[a | e |] w1]; cbn [fst] in *;
    [now exists a | apply Hh | congruence].
Qed.

Lemma returns_modify {S} (f : S -> S) : returns (modify f).
Proof. intros w. now exists tt. Qed.

Lemma bind_returned {S A B} (m : ST S A) (k : A -> ST S B) w b w' :
  (x <- m ;; k x) w = (Return b, w') ->
  exists a w1, m w = (Return a, w1) /\ k a w1 = (Return b, w').
Proof.
  unfold bind. destruct (m w) as [[a | e |] w1]; intros H; try discriminate.
  now exists a, w1.
Qed.

(** ** om.py: the duplicates taken out *)

Lemma existsb_eqb_In x (l : list string) : existsb (String.eqb x) l = true <-> In x l.
Proof.
  rewrite existsb_exists. split.
  - intros [y [Hy He]]. apply String.eqb_eq in He. now subst.
  - intros H. exists x. split; [exact H | apply String.eqb_refl].
Qed.

Lemma existsb_eqb_not_In x (l : list string) : existsb (String.eqb x) l = false <-> ~ In x l.
Proof.
  rewrite <- existsb_eqb_In. destruct (existsb (String.eqb x) l); split; congruence.
Qed.

Lemma remove_duplicates_from_In seen l x :
  In x (remove_duplicates_from seen l) <-> In x l /\ ~ In x seen.
Proof.
  revert seen. induction l as [| y rest IH]; intros seen; cbn [remove_duplicates_from].
  - cbn. tauto.
  - destruct (existsb (String.eqb y) seen) eqn:E.
    + apply existsb_eqb_In in E. rewrite IH. cbn [In]. split.
      * intros [H1 H2]. auto.
      * intros [[-> | H1] H2]; [contradiction | auto].
    + apply existsb_eqb_not_In in E. cbn [In]. rewrite IH. cbn [In]. split.
      * intros [-> | [H1 H2]]; [auto |]. split; [auto |]. intros H. apply H2. now right.
      * intros [[-> | H1] H2]; [now left |].
        destruct (string_dec y x) as [-> | Hne]; [now left |].
        right. split; [exact H1 |]. intros [H | H]; [congruence | contradiction].
Qed.

Lemma remove_duplicates_from_NoDup seen l : NoDup (remove_duplicates_from seen l).
Proof.
  revert seen. induction l as [| y rest IH]; intros seen; cbn [remove_duplicates_from].
  - constructor.
  - destruct (existsb (String.eqb y) seen); [apply IH |].
    constructor; [| apply IH].
    rewrite remove_duplicates_from_In. cbn [In]. tauto.
Qed.

Lemma remove_duplicates_from_app seen l1 l2 :
  remove_duplicates_from seen (l1 ++ l2)
  = remove_duplicates_from seen l1 ++ remove_duplicates_from (rev l1 ++ seen) l2.
Proof.
  revert seen. induction l1 as [| y rest IH]; intros seen; [reflexivity |].
  cbn [app remove_duplicates_from rev].
  destruct (existsb (String.eqb y) seen) eqn:E.
  - rewrite IH. f_equal.
    (* the set of seen items is the same *)
    clear IH. revert E. generalize (rev rest). intros l E. rewrite <- app_assoc. cbn [app].
    revert seen E l. induction l2 as [| z l2 IH2]; intros seen E l; [reflexivity |].
    cbn [remove_duplicates_from].
    assert (Hs : existsb (String.eqb z) (l ++ seen) = existsb (String.eqb z) (l ++ y :: seen)).
    { rewrite !existsb_app. cbn [existsb].
      destruct (String.eqb z y) eqn:Ezy; [| reflexivity].
      apply String.eqb_eq in Ezy. subst z. rewrite E. cbn. now rewrite !orb_true_r. }
    rewrite Hs. destruct (existsb (String.eqb z) (l ++ y :: seen)).
    + apply IH2. exact E.
    + f_equal. apply (IH2 seen E (z :: l)).
  - cbn [app]. f_equal. rewrite IH. f_equal. now rewrite <- app_assoc.
Qed.

(** X11.  om.py: [remove_duplicates], the list comprehension at the end of
    [execute_extraction]'s loop, keeps of every item its first occurrence, and
    nothing else: the list that it makes has no item twice and has the
    items of [data_items]; an item at the end is kept exactly when it is
    not among those before it, which come out as without it. *)
Theorem remove_duplicates_first data_items :
  NoDup (remove_duplicates data_items)
  /\ (forall x, In x (remove_duplicates data_items) <-> In x data_items)
  /\ (forall x,
        remove_duplicates (data_items ++ [x])
        = if existsb (String.eqb x) data_items
          then remove_duplicates data_items
          else remove_duplicates data_items ++ [x]).
Proof.
  unfold remove_duplicates. split; [apply remove_duplicates_from_NoDup |]. split.
  - intros x. rewrite remove_duplicates_from_In. cbn [In]. tauto.
  - intros x. rewrite remove_duplicates_from_app, app_nil_r.
    cbn [remove_duplicates_from].
    assert (H : existsb (String.eqb x) (rev data_items) = existsb (String.eqb x) data_items).
    { destruct (existsb (String.eqb x) data_items) eqn:E.
      - apply existsb_eqb_In. apply in_rev. rewrite rev_involutive. now apply existsb_eqb_In.
      - apply existsb_eqb_not_In. intros Hin. apply existsb_eqb_not_In in E. apply E.
        now apply in_rev. }
    rewrite H. destruct (existsb (String.eqb x) data_items); [apply app_nil_r | reflexivity].
Qed.
(** ** om.py: [execute_extraction] *)

Lemma map_fst_dict_set {V} k (v : V) (d : list (string * V)) :
  map fst (dict_set k v d)
  = if existsb (String.eqb k) (map fst d) then map fst d else map fst d ++ [k].
Proof.
  induction d as [| [k' v'] d IH]; [reflexivity |].
  cbn [dict_set map fst existsb].
  destruct (String.eqb_spec k k') as [-> | Hne]; [reflexivity |].
  cbn [map fst orb]. rewrite IH.
  now destruct (existsb (String.eqb k) (map fst d)).
Qed.

Lemma dict_set_Forall {V} (P : V -> Prop) k (v : V) (d : list (string * V)) :
  P v -> Forall (fun item => P (snd item)) d ->
  Forall (fun item => P (snd item)) (dict_set k v d).
Proof.
  intros Hv Hd. induction d as [| [k' v'] d IH]; cbn [dict_set].
  - constructor; [exact Hv | constructor].
  - inversion Hd; subst. destruct (String.eqb k k'); constructor; auto.
Qed.

Section Extraction.

Context {D Element : Type}.
Variable log : level -> fstring -> D -> D.
Variable start_chrome : D -> (unit + exn) * D.
Variable execute_script : string -> D -> (json + exn) * D.
Variable driver_get : json -> D -> (unit + exn) * D.
Variable wait_ready : D -> (unit + exn) * D.
Variable find_elements : json -> D -> (list Element + exn) * D.
Variable element_text : Element -> D -> (string + exn) * D.
Variable get_attribute : Element -> string -> D -> (option string + exn) * D.
Variable time_sleep : json -> D -> (unit + exn) * D.
Variable save_screenshot : json -> D -> (unit + exn) * D.
Variable read_base64 : json -> D -> (string + exn) * D.

Local Abbreviation get_dynamic_selector := (OMSteps.get_dynamic_selector log execute_script).
Local Abbreviation texts_of := (OMSteps.texts_of element_text).
Local Abbreviation first_attribute := (OMSteps.first_attribute get_attribute).
Local Abbreviation attributes_of := (OMSteps.attributes_of get_attribute).
Local Abbreviation collect := (OMSteps.collect find_elements element_text get_attribute).
Local Abbreviation extract_item :=
  (OMSteps.extract_item log execute_script find_elements element_text get_attribute).
Local Abbreviation extract_items :=
  (OMSteps.extract_items log execute_script find_elements element_text get_attribute).
Local Abbreviation extraction_body :=
  (OMSteps.extraction_body log execute_script driver_get wait_ready find_elements
     element_text get_attribute time_sleep save_screenshot read_base64).
Local Abbreviation execute_extraction :=
  (OMSteps.execute_extraction log start_chrome execute_script driver_get wait_ready
     find_elements element_text get_attribute time_sleep save_screenshot read_base64).

Lemma ends_call {A} (f : D -> (A + exn) * D) : ends (OMSteps.call f).
Proof. intros d. unfold OMSteps.call. destruct (f d) as [[a | e] d']; discriminate. Qed.

#[local] Hint Resolve ends_call : ends.

Lemma ends_get_dynamic_selector action params data_name :
  ends (get_dynamic_selector action params data_name).
Proof. unfold OMSteps.get_dynamic_selector. ends_tac. Qed.

Lemma ends_texts_of elements : ends (texts_of elements).
Proof. induction elements as [| e rest IH]; cbn [OMSteps.texts_of]; ends_tac. Qed.

Lemma ends_first_attribute e : ends (first_attribute e).
Proof. unfold OMSteps.first_attribute. ends_tac. Qed.

#[local] Hint Resolve ends_get_dynamic_selector ends_texts_of ends_first_attribute : ends.

Lemma ends_attributes_of elements : ends (attributes_of elements).
Proof. induction elements as [| e rest IH]; cbn [OMSteps.attributes_of]; ends_tac. Qed.

#[local] Hint Resolve ends_attributes_of : ends.

Lemma ends_stripped_selectors selector :
  ends (OMSteps.stripped_selectors selector : ST D (list string)).
Proof.
  unfold OMSteps.stripped_selectors, OMSteps.py_split_commas.
  destruct selector; ends_tac.
Qed.

Lemma ends_collect selector_list data_items : ends (collect selector_list data_items).
Proof.
  revert data_items.
  induction selector_list as [| s rest IH]; intros data_items; cbn [OMSteps.collect];
    ends_tac; apply IH.
Qed.

#[local] Hint Resolve ends_stripped_selectors ends_collect : ends.

Lemma ends_extract_item data_name selector : ends (extract_item data_name selector).
Proof. unfold OMSteps.extract_item. ends_tac. Qed.

#[local] Hint Resolve ends_extract_item : ends.

Lemma ends_extract_items items extracted_data : ends (extract_items items extracted_data).
Proof.
  revert extracted_data.
  induction items as [| [data_name selector] rest IH]; intros extracted_data;
    cbn [OMSteps.extract_items]; ends_tac; apply IH.
Qed.

#[local] Hint Resolve ends_extract_items : ends.

Lemma ends_extraction_body extraction_plan : ends (extraction_body extraction_plan).
Proof. unfold OMSteps.extraction_body, OMSteps.py_dict_items. ends_tac. Qed.

Lemma returns_extraction_failed e : returns (OMSteps.extraction_failed log e).
Proof. intros d. eexists. reflexivity. Qed.

Lemma extract_item_NoDup data_name selector d found d' :
  extract_item data_name selector d = (Return found, d') -> NoDup found.
Proof.
  unfold OMSteps.extract_item. intros H.
  apply bind_returned in H as (sl & d1 & _ & H).
  apply bind_returned in H as (items & d2 & _ & H).
  apply bind_returned in H as (items' & d3 & _ & H).
  injection H as <- _. apply remove_duplicates_from_NoDup.
Qed.

Lemma extract_items_spec items : forall extracted_data d data d',
  extract_items items extracted_data d = (Return data, d') ->
  Forall (fun item => NoDup (snd item)) extracted_data ->
  Forall (fun item => NoDup (snd item)) data
  /\ (NoDup (map fst extracted_data ++ map fst items) ->
      map fst data = map fst extracted_data ++ map fst items).
Proof.
  induction items as [| [data_name selector] rest IH]; intros extracted_data d data d' H Hacc.
  - injection H as <- _. split; [exact Hacc |]. intros _. cbn. now rewrite app_nil_r.
  - cbn [OMSteps.extract_items] in H.
    apply bind_returned in H as (found & d1 & Hf & H).
    apply IH in H.
    2:{ apply dict_set_Forall; [| exact Hacc]. eapply extract_item_NoDup, Hf. }
    destruct H as [H1 H2]. split; [exact H1 |].
    intros Hnd. cbn [map fst] in Hnd.
    rewrite map_fst_dict_set in H2.
    assert (Hno : existsb (String.eqb data_name) (map fst extracted_data) = false).
    { apply existsb_eqb_not_In. intros Hin.
      apply NoDup_remove_2 in Hnd. apply Hnd. apply in_or_app. now left. }
    rewrite Hno in H2. rewrite <- app_assoc in H2. cbn [app] in H2.
    apply H2. exact Hnd.
Qed.

Lemma execute_extraction_ends_well extraction_plan browser_type :
  returns (execute_extraction extraction_plan browser_type).
Proof.
  apply returns_bind.
  - apply returns_try_except.
    + ends_tac.
    + intros e. apply returns_bind; [apply returns_extraction_failed |].
      intros a. apply returns_ret.
  - intros [result |]; [apply returns_ret |].
    apply returns_bind.
    + apply returns_try_except; [apply ends_extraction_body | apply returns_extraction_failed].
    + intros a. apply returns_bind; [apply returns_modify | intros _; apply returns_ret].
Qed.

(** X12.  om.py: [execute_extraction] always returns one of its two
    dicts and raises nothing, whatever the plan and whatever the driver
    does.  For a browser whose lower-cased name is not "chrome" it
    returns its error before anything is started or logged.  When it
    returns its success, the plan was a dict whose selectors are a dict;
    the description and the url are the plan's, or the defaults; the data
    has the names of the selectors, in their order; and no list of the
    data has an item twice. *)
Theorem execute_extraction_returns extraction_plan browser_type d :
  let r := execute_extraction extraction_plan browser_type d in
  (exists result, fst r = Return result)
  /\ (forall browser, browser_type = JStr browser -> lower browser <> "chrome" ->
      r = (Return (OMSteps.ExtractionError [FText "Unsupported browser type"]), d))
  /\ (forall description url data screenshot,
      fst r = Return (OMSteps.Extracted description url data screenshot) ->
      exists plan selectors,
        extraction_plan = JObj plan
        /\ dict_get_default "selectors" (JObj []) plan = JObj selectors
        /\ description = dict_get_default "description" (JStr "Data extraction") plan
        /\ url = dict_get_default "url" JNull plan
        /\ (NoDup (map fst selectors) -> map fst data = map fst selectors)
        /\ Forall (fun item => NoDup (snd item)) data).
Proof.
  intros r. subst r. split; [| split].
  - apply execute_extraction_ends_well.
  - intros browser -> Hb. unfold OMSteps.execute_extraction.
    rewrite bind_eq. unfold try_except. cbn [py_lower]. unfold bind at 1. cbn [ret].
    destruct (String.eqb (lower browser) "chrome") eqn:E.
    + apply String.eqb_eq in E. contradiction.
    + reflexivity.
  - intros description url data screenshot H.
    unfold OMSteps.execute_extraction in H. rewrite bind_eq in H.
    match type of H with
    | fst (match ?s with _ => _ end) = _ => destruct s as [[[result |] | e |] d1] eqn:Es
    end.
    + (* the driver was not started: the result is an error *)
      cbn in H. unfold try_except in Es.
      match type of Es with
      | match ?b with _ => _ end = _ => destruct b as [[x | e |] d0] eqn:Eb
      end.
      * injection Es as -> ->. injection H as ->.
        apply bind_returned in Eb as (browser & d2 & _ & Eb).
        destruct (String.eqb browser "chrome").
        -- apply bind_returned in Eb as (u & d3 & _ & Eb). discriminate.
        -- discriminate.
      * cbn in Es. injection Es as <- _. discriminate H.
      * discriminate.
    + (* the driver was started *)
      rewrite bind_eq in H. unfold try_except at 1 in H.
      destruct (extraction_body extraction_plan d1) as [[result | e |] d2] eqn:Eb.
      * cbn in H. injection H as ->.
        unfold OMSteps.extraction_body in Eb.
        destruct extraction_plan as [| | | | | | plan]; try discriminate.
        cbn [py_get] in Eb.
        apply bind_returned in Eb as (url' & d3 & Hu & Eb). injection Hu as <- <-.
        apply bind_returned in Eb as (sel & d3 & Hu & Eb). injection Hu as <- <-.
        apply bind_returned in Eb as (desc & d3 & Hu & Eb). injection Hu as <- <-.
        apply bind_returned in Eb as (u1 & d3 & _ & Eb).
        apply bind_returned in Eb as (u2 & d4 & _ & Eb).
        apply bind_returned in Eb as (u3 & d5 & _ & Eb).
        apply bind_returned in Eb as (u4 & d6 & _ & Eb).
        apply bind_returned in Eb as (items & d7 & Hi & Eb).
        apply bind_returned in Eb as (found & d8 & Hf & Eb).
        apply bind_returned in Eb as (u5 & d9 & _ & Eb).
        apply bind_returned in Eb as (shot & d10 & _ & Eb).
        injection Eb as <- <- <- <- _.
        unfold OMSteps.py_dict_items in Hi.
        destruct (dict_get_default "selectors" (JObj []) plan) as [| | | | | | selectors] eqn:Esel;
          try discriminate.
        injection Hi as <- _.
        exists plan, selectors. repeat split; try reflexivity; try exact Esel.
        -- intros Hnd. apply (extract_items_spec _ _ _ _ _ Hf); [constructor | exact Hnd].
        -- apply (extract_items_spec _ _ _ _ _ Hf). constructor.
      * cbn in H. discriminate.
      * discriminate.
    + discriminate.
    + discriminate.
Qed.

End Extraction.
(** ** om.py: the body of a step *)

Section StepBody.

Context {D Element Response : Type}.
Variable log : level -> fstring -> D -> D.
Variable repr : json -> string.
Variable TimeoutException : exn.
Variable execute_script : string -> D -> (json + exn) * D.
Variable driver_get : json -> D -> (unit + exn) * D.
Variable wait_ready : D -> (unit + exn) * D.
Variable until : OMSteps.expected -> Z -> json -> D -> OMSteps.waited Element * D.
Variable find_elements : json -> D -> (list Element + exn) * D.
Variable click : Element -> D -> (unit + exn) * D.
Variable clear : Element -> D -> (unit + exn) * D.
Variable send_keys : Element -> json -> D -> (unit + exn) * D.
Variable send_return : Element -> D -> (unit + exn) * D.
Variable element_text : Element -> D -> (string + exn) * D.
Variable get_attribute : Element -> string -> D -> (option string + exn) * D.
Variable time_sleep : json -> D -> (unit + exn) * D.
Variable save_screenshot : json -> D -> (unit + exn) * D.
Variable read_base64 : json -> D -> (string + exn) * D.
Variable requests_get : string -> D -> (Response + exn) * D.
Variable status_code : Response -> Z.
Variable write_content : json -> Response -> D -> (unit + exn) * D.
Variable content_base64 : Response -> string.

Local Abbreviation step_body :=
  (OMSteps.step_body log repr TimeoutException execute_script driver_get wait_ready
     until find_elements click clear send_keys send_return element_text get_attribute
     time_sleep save_screenshot read_base64 requests_get status_code write_content
     content_base64).
Local Abbreviation perform :=
  (OMSteps.perform log repr TimeoutException execute_script driver_get wait_ready
     until find_elements click clear send_keys send_return element_text get_attribute
     time_sleep save_screenshot read_base64 requests_get status_code write_content
     content_base64).
Local Abbreviation take_final_screenshot :=
  (OMSteps.take_final_screenshot save_screenshot read_base64).
Local Abbreviation extract_selectors :=
  (OMSteps.extract_selectors find_elements element_text get_attribute).

#[local] Hint Resolve ends_call ends_texts_of ends_first_attribute : ends.

Lemma ends_attributes_or_note elements :
  ends (OMSteps.attributes_or_note get_attribute elements).
Proof. induction elements as [| e rest IH]; cbn [OMSteps.attributes_or_note]; ends_tac. Qed.

#[local] Hint Resolve ends_attributes_or_note : ends.

Lemma ends_extract_selectors selectors extracted_data :
  ends (extract_selectors selectors extracted_data).
Proof.
  revert extracted_data.
  induction selectors as [| s rest IH]; intros extracted_data;
    cbn [OMSteps.extract_selectors]; ends_tac; apply IH.
Qed.

Lemma unknown_action_body step_index action params s :
  known_action action = false ->
  step_body step_index action params s = (Return tt, s).
Proof.
  unfold known_action. cbn [existsb]. intros H.
  repeat (apply orb_false_elim in H as [? H]).
  unfold OMSteps.step_body.
  repeat match goal with
         | Hx : py_eq_str action _ = false |- _ => rewrite Hx; clear Hx
         end.
  reflexivity.
Qed.

Lemma unknown_action_perform step_index action params d :
  known_action action = false ->
  perform step_index action params d = (([], None), d).
Proof.
  intros Hk. unfold OMSteps.perform. now rewrite (unknown_action_body _ _ _ _ Hk).
Qed.

Lemma run_unknown_steps steps : forall step_index done d,
  Forall (fun step => exists kv, step = JObj kv /\ known_action (action_of step) = false)
    steps ->
  OM.run_steps perform step_index steps done d
  = (Return (done ++ map (fun step => OM.mkStepResult (action_of step) "success" [] None)
                       steps), d).
Proof.
  induction steps as [| step rest IH]; intros step_index done d H.
  - cbn. now rewrite app_nil_r.
  - inversion H as [| ? ? (kv & -> & Hk) Hrest]; subst.
    cbn [action_of] in Hk.
    cbn [OM.run_steps py_get]. unfold bind. cbn [ret].
    rewrite (unknown_action_perform _ _ _ _ Hk).
    rewrite (IH _ _ _ Hrest). cbn [map action_of]. now rewrite <- app_assoc.
Qed.

(** X13.  om.py: the action "select", which the prompt of
    [generate_automation_instructions] offers to the model, is none that
    a step of [execute_browser_automation] has a branch for.  A step
    with an action without a branch does nothing and sets nothing; and a
    run whose steps are all such ends with the status "success", every
    step recorded as a success, the driver as it was started. *)
Theorem unknown_actions_succeed command steps d screenshot :
  Forall (fun step => exists kv, step = JObj kv /\ known_action (action_of step) = false)
    steps ->
  take_final_screenshot d = inl screenshot ->
  known_action (JStr "select") = false
  /\ (exists before after,
        OMRun.automation_prompt command = [FText before; FVal command; FText after]
        /\ str_contains (dq +++ "select" +++ dq) after = true)
  /\ (forall step_index action params d',
        known_action action = false ->
        perform step_index action params d' = (([], None), d'))
  /\ OM.execute_browser_automation (inl d) perform take_final_screenshot
       (JObj [("steps", JArr steps)]) "chrome"
     = Return (OM.mkResults "success"
                 (Some (map (fun step => OM.mkStepResult (action_of step) "success" [] None)
                          steps))
                 [FText "Browser remains open for inspection"] (Some screenshot)).
Proof.
  intros Hsteps Hshot. split; [reflexivity |]. split; [| split].
  - eexists _, _. split; [reflexivity |]. vm_compute. reflexivity.
  - intros step_index action params d' Hk. now apply unknown_action_perform.
  - unfold OM.execute_browser_automation.
    change (String.eqb (lower "chrome") "chrome") with true. cbv iota.
    unfold bind, py_get, py_iter, get_world, dict_get_default.
    cbn [dict_get String.eqb Ascii.eqb Bool.eqb py_items ret].
    rewrite (run_unknown_steps steps 0%nat [] d Hsteps). cbn [app].
    assert (Hne : OM.any_error
              (map (fun step => OM.mkStepResult (action_of step) "success" [] None) steps)
            = false).
    { unfold OM.any_error. clear. induction steps as [| s r IH]; [reflexivity | exact IH]. }
    rewrite Hne, Hshot. reflexivity.
Qed.
(** X14.  om.py: an [extract] step whose params have no "selector" is
    always recorded as an error, with nothing extracted and no details,
    though the branch reads the selector with a default: it looks the
    empty selector up and then fails on [params['selector']].  When the
    empty selector finds no element, the error is that [KeyError]. *)
Theorem extract_needs_selector step_index kv d :
  dict_get "selector" kv = None ->
  (exists e d', perform step_index (JStr "extract") (JObj kv) d = (([], Some e), d'))
  /\ (forall d1, find_elements (JStr "") d = (inl [], d1) ->
      perform step_index (JStr "extract") (JObj kv) d
      = (([], Some (KeyError (JStr "selector"))), d1)).
Proof.
  intros Hk.
  assert (Hbody :
             step_body step_index (JStr "extract") (JObj kv) ([], d)
             = match extract_selectors [""] [] d with
               | (Return _, d1) => (Raise (KeyError (JStr "selector")), ([], d1))
               | (Raise e, d1) => (Raise e, ([], d1))
               | (Diverges, d1) => (Diverges, ([], d1))
               end).
  { unfold OMSteps.step_body.
    cbn [py_eq_str String.eqb Ascii.eqb Bool.eqb].
    unfold py_get, dict_get_default. rewrite Hk.
    unfold bind at 1. cbn [ret OMSteps.py_split_commas].
    unfold bind at 1. cbn [ret]. unfold bind at 1. cbn [ret].
    change (PyStr.split "," "") with [""].
    unfold bind at 1. unfold OMSteps.on_driver at 1. cbn [snd fst].
    destruct (extract_selectors [""] [] d) as [[data | e |] d1]; try reflexivity.
    unfold bind at 1. cbn [py_getitem]. rewrite Hk. reflexivity. }
  split.
  - unfold OMSteps.perform. rewrite Hbody.
    pose proof (ends_extract_selectors [""] [] d) as He.
    destruct (extract_selectors [""] [] d) as [[data | e |] d1]; cbn [fst] in He.
    + now eexists _, _.
    + now eexists _, _.
    + congruence.
  - intros d1 Hf. unfold OMSteps.perform. rewrite Hbody.
    cbn [OMSteps.extract_selectors]. unfold bind at 1, OMSteps.call at 1.
    change (PyStr.strip "") with "". rewrite Hf. reflexivity.
Qed.

End StepBody.

Lemma unknown_actions_succeed_witness :
  OM.execute_browser_automation (inl []) OMDemo.perform OMDemo.take_final_screenshot
    (JObj [("steps",
            JArr [JObj [("action", JStr "select");
                        ("params", JObj [("selector", JStr "#country")])]])])
    "chrome"
  = Return (OM.mkResults "success"
              (Some [OM.mkStepResult (JStr "select") "success" [] None])
              [FText "Browser remains open for inspection"] (Some "aGk=")).
Proof.
  refine (proj2 (proj2 (proj2
    (unknown_actions_succeed OMDemo.log OMDemo.repr OMDemo.TimeoutException
       OMDemo.execute_script OMDemo.driver_get OMDemo.wait_ready OMDemo.until
       OMDemo.find_elements OMDemo.click OMDemo.clear OMDemo.send_keys OMDemo.send_return
       OMDemo.element_text OMDemo.get_attribute OMDemo.time_sleep OMDemo.save_screenshot
       OMDemo.read_base64 OMDemo.requests_get OMDemo.status_code OMDemo.write_content
       OMDemo.content_base64 JNull
       [JObj [("action", JStr "select"); ("params", JObj [("selector", JStr "#country")])]]
       [] "aGk=" _ _)))).
  - constructor; [| constructor]. eexists. split; reflexivity.
  - reflexivity.
Defined.

Lemma extract_needs_selector_witness :
  OMDemo.perform 0 (JStr "extract") (JObj [("data_name", JStr "titles")]) []
  = (([], Some (KeyError (JStr "selector"))), ["find_elements"]).
Proof.
  refine (proj2
    (extract_needs_selector OMDemo.log OMDemo.repr OMDemo.TimeoutException
       OMDemo.execute_script OMDemo.driver_get OMDemo.wait_ready OMDemo.until
       OMDemo.find_elements OMDemo.click OMDemo.clear OMDemo.send_keys OMDemo.send_return
       OMDemo.element_text OMDemo.get_attribute OMDemo.time_sleep OMDemo.save_screenshot
       OMDemo.read_base64 OMDemo.requests_get OMDemo.status_code OMDemo.write_content
       OMDemo.content_base64 0%nat [("data_name", JStr "titles")] [] _) ["find_elements"] _);
    reflexivity.
Defined.

(** ** newww.py: the run of a command *)

Lemma keeps_outbox_log lv msg : keeps outbox (log lv msg).
Proof. apply keeps_log. reflexivity. Qed.

Lemma on_youtube_no_url w : current_url w = None -> on_youtube w = (Raise TypeError, w).
Proof. intros H. unfold on_youtube, bind, get_world. now rewrite H. Qed.

Lemma choose_selector_no_url selector description word fixed w :
  current_url w = None ->
  NWExec.choose_selector selector description word fixed w = (Raise TypeError, w).
Proof.
  intros H. unfold NWExec.choose_selector. rewrite bind_eq.
  now rewrite (on_youtube_no_url w H).
Qed.

Section NWOrchestrator.

Variable start_browser : M unit.
Variable connect : M unit.
Variable close : M unit.
Variable generate_content : fstring -> M string.
Variable clean_html : json -> string + exn.

Hypothesis start_browser_leaves : leaves_controller start_browser.
Hypothesis connect_leaves : leaves_controller connect.
Hypothesis close_leaves : leaves_controller close.
Hypothesis generate_content_leaves : forall prompt, leaves_controller (generate_content prompt).

Local Abbreviation get_current_html := (NWCtl.get_current_html clean_html).
Local Abbreviation generate_selectors_from_html :=
  (NWExec.generate_selectors_from_html generate_content).
Local Abbreviation run_step := (NWExec.run_step generate_content clean_html).
Local Abbreviation run_steps := (NWExec.run_steps generate_content clean_html).
Local Abbreviation execute_natural_language_command :=
  (NWExec.execute_natural_language_command start_browser connect close generate_content
     clean_html).

Local Abbreviation html_read id :=
  (mkCommand id "Runtime.evaluate"
     (JObj [("expression", JStr "document.documentElement.outerHTML")])).

Lemma get_current_html_effect w :
  let r := get_current_html w in
  current_url (snd r) = current_url w
  /\ outbox (snd r) = outbox w ++ [html_read (command_id w)].
Proof.
  cbv zeta. unfold NWCtl.get_current_html. rewrite bind_eq.
  pose proof (keeps_url_NW_send_command "Runtime.evaluate"
                (JObj [("expression", JStr "document.documentElement.outerHTML")]) w) as Hu.
  pose proof (NW_send_command_outbox "Runtime.evaluate"
                (JObj [("expression", JStr "document.documentElement.outerHTML")]) w) as Ho.
  destruct (NW.send_command _ _ w) as [[result | e |] w1]; cbn [snd] in *; auto.
  match goal with
  | |- context [snd (?m w1)] =>
      assert (Hp : snd (m w1) = w1)
  end.
  { apply pure_state. keeps_tac. }
  rewrite Hp. auto.
Qed.

Lemma generate_selectors_leaves html instruction :
  leaves_controller (generate_selectors_from_html html instruction).
Proof.
  unfold NWExec.generate_selectors_from_html. split.
  - apply keeps_try_except.
    + apply keeps_bind; [apply generate_content_leaves | intros; apply keeps_ret].
    + intros e. apply keeps_bind; [apply keeps_url_log | intros; apply keeps_ret].
  - apply keeps_try_except.
    + apply keeps_bind; [apply generate_content_leaves | intros; apply keeps_ret].
    + intros e. apply keeps_bind; [apply keeps_outbox_log | intros; apply keeps_ret].
Qed.

(** A [click] step of a controller that has not navigated stops at the
    test of the url. *)
Lemma click_step_stops i description target w :
  current_url w = None ->
  let r := run_step i (NWRun.step "click" description target None) w in
  (forall a, fst r <> Return a)
  /\ outbox (snd r) = outbox w ++ [html_read (command_id w)].
Proof.
  intros Hurl. cbv zeta. unfold NWExec.run_step.
  cbn [NWExec.step_get NWRun.step app dict_get NWExec.is_text String.eqb Ascii.eqb
         Bool.eqb].
  rewrite bind_eq.
  destruct (get_current_html_effect w) as [Hu1 Ho1].
  destruct (get_current_html w) as [[html | e |] w1]; cbn [fst snd] in *;
    [| split; [discriminate | exact Ho1] | split; [discriminate | exact Ho1]].
  rewrite bind_eq.
  match goal with
  | |- context [generate_selectors_from_html ?h ?i w1] =>
      destruct (generate_selectors_leaves h i) as [Hu2 Ho2];
      specialize (Hu2 w1); specialize (Ho2 w1);
      destruct (generate_selectors_from_html h i w1) as [[selector | e |] w2]
  end; cbn [fst snd] in *;
    [| split; [discriminate | congruence] | split; [discriminate | congruence]].
  rewrite bind_eq, choose_selector_no_url by congruence.
  cbn [fst snd]. split; [discriminate | congruence].
Qed.

(** X15.  newww.py: a command that only asks for a click ("click on ..",
    with no "go to", "navigate to" or "search for") never succeeds and
    never clicks.  Each command gets a new controller, whose url is
    [None]; the one step reads the page and asks the model for a
    selector, and then fails on ["youtube.com" in controller.current_url].
    So the result, when there is one, has the status "error", and all
    that was written to the browser is, at most, the one command that
    reads the page. *)
Theorem click_command_never_clicks command browser_type w :
  PyStr.is_ascii command = true ->
  let c := PyStr.strip (lower command) in
  str_contains "go to" c = false ->
  str_contains "navigate to" c = false ->
  str_contains "search for" c = false ->
  str_contains "click on" c = true ->
  let r := execute_natural_language_command (JStr command) browser_type w in
  (forall returned, fst r = Return returned -> NWExec.status returned = "error")
  /\ (exists written,
        outbox (snd r) = outbox w ++ written
        /\ Forall is_html_read written /\ (List.length written <= 1)%nat).
Proof.
  intros _ c H1 H2 H3 H4 r. subst r.
  unfold NWExec.execute_natural_language_command. rewrite bind_eq.
  assert (Hnew : forall w0 u, NWExec.new_controller browser_type w = (Return u, w0) ->
                 current_url w0 = None /\ outbox w0 = outbox w).
  { intros w0 u. unfold NWExec.new_controller. rewrite bind_eq.
    destruct browser_type; cbn [py_lower raise ret]; try discriminate.
    destruct (String.eqb (lower s) "chrome" || String.eqb (lower s) "firefox");
      cbn; [| discriminate].
    intros H. injection H as _ <-. split; reflexivity. }
  assert (Hfail : forall w0, snd (NWExec.new_controller browser_type w) = w0 ->
                  forall a, fst (NWExec.new_controller browser_type w) <> Return a ->
                  outbox w0 = outbox w).
  { intros w0 <- a _. unfold NWExec.new_controller. rewrite bind_eq.
    destruct browser_type; cbn [py_lower raise ret snd]; try reflexivity.
    destruct (String.eqb (lower s) "chrome" || String.eqb (lower s) "firefox");
      reflexivity. }
  destruct (NWExec.new_controller browser_type w) as [[u | e |] w0] eqn:En;
    cbn [fst snd] in *.
  2:{ split; [discriminate |]. exists []. rewrite app_nil_r.
      split; [apply (Hfail w0 eq_refl tt); discriminate | split; [constructor | cbn; lia]]. }
  2:{ split; [discriminate |]. exists []. rewrite app_nil_r.
      split; [apply (Hfail w0 eq_refl tt); discriminate | split; [constructor | cbn; lia]]. }
  destruct (Hnew w0 u eq_refl) as [Hurl0 Hout0]. clear Hnew Hfail.
  rewrite bind_eq.
  match goal with
  | |- context [try_except ?b ?h w0] => set (body := b) in *; set (handler := h) in *
  end.
  assert (Hbody :
    (forall x, fst (body w0) <> Return x)
    /\ exists written, outbox (snd (body w0)) = outbox w0 ++ written
                       /\ Forall is_html_read written /\ (List.length written <= 1)%nat).
  { subst body. rewrite bind_eq.
    destruct start_browser_leaves as [Su So]. specialize (Su w0). specialize (So w0).
    destruct (start_browser w0) as [[u1 | e |] w1]; cbn [fst snd] in *.
    2,3: split; [discriminate |]; exists []; rewrite app_nil_r;
         split; [exact So | split; [constructor | cbn; lia]].
    rewrite bind_eq.
    destruct connect_leaves as [Cu Co]. specialize (Cu w1). specialize (Co w1).
    destruct (connect w1) as [[u2 | e |] w2]; cbn [fst snd] in *.
    2,3: split; [discriminate |]; exists []; rewrite app_nil_r;
         split; [congruence | split; [constructor | cbn; lia]].
    rewrite bind_eq. cbn [NWExec.parse ret].
    unfold NWRun.parse_natural_language_command. fold c. rewrite H1, H2, H3, H4.
    cbn [orb]. cbv iota. rewrite bind_eq. cbn [NWExec.run_steps]. rewrite bind_eq.
    destruct (click_step_stops 0
                ("Click on " +++ PyStr.strip (PyStr.replace "click on" "" c))
                (PyStr.strip (PyStr.replace "click on" "" c)) w2) as [Hno Hout].
    { congruence. }
    destruct (run_step 0 _ w2) as [[u3 | e |] w3]; cbn [fst snd] in *.
    - now specialize (Hno u3).
    - split; [discriminate |]. eexists. split; [rewrite Hout, Co, So; reflexivity |].
      split; [repeat constructor | cbn; lia].
    - split; [discriminate |]. eexists. split; [rewrite Hout, Co, So; reflexivity |].
      split; [repeat constructor | cbn; lia]. }
  assert (Htry :
    (forall x, fst (try_except body handler w0) = Return x -> NWExec.status x = "error")
    /\ (forall e, fst (try_except body handler w0) <> Raise e)
    /\ exists written, outbox (snd (try_except body handler w0)) = outbox w0 ++ written
                       /\ Forall is_html_read written /\ (List.length written <= 1)%nat).
  { unfold try_except. destruct Hbody as [Hno Hw].
    destruct (body w0) as [[x | e |] w1]; cbn [fst snd] in *.
    - now specialize (Hno x).
    - subst handler. cbn. split; [intros x [= <-]; reflexivity |].
      split; [discriminate | exact Hw].
    - split; [discriminate |]. split; [discriminate | exact Hw]. }
  clear Hbody. destruct Htry as [Hst [Hnr [written [Hout [Hall Hlen]]]]].
  destruct (try_except body handler w0) as [[x | e |] w1]; cbn [fst snd] in *.
  - rewrite bind_eq. destruct close_leaves as [_ Co]. specialize (Co w1).
    destruct (close w1) as [[u1 | e |] w2]; cbn [ret fst snd] in *.
    + split; [intros returned [= <-]; now apply Hst |].
      exists written. split; [congruence | auto].
    + split; [discriminate |]. exists written. split; [congruence | auto].
    + split; [discriminate |]. exists written. split; [congruence | auto].
  - now specialize (Hnr e).
  - split; [discriminate |]. exists written. split; [congruence | auto].
Qed.

End NWOrchestrator.
Lemma click_command_never_clicks_witness :
  let r := NWDemo.execute_natural_language_command (JStr "Click on Login") (JStr "Chrome")
             NWDemo.page_read in
  (forall returned, fst r = Return returned -> NWExec.status returned = "error")
  /\ (exists written,
        outbox (snd r) = outbox NWDemo.page_read ++ written
        /\ Forall is_html_read written /\ (List.length written <= 1)%nat).
Proof.
  assert (H : forall A (a : A), leaves_controller (ret a : M A))
    by (intros A a; split; intro w; reflexivity).
  apply (click_command_never_clicks (ret tt) (ret tt) (ret tt) (fun _ => ret "#login")
           (fun _ => inl "<html></html>") (H _ _) (H _ _) (H _ _) (fun _ => H _ _)
           "Click on Login" (JStr "Chrome") NWDemo.page_read);
    reflexivity.
Defined.

Lemma bind_returned_fst {S A B} (m : ST S A) (k : A -> ST S B) w b :
  fst ((x <- m ;; k x) w) = Return b ->
  exists a w1, m w = (Return a, w1) /\ fst (k a w1) = Return b.
Proof.
  unfold bind. destruct (m w) as [[a | e |] w1]; intros H; try discriminate.
  now exists a, w1.
Qed.

Section NWRoute.

Variable start_browser : M unit.
Variable connect : M unit.
Variable close : M unit.
Variable generate_content : fstring -> M string.
Variable clean_html : json -> string + exn.

Local Abbreviation execute_natural_language_command :=
  (NWExec.execute_natural_language_command start_browser connect close generate_content
     clean_html).
Local Abbreviation execute_command :=
  (NWExec.execute_command start_browser connect close generate_content clean_html).

Lemma nw_execute_returned command browser_type w returned w' :
  execute_natural_language_command command browser_type w = (Return returned, w') ->
  (exists c, command = JStr c
             /\ returned = NWExec.mkResult "success"
                             [FText "Successfully executed command: "; FVal command])
  \/ (exists e, returned = NWExec.mkResult "error" [FExn e]).
Proof.
  unfold NWExec.execute_natural_language_command. intros H.
  apply bind_returned in H as (u & w0 & _ & H).
  apply bind_returned in H as (x & w1 & Ht & H).
  apply bind_returned in H as (u1 & w2 & _ & H).
  injection H as <- _.
  unfold try_except in Ht.
  match type of Ht with
  | match ?b with _ => _ end = _ => destruct b as [[y | e |] w3] eqn:Eb
  end.
  - injection Ht as -> _. left.
    apply bind_returned in Eb as (u2 & w4 & _ & Eb).
    apply bind_returned in Eb as (u3 & w5 & _ & Eb).
    apply bind_returned in Eb as (steps & w6 & Hp & Eb).
    apply bind_returned in Eb as (u4 & w7 & _ & Eb).
    injection Eb as <- _.
    destruct command; try discriminate. now eexists.
  - cbn in Ht. injection Ht as <- _. right. now exists e.
  - discriminate.
Qed.

(** X16.  newww.py: what the route [/execute] answers.  Without a
    command it answers 400 and nothing is started.  Whenever it answers
    at all with a command, the status is 200 and the body is the result
    of the run: "success" only for a command that is a string, or
    "error" with the text of the exception of a step.  But a browser
    that is neither Chrome nor Firefox is no such error: the controller
    is made outside the [try], and the exception leaves the route. *)
Theorem nw_execute_command_replies data w :
  let r := execute_command data w in
  ((truthy data = false \/ json_has "command" data = Some false) ->
   r = (Return (400, NWExec.mkResult "error" [FText "No command provided"]), w))
  /\ (forall code returned, fst r = Return (code, returned) ->
      (code = 400 /\ returned = NWExec.mkResult "error" [FText "No command provided"])
      \/ (code = 200
          /\ exists kv command,
               data = JObj kv /\ dict_get "command" kv = Some command
               /\ ((exists c, command = JStr c
                              /\ returned
                                 = NWExec.mkResult "success"
                                     [FText "Successfully executed command: "; FVal command])
                   \/ exists e, returned = NWExec.mkResult "error" [FExn e])))
  /\ (forall kv command browser,
      data = JObj kv -> dict_get "command" kv = Some command ->
      dict_get "browser_type" kv = Some (JStr browser) ->
      lower browser <> "chrome" -> lower browser <> "firefox" ->
      r = (Raise (Exception [FText "Only Chrome and Firefox are supported"]), w)).
Proof.
  cbv zeta. unfold NWExec.execute_command. split; [| split].
  - intros [Ht | Hc]; rewrite bind_eq.
    + now rewrite Ht.
    + destruct (truthy data); [| reflexivity].
      cbn [negb]. rewrite bind_eq. unfold py_in. now rewrite Hc.
  - intros code returned H.
    apply bind_returned_fst in H as (no_command & w1 & Hn & H).
    destruct no_command.
    + injection H as <- <-. now left.
    + right.
      apply bind_returned_fst in H as (command & w2 & Hc & H).
      apply bind_returned_fst in H as (browser_type & w3 & Hb & H).
      apply bind_returned_fst in H as (result & w4 & He & H).
      injection H as <- <-. split; [reflexivity |].
      destruct data as [| | | | | | kv]; try discriminate Hc.
      cbn [py_getitem] in Hc.
      destruct (dict_get "command" kv) as [cmd |] eqn:Ek; [| discriminate].
      injection Hc as <- _.
      exists kv, cmd. split; [reflexivity |]. split; [exact Ek |].
      eapply nw_execute_returned, He.
  - intros kv command browser -> Hc Hb Hn1 Hn2.
    assert (Ht : truthy (JObj kv) = true) by (destruct kv; [discriminate | reflexivity]).
    rewrite bind_eq, Ht. cbn [negb]. rewrite bind_eq.
    unfold py_in. cbn [json_has]. rewrite (dict_get_has _ _ _ Hc). cbn [ret negb].
    rewrite bind_eq. cbn [py_getitem]. rewrite Hc. cbn [ret].
    rewrite bind_eq. cbn [py_get]. unfold dict_get_default. rewrite Hb. cbn [ret].
    rewrite bind_eq. unfold NWExec.execute_natural_language_command.
    rewrite bind_eq. unfold NWExec.new_controller. rewrite bind_eq. cbn [py_lower ret].
    apply String.eqb_neq in Hn1, Hn2. rewrite Hn1, Hn2. reflexivity.
Qed.

End NWRoute.
(** ** newww.py: [click] and [press_enter] *)

Lemma traces_try_except {A} (m : M A) (h : exn -> M A) Q1
      (Q : outcome A -> list (string * json) -> Z -> Prop) :
  traces m Q1 ->
  (forall a l t, Q1 (Return a) l t -> Q (Return a) l t) ->
  (forall e l1 t1, Q1 (Raise e) l1 t1 ->
     traces (h e) (fun o l2 t2 => Q o (l1 ++ l2) (t1 + t2))) ->
  (forall l t, Q1 Diverges l t -> Q Diverges l t) ->
  traces (try_except m h) Q.
Proof.
  intros Hm Hr Hh Hd w. unfold try_except.
  destruct (Hm w) as [Hl1 H1].
  destruct (m w) as [[a | e |] w1]; cbn [fst snd] in *.
  - split; [exact Hl1 | now apply Hr].
  - destruct (Hh e _ _ H1 w1) as [Hl2 H2]. split.
    + destruct Hl1 as [l1 E1], Hl2 as [l2 E2]. exists (l1 ++ l2).
      now rewrite E2, E1, app_assoc.
    + rewrite (written_trans w w1 (snd (h e w1)) _ _ Hl1 Hl2 eq_refl eq_refl).
      replace (now (snd (h e w1)) - now w)
        with (now w1 - now w + (now (snd (h e w1)) - now w1)) by lia.
      exact H2.
  - split; [exact Hl1 | now apply Hd].
Qed.

Lemma NW_execute_script_effect script w :
  let r := NW.execute_script script w in
  outbox (snd r) = outbox w ++ [mkCommand (command_id w) "Runtime.evaluate"
                                  (JObj [("expression", JStr script)])].
Proof.
  cbv zeta. unfold NW.execute_script. rewrite bind_eq.
  pose proof (NW_send_command_outbox "Runtime.evaluate"
                (JObj [("expression", JStr script)]) w) as Ho.
  destruct (NW.send_command _ _ w) as [[result | e |] w1]; cbn [snd] in *; auto.
  match goal with
  | |- context [snd (?m w1)] => assert (Hp : snd (m w1) = w1)
  end.
  { apply pure_state. keeps_tac. }
  now rewrite Hp.
Qed.

Lemma traces_NW_execute_script script :
  traces (NW.execute_script script) (fun _ l t => l = [runs script] /\ 0 <= t).
Proof.
  intro w. pose proof (NW_execute_script_effect script w) as Ho. cbv zeta in Ho.
  split; [eexists; exact Ho |].
  split; [now rewrite (written_app _ _ _ Ho) |].
  pose proof (advances_NW_execute_script script w). lia.
Qed.

Lemma sends_NW_execute_script (P : string * json -> Prop) script :
  P (runs script) -> sends P (NW.execute_script script).
Proof.
  intros H w. eexists. split; [apply NW_execute_script_effect |].
  now repeat constructor.
Qed.

Lemma sends_NW_wait_for_selector (P : string * json -> Prop) selector timeout :
  P (runs (NW.wait_for_selector_script selector)) ->
  sends P (NW.wait_for_selector selector timeout).
Proof.
  intros H. unfold NW.wait_for_selector.
  apply sends_bind; [apply sends_get_world | intros w0].
  apply sends_while_loop.
  - apply sends_bind; [now apply sends_NW_execute_script | intros v].
    destruct (truthy v); [apply sends_ret |].
    apply sends_bind; [apply sends_sleep | intros _; apply sends_ret].
  - apply sends_raise.
Qed.

Lemma advances_NW_wait_for_selector selector timeout :
  advances (NW.wait_for_selector selector timeout).
Proof.
  intros w. unfold NW.wait_for_selector, bind at 1, get_world.
  apply (poll_loop_spec (NW.execute_script (NW.wait_for_selector_script selector))
           (advances_NW_execute_script _) (how_NW_execute_script _)
           (now w) (timeout * 1000) (JBool true) (no_visible_element selector timeout)).
  - intros w0 e. apply NW_execute_script_raises.
  - lia.
  - pose proof (turns_left_start timeout (now w)). lia.
Qed.

(** The polls of a wait: the same script each time. *)
Lemma traces_NW_wait_for_selector selector timeout :
  traces (NW.wait_for_selector selector timeout)
    (fun _ l t => Forall (eq (runs (NW.wait_for_selector_script selector))) l /\ 0 <= t).
Proof.
  apply traces_sends; [| apply advances_NW_wait_for_selector].
  now apply sends_NW_wait_for_selector.
Qed.

Lemma traces_on_youtube : traces on_youtube (fun _ l t => l = [] /\ t = 0).
Proof. apply traces_pure_exact. unfold on_youtube. keeps_tac. Qed.

Ltac nw_step :=
  match goal with
  | |- traces (bind (NW.execute_script ?s) _) _ =>
      traces_bind_with (traces_NW_execute_script s)
  | |- traces (bind on_youtube _) _ => traces_bind_with traces_on_youtube
  | _ => traces_step
  end.

Ltac evaluates :=
  repeat (apply Forall_app; split); try assumption; cbn [app];
  repeat constructor; try reflexivity.

(** The goals of the runs that end without an answer. *)
Ltac no_answer := split; [evaluates | split; [lia | discriminate]].

(** The two selectors that [click] falls back on. *)
Lemma traces_click_alt_selectors e : forall alt_selectors,
  traces (NWCtl.click_alt_selectors alt_selectors e)
    (fun o l t =>
       forall v, o = Return v ->
         v = JBool true
         /\ exists before alt_selector,
              In alt_selector alt_selectors
              /\ Forall is_evaluate before
              /\ l = before ++ [runs (NWCtl.click_alt_script alt_selector)]
              /\ 1000 <= t).
Proof.
  induction alt_selectors as [| alt rest IH]; cbn [NWCtl.click_alt_selectors].
  - apply traces_raise. discriminate.
  - eapply traces_try_except with
      (Q1 := fun o l t =>
               Forall is_evaluate l /\ 0 <= t
               /\ forall v, o = Return v ->
                    v = JBool true
                    /\ exists before, Forall is_evaluate before
                                      /\ l = before ++ [runs (NWCtl.click_alt_script alt)]
                                      /\ 1000 <= t).
    + eapply traces_bind;
        [ apply traces_NW_wait_for_selector
        | intros v0 polls t0 [Hp Ht0]
        | intros e0 l t [Hp Ht]; split; [| split; [lia | discriminate]]
        | intros l t [Hp Ht]; split; [| split; [lia | discriminate]] ].
      2,3: eapply Forall_impl; [| exact Hp]; intros c <-; reflexivity.
      assert (Hev : Forall is_evaluate polls)
        by (eapply Forall_impl; [| exact Hp]; intros c <-; reflexivity).
      repeat (nw_step; try no_answer).
      split; [evaluates | split; [lia |]].
      intros v [= <-]. split; [reflexivity |].
      exists polls. split; [exact Hev |]. split; [cbn [app]; reflexivity | lia].
    + intros a l t [_ [_ H]] v Hv. destruct (H v Hv) as [-> [before [Hb [-> Ht]]]].
      split; [reflexivity |]. exists before, alt. split; [now left | auto].
    + intros e0 l1 t1 [Hl1 [Ht1 _]].
      eapply traces_weaken; [exact IH |].
      intros o l t H v Hv. destruct (H v Hv) as [-> [before [a [Hin [Hb [-> Ht]]]]]].
      split; [reflexivity |]. exists (l1 ++ before), a.
      split; [now right |]. split; [now apply Forall_app |].
      split; [now rewrite app_assoc | lia].
    + discriminate.
Qed.

(** X17.  newww.py: what [click] has done when it answers.  It answers
    only [True].  Either it polled for the element, ran its click script,
    which reported a click, and read the url, with a second or more
    gone; or, having failed with the selector, it ran the bare click on
    one of its two YouTube selectors, the thumbnail of a video or the
    search button: then [True] is the answer to a click on another
    element than the one asked for, and one that nothing has checked. *)
Theorem nw_click_answers selector :
  traces (NWCtl.click selector)
    (fun o l t =>
       forall v, o = Return v ->
         v = JBool true
         /\ ((exists polls,
                Forall (eq (runs (NW.wait_for_selector_script selector))) polls
                /\ l = polls ++ [runs (NWCtl.click_script selector);
                                 runs "return window.location.href"]
                /\ 1000 <= t)
             \/ (exists before alt_selector,
                   In alt_selector ["ytd-video-renderer a#thumbnail";
                                    "button[aria-label='Search']"]
                   /\ Forall is_evaluate before
                   /\ l = before ++ [runs (NWCtl.click_alt_script alt_selector)]
                   /\ 1000 <= t))).
Proof.
  unfold NWCtl.click.
  eapply traces_try_except with
    (Q1 := fun o l t =>
             Forall is_evaluate l /\ 0 <= t
             /\ forall v, o = Return v ->
                  v = JBool true
                  /\ exists polls,
                       Forall (eq (runs (NW.wait_for_selector_script selector))) polls
                       /\ l = polls ++ [runs (NWCtl.click_script selector);
                                        runs "return window.location.href"]
                       /\ 1000 <= t).
  - eapply traces_bind;
      [ apply traces_NW_wait_for_selector
      | intros v0 polls t0 [Hp Ht0]
      | intros e0 l t [Hp Ht]; split; [| split; [lia | discriminate]]
      | intros l t [Hp Ht]; split; [| split; [lia | discriminate]] ].
    2,3: eapply Forall_impl; [| exact Hp]; intros c <-; reflexivity.
    assert (Hev : Forall is_evaluate polls)
      by (eapply Forall_impl; [| exact Hp]; intros c <-; reflexivity).
    nw_step; [| no_answer | no_answer].
    destruct (truthy a); cbn [negb]; repeat (nw_step; try no_answer).
    split; [evaluates | split; [lia |]].
    intros v [= <-]. split; [reflexivity |].
    exists polls. split; [exact Hp |]. split; [cbn [app]; reflexivity | lia].
  - intros a l t [_ [_ H]] v Hv. destruct (H v Hv) as [-> Hx]. split; [reflexivity | now left].
  - intros e l1 t1 [Hl1 [Ht1 _]].
    nw_step; [| discriminate | discriminate].
    nw_step; [| discriminate | discriminate].
    nw_step.
    + eapply traces_weaken; [apply traces_click_alt_selectors |].
      intros o l t Hq v Hv. destruct (Hq v Hv) as [-> [before [alt [Hin [Hb [-> Ht]]]]]].
      split; [reflexivity |]. right. exists (l1 ++ before), alt.
      split; [exact Hin |]. split; [now apply Forall_app |].
      split; [cbn [app]; now rewrite app_assoc | lia].
    + nw_step. discriminate.
  - discriminate.
Qed.
Lemma traces_get_world : traces (@get_world World) (fun _ l t => l = [] /\ t = 0).
Proof. apply traces_pure_exact. intro w. reflexivity. Qed.

(** X18.  newww.py: [press_enter] answers only [True], and only after
    it polled for the element, ran the script that sends the key, which
    reported an element, slept two seconds and read the url; the one
    thing it may do after that is to click YouTube's search button.  So
    it takes two seconds or more, and what it checks is that an element
    was there, not that anything was submitted. *)
Theorem nw_press_enter_answers selector :
  traces (NWCtl.press_enter selector)
    (fun o l t =>
       forall v, o = Return v ->
         v = JBool true
         /\ exists polls,
              Forall (eq (runs (NW.wait_for_selector_script selector))) polls
              /\ (l = polls ++ [runs (NWCtl.press_enter_script selector);
                                runs "return window.location.href"]
                  \/ l = polls ++ [runs (NWCtl.press_enter_script selector);
                                   runs "return window.location.href";
                                   runs NWCtl.press_enter_youtube_script])
              /\ 2000 <= t).
Proof.
  unfold NWCtl.press_enter.
  eapply traces_try_except with
    (Q1 := fun o l t =>
       forall v, o = Return v ->
         v = JBool true
         /\ exists polls,
              Forall (eq (runs (NW.wait_for_selector_script selector))) polls
              /\ (l = polls ++ [runs (NWCtl.press_enter_script selector);
                                runs "return window.location.href"]
                  \/ l = polls ++ [runs (NWCtl.press_enter_script selector);
                                   runs "return window.location.href";
                                   runs NWCtl.press_enter_youtube_script])
              /\ 2000 <= t).
  - eapply traces_bind;
      [ apply traces_NW_wait_for_selector
      | intros v0 polls t0 [Hp Ht0]
      | discriminate
      | discriminate ].
    traces_bind_with traces_get_world; [| discriminate | discriminate].
    nw_step; [| discriminate | discriminate].
    destruct (truthy a0); cbn [negb]; repeat (nw_step; try discriminate).
    all: intros v [= <-]; split; [reflexivity |]; exists polls;
      (split; [exact Hp |]); (split; [| lia]); cbn [app];
      first [left; reflexivity | right; reflexivity].
  - intros a l t H. exact H.
  - intros e l1 t1 _. nw_step; [| discriminate | discriminate].
    apply traces_raise. discriminate.
  - discriminate.
Qed.

(** ** ooo.py: the run of a command *)

Lemma safe_keeps {A} (m : M A) :
  never_raises m -> keeps current_url m -> safe_on_youtube m.
Proof.
  intros Hn Hk w [url [Hu Hy]]. split; [apply Hn |].
  exists url. split; [now rewrite Hk | exact Hy].
Qed.

Lemma safe_ret {A} (a : A) : safe_on_youtube (ret a).
Proof. intros w H. split; [discriminate | exact H]. Qed.

Lemma safe_bind {A B} (m : M A) (k : A -> M B) :
  safe_on_youtube m -> (forall a, safe_on_youtube (k a)) -> safe_on_youtube (x <- m ;; k x).
Proof.
  intros Hm Hk w Hw. rewrite bind_eq. destruct (Hm w Hw) as [Hn Hp].
  destruct (m w) as [[a | e |] w1]; cbn [fst snd] in *.
  - now apply Hk.
  - now specialize (Hn e).
  - split; [discriminate | exact Hp].
Qed.

Lemma safe_ret_bind {A B} (a : A) (k : A -> M B) :
  safe_on_youtube (k a) -> safe_on_youtube (x <- ret a ;; k x).
Proof. intros H w. apply H. Qed.

Lemma safe_log lv msg : safe_on_youtube (log lv msg).
Proof. apply safe_keeps; [intros w e; discriminate | apply keeps_url_log]. Qed.

Lemma safe_sleep ms : safe_on_youtube (sleep ms).
Proof. apply safe_keeps; [intros w e; discriminate | apply keeps_url_sleep]. Qed.

(** A [try] whose handler is safe: what the body raises is caught. *)
Lemma safe_try_except {A} (m : M A) (h : exn -> M A) :
  keeps current_url m -> (forall e, safe_on_youtube (h e)) ->
  safe_on_youtube (try_except m h).
Proof.
  intros Hk Hh w [url [Hu Hy]]. unfold try_except. specialize (Hk w).
  assert (Hp : on_youtube_page (snd (m w))) by (exists url; split; [congruence | exact Hy]).
  destruct (m w) as [[a | e |] w1]; cbn [fst snd] in *.
  - split; [discriminate | exact Hp].
  - now apply Hh.
  - split; [discriminate | exact Hp].
Qed.

Lemma safe_on_youtube_test {A} (k : bool -> M A) :
  safe_on_youtube (k true) -> safe_on_youtube (yt <- on_youtube ;; k yt).
Proof.
  intros Hk w Hw. rewrite bind_eq. destruct Hw as [url [Hu Hy]].
  rewrite (on_youtube_some w url Hu), Hy. apply Hk. now exists url.
Qed.

Lemma keeps_url_type_items repr selector items :
  keeps current_url (OOOCtl.type_items repr selector items).
Proof.
  pose proof keeps_url_OOO_execute_script. pose proof keeps_url_sleep.
  induction items as [| c rest IH]; cbn [OOOCtl.type_items]; keeps_tac; auto.
Qed.

Lemma never_raises_try_except {A} (m : M A) (h : exn -> M A) :
  (forall e, never_raises (h e)) -> never_raises (try_except m h).
Proof.
  intros Hh w e. unfold try_except.
  destruct (m w) as [[a | e1 |] w1]; cbn [fst]; try discriminate. apply Hh.
Qed.

Lemma safe_click selector : safe_on_youtube (OOO.click selector).
Proof.
  unfold OOO.click. apply safe_try_except.
  - pose proof keeps_url_OOO_execute_script. pose proof keeps_url_OOO_wait_for_selector.
    pose proof keeps_url_sleep. pose proof keeps_url_click_cdp. keeps_tac.
  - intros e. apply safe_bind; [apply safe_log | intros _].
    apply safe_on_youtube_test.
    apply safe_keeps; [| apply keeps_url_handle_youtube_specific_click].
    unfold OOO.handle_youtube_specific_click.
    apply never_raises_try_except. intros e2 w e3. discriminate.
Qed.

Lemma safe_type_alt_selectors alts text : safe_on_youtube (OOO.type_alt_selectors alts text).
Proof.
  apply safe_keeps; [apply never_raises_type_alt_selectors |].
  apply keeps_url_type_alt_selectors.
Qed.

Lemma safe_type_value repr selector value :
  safe_on_youtube (OOOCtl.type_value repr selector value).
Proof.
  pose proof keeps_url_OOO_execute_script. pose proof keeps_url_OOO_wait_for_selector.
  pose proof keeps_url_sleep. pose proof keeps_url_type_chars.
  pose proof (keeps_url_type_items repr).
  assert (Hh : forall text e,
             safe_on_youtube
               (log ERROR [FText ("Error typing in element with selector '" +++ selector
                                  +++ "': "); FExn e] ;;
                yt <- on_youtube ;;
                if yt then
                  OOO.type_alt_selectors
                    ["input#search"; "input[name='search_query']"; "#search-input input";
                     "input[aria-label='Search']"] text
                else ret tt)).
  { intros text e. apply safe_bind; [apply safe_log | intros _].
    apply safe_on_youtube_test, safe_type_alt_selectors. }
  destruct value; cbn [OOOCtl.type_value]; unfold OOO.type;
    (apply safe_try_except; [| intros e; apply Hh]);
    unfold py_iter; cbn [py_items]; keeps_tac.
Qed.

Lemma safe_press_enter selector : safe_on_youtube (OOO.press_enter selector).
Proof.
  unfold OOO.press_enter. apply safe_try_except.
  - pose proof keeps_url_OOO_execute_script. pose proof keeps_url_OOO_send_command.
    pose proof keeps_url_sleep. keeps_tac.
  - intros e. apply safe_bind; [apply safe_log | intros _].
    apply safe_on_youtube_test.
    apply safe_try_except; [| intros e2; apply safe_log].
    pose proof keeps_url_OOO_execute_script. pose proof keeps_url_sleep. keeps_tac.
Qed.

Section OOOOrchestrator.

Variable generate_content : fstring -> M string.
Variable clean_html : json -> string + exn.
Variable repr : json -> string.

Local Abbreviation click_selector := (OOOExec.click_selector clean_html).
Local Abbreviation input_selector := (OOOExec.input_selector clean_html).
Local Abbreviation run_step := (OOOExec.run_step clean_html repr).
Local Abbreviation run_steps := (OOOExec.run_steps clean_html repr).

Lemma click_selector_on_youtube description w :
  on_youtube_page w ->
  click_selector (JStr description) w = (Return (youtube_click_selector description), w).
Proof.
  intros [url [Hu Hy]]. unfold OOOExec.click_selector, youtube_click_selector.
  rewrite bind_eq, (on_youtube_some w url Hu), Hy. cbn [py_lower]. rewrite bind_eq. cbn [ret].
  destruct (str_contains "video" (lower description)) eqn:Hv; [reflexivity |].
  destruct (str_contains "search" (lower description)) eqn:Hs; [reflexivity |].
  destruct (str_contains "play" (lower description)) eqn:Hpl; [reflexivity |].
  rewrite bind_eq. cbn [OOOExec.youtube_selectors ret].
  unfold OOORun.generate_youtube_selectors. rewrite Hs, Hv, Hpl.
  rewrite andb_false_r. reflexivity.
Qed.

Lemma safe_click_selector description : safe_on_youtube (click_selector (JStr description)).
Proof.
  intros w Hw. rewrite (click_selector_on_youtube description w Hw).
  split; [discriminate | exact Hw].
Qed.

Lemma safe_input_selector : safe_on_youtube input_selector.
Proof. unfold OOOExec.input_selector. apply safe_on_youtube_test, safe_ret. Qed.

Lemma safe_run_step i step : stays step -> safe_on_youtube (run_step i step).
Proof.
  intros (kv & description & -> & Hd & Ha).
  unfold OOOExec.run_step. cbn [py_get].
  assert (Hd' : dict_get_default "description" JNull kv = JStr description)
    by (unfold dict_get_default; now rewrite Hd).
  rewrite Hd'.
  set (action := dict_get_default "action" JNull kv) in *. clearbody action.
  set (target := dict_get_default "target" JNull kv). clearbody target.
  set (value := dict_get_default "value" JNull kv). clearbody value.
  do 4 apply safe_ret_bind.
  apply safe_bind; [apply safe_log | intros _].
  rewrite Ha.
  destruct (py_eq_str action "search"
            || py_eq_str action "type" && truthy target
               && str_contains "search" (lower (OOOCtl.str repr target))).
  { apply safe_bind.
    - apply safe_on_youtube_test, safe_ret.
    - intros selector.
      apply safe_bind; [apply safe_log | intros _].
      apply safe_bind; [apply safe_click | intros _].
      apply safe_bind; [apply safe_type_value | intros _].
      apply safe_bind; [apply safe_press_enter | intros _].
      apply safe_sleep. }
  destruct (py_eq_str action "click").
  { apply safe_bind; [apply safe_click_selector | intros selector].
    apply safe_bind; [apply safe_log | intros _].
    apply safe_bind; [apply safe_click | intros _].
    apply safe_sleep. }
  destruct (py_eq_str action "type").
  { apply safe_bind; [apply safe_input_selector | intros selector].
    apply safe_bind; [apply safe_log | intros _].
    apply safe_type_value. }
  destruct (py_eq_str action "press_enter").
  { apply safe_bind; [apply safe_input_selector | intros selector].
    apply safe_bind; [apply safe_log | intros _].
    apply safe_bind; [apply safe_press_enter | intros _].
    apply safe_sleep. }
  destruct (py_eq_str action "wait").
  { apply safe_bind; [apply safe_log | intros _]. apply safe_sleep. }
  apply safe_ret.
Qed.


(** X20.  ooo.py: what a [click] step clicks is decided by its
    description and by the url; its target and its value are not used.
    On a page of YouTube the selector is one of four fixed ones, chosen
    by the words "video", "search" and "play" of the description, and
    the call of [generate_youtube_selectors] adds nothing: where it is
    reached it answers [None]. *)
Theorem click_step_ignores_target i kv kv' description :
  dict_get "action" kv = Some (JStr "click") ->
  dict_get "action" kv' = Some (JStr "click") ->
  dict_get "description" kv = Some description ->
  dict_get "description" kv' = Some description ->
  (forall w, run_step i (JObj kv) w = run_step i (JObj kv') w)
  /\ (forall d w, on_youtube_page w ->
        click_selector (JStr d) w = (Return (youtube_click_selector d), w))
  /\ (forall d,
        str_contains "video" (lower d) = false ->
        str_contains "search" (lower d) = false ->
        str_contains "play" (lower d) = false ->
        OOORun.generate_youtube_selectors d = None
        /\ youtube_click_selector d = "button, a, [role='button']").
Proof.
  intros Ha Ha' Hd Hd'. split; [| split].
  - intros w. unfold OOOExec.run_step. cbn [py_get]. unfold dict_get_default.
    rewrite Ha, Ha', Hd, Hd'. reflexivity.
  - intros d w. apply click_selector_on_youtube.
  - intros d Hv Hs Hp. unfold OOORun.generate_youtube_selectors, youtube_click_selector.
    rewrite Hv, Hs, Hp, andb_false_r. split; reflexivity.
Qed.

End OOOOrchestrator.


Lemma click_step_ignores_target_witness :
  OOOExec.run_step (fun _ => inl "") (fun _ => "") 0
    (OOORun.step "click" "Click on the first video" (JStr "first video thumbnail") JNull)
    (NW.session 0 [])
  = OOOExec.run_step (fun _ => inl "") (fun _ => "") 0
      (OOORun.step "click" "Click on the first video" (JStr "the subscribe button")
         (JNum 1))
      (NW.session 0 []).
Proof.
  apply (click_step_ignores_target (fun _ => inl "") (fun _ => "") 0
           [("action", JStr "click"); ("description", JStr "Click on the first video");
            ("target", JStr "first video thumbnail"); ("value", JNull)]
           [("action", JStr "click"); ("description", JStr "Click on the first video");
            ("target", JStr "the subscribe button"); ("value", JNum 1)]
           (JStr "Click on the first video")); reflexivity.
Defined.
(** ** ooo.py: [close] and the route *)

Lemma never_raises_bind {S A B} (m : ST S A) (k : A -> ST S B) :
  never_raises m -> (forall a, never_raises (k a)) -> never_raises (x <- m ;; k x).
Proof.
  intros Hm Hk w e. unfold bind. specialize (Hm w).
  destruct (m w) as [[a | e1 |] w1]; cbn [fst] in *.
  - apply Hk.
  - now specialize (Hm e1).
  - discriminate.
Qed.

Lemma never_raises_ret {S A} (a : A) : never_raises (ret a : ST S A).
Proof. intros w e. discriminate. Qed.

Lemma never_raises_log lv msg : never_raises (log lv msg).
Proof. intros w e. discriminate. Qed.

Section OOORoute.

Variable start_browser : M unit.
Variable connect : M unit.
Variable generate_content : fstring -> M string.
Variable json_loads : string -> json + exn.
Variable clean_html : json -> string + exn.
Variable repr : json -> string.
Variable has_ws : M bool.
Variable has_process : M bool.
Variable ws_close : M unit.
Variable terminate : M unit.
Variable still_running : M bool.
Variable kill : M unit.

Hypothesis has_ws_reads : never_raises has_ws.
Hypothesis has_process_reads : never_raises has_process.

Local Abbreviation close :=
  (OOOCtl.close has_ws has_process ws_close terminate still_running kill).
Local Abbreviation execute_natural_language_command :=
  (OOOExec.execute_natural_language_command start_browser connect close generate_content
     json_loads clean_html repr).
Local Abbreviation execute :=
  (OOOExec.execute start_browser connect close generate_content json_loads clean_html repr).

Lemma never_raises_close : never_raises close.
Proof.
  unfold OOOCtl.close.
  apply never_raises_bind; [exact has_ws_reads | intros ws].
  apply never_raises_bind.
  - destruct ws; [| apply never_raises_ret].
    apply never_raises_try_except. intros e. apply never_raises_log.
  - intros _. apply never_raises_bind; [exact has_process_reads | intros process].
    destruct process; [| apply never_raises_ret].
    apply never_raises_try_except. intros e. apply never_raises_log.
Qed.

Lemma ooo_execute_returned command browser_type w returned w' :
  execute_natural_language_command command browser_type w = (Return returned, w') ->
  returned = OOOExec.mkResult "success"
               [FText "Successfully executed command: "; FVal command]
  \/ exists e, returned = OOOExec.mkResult "error" [FExn e].
Proof.
  unfold OOOExec.execute_natural_language_command. intros H.
  apply bind_returned in H as (u & w0 & _ & H).
  apply bind_returned in H as (x & w1 & Ht & H).
  apply bind_returned in H as (u1 & w2 & _ & H).
  injection H as <- _.
  unfold try_except in Ht.
  match type of Ht with
  | match ?b with _ => _ end = _ => destruct b as [[y | e |] w3] eqn:Eb
  end.
  - injection Ht as -> _. left.
    apply bind_returned in Eb as (u2 & w4 & _ & Eb).
    apply bind_returned in Eb as (u3 & w5 & _ & Eb).
    apply bind_returned in Eb as (steps & w6 & _ & Eb).
    apply bind_returned in Eb as (count & w7 & _ & Eb).
    apply bind_returned in Eb as (u4 & w8 & _ & Eb).
    apply bind_returned in Eb as (items & w9 & _ & Eb).
    apply bind_returned in Eb as (u5 & w10 & _ & Eb).
    now injection Eb as <- _.
  - cbn in Ht. injection Ht as <- _. right. now exists e.
  - discriminate.
Qed.

Lemma ooo_execute_never_raises command browser :
  String.eqb (lower browser) "chrome" || String.eqb (lower browser) "firefox" = true ->
  never_raises (execute_natural_language_command command (JStr browser)).
Proof.
  intros Hb. unfold OOOExec.execute_natural_language_command.
  apply never_raises_bind.
  - intros w e. unfold OOOExec.new_controller. rewrite bind_eq. cbn [py_lower ret].
    rewrite Hb. discriminate.
  - intros _. apply never_raises_bind.
    + apply never_raises_try_except. intros e.
      apply never_raises_bind; [apply never_raises_log | intros _; apply never_raises_ret].
    + intros returned.
      apply never_raises_bind; [apply never_raises_close | intros _; apply never_raises_ret].
Qed.

Lemma lower_char_lower_char c : lower_char (lower_char c) = lower_char c.
Proof. destruct c as [[] [] [] [] [] [] [] []]; reflexivity. Qed.

Lemma lower_lower s : lower (lower s) = lower s.
Proof.
  induction s as [| c rest IH]; [reflexivity |].
  cbn [lower]. now rewrite lower_char_lower_char, IH.
Qed.


End OOORoute.


(** ** kk.py: the Enter key *)


(** ** kk.py: [connect] *)

Lemma traces_beside {A} (m : M A) :
  beside_socket m -> traces m (fun _ l t => l = [] /\ 0 <= t).
Proof.
  intros [Hk Ha] w. split; [exists []; now rewrite Hk, app_nil_r |].
  split.
  - apply (written_app w _ []). now rewrite Hk, app_nil_r.
  - specialize (Ha w). lia.
Qed.

Lemma traces_log_bind {A} lv msg (k : M A) Q :
  traces k Q -> traces (log lv msg ;; k) Q.
Proof.
  intros H.
  eapply traces_bind with (Q1 := fun o l t => o = Return tt /\ l = [] /\ t = 0).
  - now apply traces_log.
  - intros a l1 t1 [_ [-> ->]]. eapply traces_weaken; [exact H |].
    intros o l t HQ. cbn [app]. now replace (0 + t) with t by lia.
  - intros e l t [Hc _]. discriminate.
  - intros l t [Hc _]. discriminate.
Qed.

Lemma traces_sleep_bind {A} ms (k : M A) Q :
  traces k (fun o l t => Q o l (ms + t)) -> traces (sleep ms ;; k) Q.
Proof.
  intros H.
  eapply traces_bind with (Q1 := fun o l t => o = Return tt /\ l = [] /\ t = ms).
  - now apply traces_sleep.
  - intros a l1 t1 [_ [-> ->]]. exact H.
  - intros e l t [Hc _]. discriminate.
  - intros l t [Hc _]. discriminate.
Qed.

Section KKConnect.

Context {Response : Type}.
Variable requests_get : M Response.
Variable status_code : Response -> Z.
Variable response_json : Response -> json + exn.
Variable ws_connect : json -> M unit.
Variable start_message_handler : M unit.

Hypothesis requests_get_beside : beside_socket requests_get.
Hypothesis ws_connect_beside : forall url, beside_socket (ws_connect url).
Hypothesis start_message_handler_beside : beside_socket start_message_handler.

Local Abbreviation connect_attempt :=
  (KKSession.connect_attempt requests_get status_code response_json ws_connect
     start_message_handler).
Local Abbreviation connect_from :=
  (KKSession.connect_from requests_get status_code response_json ws_connect
     start_message_handler).
Local Abbreviation connect :=
  (KKSession.connect requests_get status_code response_json ws_connect
     start_message_handler).

Lemma traces_pages_of response :
  traces (KKSession.pages_of response_json response) (fun _ l t => l = [] /\ t = 0).
Proof.
  apply traces_pure_exact. unfold KKSession.pages_of.
  destruct (response_json response); intro w; reflexivity.
Qed.

Lemma traces_connect_attempt attempt :
  traces (connect_attempt attempt)
    (fun o l t =>
       0 <= t /\ (o = Return true -> exists before, l = before ++ enable_commands)).
Proof.
  unfold KKSession.connect_attempt.
  eapply traces_bind;
    [ apply traces_beside, requests_get_beside
    | intros response l0 t0 [-> Ht0]
    | intros e l t [-> Ht]; split; [lia | discriminate]
    | intros l t [-> Ht]; split; [lia | discriminate] ].
  eapply traces_bind with (Q1 := fun o l t => l = [] /\ t = 0).
  - destruct (status_code response =? 200).
    + traces_bind_with (traces_pages_of response); [| now split | now split].
      apply traces_ret. subst. split; reflexivity.
    + apply traces_ret. split; reflexivity.
  - intros listed l1 t1 [-> ->]. destruct listed.
    + traces_bind_with (traces_pages_of response);
        [| split; [lia | discriminate] | split; [lia | discriminate]].
      traces_step; [| split; [lia | discriminate] | split; [lia | discriminate]].
      traces_step; [| split; [lia | discriminate] | split; [lia | discriminate]].
      eapply traces_bind;
        [ apply traces_beside, ws_connect_beside
        | intros u lc tc [-> Htc]
        | intros e l t [-> Ht]; split; [lia | discriminate]
        | intros l t [-> Ht]; split; [lia | discriminate] ].
      eapply traces_bind;
        [ apply traces_beside, start_message_handler_beside
        | intros u3 lh th [-> Hth]
        | intros e l t [-> Ht]; split; [lia | discriminate]
        | intros l t [-> Ht]; split; [lia | discriminate] ].
      repeat (traces_step; try (split; [lia | discriminate])).
      split; [lia |]. intros _. exists []. reflexivity.
    + traces_step; [| split; [lia | discriminate] | split; [lia | discriminate]].
      apply traces_ret. split; [lia | discriminate].
  - intros e l t [-> ->]. split; [lia | discriminate].
  - intros l t [-> ->]. split; [lia | discriminate].
Qed.

Lemma traces_connect_from remaining : forall attempt,
  traces (connect_from remaining attempt)
    (fun o l t =>
       (forall e, o <> Raise e)
       /\ (o = Return false -> 2000 * Z.of_nat remaining <= t)
       /\ (o = Return true -> exists before, l = before ++ enable_commands)).
Proof.
  induction remaining as [| n IH]; intros attempt; cbn [KKSession.connect_from].
  - apply traces_log_bind, traces_ret.
    split; [discriminate |]. split; [cbn; lia | discriminate].
  - eapply traces_bind with
      (Q1 := fun o l t =>
               (forall e, o <> Raise e) /\ 0 <= t
               /\ (o = Return true -> exists before, l = before ++ enable_commands)).
    + eapply traces_try_except;
        [ apply traces_connect_attempt
        | intros a l t [Ht Hc]; split; [discriminate | split; [exact Ht | exact Hc]]
        | intros e l1 t1 [Ht1 _]
        | intros l t [Ht _]; split; [discriminate | split; [exact Ht | discriminate]] ].
      apply traces_log_bind, traces_ret.
      split; [discriminate |]. split; [lia | discriminate].
    + intros connected l1 t1 [_ [Ht1 Hc]]. destruct connected.
      * apply traces_ret. split; [discriminate |]. split; [discriminate |].
        intros _. destruct (Hc eq_refl) as [before ->]. exists before.
        now rewrite app_nil_r.
      * apply traces_sleep_bind.
        eapply traces_weaken; [apply IH |].
        intros o l t [Hn [Hf Hc2]]. split; [exact Hn |]. split.
        -- intros Ho. specialize (Hf Ho). lia.
        -- intros Ho. destruct (Hc2 Ho) as [before ->]. exists (l1 ++ before).
           now rewrite app_assoc.
    + intros e l t [Hn _]. now specialize (Hn e).
    + intros l t _. split; [discriminate |]. split; discriminate.
Qed.


End KKConnect.


(** ** om.py: the routes *)

Section OMRoutesFacts.

Context {D Element Response : Type}.
Variable log : level -> fstring -> D -> D.
Variable repr : json -> string.
Variable TimeoutException : exn.
Variable start_chrome : D -> (unit + exn) * D.
Variable execute_script : string -> D -> (json + exn) * D.
Variable driver_get : json -> D -> (unit + exn) * D.
Variable wait_ready : D -> (unit + exn) * D.
Variable until : OMSteps.expected -> Z -> json -> D -> OMSteps.waited Element * D.
Variable find_elements : json -> D -> (list Element + exn) * D.
Variable click : Element -> D -> (unit + exn) * D.
Variable clear : Element -> D -> (unit + exn) * D.
Variable send_keys : Element -> json -> D -> (unit + exn) * D.
Variable send_return : Element -> D -> (unit + exn) * D.
Variable element_text : Element -> D -> (string + exn) * D.
Variable get_attribute : Element -> string -> D -> (option string + exn) * D.
Variable time_sleep : json -> D -> (unit + exn) * D.
Variable save_screenshot : json -> D -> (unit + exn) * D.
Variable read_base64 : json -> D -> (string + exn) * D.
Variable requests_get : string -> D -> (Response + exn) * D.
Variable status_code : Response -> Z.
Variable write_content : json -> Response -> D -> (unit + exn) * D.
Variable content_base64 : Response -> string.
Variable generate_content : fstring -> ST D string.
Variable json_loads : string -> json + exn.
Variable json_dumps : json -> string.

Local Abbreviation execute_extraction :=
  (OMRoutes.execute_extraction log start_chrome execute_script driver_get wait_ready
     find_elements element_text get_attribute time_sleep save_screenshot read_base64).
Local Abbreviation extract :=
  (OMRoutes.extract log start_chrome execute_script driver_get wait_ready find_elements
     element_text get_attribute time_sleep save_screenshot read_base64 generate_content
     json_loads json_dumps).
Local Abbreviation execute_browser_automation :=
  (OMRoutes.execute_browser_automation log repr TimeoutException start_chrome execute_script
     driver_get wait_ready until find_elements click clear send_keys send_return
     element_text get_attribute time_sleep save_screenshot read_base64 requests_get
     status_code write_content content_base64).
Local Abbreviation interact :=
  (OMRoutes.interact log repr TimeoutException start_chrome execute_script driver_get
     wait_ready until find_elements click clear send_keys send_return element_text
     get_attribute time_sleep save_screenshot read_base64 requests_get status_code
     write_content content_base64 generate_content json_loads json_dumps).

(** The manual plan of the route [/extract]. *)
Local Abbreviation manual_plan url selectors :=
  (JObj [("url", url); ("selectors", selectors);
         ("description", JStr "Manual extraction with provided selectors")]).

(** X24.  om.py: what the route [/extract] answers.  Data that is empty
    is refused with 400.  A request with a url and selectors and no
    command is always answered with 200 and the result of
    [execute_extraction] on the plan made of them: that function raises
    nothing, so the handler of this mode, with its 500, is never
    reached.  A 500 is answered only to a request with a command. *)
Theorem extract_replies data d :
  let r := extract data d in
  (truthy data = false -> r = (Return (OMRoutes.ExtractRefused "Missing request data"), d))
  /\ (forall kv url selectors,
        data = JObj kv -> dict_get "command" kv = None ->
        dict_get "url" kv = Some url -> dict_get "selectors" kv = Some selectors ->
        exists result,
          fst (execute_extraction (manual_plan url selectors)
                 (dict_get_default "browser" (JStr "chrome") kv) d) = Return result
          /\ fst r = Return (OMRoutes.ExtractAnswered result None None))
  /\ (forall e, fst r = Return (OMRoutes.ExtractFailed e) ->
        json_has "command" data = Some true).
Proof.
  cbv zeta. unfold OMRoutes.extract. split; [| split].
  - intros Ht. now rewrite Ht.
  - intros kv url selectors -> Hc Hu Hs.
    assert (Ht : truthy (JObj kv) = true) by (destruct kv; [discriminate | reflexivity]).
    rewrite Ht. cbn [negb]. rewrite bind_eq. unfold py_in. cbn [json_has ret].
    rewrite (dict_get_none _ _ Hc), (dict_get_has _ _ _ Hu), (dict_get_has _ _ _ Hs).
    cbn [py_get].
    replace (dict_get_default "url" JNull kv) with url
      by (unfold dict_get_default; now rewrite Hu).
    replace (dict_get_default "selectors" (JObj []) kv) with selectors
      by (unfold dict_get_default; now rewrite Hs).
    unfold bind, try_except. cbn [ret].
    destruct (execute_extraction_ends_well log start_chrome execute_script driver_get
                wait_ready find_elements element_text get_attribute time_sleep
                save_screenshot read_base64 (manual_plan url selectors)
                (dict_get_default "browser" (JStr "chrome") kv) d) as [result Hr].
    exists result. split; [exact Hr |].
    unfold OMRoutes.execute_extraction in *.
    match goal with
    | |- context [OMSteps.execute_extraction ?a1 ?a2 ?a3 ?a4 ?a5 ?a6 ?a7 ?a8 ?a9 ?a10 ?a11
                    ?pl ?br d] =>
        destruct (OMSteps.execute_extraction a1 a2 a3 a4 a5 a6 a7 a8 a9 a10 a11 pl br d)
          as [o d1]
    end.
    cbn [fst] in Hr. subst o. reflexivity.
  - intros e H.
    destruct (truthy data) eqn:Ht; cbn [negb] in H; [| discriminate].
    apply bind_returned_fst in H as (has_command & d1 & Hc & H).
    unfold py_in in Hc. destruct (json_has "command" data) as [has |]; [| discriminate].
    injection Hc as <- <-. destruct has; [reflexivity |]. exfalso.
    apply bind_returned_fst in H as (has_url & d2 & Hu & H).
    apply bind_returned_fst in H as (has_selectors & d3 & Hs & H).
    destruct has_selectors; [| discriminate].
    apply bind_returned_fst in H as (url & d4 & Hurl & H).
    apply bind_returned_fst in H as (selectors & d5 & _ & H).
    destruct data as [| | | | | | kv]; try discriminate Hurl.
    unfold try_except in H.
    match type of H with
    | fst (match ?b with _ => _ end) = _ => destruct b as [[y | e1 |] d6] eqn:Eb
    end; cbn [fst] in H.
    + apply bind_returned in Eb as (browser & d7 & _ & Eb).
      apply bind_returned in Eb as (result & d8 & _ & Eb).
      injection Eb as <- _. discriminate.
    + (* the body of the try cannot raise *)
      rewrite bind_eq in Eb.
      cbn [py_get ret] in Eb.
      set (browser := dict_get_default "browser" (JStr "chrome") kv) in *.
      set (d7 := d5) in Eb.
      rewrite bind_eq in Eb.
      destruct (execute_extraction_ends_well log start_chrome execute_script driver_get
                    wait_ready find_elements element_text get_attribute time_sleep
                    save_screenshot read_base64 (manual_plan url selectors) browser d7)
          as [result Hr].
        unfold OMRoutes.execute_extraction in Eb.
        match type of Eb with
        | context [OMSteps.execute_extraction ?a1 ?a2 ?a3 ?a4 ?a5 ?a6 ?a7 ?a8 ?a9 ?a10 ?a11
                     ?pl ?br d7] =>
            destruct (OMSteps.execute_extraction a1 a2 a3 a4 a5 a6 a7 a8 a9 a10 a11 pl br d7)
              as [o d8]
        end.
        cbn [fst] in Hr. subst o. unfold ret in Eb. discriminate.
    + discriminate.
Qed.

Local Abbreviation generate_automation_instructions :=
  (OMRun.generate_automation_instructions generate_content json_loads log).

(** X25.  om.py: what the route [/interact] answers to a request that is
    a JSON object.  Without the key "command" it is refused.  With it, the
    reply follows the generation of the instructions alone: when that
    raises, the route answers 500 with the exception; when it returns
    instructions, the route answers 200 whatever the browser does, with
    the command, the instructions and a result whose status is "success",
    "partial_success" or "error" (a failure of the driver, of a step or
    of the screenshot is reported in the result, never as a 500). *)
Theorem interact_replies kv d :
  let r := interact (JObj kv) d in
  (dict_get "command" kv = None -> r = Return (OMRoutes.InteractRefused "Missing command"))
  /\ (forall command, dict_get "command" kv = Some command ->
        match generate_automation_instructions command d with
        | (Return instructions, _) =>
            exists result,
              r = Return (OMRoutes.InteractAnswered result command instructions)
              /\ (OM.status result = "success" \/ OM.status result = "partial_success"
                  \/ OM.status result = "error")
        | (Raise e, _) => r = Return (OMRoutes.InteractFailed e)
        | (Diverges, _) => r = Diverges
        end).
Proof.
  cbv zeta. unfold OMRoutes.interact, OMRoutes.no_command. split.
  - intros Hc. destruct kv as [| p kv']; [reflexivity |].
    cbn [truthy negb]. unfold bind, py_in. cbn [json_has ret].
    now rewrite (dict_get_none _ _ Hc).
  - intros command Hc.
    assert (Ht : truthy (JObj kv) = true) by (destruct kv; [discriminate | reflexivity]).
    rewrite Ht. cbn [negb]. unfold py_in. cbn [json_has py_getitem py_get].
    rewrite (dict_get_has _ _ _ Hc), Hc. unfold bind, modify, ret. cbn [negb].
    destruct (generate_automation_instructions command d) as [[instructions | e |] d1];
      [| reflexivity | reflexivity].
    unfold OMRoutes.execute_browser_automation. cbv beta iota.
    destruct (dict_get_default "browser" (JStr "chrome") kv) as [| | | | s | |];
      try (eexists; split; [reflexivity | right; right; reflexivity]).
    match goal with
    | |- context [OM.execute_browser_automation ?sc ?pf ?ts instructions s] =>
        destruct (execute_browser_automation_spec sc pf ts instructions s) as [result [-> Hr]]
    end.
    exists result. split; [reflexivity |].
    destruct (OM.steps_results result) as [l |]; [| now right; right].
    destruct Hr as [_ [_ [[Hs _] | [Hs _]]]]; auto.
Qed.

End OMRoutesFacts.

(** ** newww.py: [wait_for_element_change] *)

(** X26.  newww.py's [wait_for_element_change]: the clock never goes
    back; it returns [True], or [False] once the timeout has passed (the
    loop never stops for another reason); an exception is one that its
    script raised in [execute_script], which nothing catches here; and it
    never returns only when a script's response never comes. *)
Theorem wait_for_element_change_spec selector timeout w :
  let r := NWCtl.wait_for_element_change selector timeout w in
  now w <= now (snd r)
  /\ (forall v, fst r = Return v ->
        v = JBool true \/ (v = JBool false /\ now w + timeout * 1000 <= now (snd r)))
  /\ (forall e, fst r = Raise e ->
        exists w0, now w <= now w0
          /\ fst (NW.execute_script (NWCtl.element_exists_script selector) w0) = Raise e)
  /\ (fst r = Diverges -> response_queue (snd r) = []).
Proof.
  cbv zeta. unfold NWCtl.wait_for_element_change, bind at 1, get_world.
  set (exec := NW.execute_script (NWCtl.element_exists_script selector)).
  apply (while_loop_rule _ _ _
           (fun w0 => now w <= now w0)
           (fun o w' =>
              now w <= now w'
              /\ (forall v, o = Return v ->
                    v = JBool true \/ (v = JBool false /\ now w + timeout * 1000 <= now w'))
              /\ (forall e, o = Raise e ->
                    exists w0, now w <= now w0 /\ fst (exec w0) = Raise e)
              /\ (o = Diverges -> response_queue w' = []))
           (fun w0 => turns_left 500 (timeout * 1000) (now w) (now w0))).
  - intros w0 _ Hc. apply Z.ltb_lt in Hc. apply turns_left_pos; lia.
  - intros w0 Hinv Hc. apply Z.ltb_lt in Hc. unfold bind at 1.
    pose proof (advances_NW_execute_script (NWCtl.element_exists_script selector) w0) as Hadv.
    pose proof (how_NW_execute_script (NWCtl.element_exists_script selector) w0) as Hh.
    fold exec in Hadv, Hh.
    destruct (exec w0) as [[v | e |] w1] eqn:Ee; cbn [fst snd] in *.
    + destruct (truthy v); cbn.
      * split; [lia |]. split; [intros v' [= <-]; now left |].
        split; [intros; discriminate | intro; discriminate].
      * split; [lia |].
        pose proof (turns_left_turn 500 (timeout * 1000) (now w) (now w0) (now w1 + 500)
                      ltac:(lia) Hc ltac:(lia)).
        lia.
    + split; [lia |]. split; [intros; discriminate |].
      split; [| intro; discriminate].
      intros e' [= <-]. exists w0. split; [exact Hinv | now rewrite Ee].
    + split; [lia |]. split; [intros; discriminate |].
      split; [intros; discriminate | intros _; now apply Hh].
  - intros w0 Hinv Hc. apply Z.ltb_ge in Hc. cbn.
    split; [lia |]. split; [intros v [= <-]; right; split; [reflexivity | lia] |].
    split; [intros; discriminate | intro; discriminate].
  - lia.
  - pose proof (turns_left_start timeout (now w)). lia.
Qed.
